(* ===== verification/_CoqProject ===== *)
-Q . S2P
Prelude.v
Datetime.v
Bytes.v
Format.v
Decoder.v
Normalizer.v
Signal.v
Stats.v
Sampling.v
Validator.v
Encoder.v
KernelVerify.v
FetchKernel.v
Hash.v
Sha256.v
TaskGraph.v
PyHeap.v
Progress.v
Monitoring.v
PrComment.v
Workflow.v
GasCompare.v
GasExtract.v
GasPipeline.v
Bench.v
