(* ===== verification/Prelude.v ===== *)
(** * A verification development of the Python scripts of autoBotTrader

    The program is a set of Python scripts under src/scripts.  Its core
    (spec.md, sections 1-9) is a pipeline of three parts that share one
    binary format:
    - the encoder, src/scripts/ephem/generate.py: it samples a window at
      1 s and at 60 s, asks the ephemeris (Skyfield) for Sun and Moon
      distances, turns them into the proxy [MU_SUN/rs^3 + MU_MOON/rm^3],
      normalizes each batch to basis points between its 5th and 95th
      percentiles, and writes gtab_1s.bin, gtab_60s.bin and
      gtab.meta.json;
    - the decoder, [read_gtab_header] and [gtab_lookup_tide_bps] of
      src/scripts/ephem/validation/compute_metrics.py: it validates a
      table's 47-byte header and interpolates the basis points at a
      timestamp;
    - the validator, [main] of compute_metrics.py: it clips a requested
      window to the table, samples it, recomputes and normalizes the
      proxy itself, decodes the table at the same instants, and reports
      error statistics, peak drifts and a pass flag.
    Around it, CI and bookkeeping scripts that interact through files:
    the ephemeris kernel is fetched into a cache (fetch_kernel.py) and
    checked (verify_kernel.py) against kernel_hashes.json, whose
    placeholder digests check_placeholders.py rejects; the task graph
    (update_progress.py) feeds metrics.json, which stagnation_check.py
    and parse_coverage.py read and write, and pr_comment.py summarizes
    for pull requests; gas figures are extracted from
    contract test output (extract_gas.py, gas_snapshot.py) into a
    snapshot that two gates compare with a baseline (ci/compare_gas.py,
    contracts/compare_gas.py); compare_bench.py gates benchmarks.

    ** Files

    - [Prelude] (this file): exceptions as values ([result], [Ok]/[Err],
      notation [x <-? c ;; k]); Python's [int], [min], [max], [sorted],
      indexing and slicing on exact rationals and lists; [Path.name],
      [str.lower] and [in] on strings ([strip_prefix], [contains]);
      association-list dicts ([dict_set], [dict_get]) and the loop
      combinator [fold_opt] of loops whose body may raise; the hint
      databases [gtab] and [gtab_rw] and the tactics [zq], [bool_facts],
      [inv_option], [inv_result], [slice_field].
    - [Datetime]: Python's [datetime] as the scripts use it: the
      proleptic Gregorian calendar, [isoformat()], [str()] and
      [fromisoformat] of the extended fixed-width form, [astimezone]; and
      the scripts' uses: the stamps update_progress.py, parse_coverage.py
      and extract_gas.py write, generate.py's argument parse, table epoch
      and sidecar bounds, compute_metrics.py's [iso_parse].
    - [Bytes] (Module [Struct]): [struct.pack]/[struct.unpack] of the
      little-endian [<H], [<I], [<q] fields, raising outside their range.
    - [Format] (Module [GtabFormat]): [write_gtab], with the float packer
      [<f] as a section parameter.
    - [Decoder] (Module [GtabDecoder]): [read_gtab_header] and the lookup.
    - [Normalizer]: [percentiles] (generate.py), [percentile]
      (compute_metrics.py), and the two normalizations, whose division by
      a zero span would raise [ZeroDivisionError].
    - [Signal]: the proxy and the ephemeris interface, a class
      [PositionProvider] that returns one positive distance pair per
      timestamp; [example_provider] is a concrete instance for examples.
    - [Stats]: the error loop, [stats_summary], [detect_peaks], the
      nearest-peak alignment and the pass rule of compute_metrics.py.
    - [Sampling]: the [while t <= end] loop both scripts use.
    - [Validator]: [main] of compute_metrics.py as a total function from
      its inputs to an outcome (a [SystemExit], a written report, or the
      exception raised outside its [try], with its cause); the window is
      read with Datetime's [iso_parse] and every datetime it makes is
      checked against [datetime]'s range.
    - [Encoder]: [compute_series], [generate] and [main] of generate.py,
      over an output directory modelled as a [gmap] from file names to
      contents.
    - [KernelVerify]: [main] of verify_kernel.py on the parsed hashes
      document (entries with [name], [sha256], [source]).
    - [FetchKernel]: [main] of fetch_kernel.py, with the cached target
      file as state and the download and digest as parameters, and
      [main] of check_placeholders.py.
    - [Hash]: hashlib's hash object as the class [Hasher] (state,
      [update], [hexdigest] and the laws of a streaming hash);
      [sha256_file] of verify_kernel.py and fetch_kernel.py with its
      65536-byte read loop, and [make_dataset_id] of generate.py.
    - [Sha256]: the FIPS 180-4 algorithm on 32-bit words as an instance
      of [Hasher], checked on the standard test vectors, on a dataset id
      Python prints and on a verify_kernel.py run.
    - [TaskGraph]: [load_tasks] and [validate] of update_progress.py; the
      cycle check is the script's depth-first search with its visited and
      stack sets (stdpp [gset]), run on fuel.
    - [PyHeap]: Python dicts with identity, a heap [gmap positive dict]
      with fresh-location allocation, so that [dict.copy()] shares the
      nested dicts; [json.loads] into that heap.
    - [Progress]: [recompute_metrics], [summarize], [append_status_log]
      and [main] of update_progress.py over the heap.
    - [Monitoring]: [main] of stagnation_check.py (times in
      microseconds, its [fromisoformat] a section parameter instantiated
      with [Datetime]'s) and of parse_coverage.py.
    - [PrComment]: [main] of pr_comment.py on the raw YAML mappings, with
      its own defaults, its iteration of a null [depends_on] that raises,
      and its sort that raises on mixed ids.
    - [GasCompare]: [main] of ci/compare_gas.py and of
      contracts/compare_gas.py.
    - [Workflow]: the development process the task graph tracks, as a
      step relation: a step completes one task of the ready queue.
    - [GasExtract]: extract_gas.py and gas_snapshot.py, their regular
      expressions as deterministic matchers on the line's characters, and
      gas_snapshot's run of the contract tests with the outcome of the
      command as a parameter.
    - [GasPipeline]: the snapshot gas_snapshot.py writes, as the gates
      load it, and the composition of the snapshot with both gates.
    - [Bench]: [parse_bench] (its [LINE_RE] as a matcher), [compare]
      and [main] of compare_bench.py.

    ** What is proved

    - Format and decoder: the header reader accepts exactly the
      well-formed headers (C1); the header [write_gtab] writes reads back
      (C17); the file has the spec's byte layout, every header field at
      its offset and every record field at [47 + i * width] in mask order
      (C18); every element of the file is a byte ([write_gtab_bytes]);
      between two written samples the lookup
      interpolates them (C28, scenario A).  Also proved: the lookup
      rejects timestamps outside the table ([lookup_out_of_range]) and
      stays between the neighbours ([interp_bounds]); [<q] fields round
      trip ([pack_q_roundtrip]); the file has the header and [count]
      fixed-width records ([write_gtab_length]).
    - End to end: [generate] writes both tables with the right headers,
      whose epoch is the start's wall-clock time read as UTC (C8), and with a [tide_bps]-only mask the lookup returns the written
      basis points at every sample (C3).  With the default mask that
      [main()] always uses, records are 6 bytes wide while the lookup
      reads them 2 bytes apart, so it returns bytes of the first sample's
      float at the second sample (C4).
    - Encoder state: [generate] leaves other files alone (C35); a window
      with [end < start] yields tables the decoder rejects (C24); when
      writing the 1 s table raises, both tables are gone and the previous
      sidecar is left in place (C36).
    - Normalizer: the validator's normalization equals the encoder's
      (C14); it is monotone ([normalize_gen_monotone]) and maps a flat
      batch to zeros, the [1e-12] floor keeping its division from raising
      (C37).
    - Validator: a table whose header is accepted but whose span leaves
      [datetime]'s range makes [main] raise past its [try] (C9, against
      spec 4.5); a bad header gives the [bad_header] report (C25);
      scenario B (C13); scenario C on a table within the range (C26);
      sampled timestamps are in range (C32).  Also proved:
      statistics bounds ([stats_summary_bounds]), peak detection
      ([detect_peaks_spec]) and the [2 * cadence] peak threshold
      ([align_peaks_match_iff], scenario D).
    - Sampling: the loop terminates after [floor((end - start)/cadence) + 1]
      iterations and produces [start + k * cadence] (C16).
    - Task graph: [validate] always returns ([validate_total]) and reports no error
      exactly when ids are distinct, statuses valid, dependencies listed
      and the dependency relation acyclic (C2, a refinement of that
      specification by the search); [load_tasks] raises exactly on a
      mapping without [id] ([load_tasks_error]).  Liveness (C12): on a
      graph [validate] accepts, completing ready tasks one at a time
      always terminates, and the ready queue is empty only when every
      task is complete.
    - Progress: [main]'s shallow copy makes [metrics_changed] always
      false (C5); [recompute_metrics] stores the status counts
      ([recompute_metrics_counts]);
      the ready queue is the ready tasks in strictly increasing
      [(priority, phase, id)] ([summarize_ready_sorted]), and pr_comment.py lists the same
      queue when every task carries the keys both scripts default
      differently (C31), but raises on a PENDING task whose [depends_on]
      is null, which update_progress.py reads as empty (C19); stagnation_check exits 1 exactly after three
      days, for any reading of the stamp (C34), and, reading with
      [fromisoformat] the stamp update_progress.py writes, exactly when
      three days have passed since it was written (C40).
    - Kernel: verify_kernel's verdict (C38) and its [--update] round
      trip, which with SHA-256 holds for every kernel since a digest is
      never the placeholder text (C27); it crashes on an entry without
      digest ([verify_missing_digest_crashes]); fetch_kernel agrees with
      it on a cached kernel (C10), and a download, even one that fails
      its check, stays in the cache for every later run (C7); a file
      holding the digest placeholder fails check_placeholders, reported
      under two tokens (C23).
    - Hashing: [sha256_file]'s chunked loop terminates and digests the
      whole file (C11, for every [Hasher]); the dataset id is the digest
      of the kernel's file name, the bounds as [str] prints them, the mask
      and a tag, concatenated ([make_dataset_id_key]), so it depends on
      the kernel's name only.  With
      the FIPS instance a digest is 64 lower-case hexadecimal digits
      ([sha256_hex_shape]), and the instance reproduces the standard's
      test vectors and a dataset id Python prints.
    - Gas: the two gates agree on well-formed documents (C6) and part on
      a function missing from the snapshot (C20); [TEST_NAME_RE] reads
      back the line cairo-test prints (C15); [--fail-on-missing] fails
      exactly when a function has no figure ([extract_fail_on_missing]); gas_snapshot.py
      matches none of those lines (C21), and a failed test run gives
      zero figures and exit 1 unless placeholders are allowed (C22).
      Composed with the gates ([GasPipeline]), those zero figures pass
      both gates on every well-formed baseline (C29).
    - Benchmarks: [parse_bench] reads back the lines [go test -bench]
      prints, with any indentation, gaps of any width and any trailing
      metrics (C39); [main] exits 1 exactly when a baseline entry is a
      hard failure (C33); the violation flag ([compare_spec]); a zero
      baseline always fails ([compare_zero_baseline]).
    - Datetimes: generate.py's argument parse and compute_metrics.py's
      [iso_parse] read back what [isoformat()] prints, for every year 1
      to 9999 and every offset of whole minutes under a day
      ([fromisoformat_isoformat]); the
      table epoch generate.py writes ([replace(tzinfo=utc)]) is the
      sidecar's start ([astimezone(utc)]) exactly when the start's offset
      is zero (C30).  Also proved: the calendar's inverse law
      ([days_from_civil_from_days]).

    ** Bounds and fuel

    The sampling loop is a [Fixpoint] on an iteration budget;
    [Sampling.sample_times] runs it with [grid_fuel start end cadence =
    floor((end - start)/cadence) + 1] iterations, which C16 shows is
    exactly the number the [while] loop performs (any larger budget gives
    the same list).  The depth-first search of [validate] runs on
    [dfs_fuel g = 1 + |nodes of g|]: each nested call adds a node to the
    visited set, so the fuel is never exhausted (C19).  [sha256_file]'s
    read loop runs on [length / 65536 + 2] reads: one per full or
    partial chunk and the final empty read (C11).  Liveness (C12) needs
    no fuel: termination is [Acc] of the step relation, whose measure is
    the number of unfinished tasks.  The calendar's inverse law is a
    boolean check over the 146097 days of one 400-year Gregorian cycle
    ([check_cycle], by [vm_compute]); every other day reduces to it by
    the cycle's arithmetic, so the law holds for every integer day.  Integers written
    to the file keep their width: packing raises outside [[0, 2^16)],
    [[0, 2^32)], [[-2^63, 2^63)].

    ** Not modelled

    - Floating point: Python floats are exact rationals; rounding of
      products, of [1e9] scalings and of [timedelta]'s microseconds is
      not modelled, nor is the binary32 rounding of [<f] (a parameter).
    - The ephemeris (Skyfield, JPL kernels) and the Euclidean norm: the
      provider returns distances directly.
    - Parsing and printing: of ISO dates, only the extended fixed-width
      form [isoformat] prints is read (other forms Python 3.11 accepts
      give [None]); [astimezone] on a naive datetime takes the machine's
      offset as a parameter; YAML and JSON documents (modelled after parsing; JSON
      values load into the heap), the text of reports and messages,
      [argparse], [print].
    - [urlopen] and [subprocess.run]: a download and the outcome of a
      command are parameters; the scripts' mains take a digest function,
      which [Hash] supplies; the encoder takes [make_dataset_id] as a
      parameter (Hash.v imports the encoder's [Config]); the sidecar
      omits [created_at].  The encoder's window bounds are aware
      datetimes; a naive [--start] (which the comparisons with an aware
      [--end] or Skyfield reject) is not modelled.
    - The validator's lookup calls [datetime.fromtimestamp(epoch)] inside
      the script's [try]; [main] reaches it only after the same call
      succeeded on the header's epoch, so its range error is not modelled
      in [gtab_lookup_tide_bps].
    - Python before 3.12: gas_snapshot.py reuses a quote inside an
      f-string, which older interpreters reject; the model follows 3.12.
    - Python's recursion limit (the model's search has no depth limit),
      the iteration order of sets (the model takes one order; the
      theorems on [validate] hold for every order), non-ASCII text.
    - The Markdown text of pr_comment.py (its values are modelled) and
      the tests under src/scripts/tests. *)

From Stdlib Require Import QArith Qround Qabs Lqa ZArith Lia List.
From Stdlib Require Import Permutation Sorted Mergesort Orders Relations.
From Stdlib Require Ascii String.
From stdpp Require Import base list decidable.
Import ListNotations.

Declare Scope gtab_scope.
Delimit Scope gtab_scope with gtab.

(** ** Results: Python exceptions as values *)

(** A computation of the scripts either returns a value or raises; the
    raised exception is an [Err] carrying a description of it. *)
Inductive result (A E : Type) : Type :=
| Ok (a : A)
| Err (e : E).
Arguments Ok {A E} a.
Arguments Err {A E} e.

Definition result_bind {A B E} (r : result A E) (k : A -> result B E) : result B E :=
  match r with
  | Ok a => k a
  | Err e => Err e
  end.

Definition of_option {A E} (e : E) (o : option A) : result A E :=
  match o with
  | Some a => Ok a
  | None => Err e
  end.

Notation "x <-? c1 ;; c2" := (result_bind c1 (fun x => c2))
  (at level 100, c1 at next level, right associativity) : gtab_scope.

Open Scope gtab_scope.

(** ** Python strings *)

(** [Path(s).name]: the last non-empty component of a [/]-separated path
    ([pathlib] ignores empty components and a trailing separator; [.]
    components are not treated specially here). *)
Fixpoint path_name_acc (s last cur : String.string) : String.string :=
  match s with
  | String.EmptyString => if String.eqb cur String.EmptyString then last else cur
  | String.String c rest =>
      if (Ascii.nat_of_ascii c =? 47)%nat (* "/" *)
      then path_name_acc rest (if String.eqb cur String.EmptyString then last else cur) String.EmptyString
      else path_name_acc rest last (String.append cur (String.String c String.EmptyString))
  end.

Definition path_name (s : String.string) : String.string :=
  path_name_acc s String.EmptyString String.EmptyString.

(** [str.lower()] on ASCII text (the hexadecimal digests it is applied
    to). *)
Definition ascii_lower (c : Ascii.ascii) : Ascii.ascii :=
  let n := Ascii.nat_of_ascii c in
  if (65 <=? n)%nat && (n <=? 90)%nat then Ascii.ascii_of_nat (n + 32) else c.

Fixpoint str_lower (s : String.string) : String.string :=
  match s with
  | String.EmptyString => String.EmptyString
  | String.String c rest => String.String (ascii_lower c) (str_lower rest)
  end.

(** [l] starts with [p]: the rest after it. *)
Fixpoint strip_prefix (p l : list Ascii.ascii) : option (list Ascii.ascii) :=
  match p, l with
  | [], _ => Some l
  | c :: p', d :: l' => if Ascii.eqb c d then strip_prefix p' l' else None
  | _ :: _, [] => None
  end.

(** [needle in s] *)
Fixpoint contains (needle l : list Ascii.ascii) : bool :=
  match strip_prefix needle l with
  | Some _ => true
  | None => match l with [] => false | _ :: l' => contains needle l' end
  end.

(** ** Python numbers on rationals

    Python floats are modelled as exact rationals [Q]; the built-ins the
    scripts apply to them are written out with Python's semantics. *)

Local Open Scope Q_scope.

(** [int(x)] truncates towards zero. *)
Definition py_int (q : Q) : Z :=
  if Qle_bool 0 q then Qfloor q else (- Qfloor (- q))%Z.

(** [min(a, b)] keeps [a] unless [b < a]; [max(a, b)] keeps [a] unless
    [a < b]. *)
Definition py_min (a b : Q) : Q := if Qle_bool a b then a else b.
Definition py_max (a b : Q) : Q := if Qle_bool b a then a else b.

(** [a < b] on floats. *)
Definition Qlt_bool (a b : Q) : bool := negb (Qle_bool b a).

(** Python's [sorted] on floats: a stable merge sort by [<=]. *)
Module QLe <: TotalLeBool.
Definition t := Q.
Definition leb := Qle_bool.
Theorem leb_total : forall a b, leb a b = true \/ leb b a = true.
Proof.
  intros a b. unfold leb. rewrite !Qle_bool_iff.
  destruct (Qlt_le_dec a b); [left; lra | right; lra].
Qed.
End QLe.
Module QSort := Sort QLe.
Definition py_sorted (l : list Q) : list Q := QSort.sort l.

(** Python's [xs[i]]: negative indices count from the end, anything
    else out of range raises [IndexError] ([None]). *)
Definition py_index {A} (l : list A) (i : Z) : option A :=
  if (0 <=? i)%Z then l !! Z.to_nat i
  else if (- Z.of_nat (length l) <=? i)%Z
       then l !! Z.to_nat (Z.of_nat (length l) + i)
       else None.

(** Python's slice [xs[a:b]] for [0 <= a <= b] (it never raises). *)
Definition py_slice {A} (a b : nat) (l : list A) : list A := take (b - a) (drop a l).

(** ** Loops *)

(** A [for] loop whose body may raise: the body maps the loop state and
    the element to the next state, [None] stopping the loop. *)
Fixpoint fold_opt {S A : Type} (f : S -> A -> option S) (s : S) (l : list A) : option S :=
  match l with
  | [] => Some s
  | a :: l => s' ← f s a; fold_opt f s' l
  end.

(** ** Python dicts

    A [dict] is an association list in insertion order: assignment to a
    key already present replaces its value in place, a new key is
    appended, and [d.get(k)] returns the value of the key or [None]. *)
Section PyDict.
Context {K V : Type} `{EqDecision K}.

(** [d[k] = v] *)
Fixpoint dict_set (k : K) (v : V) (d : list (K * V)) : list (K * V) :=
  match d with
  | [] => [(k, v)]
  | (k', v') :: rest => if decide (k = k') then (k, v) :: rest else (k', v') :: dict_set k v rest
  end.

(** [d.get(k)] *)
Fixpoint dict_get (k : K) (d : list (K * V)) : option V :=
  match d with
  | [] => None
  | (k', v) :: rest => if decide (k = k') then Some v else dict_get k rest
  end.

(** [k in d] *)
Definition dict_mem (k : K) (d : list (K * V)) : bool :=
  match dict_get k d with Some _ => true | None => false end.

End PyDict.

Lemma Qlt_bool_iff (a b : Q) : Qlt_bool a b = true <-> a < b.
Proof.
  unfold Qlt_bool. rewrite negb_true_iff. split.
  - intros H. destruct (Qlt_le_dec a b) as [L | L]; [exact L |].
    apply Qle_bool_iff in L. congruence.
  - intros H. destruct (Qle_bool b a) eqn:E; [| reflexivity].
    apply Qle_bool_iff in E. lra.
Qed.

Lemma Qle_bool_false (a b : Q) : Qle_bool a b = false <-> b < a.
Proof.
  split.
  - intros H. destruct (Qlt_le_dec b a) as [L | L]; [exact L |].
    apply Qle_bool_iff in L. congruence.
  - intros H. destruct (Qle_bool a b) eqn:E; [| reflexivity]. apply Qle_bool_iff in E. lra.
Qed.

Lemma Qlt_bool_false (a b : Q) : Qlt_bool a b = false <-> b <= a.
Proof.
  unfold Qlt_bool. rewrite negb_false_iff. apply Qle_bool_iff.
Qed.

(** Python's [int], [<] and [==] on floats respect the value, not the
    representation, of a rational. *)
#[export] Instance Qle_bool_proper : Proper (Qeq ==> Qeq ==> eq) Qle_bool.
Proof.
  intros a a' Ha b b' Hb. destruct (Qle_bool a b) eqn:E, (Qle_bool a' b') eqn:E'; auto.
  - apply Qle_bool_iff in E. rewrite Ha, Hb in E. apply Qle_bool_iff in E. congruence.
  - apply Qle_bool_iff in E'. rewrite <- Ha, <- Hb in E'. apply Qle_bool_iff in E'. congruence.
Qed.

#[export] Instance Qlt_bool_proper : Proper (Qeq ==> Qeq ==> eq) Qlt_bool.
Proof. intros a a' Ha b b' Hb. unfold Qlt_bool. now rewrite Ha, Hb. Qed.

#[export] Instance Qeq_bool_proper : Proper (Qeq ==> Qeq ==> eq) Qeq_bool.
Proof.
  intros a a' Ha b b' Hb. destruct (Qeq_bool a b) eqn:E, (Qeq_bool a' b') eqn:E'; auto.
  - apply Qeq_bool_iff in E. apply Qeq_bool_neq in E'. exfalso. apply E'. lra.
  - apply Qeq_bool_iff in E'. apply Qeq_bool_neq in E. exfalso. apply E. lra.
Qed.

#[export] Instance py_int_proper : Proper (Qeq ==> eq) py_int.
Proof.
  intros a b H. unfold py_int. rewrite (Qle_bool_proper 0 0 (Qeq_refl 0) a b H).
  destruct (Qle_bool 0 b).
  - apply Qfloor_comp, H.
  - f_equal. apply Qfloor_comp. rewrite H. reflexivity.
Qed.

Create HintDb gtab.

(** Turn the boolean tests of the code, once decided, into propositions. *)
Ltac bool_facts :=
  repeat match goal with
  | E : _ || _ = false |- _ => apply orb_false_iff in E as [? ?]
  | E : _ && _ = true |- _ => apply andb_true_iff in E as [? ?]
  | E : negb _ = false |- _ => apply negb_false_iff in E
  | E : negb _ = true |- _ => apply negb_true_iff in E
  | E : bool_decide _ = true |- _ => apply bool_decide_eq_true in E
  | E : bool_decide _ = false |- _ => apply bool_decide_eq_false in E
  | E : Z.eqb _ _ = true |- _ => apply Z.eqb_eq in E
  | E : Z.eqb _ _ = false |- _ => apply Z.eqb_neq in E
  | E : Z.leb _ _ = true |- _ => apply Z.leb_le in E
  | E : Z.leb _ _ = false |- _ => apply Z.leb_gt in E
  | E : Z.ltb _ _ = true |- _ => apply Z.ltb_lt in E
  | E : Z.ltb _ _ = false |- _ => apply Z.ltb_ge in E
  | E : Nat.ltb _ _ = true |- _ => apply Nat.ltb_lt in E
  | E : Nat.ltb _ _ = false |- _ => apply Nat.ltb_ge in E
  | E : Nat.eqb _ _ = true |- _ => apply Nat.eqb_eq in E
  | E : Nat.eqb _ _ = false |- _ => apply Nat.eqb_neq in E
  | E : Qle_bool _ _ = true |- _ => apply Qle_bool_iff in E
  | E : Qle_bool _ _ = false |- _ => apply Qle_bool_false in E
  | E : Qeq_bool _ _ = true |- _ => apply Qeq_bool_iff in E
  | E : Qeq_bool _ _ = false |- _ => apply Qeq_bool_neq in E
  | E : Qlt_bool _ _ = true |- _ => apply Qlt_bool_iff in E
  | E : Qlt_bool _ _ = false |- _ => apply Qlt_bool_false in E
  end.

Lemma bind_Some {A B} (x : A) (f : A -> option B) : (Some x ≫= f) = f x.
Proof. reflexivity. Qed.

(** The same along a chain of [≫=] on options in [H : chain = Some _]. *)
Ltac inv_option H :=
  repeat (lazymatch type of H with
    | mbind _ ?c = Some _ =>
        let E := fresh "E" in destruct c eqn:E; simpl in H; [| discriminate H]
    | Some _ = Some _ => injection H as H
    end).

(** Case analysis along a chain of [<-?] binds and [if]s in a hypothesis
    [H : chain = r]: every [Err] branch that contradicts [r] is closed. *)
Ltac inv_result H :=
  repeat (simpl in H;
    lazymatch type of H with
    | result_bind (of_option _ ?o) _ = _ =>
        let E := fresh "E" in destruct o eqn:E; simpl in H
    | result_bind ?c _ = _ =>
        let E := fresh "E" in destruct c eqn:E; simpl in H
    | (if ?b then _ else _) = _ =>
        let E := fresh "E" in destruct b eqn:E
    | Err _ = Ok _ => discriminate H
    | Ok _ = Err _ => discriminate H
    | Ok _ = Ok _ => injection H as H
    | Err _ = Err _ => injection H as H
    end).
Create Rewrite HintDb gtab_rw.

(** ** Generic lemmas *)

Ltac zq := rewrite <- ?Zle_Qle, <- ?Zlt_Qlt in *.

Lemma inject_Z_nonzero (z : Z) : z <> 0%Z -> ~ inject_Z z == 0.
Proof. intros H E. unfold Qeq in E. simpl in E. lia. Qed.

Lemma inject_Z_pos (z : Z) : (0 < z)%Z -> 0 < inject_Z z.
Proof. intros H. unfold Qlt. simpl. lia. Qed.

Lemma inject_Z_nonneg (z : Z) : (0 <= z)%Z -> 0 <= inject_Z z.
Proof. intros H. unfold Qle. simpl. lia. Qed.

Lemma Qfloor_unique (z : Z) (x : Q) :
  inject_Z z <= x -> x < inject_Z (z + 1) -> Qfloor x = z.
Proof.
  intros H1 H2. pose proof (Qfloor_le x) as F1. pose proof (Qlt_floor x) as F2.
  assert (A : inject_Z z < inject_Z (Qfloor x + 1)) by lra.
  assert (B : inject_Z (Qfloor x) < inject_Z (z + 1)) by lra.
  zq. lia.
Qed.

Lemma Qfloor_bounds (x : Q) :
  inject_Z (Qfloor x) <= x /\ x < inject_Z (Qfloor x) + 1.
Proof.
  split; [apply Qfloor_le |]. pose proof (Qlt_floor x) as H.
  rewrite inject_Z_plus in H. exact H.
Qed.

Lemma Qfloor_le_Z (x : Q) (z : Z) : x <= inject_Z z -> (Qfloor x <= z)%Z.
Proof.
  intros H. pose proof (Qfloor_resp_le _ _ H) as F. rewrite Qfloor_Z in F. exact F.
Qed.

Lemma Qfloor_ge_Z (x : Q) (z : Z) : inject_Z z <= x -> (z <= Qfloor x)%Z.
Proof.
  intros H. pose proof (Qfloor_resp_le _ _ H) as F. rewrite Qfloor_Z in F. exact F.
Qed.

Lemma Qfloor_nonneg (x : Q) : 0 <= x -> (0 <= Qfloor x)%Z.
Proof. intros H. apply (Qfloor_ge_Z x 0). exact H. Qed.

Lemma Qfloor_minus_one (x : Q) : Qfloor (x - 1) = (Qfloor x - 1)%Z.
Proof.
  apply Qfloor_unique; destruct (Qfloor_bounds x) as [F1 F2];
    unfold Z.sub; rewrite ?inject_Z_plus, inject_Z_opp; change (inject_Z 1) with 1; lra.
Qed.

Lemma Qfloor_nonneg_iff (x : Q) : (0 <= Qfloor x)%Z <-> 0 <= x.
Proof.
  split; [| apply Qfloor_nonneg]. intros H. destruct (Qfloor_bounds x) as [F _].
  pose proof (inject_Z_nonneg _ H). lra.
Qed.

Lemma Qdiv_nonneg_iff (a c : Q) : 0 < c -> 0 <= a / c <-> 0 <= a.
Proof.
  intros Hc. unfold Qdiv. assert (Hi : 0 < / c) by (apply Qinv_lt_0_compat, Hc).
  assert (E : c * / c == 1) by (apply Qmult_inv_r; lra). split; intros H; [| nra].
  assert (0 <= a * / c * c) by nra.
  assert (a * / c * c == a) by (rewrite <- Qmult_assoc, (Qmult_comm (/ c)), E; ring). lra.
Qed.

Lemma py_int_nonneg (q : Q) : 0 <= q -> py_int q = Qfloor q.
Proof.
  intros H. unfold py_int. apply Qle_bool_iff in H. rewrite H. reflexivity.
Qed.

Lemma py_min_spec (a b : Q) : (a <= b /\ py_min a b = a) \/ (b < a /\ py_min a b = b).
Proof.
  unfold py_min. destruct (Qle_bool a b) eqn:E.
  - left. apply Qle_bool_iff in E. auto.
  - right. split; [| reflexivity].
    destruct (Qlt_le_dec b a) as [H | H]; [exact H |].
    apply Qle_bool_iff in H. congruence.
Qed.

Lemma py_max_spec (a b : Q) : (b <= a /\ py_max a b = a) \/ (a < b /\ py_max a b = b).
Proof.
  unfold py_max. destruct (Qle_bool b a) eqn:E.
  - left. apply Qle_bool_iff in E. auto.
  - right. split; [| reflexivity].
    destruct (Qlt_le_dec a b) as [H | H]; [exact H |].
    apply Qle_bool_iff in H. congruence.
Qed.

(** [max(lo, min(hi, x))] is [lo] below [lo], [hi] above [hi] and [x]
    in between (when [lo <= hi]). *)
Lemma py_clamp_cases (lo hi x : Q) : lo <= hi ->
  (x < lo /\ py_max lo (py_min hi x) == lo) \/
  (lo <= x <= hi /\ py_max lo (py_min hi x) == x) \/
  (hi < x /\ py_max lo (py_min hi x) == hi).
Proof.
  intros H. destruct (py_min_spec hi x) as [[H1 ->] | [H1 ->]].
  - destruct (py_max_spec lo hi) as [[H2 ->] | [H2 ->]]; [| lra].
    destruct (Qlt_le_dec hi x); [right; right | right; left]; split; lra.
  - destruct (py_max_spec lo x) as [[H2 ->] | [H2 ->]].
    + destruct (Qlt_le_dec x lo); [left | right; left]; split; lra.
    + right; left; split; lra.
Qed.

Lemma py_clamp_bounds (lo hi x : Q) :
  lo <= hi -> lo <= py_max lo (py_min hi x) <= hi.
Proof.
  intros H. destruct (py_clamp_cases lo hi x H) as [[? E] | [[? E] | [? E]]]; rewrite E; lra.
Qed.

Lemma py_clamp_mono (lo hi x y : Q) :
  lo <= hi -> x <= y -> py_max lo (py_min hi x) <= py_max lo (py_min hi y).
Proof.
  intros H Hxy.
  destruct (py_clamp_cases lo hi x H) as [[? Ex] | [[? Ex] | [? Ex]]];
  destruct (py_clamp_cases lo hi y H) as [[? Ey] | [[? Ey] | [? Ey]]];
  rewrite Ex, Ey; lra.
Qed.

Lemma py_sorted_perm (l : list Q) : Permutation l (py_sorted l).
Proof. apply QSort.Permuted_sort. Qed.

Lemma py_sorted_length (l : list Q) : length (py_sorted l) = length l.
Proof. symmetry. apply Permutation_length, py_sorted_perm. Qed.

Lemma py_sorted_nonempty (l : list Q) : l <> [] -> py_sorted l <> [].
Proof.
  intros Hne E. pose proof (py_sorted_length l) as L. rewrite E in L.
  destruct l; [congruence | discriminate].
Qed.

Lemma py_sorted_sorted (l : list Q) : Sorted Qle (py_sorted l).
Proof.
  pose proof (QSort.Sorted_sort l) as H. unfold py_sorted.
  induction H as [| a l' Hs IH Hhd]; constructor; [exact IH |].
  destruct Hhd as [| b l'' Hb]; constructor. apply Qle_bool_iff. exact Hb.
Qed.

Lemma py_index_nat {A} (l : list A) (i : nat) : py_index l (Z.of_nat i) = l !! i.
Proof.
  unfold py_index. rewrite (proj2 (Z.leb_le 0 (Z.of_nat i))) by lia.
  rewrite Nat2Z.id. reflexivity.
Qed.

Lemma py_slice_app_mid {A} (p x s : list A) a b :
  a = length p -> b = (a + length x)%nat -> py_slice a b (p ++ x ++ s) = x.
Proof.
  intros -> ->. unfold py_slice. rewrite drop_app_length.
  replace (length p + length x - length p)%nat with (length x) by lia.
  apply take_app_length.
Qed.

Lemma py_slice_app_r {A} (p s : list A) a b :
  (length p <= a)%nat -> py_slice a b (p ++ s) = py_slice (a - length p) (b - length p) s.
Proof.
  intros H. unfold py_slice. rewrite drop_app_ge by exact H. f_equal. lia.
Qed.

Lemma py_slice_app_l {A} (x s : list A) a b :
  a = 0%nat -> b = length x -> py_slice a b (x ++ s) = x.
Proof. intros -> ->. apply (py_slice_app_mid []); reflexivity. Qed.

(** Extract a field [py_slice a b (p1 ++ ... ++ x ++ s)] of a buffer
    built by concatenation, given the lengths of the pieces. *)
Ltac slice_field :=
  repeat (rewrite py_slice_app_r by lia); rewrite py_slice_app_l by lia.

Lemma py_slice_take {A} (l : list A) a b n :
  (a <= b <= n)%nat -> py_slice a b (take n l) = py_slice a b l.
Proof.
  intros H. unfold py_slice. rewrite !take_drop_commute, take_take.
  f_equal. f_equal. lia.
Qed.

Lemma py_index_some {A} (l : list A) (i : Z) :
  (0 <= i < Z.of_nat (length l))%Z -> exists x, py_index l i = Some x /\ In x l.
Proof.
  intros H. unfold py_index. rewrite (proj2 (Z.leb_le 0 i)) by lia.
  destruct (lookup_lt_is_Some_2 l (Z.to_nat i)) as [x Hx]; [lia |].
  exists x. split; [exact Hx |]. apply list_elem_of_In. eapply list_elem_of_lookup_2. exact Hx.
Qed.

Lemma py_index_nonneg_in {A} (l : list A) (i : Z) x :
  (0 <= i)%Z -> py_index l i = Some x -> In x l.
Proof.
  intros H E. unfold py_index in E. rewrite (proj2 (Z.leb_le 0 i)) in E by lia.
  apply list_elem_of_In. eapply list_elem_of_lookup_2. exact E.
Qed.

Lemma py_index_last {A} (l : list A) :
  l <> [] -> exists x, py_index l (-1) = Some x /\ l !! (length l - 1)%nat = Some x.
Proof.
  intros H. unfold py_index. simpl.
  assert (L : (1 <= length l)%nat) by (destruct l; [congruence | simpl; lia]).
  rewrite (proj2 (Z.leb_le _ _)) by lia.
  replace (Z.to_nat (Z.of_nat (length l) + -1)) with (length l - 1)%nat by lia.
  destruct (lookup_lt_is_Some_2 l (length l - 1)) as [x Hx]; [lia |]. eauto.
Qed.

(** Sums of a bounded batch: [fold_left Qplus s 0], as Python's [sum]. *)
Lemma fold_left_Qplus_acc (l : list Q) (a : Q) :
  fold_left Qplus l a == a + fold_left Qplus l 0.
Proof.
  revert a; induction l as [| x l IH]; intros a; simpl; [ring |].
  rewrite (IH (a + x)), (IH (0 + x)). ring.
Qed.

Lemma fold_left_Qplus_bounds (l : list Q) (lo hi : Q) :
  Forall (fun x => lo <= x <= hi) l ->
  inject_Z (Z.of_nat (length l)) * lo <= fold_left Qplus l 0 <= inject_Z (Z.of_nat (length l)) * hi.
Proof.
  induction 1 as [| x l Hx Hl IH]; simpl; [split; unfold Qle; simpl; lia |].
  rewrite fold_left_Qplus_acc. rewrite Nat2Z.inj_succ, <- Z.add_1_r, inject_Z_plus.
  change (inject_Z 1) with 1. lra.
Qed.

Lemma Qabs_zero (x : Q) : Qabs x == 0 -> x == 0.
Proof. apply Qabs_case; intros H1 H2; lra. Qed.

Lemma list_bounded (l : list Q) : exists lo hi, Forall (fun x => lo <= x <= hi) l.
Proof.
  induction l as [| x l (lo & hi & IH)]; [exists 0, 0; constructor |].
  exists (py_min x lo), (py_max x hi).
  destruct (py_min_spec x lo) as [[? ->] | [? ->]];
  destruct (py_max_spec x hi) as [[? ->] | [? ->]];
  constructor; try lra; eapply Forall_impl; try apply IH; simpl; intros; lra.
Qed.

#[export] Instance py_min_proper : Proper (Qeq ==> Qeq ==> Qeq) py_min.
Proof.
  intros a a' Ha b b' Hb. unfold py_min. rewrite (Qle_bool_proper _ _ Ha _ _ Hb).
  destruct (Qle_bool a' b'); assumption.
Qed.

#[export] Instance py_max_proper : Proper (Qeq ==> Qeq ==> Qeq) py_max.
Proof.
  intros a a' Ha b b' Hb. unfold py_max. rewrite (Qle_bool_proper _ _ Hb _ _ Ha).
  destruct (Qle_bool b' a'); assumption.
Qed.

#[export] Hint Resolve Qfloor_nonneg py_sorted_perm py_sorted_sorted : gtab.
#[export] Hint Rewrite py_sorted_length @py_index_nat : gtab_rw.

(** ** Lemmas on Python dicts *)

Section PyDictLemmas.
Context {K V : Type} `{EqDecision K}.
Implicit Types (d : list (K * V)) (k : K) (v : V).

Lemma dict_get_set_same d k v : dict_get k (dict_set k v d) = Some v.
Proof.
  induction d as [| [k' v'] d IH]; simpl; rewrite ?decide_True by reflexivity; [reflexivity |].
  destruct (decide (k = k')); simpl; [by rewrite decide_True | by rewrite decide_False].
Qed.

Lemma dict_get_set_other d k k2 v : k2 <> k -> dict_get k2 (dict_set k v d) = dict_get k2 d.
Proof.
  intros Hne. induction d as [| [k' v'] d IH]; simpl.
  - by rewrite decide_False.
  - destruct (decide (k = k')) as [<- |]; simpl.
    + by rewrite !decide_False.
    + by destruct (decide (k2 = k')); [| rewrite IH].
Qed.

(** Assignment keeps the keys in their order and appends a new one. *)
Lemma dict_set_keys d k v :
  map fst (dict_set k v d) = if dict_mem k d then map fst d else map fst d ++ [k].
Proof.
  unfold dict_mem. induction d as [| [k' v'] d IH]; simpl; [reflexivity |].
  destruct (decide (k = k')) as [-> |]; simpl; [reflexivity |].
  rewrite IH. by destruct (dict_get k d).
Qed.

Lemma dict_get_in d k v : dict_get k d = Some v -> In (k, v) d.
Proof.
  induction d as [| [k' v'] d IH]; simpl; [discriminate |].
  destruct (decide (k = k')) as [-> |]; intros E; [injection E as ->; left; reflexivity | right; auto].
Qed.

Lemma dict_get_None d k : dict_get k d = None <-> k ∉ map fst d.
Proof.
  induction d as [| [k' v'] d IH]; simpl; [split; [intros _ Hin; inversion Hin | reflexivity] |].
  rewrite not_elem_of_cons, <- IH.
  destruct (decide (k = k')); [split; [discriminate | tauto] | tauto].
Qed.


Lemma dict_get_app d1 d2 k :
  dict_get k (d1 ++ d2) = match dict_get k d1 with Some v => Some v | None => dict_get k d2 end.
Proof.
  induction d1 as [| [k' v'] d1 IH]; simpl; [reflexivity |]. by destruct (decide (k = k')).
Qed.

(** Assigning the pairs of a list in order: a key reads its last value. *)
Lemma dict_get_fold_set (pairs d : list (K * V)) k :
  dict_get k (fold_left (fun d kv => dict_set kv.1 kv.2 d) pairs d) =
  match dict_get k (rev pairs) with Some v => Some v | None => dict_get k d end.
Proof.
  revert d. induction pairs as [| [k' v'] pairs IH]; intros d; simpl; [reflexivity |].
  rewrite IH, dict_get_app. destruct (dict_get k (rev pairs)); [reflexivity |]. simpl.
  destruct (decide (k = k')) as [-> |]; [apply dict_get_set_same | by apply dict_get_set_other].
Qed.

(** Assignment to an absent key appends it. *)
Lemma dict_set_new d k v : dict_get k d = None -> dict_set k v d = d ++ [(k, v)].
Proof.
  induction d as [| [k' v'] d IH]; simpl; [reflexivity |].
  destruct (decide (k = k')); [discriminate | intros H; by rewrite IH].
Qed.

Lemma dict_get_In_NoDup d k v : NoDup (map fst d) -> In (k, v) d -> dict_get k d = Some v.
Proof.
  induction d as [| [k' v'] d IH]; simpl; [intros _ [] |].
  intros Hnd [E | Hin]; [injection E as -> ->; by rewrite decide_True |].
  inversion Hnd as [| ? ? Hn Hnd']; subst.
  rewrite decide_False; [by apply IH | intros ->].
  apply Hn, list_elem_of_In, in_map_iff. exists (k', v). auto.
Qed.

Lemma dict_set_NoDup d k v : NoDup (map fst d) -> NoDup (map fst (dict_set k v d)).
Proof.
  intros Hnd. rewrite dict_set_keys. unfold dict_mem.
  destruct (dict_get k d) eqn:E; [exact Hnd |].
  apply dict_get_None in E. apply stdpp.list_relations.list.NoDup_app. repeat split; [exact Hnd | | apply NoDup_singleton].
  intros x Hx ->%list_elem_of_singleton. contradiction.
Qed.

End PyDictLemmas.

(** ** Lemmas on lists and relations *)

(** A loop whose every step leaves the accumulator as it is. *)
Lemma fold_left_fix {A B} (f : A -> B -> A) (l : list B) (a : A) :
  (forall x, In x l -> f a x = a) -> fold_left f l a = a.
Proof.
  induction l as [| x l IH]; simpl; intros H; [reflexivity |].
  rewrite (H x (or_introl eq_refl)). apply IH. auto.
Qed.

(** A property every step preserves holds after the loop. *)
Lemma fold_left_invariant {A B} (P : A -> Prop) (f : A -> B -> A) (l : list B) (a : A) :
  P a -> (forall a x, P a -> P (f a x)) -> P (fold_left f l a).
Proof. revert a; induction l as [| x l IH]; simpl; auto. Qed.

Lemma list_filter_nil {A} (f : A -> bool) (l : list A) :
  List.filter f l = [] <-> forall x, In x l -> f x = false.
Proof.
  induction l as [| a l IH]; simpl; [split; [intros _ x [] | reflexivity] |].
  destruct (f a) eqn:E; split.
  - discriminate.
  - intros H. rewrite (H a (or_introl eq_refl)) in E. discriminate E.
  - intros H x [<- | Hx]; [exact E | apply IH; assumption].
  - intros H. apply IH. intros x Hx. apply H. right. exact Hx.
Qed.

Lemma list_filter_nonempty {A} (f : A -> bool) (l : list A) :
  (exists x, In x l /\ f x = true) <-> List.filter f l <> [].
Proof.
  induction l as [| a l IH]; simpl; [split; [intros (x & [] & _) | tauto] |].
  destruct (f a) eqn:E; split; try discriminate.
  - intros _. exists a. auto.
  - intros (x & [<- | Hx] & Hf); [congruence | apply IH; eauto].
  - intros H. destruct (proj2 IH H) as (x & Hx & Hf). eauto.
Qed.

Lemma list_filter_filter {A} (f g : A -> bool) (l : list A) :
  List.filter f (List.filter g l) = List.filter (fun x => g x && f x) l.
Proof. induction l as [| a l IH]; simpl; [reflexivity |]. destruct (g a); simpl; [destruct (f a); simpl |]; congruence. Qed.

Lemma concat_map_nil {A B} (f : A -> list B) (l : list A) :
  concat (map f l) = [] <-> forall x, In x l -> f x = [].
Proof.
  induction l as [| a l IH]; simpl; [split; [intros _ x [] | reflexivity] |].
  split.
  - intros [Ha Hl]%app_eq_nil x [<- | Hx]; [exact Ha | apply IH; assumption].
  - intros H. rewrite (H a (or_introl eq_refl)). apply IH. intros x Hx. apply H. right. exact Hx.
Qed.

Lemma clos_trans_iff {A} (R R' : A -> A -> Prop) :
  (forall x y, R x y <-> R' x y) -> forall x y, clos_trans A R x y <-> clos_trans A R' x y.
Proof.
  intros H x y. split; intros Hc; induction Hc as [x y Hxy | x y z _ IH1 _ IH2];
    solve [apply t_step, H, Hxy | eapply t_trans; eassumption].
Qed.

Lemma forallb_false_exists {A} (f : A -> bool) l : forallb f l = false -> exists x, In x l /\ f x = false.
Proof.
  induction l as [| x l IH]; simpl; [discriminate |].
  destruct (f x) eqn:E; simpl; [intros H; destruct (IH H) as (y & ? & ?); eauto | eauto].
Qed.

(** In a finite set of nodes where every node has a successor inside
    the set, some node lies on a cycle.  (Remove a node [x0]: a node
    whose successor was [x0] now steps to [x0]'s successor, one or two
    steps of the original relation; the smaller set has a cycle by
    induction.) *)
Lemma finite_cycle {A} `{EqDecision A} (R : A -> A -> Prop) (L : list A) :
  L <> [] -> (forall x, In x L -> exists y, In y L /\ R x y) -> exists x, clos_trans A R x x.
Proof.
  remember (length L) as n eqn:En. revert R L En.
  induction n as [n IH] using lt_wf_ind. intros R L En Hne Hs.
  destruct L as [| x0 L0]; [contradiction |].
  destruct (Hs x0 (or_introl eq_refl)) as (z0 & Hz0 & Hx0z0).
  destruct (decide (z0 = x0)) as [-> | Hz]; [exists x0; apply t_step, Hx0z0 |].
  set (L' := List.filter (fun x => bool_decide (x <> x0)) (x0 :: L0)).
  set (R' := fun x y => R x y \/ (R x x0 /\ R x0 y)).
  assert (HL' : forall x, In x L' <-> In x (x0 :: L0) /\ x <> x0).
  { intros x. unfold L'. rewrite filter_In, bool_decide_eq_true. tauto. }
  assert (Hlen : (length L' < n)%nat).
  { subst n. unfold L'. cbn [List.filter]. rewrite (bool_decide_eq_false_2 (x0 <> x0)) by (intros H; apply H; reflexivity).
    pose proof (filter_length_le (fun x => bool_decide (x <> x0)) L0) as Hle. cbn [length]. lia. }
  destruct (IH (length L') ltac:(subst n; lia) R' L' eq_refl) as [x Hx].
  - intros E. assert (Hin : In z0 L') by (apply HL'; auto). rewrite E in Hin. exact Hin.
  - intros x Hx. apply HL' in Hx as [Hx Hxx0]. destruct (Hs x Hx) as (y & Hy & Hxy).
    destruct (decide (y = x0)) as [-> | Hyx0].
    + exists z0. split; [apply HL'; auto | right; auto].
    + exists y. split; [apply HL'; auto | left; exact Hxy].
  - exists x. assert (Hsub : forall a b, clos_trans A R' a b -> clos_trans A R a b).
    { induction 1 as [a b [Hab | [Hax0 Hx0b]] | a b c _ IH1 _ IH2].
      + apply t_step, Hab.
      + eapply t_trans; apply t_step; eassumption.
      + eapply t_trans; eassumption. }
    apply Hsub, Hx.
Qed.

(** ** Lemmas on loops *)

(** ** Substrings *)

Lemma strip_prefix_app p l : strip_prefix p (p ++ l) = Some l.
Proof. induction p as [| c p IH]; simpl; [reflexivity |]. by rewrite Ascii.eqb_refl. Qed.

Lemma strip_prefix_spec p l r : strip_prefix p l = Some r <-> l = p ++ r.
Proof.
  split; [| intros ->; apply strip_prefix_app].
  revert l; induction p as [| c p IH]; intros [| d l]; simpl; try congruence.
  destruct (Ascii.eqb_spec c d) as [-> | _]; [| discriminate]. intros H; rewrite (IH l H); reflexivity.
Qed.

(** [needle in s] holds exactly when [s] splits around [needle]. *)
Lemma contains_spec n l : contains n l = true <-> exists a b, l = a ++ n ++ b.
Proof.
  induction l as [| c l IH]; simpl.
  - destruct (strip_prefix n []) as [r |] eqn:E.
    + apply strip_prefix_spec in E. split; [intros _ | done]. by exists [], r.
    + split; [discriminate |]. intros ([| ] & b & H); [| discriminate].
      simpl in H. symmetry in H. apply app_eq_nil in H as [-> _]. discriminate E.
  - destruct (strip_prefix n (c :: l)) as [r |] eqn:E.
    + apply strip_prefix_spec in E. split; [intros _ | done]. by exists [], r.
    + rewrite IH. split.
      * intros (a & b & ->). by exists (c :: a), b.
      * intros ([| c' a] & b & H); simpl in H.
        -- rewrite H, strip_prefix_app in E. discriminate.
        -- injection H as <- ->. eauto.
Qed.

Lemma contains_app n a l b : contains n l = true -> contains n (a ++ l ++ b) = true.
Proof.
  rewrite !contains_spec. intros (x & y & ->). exists (a ++ x), (y ++ b).
  by rewrite <- !app_assoc.
Qed.

Section FoldOpt.
Context {S A : Type} (f : S -> A -> option S).

(** A loop whose every iteration returns from a state of [P] returns. *)
Lemma fold_opt_total (P : S -> Prop) l s0 :
  (forall a s, In a l -> P s -> exists s', f s a = Some s' /\ P s') ->
  P s0 -> exists s, fold_opt f s0 l = Some s /\ P s.
Proof.
  revert s0. induction l as [| a l IH]; intros s0 Hf H0; simpl; [eauto |].
  destruct (Hf a s0 (or_introl eq_refl) H0) as (s1 & -> & H1). simpl.
  apply IH; [intros; apply Hf; simpl; auto | exact H1].
Qed.

(** An invariant of the loop. *)
Lemma fold_opt_inv (P : S -> Prop) l s0 s :
  (forall a s s', In a l -> P s -> f s a = Some s' -> P s') ->
  P s0 -> fold_opt f s0 l = Some s -> P s.
Proof.
  revert s0. induction l as [| b l IH]; intros s0 Hf H0 E; simpl in E; [by injection E as <- |].
  destruct (f s0 b) as [s1 |] eqn:E1; [simpl in E | discriminate E].
  eapply IH; [intros a s' s'' Ha; apply Hf; right; exact Ha | eapply Hf; [left |..]; eauto | exact E].
Qed.

(** An invariant [P] of the loop, with a property [R a] that the
    iteration on [a] establishes and the later iterations keep. *)
Lemma fold_opt_forall (P : S -> Prop) (R : A -> S -> Prop) l s0 s :
  (forall a s s', In a l -> P s -> f s a = Some s' -> P s' /\ R a s') ->
  (forall a b s s', In b l -> P s -> R a s -> f s b = Some s' -> R a s') ->
  P s0 -> fold_opt f s0 l = Some s -> P s /\ forall a, In a l -> R a s.
Proof.
  revert s0. induction l as [| b l IH]; intros s0 Hf Hk H0 E; simpl in E.
  - injection E as <-. split; [exact H0 | intros a []].
  - destruct (f s0 b) as [s1 |] eqn:E1; [simpl in E | discriminate E].
    destruct (Hf b s0 s1 (or_introl eq_refl) H0 E1) as [H1 Rb].
    destruct (IH s1 (fun a s s' Ha => Hf a s s' (or_intror Ha))
                    (fun a c s s' Hc => Hk a c s s' (or_intror Hc)) H1 E) as [Hs Hall].
    split; [exact Hs |]. intros a [-> | Ha]; [| auto].
    apply (fold_opt_inv (fun s => P s /\ R a s) l s1 s); [| auto | exact E].
    intros c t t' Hc [Ht Rt] Et. split; [eapply Hf | eapply Hk]; eauto; right; exact Hc.
Qed.

(** A loop over a list one of whose elements always raises raises. *)
Lemma fold_opt_raises l a s0 : In a l -> (forall s, f s a = None) -> fold_opt f s0 l = None.
Proof.
  revert s0. induction l as [| b l IH]; intros s0 Hin Ha; [destruct Hin |]. simpl.
  destruct Hin as [-> | Hin]; [by rewrite Ha |].
  destruct (f s0 b); simpl; [apply IH |]; auto.
Qed.

Lemma fold_opt_ext (g : S -> A -> option S) l s :
  (forall s a, In a l -> f s a = g s a) -> fold_opt f s l = fold_opt g s l.
Proof.
  revert s. induction l as [| a l IH]; intros s H; simpl; [reflexivity |].
  rewrite (H s a (or_introl eq_refl)). destruct (g s a); simpl; [| reflexivity].
  apply IH. intros s' a' Hin. apply H. right. exact Hin.
Qed.

End FoldOpt.

(** A loop over [map h l] is a loop over [l]. *)
Lemma fold_opt_map {S A B} (f : S -> B -> option S) (h : A -> B) l s :
  fold_opt f s (map h l) = fold_opt (fun s a => f s (h a)) s l.
Proof.
  revert s. induction l as [| a l IH]; intros s; simpl; [reflexivity |].
  destruct (f s (h a)); simpl; [apply IH | reflexivity].
Qed.

(** A comprehension [[g x for x in l if p x]] written as a loop. *)
Lemma fold_opt_collect {A B} (p : A -> bool) (g : A -> B) (l : list A) acc :
  fold_opt (fun acc x => if p x then Some (acc ++ [g x]) else Some acc) acc l =
  Some (acc ++ map g (List.filter p l)).
Proof.
  revert acc. induction l as [| x l IH]; intros acc; simpl; [by rewrite app_nil_r |].
  destruct (p x); simpl; rewrite IH; [by rewrite <- app_assoc | reflexivity].
Qed.

Lemma list_filter_map_comm {A B} (p : B -> bool) (g : A -> B) l :
  List.filter p (map g l) = map g (List.filter (fun x => p (g x)) l).
Proof. induction l as [| x l IH]; simpl; [reflexivity |]. destruct (p (g x)); simpl; by rewrite IH. Qed.

Lemma Sorted_map {A B} (g : A -> B) (R : B -> B -> Prop) l :
  Sorted (fun x y => R (g x) (g y)) l -> Sorted R (map g l).
Proof.
  induction 1 as [| x l Hs IH Hd]; simpl; constructor; [exact IH |].
  destruct Hd; simpl; constructor. assumption.
Qed.

(** A list sorted for [R1] whose elements satisfy [P] is sorted for any
    [R2] that [R1] implies on [P]. *)
Lemma Sorted_Forall_impl {A} (P : A -> Prop) (R1 R2 : A -> A -> Prop) l :
  Forall P l -> (forall x y, P x -> P y -> R1 x y -> R2 x y) -> Sorted R1 l -> Sorted R2 l.
Proof.
  intros HP HR Hs. induction Hs as [| x l Hs IH Hd]; constructor; inversion HP as [| ? ? Hx Hl]; subst.
  - auto.
  - destruct Hd as [| y l' Hxy]; constructor. inversion Hl; subst. auto.
Qed.

#[export] Hint Rewrite @dict_get_set_same : gtab_rw.
