(* ===== verification/Datetime.v ===== *)
(** * Datetimes: the calendar, [isoformat] and [fromisoformat]

    The scripts stamp documents with [datetime.isoformat()] and
    [str(datetime)], and read stamps and windows back with
    [datetime.fromisoformat(s.replace('Z', '+00:00'))].  A datetime is
    its wall-clock time, as microseconds since the Unix epoch read as if
    it were UTC ([dt_local]), and its UTC offset, [None] for a naive
    one.  The proleptic Gregorian calendar is Hinnant's days/civil
    conversion; its inverse law is proved by a boolean check over one
    400-year cycle (146097 days), the rest by arithmetic on the cycle.
    [isoformat] prints the extended format; [fromisoformat_ext] parses
    the extended format with fixed-width fields (the form [isoformat]
    prints), and yields [None] outside it: Python 3.11 accepts more
    forms, which the model does not read.  Then the code of generate.py
    and compute_metrics.py that uses them: the table epoch, the
    sidecar's window, and [iso_parse]. *)

From Stdlib Require Import ZArith Lia List Ascii String Bool.
From stdpp Require Import base list strings.
From S2P Require Import Prelude.
Import ListNotations.

Local Open Scope Z_scope.

Module Datetime.

(** ** The calendar *)

(** The day of the 400-year cycle of a date: [yoe] its year in the
    cycle (the year starting in March), then month and day. *)
Definition doe_of (yoe m d : Z) : Z :=
  let mp := if 2 <? m then m - 3 else m + 9 in
  yoe * 365 + yoe / 4 - yoe / 100 + ((153 * mp + 2) / 5 + d - 1).

(** Days since 1970-01-01 of a proleptic Gregorian date. *)
Definition days_from_civil (y m d : Z) : Z :=
  let y := if m <=? 2 then y - 1 else y in
  let era := y / 400 in
  era * 146097 + doe_of (y - era * 400) m d - 719468.

(** The year of the cycle, month and day of a day of the cycle. *)
Definition civil_of_doe (doe : Z) : Z * Z * Z :=
  let yoe := (doe - doe / 1460 + doe / 36524 - doe / 146096) / 365 in
  let doy := doe - (365 * yoe + yoe / 4 - yoe / 100) in
  let mp := (5 * doy + 2) / 153 in
  let d := doy - (153 * mp + 2) / 5 + 1 in
  let m := if mp <? 10 then mp + 3 else mp - 9 in
  (yoe, m, d).

(** The date of a day counted from 1970-01-01. *)
Definition civil_from_days (z : Z) : Z * Z * Z :=
  let z := z + 719468 in
  let era := z / 146097 in
  let '(yoe, m, d) := civil_of_doe (z - era * 146097) in
  (yoe + era * 400 + (if m <=? 2 then 1 else 0), m, d).

(** What the inverse law needs of one day of the cycle. *)
Definition doe_ok (doe : Z) : bool :=
  let '(yoe, m, d) := civil_of_doe doe in
  (0 <=? yoe) && (yoe <? 400) && (doe_of yoe m d =? doe) &&
  (1 <=? m) && (m <=? 12) && (1 <=? d) && (d <=? 31).

(** The check over [n] consecutive days from [k]. *)
Fixpoint check_cycle (n : nat) (k : Z) : bool :=
  match n with
  | O => true
  | S n' => doe_ok k && check_cycle n' (k + 1)
  end.

(** ** Microseconds *)

Definition US_PER_SEC : Z := 1000000.
Definition US_PER_MIN : Z := 60 * US_PER_SEC.
Definition US_PER_HOUR : Z := 60 * US_PER_MIN.
Definition US_PER_DAY : Z := 24 * US_PER_HOUR.

(** A [datetime]: wall-clock microseconds read as UTC, and the
    [utcoffset()] in microseconds ([None]: naive). *)
Record pydatetime : Type := mk_dt {
  dt_local : Z;
  dt_offset : option Z
}.

(** The fields of a wall-clock time. *)
Record fields : Type := mk_fields {
  f_year : Z; f_month : Z; f_day : Z;
  f_hour : Z; f_minute : Z; f_second : Z; f_micro : Z
}.

Definition fields_of (t : Z) : fields :=
  let '(y, m, d) := civil_from_days (t / US_PER_DAY) in
  let r := t mod US_PER_DAY in
  let r1 := r mod US_PER_HOUR in
  let r2 := r1 mod US_PER_MIN in
  mk_fields y m d (r / US_PER_HOUR) (r1 / US_PER_MIN) (r2 / US_PER_SEC) (r2 mod US_PER_SEC).

Definition local_of (f : fields) : Z :=
  days_from_civil (f_year f) (f_month f) (f_day f) * US_PER_DAY
  + f_hour f * US_PER_HOUR + f_minute f * US_PER_MIN + f_second f * US_PER_SEC + f_micro f.

(** The year of a wall-clock time: [MINYEAR <= year <= MAXYEAR] is
    [datetime]'s range. *)
Definition year_of (t : Z) : Z := f_year (fields_of t).

(** ** [isoformat] *)


Definition digit (d : Z) : ascii := Ascii.ascii_of_nat (48 + Z.to_nat d).

(** ["%0nd" % v]: the [n] low decimal digits of [v]. *)
Fixpoint pad_dec (n : nat) (v : Z) : list ascii :=
  match n with
  | O => []
  | S n' => pad_dec n' (v / 10) ++ [digit (v mod 10)]
  end.

Definition date_chars (f : fields) : list ascii :=
  pad_dec 4 (f_year f) ++ "-"%char :: pad_dec 2 (f_month f) ++ "-"%char :: pad_dec 2 (f_day f).

(** [HH:MM:SS], then [.ffffff] when the microseconds are not zero. *)
Definition time_chars (f : fields) : list ascii :=
  pad_dec 2 (f_hour f) ++ ":"%char :: pad_dec 2 (f_minute f) ++ ":"%char :: pad_dec 2 (f_second f) ++
  (if f_micro f =? 0 then [] else "."%char :: pad_dec 6 (f_micro f)).

(** [_format_offset]: [+HH:MM], then [:SS] and [.ffffff] when not
    zero. *)
Definition offset_chars (o : Z) : list ascii :=
  let a := Z.abs o in
  let ss := a mod US_PER_MIN in
  (if o <? 0 then "-"%char else "+"%char) :: pad_dec 2 (a / US_PER_HOUR) ++ ":"%char ::
  pad_dec 2 ((a mod US_PER_HOUR) / US_PER_MIN) ++
  (if ss =? 0 then [] else ":"%char :: pad_dec 2 (ss / US_PER_SEC) ++
     (if ss mod US_PER_SEC =? 0 then [] else "."%char :: pad_dec 6 (ss mod US_PER_SEC))).

Definition iso_chars (sep : ascii) (d : pydatetime) : list ascii :=
  let f := fields_of (dt_local d) in
  date_chars f ++ sep :: time_chars f ++
  match dt_offset d with None => [] | Some o => offset_chars o end.

(** [d.isoformat()] *)
Definition isoformat (d : pydatetime) : string := string_of_list_ascii (iso_chars "T"%char d).

(** [str(d)], [isoformat(sep=' ')] *)
Definition str_datetime (d : pydatetime) : string := string_of_list_ascii (iso_chars " "%char d).

(** ** [fromisoformat] on the extended format *)

Definition is_digit (c : ascii) : bool :=
  (48 <=? Ascii.nat_of_ascii c)%nat && (Ascii.nat_of_ascii c <=? 57)%nat.

Definition digits_value (l : list ascii) : Z :=
  fold_left (fun acc c => acc * 10 + Z.of_nat (Ascii.nat_of_ascii c - 48)) l 0.

(** A field of exactly [n] digits. *)
Definition parse_num (n : nat) (l : list ascii) : option (Z * list ascii) :=
  let ds := take n l in
  if (length ds =? n)%nat && forallb is_digit ds then Some (digits_value ds, drop n l) else None.

Definition expect (c : ascii) (l : list ascii) : option (list ascii) :=
  match l with
  | x :: r => if Ascii.eqb x c then Some r else None
  | [] => None
  end.

(** The date is valid when it is its own normal form ([ValueError]
    otherwise: day out of range for month). *)
Definition valid_date (y m d : Z) : bool :=
  (1 <=? y) &&
  (let '(y', m', d') := civil_from_days (days_from_civil y m d) in (y' =? y) && (m' =? m) && (d' =? d)).

Definition parse_date (l : list ascii) : option (Z * Z * Z * list ascii) :=
  '(y, l) ← parse_num 4 l; l ← expect "-"%char l; '(m, l) ← parse_num 2 l; l ← expect "-"%char l;
  '(d, l) ← parse_num 2 l; Some (y, m, d, l).

Definition parse_frac (l : list ascii) : option (Z * list ascii) :=
  match l with
  | "."%char :: r => parse_num 6 r
  | _ => Some (0, l)
  end.

Definition parse_time (l : list ascii) : option (Z * Z * Z * Z * list ascii) :=
  '(h, l) ← parse_num 2 l; l ← expect ":"%char l; '(mi, l) ← parse_num 2 l; l ← expect ":"%char l;
  '(s, l) ← parse_num 2 l; '(us, l) ← parse_frac l; Some (h, mi, s, us, l).

(** [+HH:MM] or [-HH:MM] to the end of the string, or nothing. *)
Definition parse_offset (l : list ascii) : option (option Z) :=
  match l with
  | [] => Some None
  | c :: r =>
      let sgn := if Ascii.eqb c "+"%char then Some 1 else if Ascii.eqb c "-"%char then Some (-1) else None in
      sg ← sgn; '(hh, r) ← parse_num 2 r; r ← expect ":"%char r; '(mm, r) ← parse_num 2 r;
      match r with
      | [] => if (hh <? 24) && (mm <? 60) then Some (Some (sg * (hh * US_PER_HOUR + mm * US_PER_MIN))) else None
      | _ => None
      end
  end.

(** [datetime.fromisoformat(s)] on [YYYY-MM-DD] or
    [YYYY-MM-DD?HH:MM:SS[.ffffff][+HH:MM]] (any separator). *)
Definition fromisoformat_ext (s : string) : option pydatetime :=
  '(y, m, d, l) ← parse_date (list_ascii_of_string s);
  if negb (valid_date y m d) then None else
  match l with
  | [] => Some (mk_dt (days_from_civil y m d * US_PER_DAY) None)
  | _ :: l =>
      '(h, mi, sec, us, l) ← parse_time l;
      off ← parse_offset l;
      if (h <? 24) && (mi <? 60) && (sec <? 60)
      then Some (mk_dt (local_of (mk_fields y m d h mi sec us)) off) else None
  end.


(** ** The scripts' use of datetimes *)

(** [s.replace('Z', '+00:00')], which every script applies before
    [fromisoformat]. *)
Fixpoint replace_Z (t : string) : string :=
  match t with
  | EmptyString => EmptyString
  | String c rest =>
      if (Ascii.nat_of_ascii c =? 90)%nat then "+00:00" +:+ replace_Z rest
      else String c (replace_Z rest)
  end.

(** [d.utcoffset()]-adjusted instant, [astimezone]'s reading of a
    naive datetime taking the machine's offset [sys_offset]. *)
Definition instant (sys_offset : Z) (d : pydatetime) : Z := dt_local d - default sys_offset (dt_offset d).

(** [d.astimezone(timezone.utc)] *)
Definition astimezone_utc (sys_offset : Z) (d : pydatetime) : pydatetime := mk_dt (instant sys_offset d) (Some 0).

(** [datetime.now(timezone.utc).isoformat()], the stamp update_progress.py
    and parse_coverage.py write to [last_updated]. *)
Definition now_stamp (now : Z) : string := isoformat (mk_dt now (Some 0)).

(** [datetime.fromisoformat] as stagnation_check.py uses it: the instant
    and whether the stamp is aware. *)
Definition fromisoformat_instant (s : string) : option (Z * bool) :=
  d ← fromisoformat_ext s; Some (instant 0 d, bool_decide (is_Some (dt_offset d))).

(** generate.py's [main]: [datetime.fromisoformat(args.start.replace('Z', '+00:00'))]. *)
Definition gen_parse_arg (arg : string) : option pydatetime := fromisoformat_ext (replace_Z arg).

(** generate.py's table epoch: [int(cfg.start.replace(tzinfo=timezone.utc).timestamp())]:
    the wall-clock time read as UTC, truncated to seconds. *)
Definition gen_epoch (start : pydatetime) : Z := Z.quot (dt_local start) US_PER_SEC.

(** The sidecar's window bound: [cfg.start.astimezone(timezone.utc).isoformat()]. *)
Definition meta_bound (sys_offset : Z) (b : pydatetime) : string := isoformat (astimezone_utc sys_offset b).

(** compute_metrics.py's [iso_parse(s)]:
    [datetime.fromisoformat(s.replace('Z', '+00:00')).astimezone(timezone.utc)]. *)
Definition iso_parse (sys_offset : Z) (s : string) : option pydatetime :=
  d ← fromisoformat_ext (replace_Z s); Some (astimezone_utc sys_offset d).

(** extract_gas.py's [generated_at]: [datetime.utcnow().isoformat() + 'Z']. *)
Definition utcnow_stamp (now : Z) : string := isoformat (mk_dt now None) +:+ "Z".

(** ** Calendar lemmas *)

Lemma check_cycle_correct n k j :
  check_cycle n k = true -> k <= j < k + Z.of_nat n -> doe_ok j = true.
Proof.
  revert k; induction n as [| n IH]; intros k H Hj; [lia |].
  cbn [check_cycle] in H. apply andb_prop in H as [H1 H2].
  destruct (Z.eq_dec j k) as [-> | Hne]; [exact H1 |].
  apply (IH (k + 1)); [exact H2 | lia].
Qed.

Lemma all_cycle : check_cycle 146097 0 = true.
Proof. vm_compute. reflexivity. Qed.

Lemma doe_ok_spec doe : 0 <= doe < 146097 ->
  let '(yoe, m, d) := civil_of_doe doe in
  0 <= yoe < 400 /\ doe_of yoe m d = doe /\ 1 <= m <= 12 /\ 1 <= d <= 31.
Proof.
  intros Hd. assert (E : Z.of_nat 146097 = 146097) by reflexivity.
  pose proof (check_cycle_correct _ 0 doe all_cycle ltac:(rewrite E; lia)) as H.
  unfold doe_ok in H. destruct (civil_of_doe doe) as [[yoe m] d].
  repeat rewrite andb_true_iff in H. rewrite !Z.leb_le, !Z.ltb_lt, !Z.eqb_eq in H. cbn -[doe_of]. lia.
Qed.

(** Every day count is the count of its date. *)
Lemma days_from_civil_from_days z :
  let '(y, m, d) := civil_from_days z in days_from_civil y m d = z.
Proof.
  unfold civil_from_days.
  pose proof (Z.div_mod (z + 719468) 146097 ltac:(lia)) as Hdm.
  pose proof (Z.mod_pos_bound (z + 719468) 146097 ltac:(lia)) as Hb.
  set (era := (z + 719468) / 146097) in *.
  replace (z + 719468 - era * 146097) with ((z + 719468) mod 146097) by lia.
  pose proof (doe_ok_spec ((z + 719468) mod 146097) Hb) as Hs.
  destruct (civil_of_doe _) as [[yoe m] d]. destruct Hs as (Hy & Hdoe & Hm & _).
  unfold days_from_civil.
  replace ((if m <=? 2 then yoe + era * 400 + (if m <=? 2 then 1 else 0) - 1
            else yoe + era * 400 + (if m <=? 2 then 1 else 0))) with (yoe + era * 400)
    by (destruct (m <=? 2); lia).
  replace ((yoe + era * 400) / 400) with era by (rewrite Z.div_add by lia; rewrite Z.div_small by lia; lia).
  replace (yoe + era * 400 - era * 400) with yoe by lia. rewrite Hdoe. lia.
Qed.

(** ** Fields of a wall-clock time *)

Lemma civil_from_days_bounds z :
  let '(y, m, d) := civil_from_days z in 1 <= m <= 12 /\ 1 <= d <= 31.
Proof.
  unfold civil_from_days.
  pose proof (Z.mod_pos_bound (z + 719468) 146097 ltac:(lia)) as Hb.
  replace (z + 719468 - (z + 719468) / 146097 * 146097) with ((z + 719468) mod 146097)
    by (pose proof (Z.div_mod (z + 719468) 146097 ltac:(lia)); lia).
  pose proof (doe_ok_spec _ Hb) as Hs. destruct (civil_of_doe _) as [[yoe m] d]. lia.
Qed.

(** The fields [fields_of] computes, with their ranges. *)
Lemma fields_of_spec t :
  exists y m d h mi s us,
    civil_from_days (t / US_PER_DAY) = (y, m, d) /\ fields_of t = mk_fields y m d h mi s us /\
    1 <= m <= 12 /\ 1 <= d <= 31 /\ 0 <= h < 24 /\ 0 <= mi < 60 /\ 0 <= s < 60 /\ 0 <= us < US_PER_SEC /\
    t mod US_PER_DAY = h * US_PER_HOUR + mi * US_PER_MIN + s * US_PER_SEC + us.
Proof.
  unfold fields_of. pose proof (civil_from_days_bounds (t / US_PER_DAY)) as Hc.
  destruct (civil_from_days _) as [[y m] d] eqn:E.
  unfold US_PER_DAY, US_PER_HOUR, US_PER_MIN, US_PER_SEC in *.
  set (r := t mod (24 * (60 * (60 * 1000000)))).
  assert (Hr : 0 <= r < 24 * (60 * (60 * 1000000))) by (apply Z.mod_pos_bound; lia).
  set (r1 := r mod (60 * (60 * 1000000))). set (r2 := r1 mod (60 * 1000000)).
  pose proof (Z.div_mod r (60 * (60 * 1000000)) ltac:(lia)).
  pose proof (Z.mod_pos_bound r (60 * (60 * 1000000)) ltac:(lia)).
  pose proof (Z.div_mod r1 (60 * 1000000) ltac:(lia)).
  pose proof (Z.mod_pos_bound r1 (60 * 1000000) ltac:(lia)).
  pose proof (Z.div_mod r2 1000000 ltac:(lia)).
  pose proof (Z.mod_pos_bound r2 1000000 ltac:(lia)).
  exists y, m, d, (r / (60 * (60 * 1000000))), (r1 / (60 * 1000000)), (r2 / 1000000), (r2 mod 1000000).
  do 2 (split; [reflexivity |]). lia.
Qed.

(** A wall-clock time is recomposed from its fields. *)
Lemma local_of_fields_of t : local_of (fields_of t) = t.
Proof.
  destruct (fields_of_spec t) as (y & m & d & h & mi & s & us & Ec & -> & _ & _ & _ & _ & _ & _ & Hr).
  unfold local_of; cbn [f_year f_month f_day f_hour f_minute f_second f_micro].
  pose proof (days_from_civil_from_days (t / US_PER_DAY)) as Hd. rewrite Ec in Hd. rewrite Hd.
  pose proof (Z.div_mod t US_PER_DAY ltac:(unfold US_PER_DAY, US_PER_HOUR, US_PER_MIN, US_PER_SEC; lia)).
  lia.
Qed.

(** The date of a wall-clock time of year at least 1 is valid. *)
Lemma valid_date_fields_of t :
  1 <= year_of t -> valid_date (f_year (fields_of t)) (f_month (fields_of t)) (f_day (fields_of t)) = true.
Proof.
  unfold year_of. destruct (fields_of_spec t) as (y & m & d & h & mi & s & us & Ec & -> & _).
  cbn [f_year f_month f_day]. intros Hy. unfold valid_date.
  pose proof (days_from_civil_from_days (t / US_PER_DAY)) as Hd. rewrite Ec in Hd. rewrite Hd, Ec.
  rewrite !Z.eqb_refl. apply Z.leb_le in Hy. rewrite Hy. reflexivity.
Qed.

(** ** Digits *)

Lemma digit_spec k : 0 <= k < 10 ->
  is_digit (digit k) = true /\ Z.of_nat (Ascii.nat_of_ascii (digit k) - 48) = k.
Proof.
  intros Hk. assert (Hall : forallb (fun j => is_digit (digit (Z.of_nat j)) &&
                                      (Z.of_nat (Ascii.nat_of_ascii (digit (Z.of_nat j)) - 48) =? Z.of_nat j))
                                   (seq 0 10) = true) by reflexivity.
  rewrite forallb_forall in Hall. specialize (Hall (Z.to_nat k) ltac:(apply in_seq; lia)).
  rewrite Z2Nat.id in Hall by lia. apply andb_prop in Hall as [H1 H2]. split; [exact H1 | apply Z.eqb_eq in H2; lia].
Qed.

Lemma pad_dec_length n v : length (pad_dec n v) = n.
Proof.
  revert v; induction n as [| n IH]; intros v; [reflexivity |].
  cbn [pad_dec]. rewrite length_app, IH. cbn [length]. lia.
Qed.

Lemma pad_dec_digits n v : 0 <= v -> forallb is_digit (pad_dec n v) = true.
Proof.
  revert v; induction n as [| n IH]; intros v Hv; [reflexivity |]. cbn [pad_dec].
  rewrite forallb_app, IH by (apply Z.div_pos; lia). cbn [forallb].
  rewrite (proj1 (digit_spec (v mod 10) ltac:(apply Z.mod_pos_bound; lia))). reflexivity.
Qed.

Lemma digits_value_snoc l c : digits_value (l ++ [c]) = digits_value l * 10 + Z.of_nat (Ascii.nat_of_ascii c - 48).
Proof. unfold digits_value. rewrite fold_left_app. reflexivity. Qed.

Lemma pad_dec_value n v : 0 <= v -> digits_value (pad_dec n v) = v mod 10 ^ Z.of_nat n.
Proof.
  revert v; induction n as [| n IH]; intros v Hv; [simpl; rewrite Z.mod_1_r; reflexivity |].
  cbn [pad_dec]. rewrite digits_value_snoc, IH by (apply Z.div_pos; lia).
  rewrite (proj2 (digit_spec (v mod 10) ltac:(apply Z.mod_pos_bound; lia))).
  rewrite Nat2Z.inj_succ, Z.pow_succ_r, Z.rem_mul_r by lia. lia.
Qed.

Lemma parse_num_pad n v rest : 0 <= v < 10 ^ Z.of_nat n -> parse_num n (pad_dec n v ++ rest) = Some (v, rest).
Proof.
  intros Hv. unfold parse_num.
  rewrite take_app_length' by (symmetry; apply pad_dec_length).
  rewrite drop_app_length' by (symmetry; apply pad_dec_length).
  rewrite pad_dec_length, Nat.eqb_refl, pad_dec_digits, pad_dec_value by lia. cbn [andb].
  rewrite Z.mod_small by lia. reflexivity.
Qed.

(** ** The parser reads what the printer writes *)

Lemma parse_num_pad_end n v : 0 <= v < 10 ^ Z.of_nat n -> parse_num n (pad_dec n v) = Some (v, []).
Proof. intros Hv. rewrite <- (app_nil_r (pad_dec n v)). apply parse_num_pad. exact Hv. Qed.

Lemma expect_same c l : expect c (c :: l) = Some l.
Proof. unfold expect. rewrite Ascii.eqb_refl. reflexivity. Qed.

(** One step of a parse of printed fields: reassociate the text, read
    a padded number or an expected character. *)
Local Ltac parse_step :=
  repeat (rewrite <- app_assoc || rewrite <- app_comm_cons);
  first [rewrite parse_num_pad by (simpl; lia) | rewrite parse_num_pad_end by (simpl; lia)
        | rewrite expect_same];
  cbn [mbind option_bind].

Lemma parse_date_chars f rest :
  0 <= f_year f < 10000 -> 0 <= f_month f < 100 -> 0 <= f_day f < 100 ->
  parse_date (date_chars f ++ rest) = Some (f_year f, f_month f, f_day f, rest).
Proof. intros Hy Hm Hd. unfold parse_date, date_chars. do 5 parse_step. reflexivity. Qed.

(** What may follow the time: no [.] that [parse_frac] would read. *)
Definition no_frac (l : list ascii) : Prop :=
  match l with "."%char :: _ => False | _ => True end.

Lemma parse_time_chars f rest :
  0 <= f_hour f < 100 -> 0 <= f_minute f < 100 -> 0 <= f_second f < 100 -> 0 <= f_micro f < US_PER_SEC ->
  no_frac rest ->
  parse_time (time_chars f ++ rest) = Some (f_hour f, f_minute f, f_second f, f_micro f, rest).
Proof.
  intros Hh Hm Hs Hu Hr. unfold parse_time, time_chars. do 5 parse_step.
  destruct (Z.eqb_spec (f_micro f) 0) as [E | E]; cbn [app].
  - unfold parse_frac. destruct rest as [| c r]; [rewrite E; reflexivity |].
    destruct c as [[] [] [] [] [] [] [] []]; try contradiction; rewrite E; reflexivity.
  - unfold parse_frac. rewrite parse_num_pad by (unfold US_PER_SEC in Hu; simpl; lia). reflexivity.
Qed.

(** An offset of whole minutes, less than a day: what [parse_offset]
    reads back ([timezone] refuses offsets of a day or more). *)
Definition offset_ok (o : option Z) : Prop :=
  match o with
  | None => True
  | Some o => o mod US_PER_MIN = 0 /\ - US_PER_DAY < o < US_PER_DAY
  end.

Lemma parse_offset_chars o : offset_ok (Some o) -> parse_offset (offset_chars o) = Some (Some o).
Proof.
  intros [Hm Hb]. unfold offset_chars.
  unfold US_PER_DAY, US_PER_HOUR, US_PER_MIN, US_PER_SEC in *.
  set (M := 60 * 1000000) in *.
  assert (Hma : Z.abs o mod M = 0).
  { destruct (Z.abs_spec o) as [[_ ->] | [_ ->]]; [exact Hm |].
    apply Z.mod_opp_l_z; [unfold M; lia | exact Hm]. }
  rewrite Hma. cbn [Z.eqb]. rewrite app_nil_r.
  set (q := Z.abs o / M).
  assert (Ha : Z.abs o = M * q) by (pose proof (Z.div_mod (Z.abs o) M ltac:(unfold M; lia)); lia).
  assert (Hq : 0 <= q < 24 * 60) by (unfold M in *; lia).
  replace (60 * M) with (M * 60) by lia. rewrite Ha.
  rewrite <- Z.div_div, (Z.mul_comm M q), Z.div_mul by (unfold M; lia).
  rewrite (Z.mul_comm q M), Z.mul_mod_distr_l, (Z.mul_comm M (q mod 60)), Z.div_mul by (unfold M; lia).
  assert (H60 : 0 <= q / 60 < 24) by (split; [apply Z.div_pos | apply Z.div_lt_upper_bound]; lia).
  assert (H60' : 0 <= q mod 60 < 60) by (apply Z.mod_pos_bound; lia).
  unfold parse_offset.
  assert (Hsg : (if Ascii.eqb (if o <? 0 then "-"%char else "+"%char) "+"%char then Some 1
                 else if Ascii.eqb (if o <? 0 then "-"%char else "+"%char) "-"%char then Some (-1) else None)
                = Some (if o <? 0 then -1 else 1)) by (destruct (o <? 0); reflexivity).
  rewrite Hsg. cbn [mbind option_bind].
  do 3 parse_step.
  rewrite (proj2 (Z.ltb_lt _ 24)), (proj2 (Z.ltb_lt _ 60)) by lia. cbn [andb].
  do 2 f_equal. pose proof (Z.div_mod q 60 ltac:(lia)). unfold US_PER_HOUR, US_PER_MIN, US_PER_SEC. unfold M in *.
  destruct (Z.ltb_spec o 0); destruct (Z.abs_spec o) as [[? E] | [? E]]; lia.
Qed.

Lemma offset_no_frac o : no_frac (match o with None => [] | Some o => offset_chars o end).
Proof. destruct o as [o |]; [unfold offset_chars; destruct (o <? 0) |]; exact I. Qed.

(** [fromisoformat] reads back what [isoformat] prints, with any
    separator, in [datetime]'s range of years. *)
Lemma fromisoformat_iso_chars sep d :
  1 <= year_of (dt_local d) <= 9999 -> offset_ok (dt_offset d) ->
  fromisoformat_ext (string_of_list_ascii (iso_chars sep d)) = Some d.
Proof.
  intros Hy Ho. unfold fromisoformat_ext, iso_chars. rewrite list_ascii_of_string_of_list_ascii.
  pose proof (valid_date_fields_of (dt_local d) ltac:(lia)) as Hv.
  pose proof (local_of_fields_of (dt_local d)) as Hl. unfold year_of in Hy.
  destruct (fields_of_spec (dt_local d)) as (y & m & dd & h & mi & s & us & _ & Ef & Hm & Hd & Hh & Hmi & Hs & Hus & _).
  rewrite Ef in *. cbn [f_year f_month f_day f_hour f_minute f_second f_micro] in *.
  rewrite (parse_date_chars (mk_fields y m dd h mi s us)) by (cbn; lia).
  cbn [mbind option_bind f_year f_month f_day]. rewrite Hv. cbn [negb]. cbv beta iota.
  rewrite (parse_time_chars (mk_fields y m dd h mi s us)) by (cbn; first [lia | apply offset_no_frac]).
  cbn [mbind option_bind f_hour f_minute f_second f_micro].
  assert (Hoff : parse_offset (match dt_offset d with None => [] | Some o => offset_chars o end)
                 = Some (dt_offset d)).
  { destruct (dt_offset d) as [o |]; [apply parse_offset_chars; exact Ho | reflexivity]. }
  rewrite Hoff. cbn [mbind option_bind].
  rewrite (proj2 (Z.ltb_lt h 24)), (proj2 (Z.ltb_lt mi 60)), (proj2 (Z.ltb_lt s 60)) by lia. cbn [andb].
  rewrite Hl. destruct d; reflexivity.
Qed.

(** ** [replace('Z', ...)] leaves printed stamps alone *)

Definition not_Z (c : ascii) : bool := negb (Ascii.nat_of_ascii c =? 90)%nat.

Lemma replace_Z_id l : forallb not_Z l = true -> replace_Z (string_of_list_ascii l) = string_of_list_ascii l.
Proof.
  induction l as [| c l IH]; [reflexivity |]. cbn [forallb]. intros H. apply andb_prop in H as [Hc Hl].
  cbn [string_of_list_ascii replace_Z]. unfold not_Z in Hc. apply negb_true_iff in Hc. rewrite Hc, IH by exact Hl.
  reflexivity.
Qed.

Lemma pad_dec_not_Z n v : 0 <= v -> forallb not_Z (pad_dec n v) = true.
Proof.
  intros Hv. pose proof (pad_dec_digits n v Hv) as H. induction (pad_dec n v) as [| c l IH]; [reflexivity |].
  cbn [forallb] in *. apply andb_prop in H as [Hc Hl]. rewrite IH by exact Hl.
  unfold is_digit in Hc. apply andb_prop in Hc as [_ Hc]. apply Nat.leb_le in Hc.
  unfold not_Z. destruct (Nat.eqb_spec (Ascii.nat_of_ascii c) 90); [lia | reflexivity].
Qed.

Local Ltac not_Z_pieces :=
  repeat first
    [ rewrite forallb_app
    | progress cbn [forallb]
    | match goal with
      | |- context [forallb not_Z (pad_dec ?n ?v)] => rewrite (pad_dec_not_Z n v) by lia
      | |- context [if ?b then _ else _] => destruct b
      end ];
  reflexivity.

(** An [isoformat] stamp of year 1 or later has no [Z]. *)
Lemma iso_chars_not_Z d :
  1 <= year_of (dt_local d) -> forallb not_Z (iso_chars "T"%char d) = true.
Proof.
  unfold year_of, iso_chars. intros Hy.
  destruct (fields_of_spec (dt_local d)) as (y & m & dd & h & mi & s & us & _ & Ef & Hb).
  rewrite Ef in *. cbn in Hy. unfold date_chars, time_chars. cbn [f_year f_month f_day f_hour f_minute f_second f_micro].
  destruct (dt_offset d) as [o |].
  - unfold offset_chars. pose proof (Z.abs_nonneg o).
    assert (0 <= Z.abs o / US_PER_HOUR) by (apply Z.div_pos; unfold US_PER_HOUR, US_PER_MIN, US_PER_SEC; lia).
    assert (0 <= Z.abs o mod US_PER_HOUR / US_PER_MIN)
      by (apply Z.div_pos; [apply Z.mod_pos_bound | ]; unfold US_PER_HOUR, US_PER_MIN, US_PER_SEC; lia).
    assert (0 <= Z.abs o mod US_PER_MIN / US_PER_SEC)
      by (apply Z.div_pos; [apply Z.mod_pos_bound | ]; unfold US_PER_MIN, US_PER_SEC; lia).
    assert (0 <= Z.abs o mod US_PER_MIN mod US_PER_SEC) by (apply Z.mod_pos_bound; unfold US_PER_SEC; lia).
    not_Z_pieces.
  - not_Z_pieces.
Qed.

Lemma replace_Z_now_stamp now : 1 <= year_of now -> replace_Z (now_stamp now) = now_stamp now.
Proof. intros Hy. apply replace_Z_id, (iso_chars_not_Z (mk_dt now (Some 0))). exact Hy. Qed.

(** stagnation_check.py reads a [now_stamp] back as the same aware
    instant. *)
Lemma fromisoformat_instant_now_stamp t0 :
  1 <= year_of t0 <= 9999 -> fromisoformat_instant (replace_Z (now_stamp t0)) = Some (t0, true).
Proof.
  intros Hy. rewrite replace_Z_now_stamp by lia. unfold fromisoformat_instant, now_stamp, isoformat.
  rewrite (fromisoformat_iso_chars "T"%char (mk_dt t0 (Some 0)) Hy)
    by (split; [reflexivity | unfold US_PER_DAY, US_PER_HOUR, US_PER_MIN, US_PER_SEC; lia]).
  cbn [mbind option_bind]. unfold instant. cbn [dt_local dt_offset]. change (default 0 (Some 0)) with 0.
  rewrite Z.sub_0_r. reflexivity.
Qed.

Lemma now_stamp_nonempty t0 : now_stamp t0 <> ""%string.
Proof.
  unfold now_stamp, isoformat, iso_chars, date_chars.
  destruct (pad_dec 4 _) as [| c l]; cbn [app string_of_list_ascii]; discriminate.
Qed.

(** Round trip of the ISO-8601 stamps the scripts print and
    read: for every datetime of year 1 to 9999 whose UTC offset, if
    any, is whole minutes and less than a day, generate.py's argument
    parse ([fromisoformat(s.replace('Z', '+00:00'))]) reads
    [isoformat()] back to the same wall-clock time and offset,
    [fromisoformat] reads [str()] back, and compute_metrics.py's
    [iso_parse] reads [isoformat()] back as the same instant in UTC. *)
Theorem fromisoformat_isoformat sys d :
  1 <= year_of (dt_local d) <= 9999 -> offset_ok (dt_offset d) ->
  gen_parse_arg (isoformat d) = Some d /\ fromisoformat_ext (str_datetime d) = Some d /\
  iso_parse sys (isoformat d) = Some (astimezone_utc sys d).
Proof.
  intros Hy Ho. unfold gen_parse_arg, iso_parse, isoformat, str_datetime.
  rewrite replace_Z_id by (apply iso_chars_not_Z; lia).
  rewrite !fromisoformat_iso_chars by assumption. repeat split; reflexivity.
Qed.

(** ** generate.py's window *)

Lemma gen_epoch_exact d : dt_local d mod US_PER_SEC = 0 -> gen_epoch d * US_PER_SEC = dt_local d.
Proof.
  intros H. unfold gen_epoch. apply Z.rem_mod_eq_0 in H; [| unfold US_PER_SEC; lia].
  apply Z.quot_exact in H; [| unfold US_PER_SEC; lia]. lia.
Qed.

(** C30. generate.py writes into the table header the epoch of the
    start's wall-clock time read as UTC ([replace(tzinfo=timezone.utc)]),
    and into the sidecar the start converted to UTC ([astimezone]).  For
    a start given with a UTC offset [o] (whole seconds, in range), the
    sidecar's start read back names the header's epoch exactly when
    [o = 0]: any other offset shifts the table's epoch by [o] from the
    instant the series was sampled at. *)
Theorem epoch_matches_meta_start_iff sys d o :
  dt_offset d = Some o -> dt_local d mod US_PER_SEC = 0 -> 1 <= year_of (dt_local d - o) <= 9999 ->
  fromisoformat_ext (meta_bound sys d) = Some (mk_dt (gen_epoch d * US_PER_SEC) (Some 0)) <-> o = 0.
Proof.
  intros Ho Hs Hy. unfold meta_bound, astimezone_utc, instant, isoformat. rewrite Ho.
  change (default sys (Some o)) with o.
  rewrite (fromisoformat_iso_chars "T"%char (mk_dt (dt_local d - o) (Some 0)) Hy)
    by (split; [reflexivity | unfold US_PER_DAY, US_PER_HOUR, US_PER_MIN, US_PER_SEC; lia]).
  rewrite gen_epoch_exact by exact Hs.
  split; [intros H; injection H; lia | intros ->; rewrite Z.sub_0_r; reflexivity].
Qed.

(** ** Examples, as Python prints and parses them *)

Example isoformat_example :
  isoformat (mk_dt 1735689600000000 (Some 0)) = "2025-01-01T00:00:00+00:00"%string /\
  str_datetime (mk_dt 1735689600000000 (Some 0)) = "2025-01-01 00:00:00+00:00"%string /\
  isoformat (mk_dt 1762662517648123 (Some 0)) = "2025-11-09T04:28:37.648123+00:00"%string /\
  isoformat (mk_dt (-62135596800000000) None) = "0001-01-01T00:00:00"%string /\
  isoformat (mk_dt 253402300799999999 (Some (-19800000000))) = "9999-12-31T23:59:59.999999-05:30"%string.
Proof. vm_compute. repeat split. Qed.

Example fromisoformat_example :
  fromisoformat_ext "2025-01-01T02:00:00+02:00" = Some (mk_dt 1735696800000000 (Some 7200000000)) /\
  fromisoformat_ext "2024-02-29" = Some (mk_dt 1709164800000000 None) /\
  fromisoformat_ext "2023-02-29" = None.
Proof. vm_compute. repeat split. Qed.

(** A stamp with microseconds and a negative offset, read by
    [iso_parse] on a machine at UTC. *)
Lemma fromisoformat_isoformat_witness :
  (1 <= year_of (dt_local (mk_dt 1762662517648123 (Some (-19800000000)))) <= 9999) /\
  gen_parse_arg (isoformat (mk_dt 1762662517648123 (Some (-19800000000))))
    = Some (mk_dt 1762662517648123 (Some (-19800000000))) /\
  fromisoformat_ext (str_datetime (mk_dt 1762662517648123 (Some (-19800000000))))
    = Some (mk_dt 1762662517648123 (Some (-19800000000))) /\
  iso_parse 0 (isoformat (mk_dt 1762662517648123 (Some (-19800000000))))
    = Some (mk_dt 1762682317648123 (Some 0)).
Proof.
  assert (Hy : 1 <= year_of (dt_local (mk_dt 1762662517648123 (Some (-19800000000)))) <= 9999)
    by (vm_compute; split; discriminate).
  split; [exact Hy |].
  apply (fromisoformat_isoformat 0 (mk_dt 1762662517648123 (Some (-19800000000))) Hy).
  cbn. unfold US_PER_DAY, US_PER_HOUR, US_PER_MIN, US_PER_SEC. split; [reflexivity | lia].
Defined.

(** [--start 2025-01-01T00:00:00+02:00]: the header says 00:00 UTC, the
    sidecar 22:00 UTC the day before. *)
Lemma epoch_matches_meta_start_iff_witness :
  gen_parse_arg "2025-01-01T00:00:00+02:00" = Some (mk_dt 1735689600000000 (Some 7200000000)) /\
  meta_bound 0 (mk_dt 1735689600000000 (Some 7200000000)) = "2024-12-31T22:00:00+00:00"%string /\
  fromisoformat_ext (meta_bound 0 (mk_dt 1735689600000000 (Some 7200000000)))
    <> Some (mk_dt (gen_epoch (mk_dt 1735689600000000 (Some 7200000000)) * US_PER_SEC) (Some 0)).
Proof.
  split; [vm_compute; reflexivity |]. split; [vm_compute; reflexivity |].
  intros H. apply (epoch_matches_meta_start_iff 0 (mk_dt 1735689600000000 (Some 7200000000)) 7200000000)
    in H; [discriminate H | reflexivity | reflexivity | vm_compute; split; discriminate].
Defined.

End Datetime.
