(* ===== verification/Bytes.v ===== *)
(** * Little-endian packing: the [struct] calls of the GTAB scripts

    [write_gtab] (generate.py) packs the header and records with
    [struct.pack('<H' | '<q' | '<I', v)]; [read_gtab_header] and
    [gtab_lookup_tide_bps] (compute_metrics.py) read them back with
    [struct.unpack].  A byte string is a [list Z] of values in [[0, 256)].
    Packing a value outside the format's range raises [struct.error]
    ([None]); unpacking a buffer of the wrong length raises it too. *)

From Stdlib Require Import ZArith Lia List.
From stdpp Require Import base list.
From S2P Require Import Prelude.
Import ListNotations.

Local Open Scope Z_scope.

Module Struct.

Definition is_byte (b : Z) : Prop := 0 <= b < 256.

(** The [n] low bytes of [x], least significant first. *)
Fixpoint le_split (n : nat) (x : Z) : list Z :=
  match n with
  | O => []
  | S n' => x mod 256 :: le_split n' (x / 256)
  end.

(** The unsigned value of a little-endian byte string. *)
Fixpoint le_combine (bs : list Z) : Z :=
  match bs with
  | [] => 0
  | b :: t => b + 256 * le_combine t
  end.

(** [struct.pack('<B...', v)] for an unsigned field of [w] bytes. *)
Definition pack_uint (w : nat) (v : Z) : option (list Z) :=
  if (0 <=? v) && (v <? 2 ^ (8 * Z.of_nat w)) then Some (le_split w v) else None.

(** [struct.pack] for a signed (two's complement) field of [w] bytes. *)
Definition pack_sint (w : nat) (v : Z) : option (list Z) :=
  if (- 2 ^ (8 * Z.of_nat w - 1) <=? v) && (v <? 2 ^ (8 * Z.of_nat w - 1))
  then Some (le_split w (v mod 2 ^ (8 * Z.of_nat w))) else None.

(** [struct.unpack] of an unsigned field: the buffer must have exactly
    [w] bytes. *)
Definition unpack_uint (w : nat) (bs : list Z) : option Z :=
  if Nat.eqb (length bs) w then Some (le_combine bs) else None.

Definition unpack_sint (w : nat) (bs : list Z) : option Z :=
  if Nat.eqb (length bs) w then
    let u := le_combine bs in
    Some (if u <? 2 ^ (8 * Z.of_nat w - 1) then u else u - 2 ^ (8 * Z.of_nat w))
  else None.

(** The formats the scripts use. *)
Definition pack_H := pack_uint 2.
Definition pack_I := pack_uint 4.
Definition pack_q := pack_sint 8.
Definition unpack_H := unpack_uint 2.
Definition unpack_I := unpack_uint 4.
Definition unpack_q := unpack_sint 8.

(** ** Lemmas *)

Lemma length_le_split n x : length (le_split n x) = n.
Proof. revert x; induction n; intros x; simpl; [reflexivity | now rewrite IHn]. Qed.

Lemma le_split_bytes n x : Forall is_byte (le_split n x).
Proof.
  revert x; induction n; intros x; simpl; constructor; [| apply IHn].
  unfold is_byte. pose proof (Z.mod_pos_bound x 256). lia.
Qed.

#[export] Hint Resolve le_split_bytes : gtab.
#[export] Hint Rewrite length_le_split : gtab_rw.

Lemma le_combine_split n x : le_combine (le_split n x) = x mod 2 ^ (8 * Z.of_nat n).
Proof.
  revert x; induction n as [| n IH]; intros x; simpl le_split; simpl le_combine.
  - rewrite Z.mul_0_r, Z.pow_0_r, Z.mod_1_r. reflexivity.
  - rewrite IH. replace (8 * Z.of_nat (S n)) with (8 + 8 * Z.of_nat n) by lia.
    rewrite Z.pow_add_r by lia. change (2 ^ 8) with 256.
    rewrite Z.rem_mul_r by (try apply Z.pow_pos_nonneg; lia). lia.
Qed.

Lemma le_combine_bound bs :
  Forall is_byte bs -> 0 <= le_combine bs < 2 ^ (8 * Z.of_nat (length bs)).
Proof.
  induction 1 as [| b t Hb Ht IH]; simpl; [lia |].
  unfold is_byte in Hb. replace (8 * Z.of_nat (S (length t))) with (8 + 8 * Z.of_nat (length t)) by lia.
  rewrite Z.pow_add_r by lia. change (2 ^ 8) with 256. lia.
Qed.

Lemma pack_uint_length w v bs : pack_uint w v = Some bs -> length bs = w.
Proof.
  unfold pack_uint. destruct (_ && _); intros H; inversion H. apply length_le_split.
Qed.

Lemma pack_sint_length w v bs : pack_sint w v = Some bs -> length bs = w.
Proof.
  unfold pack_sint. destruct (_ && _); intros H; inversion H. apply length_le_split.
Qed.

Lemma pack_uint_bytes w v bs : pack_uint w v = Some bs -> Forall is_byte bs.
Proof.
  unfold pack_uint. destruct (_ && _); intros H; inversion H. auto with gtab.
Qed.

Lemma pack_sint_bytes w v bs : pack_sint w v = Some bs -> Forall is_byte bs.
Proof.
  unfold pack_sint. destruct (_ && _); intros H; inversion H. auto with gtab.
Qed.

(** Packing succeeds exactly on the field's range. *)
Lemma pack_uint_some w v :
  0 <= v < 2 ^ (8 * Z.of_nat w) -> pack_uint w v = Some (le_split w v).
Proof.
  intros H. unfold pack_uint.
  rewrite (proj2 (Z.leb_le _ _)), (proj2 (Z.ltb_lt _ _)) by lia. reflexivity.
Qed.

Lemma pack_uint_none w v :
  ~ (0 <= v < 2 ^ (8 * Z.of_nat w)) -> pack_uint w v = None.
Proof.
  intros H. unfold pack_uint.
  destruct (Z.leb_spec 0 v), (Z.ltb_spec v (2 ^ (8 * Z.of_nat w))); simpl; auto; lia.
Qed.

Lemma pack_sint_some w v :
  - 2 ^ (8 * Z.of_nat w - 1) <= v < 2 ^ (8 * Z.of_nat w - 1) ->
  exists bs, pack_sint w v = Some bs.
Proof.
  intros H. unfold pack_sint.
  rewrite (proj2 (Z.leb_le _ _)), (proj2 (Z.ltb_lt _ _)) by lia. eauto.
Qed.

(** Round trips: what [struct.pack] writes, [struct.unpack] reads back. *)
Lemma unpack_pack_uint w v bs : pack_uint w v = Some bs -> unpack_uint w bs = Some v.
Proof.
  unfold pack_uint, unpack_uint.
  destruct (Z.leb_spec 0 v), (Z.ltb_spec v (2 ^ (8 * Z.of_nat w))); simpl;
    intros E; inversion E; subst.
  autorewrite with gtab_rw. rewrite Nat.eqb_refl, le_combine_split, Z.mod_small by lia.
  reflexivity.
Qed.

Lemma unpack_pack_sint w v bs :
  (0 < w)%nat -> pack_sint w v = Some bs -> unpack_sint w bs = Some v.
Proof.
  intros Hw. unfold pack_sint, unpack_sint.
  set (h := 2 ^ (8 * Z.of_nat w - 1)).
  assert (Hm : 2 ^ (8 * Z.of_nat w) = 2 * h).
  { unfold h. rewrite <- (Z.pow_1_r 2) at 2. rewrite <- Z.pow_add_r by lia. f_equal; lia. }
  assert (Hh : 0 < h) by (apply Z.pow_pos_nonneg; lia).
  destruct (Z.leb_spec (- h) v), (Z.ltb_spec v h); simpl; intros E; inversion E; subst.
  autorewrite with gtab_rw. rewrite Nat.eqb_refl, le_combine_split, Z.mod_mod by lia.
  rewrite Hm. f_equal.
  destruct (Z.leb_spec 0 v).
  - rewrite Z.mod_small by lia. destruct (Z.ltb_spec v h); lia.
  - assert (Hv : v mod (2 * h) = v + 2 * h).
    { rewrite <- (Z.mod_small (v + 2 * h) (2 * h)) by lia.
      rewrite Z.add_mod, Z.mod_same, Z.add_0_r, Z.mod_mod by lia. reflexivity. }
    rewrite Hv. destruct (Z.ltb_spec (v + 2 * h) h); lia.
Qed.

Lemma unpack_uint_length w bs : length bs <> w -> unpack_uint w bs = None.
Proof. intros H. unfold unpack_uint. apply Nat.eqb_neq in H. now rewrite H. Qed.

Lemma unpack_sint_length w bs : length bs <> w -> unpack_sint w bs = None.
Proof. intros H. unfold unpack_sint. apply Nat.eqb_neq in H. now rewrite H. Qed.

Lemma unpack_uint_bound w bs v :
  Forall is_byte bs -> unpack_uint w bs = Some v -> 0 <= v < 2 ^ (8 * Z.of_nat w).
Proof.
  intros Hb. unfold unpack_uint. destruct (Nat.eqb_spec (length bs) w) as [<- |]; intros E;
    inversion E; subst. now apply le_combine_bound.
Qed.
(** [struct.pack('<q', v)] succeeds exactly on [[-2^63, 2^63)], writes
    eight bytes, and [struct.unpack('<q', ...)] reads [v] back: the
    header's epoch and interval survive the file, negative values
    included. *)
Theorem pack_q_roundtrip (v : Z) :
  - 2 ^ 63 <= v < 2 ^ 63 ->
  exists bs, pack_q v = Some bs /\ length bs = 8%nat /\ Forall is_byte bs /\ unpack_q bs = Some v.
Proof.
  intros Hv. destruct (pack_sint_some 8 v) as [bs E]; [simpl; lia |].
  exists bs. split; [exact E |]. split; [exact (pack_sint_length _ _ _ E) |].
  split; [exact (pack_sint_bytes _ _ _ E) | exact (unpack_pack_sint 8 v bs ltac:(lia) E)].
Qed.

Lemma pack_q_roundtrip_witness :
  exists bs, pack_q (-1) = Some bs /\ length bs = 8%nat /\ Forall is_byte bs /\ unpack_q bs = Some (-1).
Proof. apply pack_q_roundtrip. simpl. lia. Defined.

End Struct.

#[export] Hint Resolve Struct.pack_uint_bytes Struct.pack_sint_bytes : gtab.
