(* ===== verification/Format.v ===== *)
(** * The GTAB v1 binary layout and its writer

    Models [write_gtab] of src/scripts/ephem/generate.py: a 47-byte header
    (magic [GTAB1], version, epoch, interval in ns, sample count, field
    mask, 16 reserved zero bytes) followed by one fixed-width record per
    sample, whose fields are selected by the mask ([FIELD_TIDE_BPS] as a
    [<H], then [FIELD_TIDE_RAW] as a [<f]).  The theorems give the size of
    the file, the offset at which each field of the header and of each
    record lands (the layout table of the spec), and that every element
    written is a byte. *)

From Stdlib Require Import QArith ZArith Lia List.
From stdpp Require Import base list.
From S2P Require Import Prelude Bytes.
Import ListNotations.

Local Open Scope Z_scope.

Module GtabFormat.
Import Struct.

(** [MAGIC = b"GTAB1"] *)
Definition MAGIC : list Z := [71; 84; 65; 66; 49].
Definition VERSION : Z := 1.
Definition FIELD_TIDE_BPS : Z := 1.
Definition FIELD_TIDE_RAW : Z := 2.
(** [5+2+8+8+4+4+16], the header size both scripts use. *)
Definition HEADER_SIZE : nat := 47.

(** A sample as [compute_series] builds it: [(bp, float(v))]. *)
Definition sample : Type := (Z * Q)%type.

(** [fields_mask & FIELD]: a field is present when its bit is set. *)
Definition has_field (mask field : Z) : bool := negb (Z.land mask field =? 0).

Section Writer.
(** [struct.pack('<f', raw)]: the binary32 rounding of a float is not
    modelled; the writer is parametric in it, and it yields four bytes
    or raises. *)
Context (pack_f : Q -> option (list Z)).
Hypothesis pack_f_len : forall q bs, pack_f q = Some bs -> length bs = 4%nat.
Hypothesis pack_f_bytes : forall q bs, pack_f q = Some bs -> Forall is_byte bs.

Definition gtab_header (epoch dt_ns : Z) (count : nat) (fields_mask : Z) : option (list Z) :=
  v ← pack_H VERSION;
  e ← pack_q epoch;
  d ← pack_q dt_ns;
  n ← pack_I (Z.of_nat count);
  m ← pack_I fields_mask;
  Some (MAGIC ++ v ++ e ++ d ++ n ++ m ++ repeat 0 16).

(** One iteration of the record loop of [write_gtab]. *)
Definition pack_record (fields_mask : Z) (s : sample) : option (list Z) :=
  a ← (if has_field fields_mask FIELD_TIDE_BPS then pack_H s.1 else Some []);
  b ← (if has_field fields_mask FIELD_TIDE_RAW then pack_f s.2 else Some []);
  Some (a ++ b).

Fixpoint pack_records (fields_mask : Z) (samples : list sample) : option (list Z) :=
  match samples with
  | [] => Some []
  | s :: rest =>
      r ← pack_record fields_mask s;
      rs ← pack_records fields_mask rest;
      Some (r ++ rs)
  end.

(** The bytes [write_gtab] writes to [path], or [None] when a
    [struct.pack] raises (and nothing is written). *)
Definition write_gtab (epoch dt_ns : Z) (samples : list sample) (fields_mask : Z)
  : option (list Z) :=
  hdr ← gtab_header epoch dt_ns (length samples) fields_mask;
  recs ← pack_records fields_mask samples;
  Some (hdr ++ recs).

(** The record width the layout implies: 2 bytes for [tide_bps], 4 for
    [tide_raw]. *)
Definition record_width (fields_mask : Z) : nat :=
  ((if has_field fields_mask FIELD_TIDE_BPS then 2 else 0)
   + (if has_field fields_mask FIELD_TIDE_RAW then 4 else 0))%nat.

(** The offset of [tide_raw] in a record: after [tide_bps] when present. *)
Definition bps_width (fields_mask : Z) : nat :=
  if has_field fields_mask FIELD_TIDE_BPS then 2 else 0.

(** What a sample must satisfy for its record to pack: basis points in
    [[0, 65536)] when that field is present, a packable float when the
    raw field is. *)
Definition record_packable (fields_mask : Z) (s : sample) : Prop :=
  let (b, r) := s in
  (has_field fields_mask FIELD_TIDE_BPS = true -> 0 <= b < 2 ^ 16) /\
  (has_field fields_mask FIELD_TIDE_RAW = true -> pack_f r <> None).

Lemma gtab_header_length epoch dt_ns count mask hdr :
  gtab_header epoch dt_ns count mask = Some hdr -> length hdr = HEADER_SIZE.
Proof.
  unfold gtab_header. intros H. simplify_option_eq.
  repeat match goal with
  | E : pack_H _ = Some _ |- _ => apply pack_uint_length in E
  | E : pack_I _ = Some _ |- _ => apply pack_uint_length in E
  | E : pack_q _ = Some _ |- _ => apply pack_sint_length in E
  end.
  rewrite !length_app. unfold HEADER_SIZE. simpl. lia.
Qed.

Lemma gtab_header_shape epoch dt_ns count mask hdr :
  gtab_header epoch dt_ns count mask = Some hdr ->
  exists v e d n m,
    hdr = MAGIC ++ v ++ e ++ d ++ n ++ m ++ repeat 0 16 /\
    pack_H VERSION = Some v /\ pack_q epoch = Some e /\ pack_q dt_ns = Some d /\
    pack_I (Z.of_nat count) = Some n /\ pack_I mask = Some m.
Proof.
  unfold gtab_header. intros H.
  destruct (pack_H VERSION) as [v |] eqn:Ev; [| discriminate H]; simpl in H.
  destruct (pack_q epoch) as [e |] eqn:Ee; [| discriminate H]; simpl in H.
  destruct (pack_q dt_ns) as [d |] eqn:Ed; [| discriminate H]; simpl in H.
  destruct (pack_I (Z.of_nat count)) as [n |] eqn:En; [| discriminate H]; simpl in H.
  destruct (pack_I mask) as [m |] eqn:Em; [| discriminate H]; simpl in H.
  injection H as <-. exists v, e, d, n, m. auto 7.
Qed.

Lemma pack_record_length mask s r :
  pack_record mask s = Some r -> length r = record_width mask.
Proof.
  unfold pack_record, record_width. intros H.
  destruct (has_field mask FIELD_TIDE_BPS), (has_field mask FIELD_TIDE_RAW);
    simplify_option_eq; rewrite ?length_app;
    repeat match goal with
    | E : pack_H _ = Some _ |- _ => apply pack_uint_length in E; rewrite E
    | E : pack_f _ = Some _ |- _ => apply pack_f_len in E; rewrite E
    end; reflexivity.
Qed.

Lemma pack_records_length mask samples recs :
  pack_records mask samples = Some recs -> length recs = (length samples * record_width mask)%nat.
Proof.
  revert recs; induction samples as [| s rest IH]; intros recs H; simpl in H.
  - injection H as <-. reflexivity.
  - destruct (pack_record mask s) as [r |] eqn:E1; [| discriminate H]; simpl in H.
    destruct (pack_records mask rest) as [rs |] eqn:E2; [| discriminate H]; simpl in H.
    injection H as <-.
    rewrite length_app, (pack_record_length _ _ _ E1), (IH _ eq_refl). simpl. lia.
Qed.

Lemma pack_records_bps_at mask samples recs i b r :
  has_field mask FIELD_TIDE_BPS = true ->
  pack_records mask samples = Some recs -> samples !! i = Some (b, r) ->
  pack_H b = Some (take 2 (drop (i * record_width mask) recs)).
Proof.
  intros Hb. revert recs i; induction samples as [| s rest IH]; intros recs i H Hi;
    [discriminate Hi |]; simpl in H.
  destruct (pack_record mask s) as [r0 |] eqn:E1; [| discriminate H]; simpl in H.
  destruct (pack_records mask rest) as [rs |] eqn:E2; [| discriminate H]; simpl in H.
  injection H as <-. destruct i as [| i]; simpl in Hi.
  - injection Hi as ->. unfold pack_record in E1. rewrite Hb in E1. simpl in E1.
    destruct (pack_H b) as [a |] eqn:Ea; [| discriminate E1]. simpl in E1.
    destruct (if has_field mask FIELD_TIDE_RAW then pack_f r else Some [])
      as [c |]; [| discriminate E1]. simpl in E1. injection E1 as <-.
    rewrite Nat.mul_0_l, drop_0, <- app_assoc, take_app_length'; [reflexivity |].
    symmetry. apply (pack_uint_length _ _ _ Ea).
  - rewrite drop_app_ge by (rewrite (pack_record_length _ _ _ E1); lia).
    rewrite (pack_record_length _ _ _ E1).
    replace (S i * record_width mask - record_width mask)%nat with (i * record_width mask)%nat by lia.
    exact (IH _ _ eq_refl Hi).
Qed.

Lemma pack_records_raw_at mask samples recs i b r :
  has_field mask FIELD_TIDE_RAW = true ->
  pack_records mask samples = Some recs -> samples !! i = Some (b, r) ->
  pack_f r = Some (take 4 (drop (i * record_width mask + bps_width mask) recs)).
Proof.
  intros Hr. revert recs i; induction samples as [| s rest IH]; intros recs i H Hi;
    [discriminate Hi |]; simpl in H.
  destruct (pack_record mask s) as [r0 |] eqn:E1; [| discriminate H]; simpl in H.
  destruct (pack_records mask rest) as [rs |] eqn:E2; [| discriminate H]; simpl in H.
  injection H as <-. destruct i as [| i]; simpl in Hi.
  - injection Hi as ->. unfold pack_record in E1. rewrite Hr in E1. cbn [fst snd] in E1.
    destruct (if has_field mask FIELD_TIDE_BPS then pack_H b else Some []) as [a |] eqn:Ea;
      [| discriminate E1]. simpl in E1.
    destruct (pack_f r) as [c |] eqn:Ec; [| discriminate E1]. simpl in E1. injection E1 as <-.
    assert (La : length a = bps_width mask).
    { unfold bps_width. destruct (has_field mask FIELD_TIDE_BPS);
        [apply (pack_uint_length _ _ _ Ea) | injection Ea as <-; reflexivity]. }
    rewrite Nat.mul_0_l, Nat.add_0_l, <- app_assoc, <- La, drop_app_length, take_app_length'; [reflexivity |].
    symmetry. apply (pack_f_len _ _ Ec).
  - rewrite drop_app_ge by (rewrite (pack_record_length _ _ _ E1); lia).
    rewrite (pack_record_length _ _ _ E1).
    replace (S i * record_width mask + bps_width mask - record_width mask)%nat
      with (i * record_width mask + bps_width mask)%nat by lia.
    exact (IH _ _ eq_refl Hi).
Qed.

Lemma pack_records_some mask samples :
  Forall (record_packable mask) samples -> exists recs, pack_records mask samples = Some recs.
Proof.
  induction 1 as [| [b r] rest [Hb Hr] _ [rs IH]]; [eauto |]. cbn [pack_records].
  assert (Ha : exists a, (if has_field mask FIELD_TIDE_BPS then pack_H b else Some []) = Some a).
  { destruct (has_field mask FIELD_TIDE_BPS); [| eauto].
    exists (le_split 2 b). apply pack_uint_some. simpl. lia. }
  assert (Hc : exists c, (if has_field mask FIELD_TIDE_RAW then pack_f r else Some []) = Some c).
  { destruct (has_field mask FIELD_TIDE_RAW); [| eauto].
    destruct (pack_f r); [eauto | now destruct Hr]. }
  destruct Ha as [a Ea], Hc as [c Ec].
  unfold pack_record; cbn [fst snd]. rewrite Ea, bind_Some, Ec, bind_Some, bind_Some, IH. eauto.
Qed.

(** [write_gtab] raises no [struct.error] when the header fields are in
    range and every record packs. *)
Lemma write_gtab_some epoch dt_ns samples mask :
  - 2 ^ 63 <= epoch < 2 ^ 63 -> - 2 ^ 63 <= dt_ns < 2 ^ 63 ->
  (Z.of_nat (length samples) < 2 ^ 32) -> 0 <= mask < 2 ^ 32 ->
  Forall (record_packable mask) samples ->
  exists f, write_gtab epoch dt_ns samples mask = Some f.
Proof.
  intros He Hd Hn Hm Hs. unfold write_gtab, gtab_header.
  destruct (pack_sint_some 8 epoch) as [e Ee]; [simpl; lia |].
  destruct (pack_sint_some 8 dt_ns) as [d Ed]; [simpl; lia |].
  destruct (pack_records_some _ _ Hs) as [recs Er].
  unfold pack_H, pack_q, pack_I. rewrite Ee, Ed, Er.
  rewrite (pack_uint_some 2 VERSION), (pack_uint_some 4 (Z.of_nat _)), (pack_uint_some 4 mask)
    by (unfold VERSION; simpl; lia).
  simpl. eauto.
Qed.

Lemma write_gtab_first_record epoch dt_ns s0 rest mask f :
  write_gtab epoch dt_ns (s0 :: rest) mask = Some f ->
  exists hdr r0 recs, f = hdr ++ r0 ++ recs /\ length hdr = HEADER_SIZE /\
    pack_record mask s0 = Some r0.
Proof.
  unfold write_gtab. intros H.
  destruct (gtab_header _ _ _ _) as [hdr |] eqn:Eh; [| discriminate H]; simpl in H.
  simpl in H. destruct (pack_record mask s0) as [r0 |] eqn:E1; [| discriminate H]; simpl in H.
  destruct (pack_records mask rest) as [rs |]; [| discriminate H]; simpl in H.
  injection H as <-. exists hdr, r0, rs. split; [reflexivity |].
  split; [exact (gtab_header_length _ _ _ _ _ Eh) | reflexivity].
Qed.

Lemma write_gtab_shape epoch dt_ns samples mask f :
  write_gtab epoch dt_ns samples mask = Some f ->
  exists hdr recs, f = hdr ++ recs /\
    gtab_header epoch dt_ns (length samples) mask = Some hdr /\
    pack_records mask samples = Some recs.
Proof. unfold write_gtab. intros H. simplify_option_eq. eauto. Qed.

(** The file [write_gtab] produces has the header and [count] records
    of [record_width mask] bytes. *)
Theorem write_gtab_length epoch dt_ns samples mask f :
  write_gtab epoch dt_ns samples mask = Some f ->
  length f = (HEADER_SIZE + length samples * record_width mask)%nat.
Proof.
  unfold write_gtab.
  destruct (gtab_header _ _ _ _) as [hdr |] eqn:Eh; [| discriminate]; simpl.
  destruct (pack_records _ _) as [recs |] eqn:Er; [| discriminate]; simpl.
  intros H; injection H as <-.
  rewrite length_app, (gtab_header_length _ _ _ _ _ Eh), (pack_records_length _ _ _ Er).
  reflexivity.
Qed.

(** With the [tide_bps] field present, sample [i]'s basis points are
    the two bytes at [HEADER_SIZE + i * record_width mask]. *)
Theorem write_gtab_bps_at epoch dt_ns samples mask f i b r :
  has_field mask FIELD_TIDE_BPS = true ->
  write_gtab epoch dt_ns samples mask = Some f -> samples !! i = Some (b, r) ->
  pack_H b = Some (take 2 (drop (HEADER_SIZE + i * record_width mask) f)).
Proof.
  intros Hb H Hi. unfold write_gtab in H.
  destruct (gtab_header _ _ _ _) as [hdr |] eqn:Eh; [| discriminate H]; simpl in H.
  destruct (pack_records _ _) as [recs |] eqn:Er; [| discriminate H]; simpl in H.
  injection H as <-.
  rewrite <- (gtab_header_length _ _ _ _ _ Eh), <- drop_drop, drop_app_length.
  exact (pack_records_bps_at _ _ _ _ _ _ Hb Er Hi).
Qed.
(** With the [tide_raw] field present, sample [i]'s float is the four
    bytes after its basis points, if any. *)
Theorem write_gtab_raw_at epoch dt_ns samples mask f i b r :
  has_field mask FIELD_TIDE_RAW = true ->
  write_gtab epoch dt_ns samples mask = Some f -> samples !! i = Some (b, r) ->
  pack_f r = Some (take 4 (drop (HEADER_SIZE + i * record_width mask + bps_width mask) f)).
Proof.
  intros Hr H Hi. destruct (write_gtab_shape _ _ _ _ _ H) as (hdr & recs & -> & Eh & Er).
  rewrite <- (gtab_header_length _ _ _ _ _ Eh), <- Nat.add_assoc, <- drop_drop, drop_app_length.
  exact (pack_records_raw_at _ _ _ _ _ _ Hr Er Hi).
Qed.

Lemma gtab_header_bytes epoch dt_ns count mask hdr :
  gtab_header epoch dt_ns count mask = Some hdr -> Forall is_byte hdr.
Proof.
  intros H. destruct (gtab_header_shape _ _ _ _ _ H) as (v & e & d & n & m & -> & Ev & Ee & Ed & En & Em).
  apply pack_uint_bytes in Ev, En, Em. apply pack_sint_bytes in Ee, Ed.
  rewrite !Forall_app. unfold MAGIC. repeat split; auto.
  - repeat constructor; unfold is_byte; lia.
  - apply List.Forall_forall. intros x Hx. apply repeat_spec in Hx as ->. unfold is_byte. lia.
Qed.

Lemma pack_records_bytes mask samples recs :
  pack_records mask samples = Some recs -> Forall is_byte recs.
Proof.
  revert recs; induction samples as [| [b r] rest IH]; intros recs H; simpl in H.
  - injection H as <-. constructor.
  - unfold pack_record in H. cbn [fst snd] in H. simplify_option_eq.
    rewrite !Forall_app. repeat split; [| | eauto];
      repeat case_match; simplify_eq;
      eauto using pack_uint_bytes.
Qed.

(** Type: every element of the byte string [write_gtab] writes is a
    byte, an integer in [[0, 256)]: the header's packed fields, the
    magic, the reserved zeros and every record's packed fields. *)
Theorem write_gtab_bytes epoch dt_ns samples mask f :
  write_gtab epoch dt_ns samples mask = Some f -> Forall is_byte f.
Proof.
  intros H. destruct (write_gtab_shape _ _ _ _ _ H) as (hdr & recs & -> & Eh & Er).
  apply Forall_app. eauto using gtab_header_bytes, pack_records_bytes.
Qed.
End Writer.

(** ** The layout of the spec's table *)

Lemma write_gtab_header_fields pack_f epoch dt_ns samples mask f :
  write_gtab pack_f epoch dt_ns samples mask = Some f ->
  take 5 f = MAGIC /\ unpack_H (py_slice 5 7 f) = Some VERSION /\
  unpack_q (py_slice 7 15 f) = Some epoch /\ unpack_q (py_slice 15 23 f) = Some dt_ns /\
  unpack_I (py_slice 23 27 f) = Some (Z.of_nat (length samples)) /\
  unpack_I (py_slice 27 31 f) = Some mask.
Proof.
  intros Hw.
  destruct (write_gtab_shape _ _ _ _ _ _ Hw) as (hdr & recs & -> & Hh & _).
  destruct (gtab_header_shape _ _ _ _ _ Hh) as (v & e & d & n & m & -> & Hv & He & Hd & Hn & Hm).
  assert (Lv := pack_uint_length _ _ _ Hv). assert (Le := pack_sint_length _ _ _ He).
  assert (Ld := pack_sint_length _ _ _ Hd). assert (Ln := pack_uint_length _ _ _ Hn).
  assert (Lm := pack_uint_length _ _ _ Hm). assert (LM : length MAGIC = 5%nat) by reflexivity.
  rewrite <- !app_assoc. split; [reflexivity |]. repeat split.
  - slice_field. apply unpack_pack_uint. exact Hv.
  - slice_field. apply unpack_pack_sint; [lia | exact He].
  - slice_field. apply unpack_pack_sint; [lia | exact Hd].
  - slice_field. apply unpack_pack_uint. exact Hn.
  - slice_field. apply unpack_pack_uint. exact Hm.
Qed.

Lemma write_gtab_padding pack_f epoch dt_ns samples mask f :
  write_gtab pack_f epoch dt_ns samples mask = Some f -> py_slice 31 47 f = repeat 0 16.
Proof.
  intros Hw.
  destruct (write_gtab_shape _ _ _ _ _ _ Hw) as (hdr & recs & -> & Hh & _).
  destruct (gtab_header_shape _ _ _ _ _ Hh) as (v & e & d & n & m & -> & Hv & He & Hd & Hn & Hm).
  assert (Lv := pack_uint_length _ _ _ Hv). assert (Le := pack_sint_length _ _ _ He).
  assert (Ld := pack_sint_length _ _ _ Hd). assert (Ln := pack_uint_length _ _ _ Hn).
  assert (Lm := pack_uint_length _ _ _ Hm). assert (LM : length MAGIC = 5%nat) by reflexivity.
  assert (LR : length (repeat 0 16) = 16%nat) by reflexivity.
  rewrite <- !app_assoc. slice_field. reflexivity.
Qed.

(** C18. The file [write_gtab] writes has the layout of the spec's table
    (section 6), little-endian: at offset 0 the magic, at 5 the version
    ([<H]), at 7 the epoch and at 15 the interval ([<q]), at 23 the
    sample count and at 27 the field mask ([<I]), 16 zero bytes at 31;
    then, from offset 47, one record of [record_width mask] bytes per
    sample, in order, each with [tide_bps] ([<H]) first and [tide_raw]
    ([<f]) after it when the mask selects them. *)
Theorem write_gtab_layout pack_f epoch dt_ns samples mask f :
  (forall q bs, pack_f q = Some bs -> length bs = 4%nat) ->
  write_gtab pack_f epoch dt_ns samples mask = Some f ->
  (take 5 f = MAGIC /\ unpack_H (py_slice 5 7 f) = Some VERSION /\
   unpack_q (py_slice 7 15 f) = Some epoch /\ unpack_q (py_slice 15 23 f) = Some dt_ns /\
   unpack_I (py_slice 23 27 f) = Some (Z.of_nat (length samples)) /\
   unpack_I (py_slice 27 31 f) = Some mask /\ py_slice 31 47 f = repeat 0 16) /\
  length f = (47 + length samples * record_width mask)%nat /\
  (forall i b r, samples !! i = Some (b, r) ->
     (has_field mask FIELD_TIDE_BPS = true ->
        unpack_H (py_slice (47 + i * record_width mask) (47 + i * record_width mask + 2) f) = Some b) /\
     (has_field mask FIELD_TIDE_RAW = true ->
        pack_f r = Some (py_slice (47 + i * record_width mask + bps_width mask)
                                  (47 + i * record_width mask + bps_width mask + 4) f))).
Proof.
  intros Hf Hw. split; [| split].
  - destruct (write_gtab_header_fields _ _ _ _ _ _ Hw) as (H1 & H2 & H3 & H4 & H5 & H6).
    repeat split; try assumption. exact (write_gtab_padding _ _ _ _ _ _ Hw).
  - exact (write_gtab_length pack_f Hf _ _ _ _ _ Hw).
  - intros i b r Hi. split.
    + intros Hb. unfold py_slice. replace (47 + i * record_width mask + 2 - (47 + i * record_width mask))%nat
        with 2%nat by lia.
      apply unpack_pack_uint. eapply write_gtab_bps_at; eauto.
    + intros Hr. unfold py_slice.
      replace (47 + i * record_width mask + bps_width mask + 4 - (47 + i * record_width mask + bps_width mask))%nat
        with 4%nat by lia.
      eapply write_gtab_raw_at; eauto.
Qed.

(** ** Example: two samples with both fields, six bytes each *)

Lemma write_gtab_length_witness :
  exists f, write_gtab (fun _ => Some [0; 0; 128; 63]) 0 (10 ^ 9) [(0, 1%Q); (10000, 1%Q)] 3 = Some f /\
    length f = (HEADER_SIZE + 2 * record_width 3)%nat.
Proof.
  eexists. split; [vm_compute; reflexivity |].
  apply (write_gtab_length (fun _ => Some [0; 0; 128; 63])
           ltac:(intros q bs E; injection E as <-; reflexivity) 0 (10 ^ 9) [(0, 1%Q); (10000, 1%Q)] 3).
  vm_compute. reflexivity.
Defined.

(** The witness's [pack_f] is the constant encoding of [1.0] as a [<f]. *)
Lemma write_gtab_bytes_witness :
  (forall q bs, (fun _ : Q => Some [0; 0; 128; 63]) q = Some bs -> Forall is_byte bs) /\
  exists f, write_gtab (fun _ => Some [0; 0; 128; 63]) 0 (10 ^ 9) [(0, 1%Q); (10000, 1%Q)] 3 = Some f /\
    Forall is_byte f.
Proof.
  assert (Hb : forall q bs, (fun _ : Q => Some [0; 0; 128; 63]) q = Some bs -> Forall is_byte bs).
  { intros q bs E; injection E as <-. repeat constructor; unfold is_byte; lia. }
  split; [exact Hb |].
  eexists. split; [vm_compute; reflexivity |].
  apply (write_gtab_bytes (fun _ => Some [0; 0; 128; 63]) Hb 0 (10 ^ 9) [(0, 1%Q); (10000, 1%Q)] 3).
  vm_compute. reflexivity.
Defined.

(** Two samples with both fields ([1.0] packs as [00 00 80 3f]): the
    second record starts at [47 + 6]. *)
Lemma write_gtab_layout_witness :
  exists f, write_gtab (fun _ => Some [0; 0; 128; 63]) 0 (10 ^ 9) [(0, 1%Q); (10000, 1%Q)] 3 = Some f /\
  py_slice 53 55 f = [16; 39] /\
  (unpack_H (py_slice (47 + 1 * record_width 3) (47 + 1 * record_width 3 + 2) f) = Some 10000 /\
   (fun _ : Q => Some [0; 0; 128; 63]) 1%Q =
     Some (py_slice (47 + 1 * record_width 3 + bps_width 3) (47 + 1 * record_width 3 + bps_width 3 + 4) f)).
Proof.
  eexists. split; [vm_compute; reflexivity |]. split; [vm_compute; reflexivity |].
  destruct (write_gtab_layout (fun _ => Some [0; 0; 128; 63]) 0 (10 ^ 9) [(0, 1%Q); (10000, 1%Q)] 3 _
              ltac:(intros q bs E; injection E as <-; reflexivity) ltac:(vm_compute; reflexivity))
    as (_ & _ & Hrec).
  destruct (Hrec 1%nat 10000 1%Q eq_refl) as [Hb Hr]. split; [apply Hb | apply Hr]; reflexivity.
Defined.

End GtabFormat.
