(* ===== verification/Decoder.v ===== *)
(** * Reading GTAB tables: header validation and interpolated lookup

    Models [read_gtab_header] and [gtab_lookup_tide_bps] of
    src/scripts/ephem/validation/compute_metrics.py on the file's bytes.
    The header reader is characterised exactly ([read_gtab_header_spec]):
    it accepts a file iff its magic and version are right, its timing
    fields unpack and are positive.  The lookup is shown to reject
    timestamps outside the table, to return stored samples at integral
    positions, and to stay between its two neighbours when it
    interpolates.  The lookup reads records as 2 bytes wide whatever the
    field mask says; [Format.GtabFormat.write_gtab_bps_at] places them
    [record_width mask] apart, and the two agree only for a
    [tide_bps]-only table. *)

From Stdlib Require Import QArith Qround Lqa ZArith Lia List.
From stdpp Require Import base list decidable.
From S2P Require Import Prelude Bytes Format.
Import ListNotations.

Module GtabDecoder.
Import Struct GtabFormat.

Local Open Scope Z_scope.

(** The [ValueError]s of [read_gtab_header], and [struct.error] when the
    file is too short for a field. *)
Inductive header_error : Type :=
| InvalidMagic
| UnsupportedVersion (ver : Z)
| InvalidTiming
| HeaderStructError.

(** The tuple [(epoch, dt_ns, n, fields_mask)] it returns. *)
Record header : Type := mk_header {
  hdr_epoch : Z;
  hdr_dt_ns : Z;
  hdr_count : Z;
  hdr_fields_mask : Z
}.

Definition read_gtab_header (file : list Z) : result header header_error :=
  let hdr := take HEADER_SIZE file in
  if (length hdr <? 5)%nat || negb (bool_decide (take 5 hdr = MAGIC)) then Err InvalidMagic else
  ver <-? of_option HeaderStructError (unpack_H (py_slice 5 7 hdr)) ;;
  if negb (ver =? 1) then Err (UnsupportedVersion ver) else
  epoch <-? of_option HeaderStructError (unpack_q (py_slice 7 15 hdr)) ;;
  dt_ns <-? of_option HeaderStructError (unpack_q (py_slice 15 23 hdr)) ;;
  n <-? of_option HeaderStructError (unpack_I (py_slice 23 27 hdr)) ;;
  fields_mask <-? of_option HeaderStructError (unpack_I (py_slice 27 31 hdr)) ;;
  if (dt_ns <=? 0) || (n =? 0) then Err InvalidTiming
  else Ok (mk_header epoch dt_ns n fields_mask).

(** What an accepted header is, field by field (spec section 3 and the
    table of section 6). *)
Definition header_fields (file : list Z) (h : header) : Prop :=
  take 5 file = MAGIC /\
  unpack_H (py_slice 5 7 file) = Some VERSION /\
  unpack_q (py_slice 7 15 file) = Some (hdr_epoch h) /\
  unpack_q (py_slice 15 23 file) = Some (hdr_dt_ns h) /\
  unpack_I (py_slice 23 27 file) = Some (hdr_count h) /\
  unpack_I (py_slice 27 31 file) = Some (hdr_fields_mask h) /\
  0 < hdr_dt_ns h /\ 0 < hdr_count h.

(** ** The lookup engine *)

(** [IndexError('out of range')], [struct.error] on a short read, and the
    [ZeroDivisionError] of [dt * 1e9 / dt_ns] when [dt_ns = 0]. *)
Inductive lookup_error : Type :=
| OutOfRange
| LookupStructError
| ZeroDivision.

(** [read_u16(idx)]: seek to [header_size + idx * rec_size] with the
    constants [header_size = 47] and [rec_size = 2], read two bytes. *)
Definition read_u16 (file : list Z) (idx : Z) : result Z lookup_error :=
  let off := 47 + idx * 2 in
  of_option LookupStructError (unpack_H (take 2 (drop (Z.to_nat off) file))).

(** [int(v0 + (v1 - v0) * frac + 0.5)] *)
Definition interp (v0 v1 : Z) (frac : Q) : Z :=
  py_int (inject_Z v0 + (inject_Z v1 - inject_Z v0) * frac + (1 # 2))%Q.

(** [pos = dt * 1e9 / dt_ns] with [dt] the seconds from the epoch. *)
Definition sample_pos (epoch dt_ns : Z) (t : Q) : Q :=
  ((t - inject_Z epoch) * inject_Z (10 ^ 9) / inject_Z dt_ns)%Q.

(** The body of [gtab_lookup_tide_bps] from the range check on. *)
Definition lookup_pos (file : list Z) (n : Z) (pos : Q) : result Z lookup_error :=
  if Qlt_bool pos 0 || Qlt_bool (inject_Z (n - 1)) pos then Err OutOfRange else
  let i := py_int pos in
  let frac := (pos - inject_Z i)%Q in
  if Qeq_bool frac 0 then read_u16 file i else
  v0 <-? read_u16 file i ;;
  v1 <-? read_u16 file (Z.min (i + 1) (n - 1)) ;;
  Ok (interp v0 v1 frac).

Definition gtab_lookup_tide_bps (file : list Z) (epoch dt_ns n : Z) (t : Q)
  : result Z lookup_error :=
  if dt_ns =? 0 then Err ZeroDivision else lookup_pos file n (sample_pos epoch dt_ns t).

(** The timestamp of sample [i]: [epoch + i * dt_ns / 1e9] seconds. *)
Definition sample_time (epoch dt_ns : Z) (i : Z) : Q :=
  (inject_Z epoch + inject_Z i * inject_Z dt_ns / inject_Z (10 ^ 9))%Q.

(** ** The header reader *)

Lemma read_gtab_header_unfold (file : list Z) :
  read_gtab_header file =
  if (length (take HEADER_SIZE file) <? 5)%nat || negb (bool_decide (take 5 file = MAGIC))
  then Err InvalidMagic else
  ver <-? of_option HeaderStructError (unpack_H (py_slice 5 7 file)) ;;
  if negb (ver =? 1) then Err (UnsupportedVersion ver) else
  epoch <-? of_option HeaderStructError (unpack_q (py_slice 7 15 file)) ;;
  dt_ns <-? of_option HeaderStructError (unpack_q (py_slice 15 23 file)) ;;
  n <-? of_option HeaderStructError (unpack_I (py_slice 23 27 file)) ;;
  fields_mask <-? of_option HeaderStructError (unpack_I (py_slice 27 31 file)) ;;
  if (dt_ns <=? 0) || (n =? 0) then Err InvalidTiming
  else Ok (mk_header epoch dt_ns n fields_mask).
Proof.
  unfold read_gtab_header, HEADER_SIZE. rewrite take_take, !py_slice_take by lia.
  reflexivity.
Qed.

Lemma read_gtab_header_sound (file : list Z) (h : header) :
  Forall is_byte file -> read_gtab_header file = Ok h -> header_fields file h.
Proof.
  intros Hbytes H. rewrite read_gtab_header_unfold in H. unfold header_fields, VERSION.
  inv_result H; subst; simpl. bool_facts. subst.
  match goal with E : unpack_I (py_slice 23 27 file) = Some _ |- _ =>
    apply unpack_uint_bound in E as ?; [| apply Forall_take, Forall_drop, Hbytes] end.
  repeat split; auto; lia.
Qed.

Lemma read_gtab_header_complete (file : list Z) (h : header) :
  header_fields file h -> read_gtab_header file = Ok h.
Proof.
  rewrite read_gtab_header_unfold. unfold VERSION.
  intros (Hm & Hv & He & Hd & Hn & Hf & Hdt & Hc).
    assert (Hlen : (5 <= length (take HEADER_SIZE file))%nat).
    { pose proof (f_equal length Hm) as L. rewrite !length_take in *.
      change (length MAGIC) with 5%nat in L. unfold HEADER_SIZE. lia. }
    rewrite (proj2 (Nat.ltb_ge _ _) Hlen), Hm, bool_decide_eq_true_2 by reflexivity. simpl.
    rewrite Hv. simpl. rewrite He, Hd, Hn, Hf. simpl.
    rewrite (proj2 (Z.leb_gt _ _) Hdt), (proj2 (Z.eqb_neq _ _)) by lia. simpl.
    destruct h; reflexivity.
Qed.

(** C1. The header contract: on a file of bytes, [read_gtab_header]
    accepts exactly the files whose magic, version and timing fields are
    valid, and returns their fields.  Every malformed header (wrong magic,
    version other than 1, [interval_ns <= 0], [count = 0], or too short)
    is rejected. *)
Theorem read_gtab_header_spec (file : list Z) (h : header) :
  Forall is_byte file ->
  read_gtab_header file = Ok h <-> header_fields file h.
Proof.
  intros Hb. split; [apply read_gtab_header_sound, Hb | apply read_gtab_header_complete].
Qed.

(** ** Round trip: the header [write_gtab] writes is read back *)

(** What the reader makes of any header [write_gtab] writes: its fields,
    or [InvalidTiming] when the interval is not positive or there are no
    samples. *)
Lemma read_gtab_header_written pack_f epoch dt_ns samples mask f :
  write_gtab pack_f epoch dt_ns samples mask = Some f ->
  read_gtab_header f =
    if (dt_ns <=? 0) || (Z.of_nat (length samples) =? 0) then Err InvalidTiming
    else Ok (mk_header epoch dt_ns (Z.of_nat (length samples)) mask).
Proof.
  intros Hw. destruct (write_gtab_header_fields _ _ _ _ _ _ Hw) as (Hm & Hv & He & Hd & Hn & Hf).
  rewrite read_gtab_header_unfold.
  assert (Hlen : (5 <= length (take HEADER_SIZE f))%nat).
  { pose proof (f_equal length Hm) as L. rewrite !length_take in *.
    change (length MAGIC) with 5%nat in L. unfold HEADER_SIZE. lia. }
  rewrite (proj2 (Nat.ltb_ge _ _) Hlen), Hm, bool_decide_eq_true_2 by reflexivity. simpl.
  rewrite Hv. simpl. rewrite He, Hd, Hn, Hf. reflexivity.
Qed.

(** C17. Round trip: the header [write_gtab] writes for a non-empty
    series with a positive interval is read back with the epoch,
    interval, sample count and field mask it was written with. *)
Theorem read_write_gtab_header pack_f epoch dt_ns samples mask f :
  write_gtab pack_f epoch dt_ns samples mask = Some f -> 0 < dt_ns -> samples <> [] ->
  read_gtab_header f =
    Ok (mk_header epoch dt_ns (Z.of_nat (length samples)) mask).
Proof.
  intros Hw Hdt Hne. rewrite (read_gtab_header_written _ _ _ _ _ _ Hw).
  rewrite (proj2 (Z.leb_gt _ _) Hdt), (proj2 (Z.eqb_neq _ _)); [reflexivity |].
  destruct samples; [congruence | simpl; lia].
Qed.

(** ** Lookup *)

#[export] Instance interp_proper v0 v1 : Proper (Qeq ==> eq) (interp v0 v1).
Proof. intros f f' H. unfold interp. now rewrite H. Qed.

#[export] Instance lookup_pos_proper file n : Proper (Qeq ==> eq) (lookup_pos file n).
Proof.
  intros p p' H.
  assert (Hi : py_int p = py_int p') by now rewrite H.
  assert (Hf : (p - inject_Z (py_int p) == p' - inject_Z (py_int p'))%Q) by (rewrite Hi, H; reflexivity).
  unfold lookup_pos.
  rewrite (Qlt_bool_proper p p' H 0%Q 0%Q (Qeq_refl 0%Q)),
    (Qlt_bool_proper _ _ (Qeq_refl (inject_Z (n - 1))) p p' H),
    (Qeq_bool_proper _ _ Hf 0%Q 0%Q (Qeq_refl 0%Q)), Hi.
  destruct (Qlt_bool p' 0%Q || Qlt_bool (inject_Z (n - 1)) p'); [reflexivity |].
  destruct (Qeq_bool (p' - inject_Z (py_int p'))%Q 0%Q); [reflexivity |].
  destruct (read_u16 file (py_int p')); simpl; [| reflexivity].
  destruct (read_u16 file (Z.min (py_int p' + 1) (n - 1))); simpl; [| reflexivity].
  f_equal. apply interp_proper. rewrite <- Hi at 1. exact Hf.
Qed.

Lemma sample_pos_time epoch dt_ns i :
  dt_ns <> 0 -> (sample_pos epoch dt_ns (sample_time epoch dt_ns i) == inject_Z i)%Q.
Proof.
  intros H. unfold sample_pos, sample_time.
  pose proof (inject_Z_nonzero dt_ns H).
  pose proof (inject_Z_nonzero (10 ^ 9) ltac:(lia)).
  field. auto.
Qed.

Lemma sample_pos_before epoch dt_ns t :
  0 < dt_ns -> (t < inject_Z epoch)%Q -> (sample_pos epoch dt_ns t < 0)%Q.
Proof.
  intros Hd Ht. unfold sample_pos, Qdiv.
  assert (G : (0 < inject_Z (10 ^ 9))%Q) by (apply inject_Z_pos; lia).
  assert (D : (0 < / inject_Z dt_ns)%Q) by (apply Qinv_lt_0_compat, inject_Z_pos, Hd).
  assert (A : ((t - inject_Z epoch) * inject_Z (10 ^ 9) < 0)%Q) by nra.
  nra.
Qed.

Lemma sample_pos_after epoch dt_ns n t :
  0 < dt_ns -> (sample_time epoch dt_ns (n - 1) < t)%Q ->
  (inject_Z (n - 1) < sample_pos epoch dt_ns t)%Q.
Proof.
  intros Hd Ht. rewrite <- (sample_pos_time epoch dt_ns (n - 1)) by lia.
  unfold sample_pos, Qdiv.
  assert (G : (0 < inject_Z (10 ^ 9))%Q) by (apply inject_Z_pos; lia).
  assert (D : (0 < / inject_Z dt_ns)%Q) by (apply Qinv_lt_0_compat, inject_Z_pos, Hd).
  assert (A : ((sample_time epoch dt_ns (n - 1) - inject_Z epoch) * inject_Z (10 ^ 9) <
               (t - inject_Z epoch) * inject_Z (10 ^ 9))%Q) by nra.
  nra.
Qed.

(** Range rejection (spec 4.4, 7b): a timestamp before the epoch or
    after the last sample fails with [OutOfRange], never extrapolates. *)
Theorem lookup_out_of_range file epoch dt_ns n t :
  0 < dt_ns ->
  (t < inject_Z epoch \/ sample_time epoch dt_ns (n - 1) < t)%Q ->
  gtab_lookup_tide_bps file epoch dt_ns n t = Err OutOfRange.
Proof.
  intros Hd Ht. unfold gtab_lookup_tide_bps, lookup_pos.
  rewrite (proj2 (Z.eqb_neq dt_ns 0)) by lia.
  destruct Ht as [Ht | Ht].
  - apply (sample_pos_before epoch dt_ns t Hd), Qlt_bool_iff in Ht. now rewrite Ht.
  - apply (sample_pos_after epoch dt_ns n t Hd), Qlt_bool_iff in Ht.
    now rewrite Ht, orb_true_r.
Qed.

(** At the timestamp of a sample the lookup reads that sample's record,
    without interpolation. *)
Theorem lookup_at_sample file epoch dt_ns n i :
  0 < dt_ns -> 0 <= i <= n - 1 ->
  gtab_lookup_tide_bps file epoch dt_ns n (sample_time epoch dt_ns i) = read_u16 file i.
Proof.
  intros Hd Hi. unfold gtab_lookup_tide_bps.
  rewrite (proj2 (Z.eqb_neq dt_ns 0)) by lia.
  rewrite (sample_pos_time epoch dt_ns i) by lia.
  unfold lookup_pos.
  assert (E1 : Qlt_bool (inject_Z i) 0 = false) by (apply Qlt_bool_false, inject_Z_nonneg; lia).
  assert (E2 : Qlt_bool (inject_Z (n - 1)) (inject_Z i) = false) by (apply Qlt_bool_false; zq; lia).
  assert (E3 : py_int (inject_Z i) = i) by (rewrite py_int_nonneg, Qfloor_Z;
    [reflexivity | apply inject_Z_nonneg; lia]).
  rewrite E1, E2, E3. simpl.
  assert (E4 : Qeq_bool (inject_Z i - inject_Z i) 0 = true) by (apply Qeq_bool_iff; ring).
  rewrite E4. reflexivity.
Qed.

(** Interpolation never leaves the interval spanned by its neighbours
    (spec section 8, interpolation bounds). *)
Theorem interp_bounds v0 v1 frac :
  0 <= v0 -> 0 <= v1 -> (0 <= frac < 1)%Q ->
  Z.min v0 v1 <= interp v0 v1 frac <= Z.max v0 v1.
Proof.
  intros H0 H1 Hf. unfold interp.
  set (x := (inject_Z v0 + (inject_Z v1 - inject_Z v0) * frac + (1 # 2))%Q).
  assert (Lo : (inject_Z (Z.min v0 v1) <= x)%Q).
  { unfold x. destruct (Z.min_spec v0 v1) as [[L ->] | [L ->]].
    - assert (inject_Z v0 < inject_Z v1)%Q by (zq; lia). nra.
    - assert (inject_Z v1 <= inject_Z v0)%Q by (zq; lia). nra. }
  assert (Hi : (x < inject_Z (Z.max v0 v1) + 1)%Q).
  { unfold x. destruct (Z.max_spec v0 v1) as [[L ->] | [L ->]].
    - assert (inject_Z v0 < inject_Z v1)%Q by (zq; lia). nra.
    - assert (inject_Z v1 <= inject_Z v0)%Q by (zq; lia). nra. }
  assert (P : (0 <= x)%Q).
  { pose proof (inject_Z_nonneg (Z.min v0 v1) ltac:(lia)). lra. }
  rewrite py_int_nonneg by exact P. split.
  - apply Qfloor_ge_Z. exact Lo.
  - destruct (Qfloor_bounds x) as [F _].
    assert (inject_Z (Qfloor x) < inject_Z (Z.max v0 v1 + 1))%Q
      by (rewrite inject_Z_plus; change (inject_Z 1) with 1%Q; lra).
    zq. lia.
Qed.

Lemma read_gtab_header_dt_pos file h : read_gtab_header file = Ok h -> 0 < hdr_dt_ns h.
Proof.
  rewrite read_gtab_header_unfold. intros H. inv_result H; subst; simpl. bool_facts. lia.
Qed.

Lemma sample_pos_in_range epoch dt_ns n t :
  0 < dt_ns -> (inject_Z epoch <= t <= sample_time epoch dt_ns (n - 1))%Q ->
  (0 <= sample_pos epoch dt_ns t <= inject_Z (n - 1))%Q.
Proof.
  intros Hd [H1 H2]. rewrite <- (sample_pos_time epoch dt_ns (n - 1)) by lia.
  unfold sample_pos, Qdiv.
  assert (G : (0 < inject_Z (10 ^ 9))%Q) by (apply inject_Z_pos; lia).
  assert (D : (0 < / inject_Z dt_ns)%Q) by (apply Qinv_lt_0_compat, inject_Z_pos, Hd).
  assert (A : (0 <= (t - inject_Z epoch) * inject_Z (10 ^ 9))%Q) by nra.
  assert (B : ((t - inject_Z epoch) * inject_Z (10 ^ 9) <=
               (sample_time epoch dt_ns (n - 1) - inject_Z epoch) * inject_Z (10 ^ 9))%Q) by nra.
  split; nra.
Qed.

(** A timestamp inside the table's span is never rejected as out of range. *)
Lemma lookup_in_span file epoch dt_ns n t :
  0 < dt_ns -> (inject_Z epoch <= t <= sample_time epoch dt_ns (n - 1))%Q ->
  gtab_lookup_tide_bps file epoch dt_ns n t <> Err OutOfRange.
Proof.
  intros Hd Ht. destruct (sample_pos_in_range _ _ n _ Hd Ht) as [P1 P2].
  unfold gtab_lookup_tide_bps. rewrite (proj2 (Z.eqb_neq dt_ns 0)) by lia. unfold lookup_pos.
  rewrite (proj2 (Qlt_bool_false _ _) P1), (proj2 (Qlt_bool_false _ _) P2). simpl.
  unfold read_u16.
  destruct (Qeq_bool _ _); [destruct (unpack_H _); discriminate |].
  destruct (unpack_H _); simpl; [| discriminate]. destruct (unpack_H _); discriminate.
Qed.

(** ** Lookup on the tables [write_gtab] produces *)

Lemma read_u16_offset file i :
  0 <= i -> read_u16 file i =
  of_option LookupStructError (unpack_H (take 2 (drop (HEADER_SIZE + Z.to_nat i * 2) file))).
Proof.
  intros Hi. unfold read_u16, HEADER_SIZE. do 4 f_equal. lia.
Qed.

(** On a table whose records hold only the [tide_bps] field, [read_u16]
    at index [i] reads the basis points written for sample [i]. *)
Lemma read_u16_written pack_f epoch dt_ns samples mask f i b r :
  (forall q bs, pack_f q = Some bs -> length bs = 4%nat) ->
  has_field mask FIELD_TIDE_BPS = true -> has_field mask FIELD_TIDE_RAW = false ->
  write_gtab pack_f epoch dt_ns samples mask = Some f -> samples !! i = Some (b, r) ->
  read_u16 f (Z.of_nat i) = Ok b.
Proof.
  intros Hf Hb Hr Hw Hi. rewrite read_u16_offset by lia.
  assert (W : record_width mask = 2%nat) by (unfold record_width; now rewrite Hb, Hr).
  pose proof (write_gtab_bps_at pack_f Hf epoch dt_ns samples mask f i b r Hb Hw Hi) as P.
  rewrite W in P. rewrite Nat2Z.id. apply unpack_pack_uint in P. unfold unpack_H. now rewrite P.
Qed.

(** Round trip (spec section 8): on a table whose records hold only the
    [tide_bps] field, the lookup at sample [i]'s timestamp returns the
    basis points written for sample [i]. *)
Theorem lookup_write_roundtrip pack_f epoch dt_ns samples mask f i b r epoch' :
  (forall q bs, pack_f q = Some bs -> length bs = 4%nat) ->
  has_field mask FIELD_TIDE_BPS = true -> has_field mask FIELD_TIDE_RAW = false ->
  write_gtab pack_f epoch dt_ns samples mask = Some f -> 0 < dt_ns ->
  samples !! i = Some (b, r) ->
  gtab_lookup_tide_bps f epoch' dt_ns (Z.of_nat (length samples))
    (sample_time epoch' dt_ns (Z.of_nat i)) = Ok b.
Proof.
  intros Hf Hb Hr Hw Hd Hi.
  assert (Li : (i < length samples)%nat) by (apply lookup_lt_Some in Hi; exact Hi).
  rewrite lookup_at_sample by lia. exact (read_u16_written _ _ _ _ _ _ _ _ _ Hf Hb Hr Hw Hi).
Qed.

Lemma sample_pos_between epoch dt_ns i fr :
  dt_ns <> 0 ->
  (sample_pos epoch dt_ns (sample_time epoch dt_ns i + fr * inject_Z dt_ns / inject_Z (10 ^ 9))
   == inject_Z i + fr)%Q.
Proof.
  intros H. unfold sample_pos, sample_time.
  pose proof (inject_Z_nonzero dt_ns H).
  pose proof (inject_Z_nonzero (10 ^ 9) ltac:(lia)).
  field. auto.
Qed.

(** C28. Interpolation (spec section 8, scenario A): on a [tide_bps]-only
    table, a timestamp a fraction [fr] of the interval past sample [i]
    reads samples [i] and [i + 1] and returns
    [int(v0 + (v1 - v0) * fr + 0.5)]. *)
Theorem lookup_write_interp pack_f epoch dt_ns samples mask f i b0 r0 b1 r1 fr :
  (forall q bs, pack_f q = Some bs -> length bs = 4%nat) ->
  has_field mask FIELD_TIDE_BPS = true -> has_field mask FIELD_TIDE_RAW = false ->
  write_gtab pack_f epoch dt_ns samples mask = Some f -> 0 < dt_ns ->
  samples !! i = Some (b0, r0) -> samples !! S i = Some (b1, r1) -> (0 < fr < 1)%Q ->
  gtab_lookup_tide_bps f epoch dt_ns (Z.of_nat (length samples))
    (sample_time epoch dt_ns (Z.of_nat i) + fr * inject_Z dt_ns / inject_Z (10 ^ 9)) =
  Ok (interp b0 b1 fr).
Proof.
  intros Hf Hb Hr Hw Hd H0 H1 Hfr.
  assert (L1 : (S i < length samples)%nat) by (apply lookup_lt_Some in H1; exact H1).
  unfold gtab_lookup_tide_bps. rewrite (proj2 (Z.eqb_neq dt_ns 0)) by lia.
  rewrite (sample_pos_between epoch dt_ns (Z.of_nat i) fr) by lia.
  assert (Hi0 : (0 <= inject_Z (Z.of_nat i))%Q) by (apply inject_Z_nonneg; lia).
  assert (Hn : (inject_Z (Z.of_nat i) + 1 <= inject_Z (Z.of_nat (length samples) - 1))%Q).
  { rewrite <- (inject_Z_plus _ 1). zq. lia. }
  assert (Pi : py_int (inject_Z (Z.of_nat i) + fr) = Z.of_nat i).
  { rewrite py_int_nonneg by lra. apply Qfloor_unique; [lra | rewrite inject_Z_plus; change (inject_Z 1) with 1%Q; lra]. }
  unfold lookup_pos. rewrite Pi.
  rewrite (proj2 (Qlt_bool_false _ _)) by lra. rewrite (proj2 (Qlt_bool_false _ _)) by lra. simpl orb.
  assert (Fr : (inject_Z (Z.of_nat i) + fr - inject_Z (Z.of_nat i) == fr)%Q) by ring.
  rewrite (Qeq_bool_proper _ _ Fr 0%Q 0%Q (Qeq_refl _)).
  destruct (Qeq_bool fr 0) eqn:Efr; [apply Qeq_bool_iff in Efr; lra |].
  rewrite Z.min_l by lia.
  rewrite (read_u16_written _ _ _ _ _ _ _ _ _ Hf Hb Hr Hw H0).
  replace (Z.of_nat i + 1)%Z with (Z.of_nat (S i)) by lia.
  rewrite (read_u16_written _ _ _ _ _ _ _ _ _ Hf Hb Hr Hw H1). simpl.
  f_equal. apply interp_proper. exact Fr.
Qed.

(** With both fields present (the encoder's default mask
    [FIELD_TIDE_BPS | FIELD_TIDE_RAW]) records are 6 bytes wide, but
    [gtab_lookup_tide_bps] reads them 2 bytes apart: the lookup at the
    second sample's timestamp returns the first two bytes of the
    [tide_raw] float of sample 0, not the second sample's basis points. *)
Theorem lookup_misreads_raw_field pack_f epoch dt_ns s1 rest mask f b0 r0 rb epoch' :
  (forall q bs, pack_f q = Some bs -> length bs = 4%nat) ->
  has_field mask FIELD_TIDE_BPS = true -> has_field mask FIELD_TIDE_RAW = true ->
  write_gtab pack_f epoch dt_ns ((b0, r0) :: s1 :: rest) mask = Some f -> 0 < dt_ns ->
  pack_f r0 = Some rb ->
  gtab_lookup_tide_bps f epoch' dt_ns (Z.of_nat (length ((b0, r0) :: s1 :: rest)))
    (sample_time epoch' dt_ns 1) = Ok (le_combine (take 2 rb)).
Proof.
  intros Hf Hb Hr Hw Hd Hrb.
  rewrite lookup_at_sample by (simpl length; lia). rewrite read_u16_offset by lia.
  destruct (write_gtab_first_record _ _ _ _ _ _ _ Hw) as (hdr & r & recs & -> & Lh & Er).
  unfold pack_record in Er. rewrite Hb, Hr in Er. simpl in Er.
  destruct (pack_H b0) as [a |] eqn:Ea; [| discriminate Er]. simpl in Er.
  rewrite Hrb in Er. simpl in Er. injection Er as <-.
  pose proof (pack_uint_length _ _ _ Ea) as La. pose proof (Hf _ _ Hrb) as Lrb.
  change (Z.to_nat 1 * 2)%nat with 2%nat. rewrite <- Lh, drop_app_ge by lia.
  rewrite <- app_assoc, drop_app_ge by lia.
  replace (length hdr + 2 - length hdr - length a)%nat with 0%nat by lia.
  rewrite drop_0, take_app_le by lia. unfold unpack_H, unpack_uint.
  rewrite length_take, Lrb. reflexivity.
Qed.

(** ** Examples

    The header of a table of two samples one second apart from epoch 0,
    with the [tide_bps] field only. *)

Lemma read_gtab_header_spec_witness :
  Forall is_byte (MAGIC ++ [1; 0] ++ le_split 8 0 ++ le_split 8 (10 ^ 9) ++ le_split 4 2 ++
                  le_split 4 1 ++ repeat 0 16 ++ [0; 0; 16; 39]) /\
  (read_gtab_header (MAGIC ++ [1; 0] ++ le_split 8 0 ++ le_split 8 (10 ^ 9) ++ le_split 4 2 ++
                     le_split 4 1 ++ repeat 0 16 ++ [0; 0; 16; 39]) = Ok (mk_header 0 (10 ^ 9) 2 1) <->
   header_fields (MAGIC ++ [1; 0] ++ le_split 8 0 ++ le_split 8 (10 ^ 9) ++ le_split 4 2 ++
                  le_split 4 1 ++ repeat 0 16 ++ [0; 0; 16; 39]) (mk_header 0 (10 ^ 9) 2 1)).
Proof.
  assert (B : Forall is_byte (MAGIC ++ [1; 0] ++ le_split 8 0 ++ le_split 8 (10 ^ 9) ++ le_split 4 2 ++
                              le_split 4 1 ++ repeat 0 16 ++ [0; 0; 16; 39]))
    by (vm_compute; repeat constructor; discriminate).
  split; [exact B | exact (read_gtab_header_spec _ _ B)].
Defined.

Lemma read_write_gtab_header_witness :
  exists f, write_gtab (fun _ => Some [0; 0; 128; 63]) 0 (10 ^ 9) [(5000, 1%Q)] 1 = Some f /\
    read_gtab_header f = Ok (mk_header 0 (10 ^ 9) 1 1).
Proof.
  eexists. split; [vm_compute; reflexivity |].
  apply (read_write_gtab_header (fun _ => Some [0; 0; 128; 63]) 0 (10 ^ 9) [(5000, 1%Q)] 1);
    [vm_compute; reflexivity | lia | discriminate].
Defined.

Lemma lookup_out_of_range_witness :
  gtab_lookup_tide_bps [] 0 (10 ^ 9) 2 (-1) = Err OutOfRange.
Proof. apply lookup_out_of_range; [lia | left; vm_compute; reflexivity]. Defined.

Lemma interp_bounds_witness :
  Z.min 1111 2222 <= interp 1111 2222 (1 # 2) <= Z.max 1111 2222.
Proof. apply interp_bounds; [lia | lia | split; vm_compute; [discriminate | reflexivity]]. Defined.

(** Scenario A of spec section 8: ten samples [0, 1111, ..., 8888,
    10000] one second apart; the lookup at [t0 + 4.5 s] is the rounded
    midpoint 5000 of samples 4 and 5. *)
Lemma lookup_write_interp_witness :
  exists f,
    write_gtab (fun _ => Some [0; 0; 128; 63]) 0 (10 ^ 9)
      [(0, 1%Q); (1111, 1%Q); (2222, 1%Q); (3333, 1%Q); (4444, 1%Q);
       (5555, 1%Q); (6666, 1%Q); (7777, 1%Q); (8888, 1%Q); (10000, 1%Q)] 1 = Some f /\
    gtab_lookup_tide_bps f 0 (10 ^ 9) (Z.of_nat 10)
      (sample_time 0 (10 ^ 9) (Z.of_nat 4) + (1 # 2) * inject_Z (10 ^ 9) / inject_Z (10 ^ 9)) =
      Ok (interp 4444 5555 (1 # 2)) /\
    interp 4444 5555 (1 # 2) = 5000.
Proof.
  eexists. split; [vm_compute; reflexivity |]. split; [| vm_compute; reflexivity].
  apply (lookup_write_interp (fun _ => Some [0; 0; 128; 63]) 0 (10 ^ 9)
           [(0, 1%Q); (1111, 1%Q); (2222, 1%Q); (3333, 1%Q); (4444, 1%Q);
            (5555, 1%Q); (6666, 1%Q); (7777, 1%Q); (8888, 1%Q); (10000, 1%Q)] 1 _ 4 4444 1%Q 5555 1%Q);
    [intros q bs E; injection E as <-; reflexivity | reflexivity | reflexivity
    | vm_compute; reflexivity | lia | reflexivity | reflexivity | split; vm_compute; reflexivity].
Defined.

End GtabDecoder.
