(* ===== verification/Normalizer.v ===== *)
(** * The basis-point normalizer

    Models the percentile functions ([percentiles] of generate.py,
    [percentile] of compute_metrics.py) and the mapping of a batch of raw
    proxy values to basis points in [[0, 10000]] that both scripts apply:
    [bp = int(max(0, min(10000, (v - p5) / span * 10000)))] with
    [span = max(p95 - p5, 1e-12)].  Floats are exact rationals here;
    [0.05] and [0.95] are [1/20] and [19/20]. *)

From Stdlib Require Import QArith Qround Lqa ZArith Lia List Sorted.
From stdpp Require Import base list.
From S2P Require Import Prelude.
Import ListNotations.

Local Open Scope Q_scope.

Module Normalizer.

(** [1e-12], the lower bound on the percentile span. *)
Definition SPAN_EPS : Q := 1 # (10 ^ 12).
Definition P5 : Q := 5 # 100.
Definition P95 : Q := 95 # 100.

(** Python's [s[f] * (c - k) + s[c] * (k - f)]; an [IndexError] is [None]. *)
Definition lerp_at (s : list Q) (f c : Z) (k : Q) : option Q :=
  d0 ← (x ← py_index s f; Some (x * (inject_Z c - k)));
  d1 ← (y ← py_index s c; Some (y * (k - inject_Z f)));
  Some (d0 + d1).

(** [percentiles(values, p)] of generate.py: sorts, then interpolates
    between the order statistics around rank [(n-1) * p]. *)
Definition percentiles (values : list Q) (p : Q) : option Q :=
  match values with
  | [] => Some 0
  | _ =>
      let s := py_sorted values in
      let k := inject_Z (Z.of_nat (length s) - 1) * p in
      let f := py_int k in
      let c := Z.min (f + 1) (Z.of_nat (length s) - 1) in
      if (f =? c)%Z then py_index s f else lerp_at s f c k
  end.

(** [percentile(sorted_vals, p)] of compute_metrics.py, on an already
    sorted list and with [math.floor]. *)
Definition percentile (sorted_vals : list Q) (p : Q) : option Q :=
  match sorted_vals with
  | [] => Some 0
  | _ =>
      let k := inject_Z (Z.of_nat (length sorted_vals) - 1) * p in
      let f := Qfloor k in
      let c := Z.min (f + 1) (Z.of_nat (length sorted_vals) - 1) in
      if (f =? c)%Z then py_index sorted_vals f else lerp_at sorted_vals f c k
  end.

(** The per-value mapping [int(max(0.0, min(10000.0, (v - p5) / span * 10000.0)))]. *)
Definition to_bps (p5 span v : Q) : Z :=
  py_int (py_max 0 (py_min 10000 ((v - p5) / span * 10000))).

(** The loop [for v in vals: bp = int(... (v - p5) / span ...)]: Python's
    division by a zero [span] raises [ZeroDivisionError] at the first
    value ([None]); otherwise every value is scaled. *)
Definition scale_batch (p5 span : Q) (vals : list Q) : option (list Z) :=
  match vals with
  | [] => Some []
  | _ => if Qeq_bool span 0 then None else Some (map (to_bps p5 span) vals)
  end.

(** generate.py, [compute_series]: percentiles of the batch, the span
    [max(p95 - p5, 1e-12)], and the basis points of every raw value. *)
Definition normalize_gen (raw_vals : list Q) : option (list Z) :=
  p5 ← percentiles raw_vals P5;
  p95 ← percentiles raw_vals P95;
  let span := py_max (p95 - p5) SPAN_EPS in
  scale_batch p5 span raw_vals.

(** compute_metrics.py, [main]: the validator's own normalization of the
    authoritative values, with [span = p95 - p5 if (p95 - p5) > 1e-12
    else 1e-12]. *)
Definition normalize_val (auth_list : list Q) : option (list Z) :=
  let sorted_auth := py_sorted auth_list in
  p5 ← percentile sorted_auth P5;
  p95 ← percentile sorted_auth P95;
  let span := if Qlt_bool SPAN_EPS (p95 - p5) then p95 - p5 else SPAN_EPS in
  scale_batch p5 span auth_list.

(** ** Percentiles *)

Lemma lerp_at_some s f c k x y :
  py_index s f = Some x -> py_index s c = Some y ->
  lerp_at s f c k = Some (x * (inject_Z c - k) + y * (k - inject_Z f)).
Proof. intros Hx Hy. unfold lerp_at. now rewrite Hx, Hy. Qed.

Lemma percentile_nonempty s p : s <> [] ->
  percentile s p =
    let k := inject_Z (Z.of_nat (length s) - 1) * p in
    let f := Qfloor k in
    let c := Z.min (f + 1) (Z.of_nat (length s) - 1) in
    if (f =? c)%Z then py_index s f else lerp_at s f c k.
Proof. destruct s; [congruence | reflexivity]. Qed.

(** For [0 <= p <= 1] the percentile of a non-empty list exists (no
    [IndexError]) and lies between two of its elements. *)
Lemma percentile_core (s : list Q) (p : Q) :
  s <> [] -> 0 <= p <= 1 ->
  exists q x y, percentile s p = Some q /\ In x s /\ In y s /\
    ((x <= q <= y) \/ (y <= q <= x)).
Proof.
  intros Hne Hp. rewrite percentile_nonempty by exact Hne. cbv zeta.
  set (n := Z.of_nat (length s)).
  assert (Hn : (1 <= n)%Z) by (destruct s; [congruence | unfold n; simpl length; lia]).
  set (k := inject_Z (n - 1) * p).
  assert (Hk : 0 <= k <= inject_Z (n - 1)).
  { pose proof (inject_Z_nonneg (n - 1) ltac:(lia)). unfold k. split; nra. }
  set (f := Qfloor k).
  assert (Hf : (0 <= f <= n - 1)%Z).
  { split; [apply Qfloor_nonneg; lra | apply Qfloor_le_Z; lra]. }
  destruct (Z.eqb_spec f (Z.min (f + 1) (n - 1))) as [E | E].
  - destruct (py_index_some s f ltac:(lia)) as (x & Hx & Ix).
    exists x, x, x. rewrite Hx. repeat split; auto. left; lra.
  - assert (Hc : Z.min (f + 1) (n - 1) = (f + 1)%Z) by lia. rewrite Hc.
    destruct (py_index_some s f ltac:(lia)) as (x & Hx & Ix).
    destruct (py_index_some s (f + 1) ltac:(lia)) as (y & Hy & Iy).
    rewrite (lerp_at_some _ _ _ _ _ _ Hx Hy).
    eexists; exists x, y. split; [reflexivity |]. split; [exact Ix |]. split; [exact Iy |].
    destruct (Qfloor_bounds k) as [F1 F2]. fold f in F1, F2.
    rewrite inject_Z_plus. change (inject_Z 1) with 1.
    destruct (Qlt_le_dec x y); [left | right]; split; nra.
Qed.

(** Bounds: for [0 <= p <= 1] a percentile of a non-empty batch is
    defined and lies within any bounds of the batch. *)
Theorem percentile_bounds (s : list Q) (p lo hi : Q) :
  s <> [] -> 0 <= p <= 1 -> Forall (fun v => lo <= v <= hi) s ->
  exists q, percentile s p = Some q /\ lo <= q <= hi.
Proof.
  intros Hne Hp Hb. destruct (percentile_core s p Hne Hp) as (q & x & y & Hq & Ix & Iy & B).
  rewrite List.Forall_forall in Hb. pose proof (Hb x Ix). pose proof (Hb y Iy).
  exists q. split; [exact Hq | lra].
Qed.

(** Equivalence of the two implementations: generate.py's [percentiles]
    (sorting inside, [int(k)]) computes the same value as
    compute_metrics.py's [percentile] on the sorted batch ([floor(k)]). *)
Theorem percentiles_eq (l : list Q) (p : Q) :
  0 <= p -> percentiles l p = percentile (py_sorted l) p.
Proof.
  intros Hp. destruct l as [| a t]; [reflexivity |].
  rewrite percentile_nonempty by (apply py_sorted_nonempty; discriminate). unfold percentiles. cbv zeta.
  rewrite py_int_nonneg; [reflexivity |].
  autorewrite with gtab_rw. simpl length.
  pose proof (inject_Z_nonneg (Z.of_nat (S (length t)) - 1) ltac:(lia)). nra.
Qed.

(** ** The basis-point mapping *)

#[export] Instance to_bps_proper : Proper (Qeq ==> Qeq ==> Qeq ==> eq) to_bps.
Proof.
  intros a a' Ha b b' Hb c c' Hc. unfold to_bps. now rewrite Ha, Hb, Hc.
Qed.

Lemma to_bps_clamped p5 span v :
  to_bps p5 span v = Qfloor (py_max 0 (py_min 10000 ((v - p5) / span * 10000))).
Proof.
  unfold to_bps. apply py_int_nonneg.
  destruct (py_clamp_bounds 0 10000 ((v - p5) / span * 10000)); lra.
Qed.

Lemma to_bps_range p5 span v : (0 <= to_bps p5 span v <= 10000)%Z.
Proof.
  rewrite to_bps_clamped.
  destruct (py_clamp_bounds 0 10000 ((v - p5) / span * 10000)) as [L H]; [lra |].
  split; [apply Qfloor_nonneg, L | apply (Qfloor_le_Z _ 10000), H].
Qed.

Lemma scaled_mono p5 span v w :
  0 < span -> v <= w -> (v - p5) / span * 10000 <= (w - p5) / span * 10000.
Proof.
  intros Hs Hvw. unfold Qdiv.
  assert (0 < / span) by (apply Qinv_lt_0_compat, Hs). nra.
Qed.

Lemma to_bps_mono p5 span v w :
  0 < span -> v <= w -> (to_bps p5 span v <= to_bps p5 span w)%Z.
Proof.
  intros Hs Hvw. rewrite !to_bps_clamped. apply Qfloor_resp_le, py_clamp_mono; [lra |].
  apply scaled_mono; assumption.
Qed.

(** Values at or below [p5] map to 0, values at or above [p5 + span] to 10000. *)
Lemma to_bps_low p5 span v : 0 < span -> v <= p5 -> to_bps p5 span v = 0%Z.
Proof.
  intros Hs Hv. pose proof (to_bps_range p5 span v).
  pose proof (to_bps_mono p5 span v p5 Hs Hv) as M.
  assert (E : to_bps p5 span p5 = 0%Z).
  { rewrite to_bps_clamped.
    assert (Z0 : (p5 - p5) / span * 10000 == 0) by (field; lra). rewrite Z0.
    reflexivity. }
  lia.
Qed.

Lemma to_bps_high p5 span v : 0 < span -> p5 + span <= v -> to_bps p5 span v = 10000%Z.
Proof.
  intros Hs Hv. pose proof (to_bps_range p5 span v).
  pose proof (to_bps_mono p5 span (p5 + span) v Hs Hv) as M.
  assert (E : to_bps p5 span (p5 + span) = 10000%Z).
  { rewrite to_bps_clamped.
    assert (Z0 : (p5 + span - p5) / span * 10000 == 10000) by (field; lra). rewrite Z0.
    reflexivity. }
  lia.
Qed.

(** ** The batch normalizer *)

Lemma percentiles_some (l : list Q) (p : Q) :
  0 <= p <= 1 -> exists q, percentiles l p = Some q.
Proof.
  intros Hp. destruct l as [| a t] eqn:El; [eexists; reflexivity |]. rewrite <- El.
  rewrite percentiles_eq by lra.
  assert (Hne : py_sorted l <> []) by (apply py_sorted_nonempty; congruence).
  destruct (percentile_core _ p Hne Hp) as (q & _ & _ & Hq & _). eauto.
Qed.

Lemma P5_range : 0 <= P5 <= 1.
Proof. unfold P5. split; unfold Qle; simpl; lia. Qed.
Lemma P95_range : 0 <= P95 <= 1.
Proof. unfold P95. split; unfold Qle; simpl; lia. Qed.

Lemma py_max_eps d : 0 < py_max d SPAN_EPS.
Proof.
  destruct (py_max_spec d SPAN_EPS) as [[H ->] | [H ->]]; unfold SPAN_EPS in *;
    [| unfold Qlt; simpl; lia].
  assert (0 < 1 # 10 ^ 12) by (unfold Qlt; simpl; lia). lra.
Qed.

Lemma scale_batch_pos p5 span vals : 0 < span -> scale_batch p5 span vals = Some (map (to_bps p5 span) vals).
Proof.
  intros Hs. destruct vals as [| v vals]; [reflexivity |]. unfold scale_batch.
  destruct (Qeq_bool span 0) eqn:E; [apply Qeq_bool_iff in E; lra | reflexivity].
Qed.

Lemma scale_batch_proper p5 span span' vals : span == span' -> scale_batch p5 span vals = scale_batch p5 span' vals.
Proof.
  intros Hs. destruct vals as [| v vals]; [reflexivity |]. unfold scale_batch.
  assert (E : Qeq_bool span 0 = Qeq_bool span' 0).
  { apply Bool.eq_iff_eq_true. rewrite !Qeq_bool_iff. split; intros H; [rewrite <- Hs | rewrite Hs]; exact H. }
  rewrite E. destruct (Qeq_bool span' 0); [reflexivity |].
  f_equal. apply map_ext. intros w. apply to_bps_proper; [reflexivity | exact Hs | reflexivity].
Qed.

(** The normalizer is total on every batch and yields one basis-point
    value in [[0, 10000]] per raw value (spec 4.2, normalizer bounds). *)
Theorem normalize_gen_spec (raw_vals : list Q) :
  exists bps, normalize_gen raw_vals = Some bps /\ length bps = length raw_vals /\
    Forall (fun b => (0 <= b <= 10000)%Z) bps.
Proof.
  destruct (percentiles_some raw_vals P5 P5_range) as [p5 E5].
  destruct (percentiles_some raw_vals P95 P95_range) as [p95 E95].
  unfold normalize_gen. rewrite E5, E95. simpl. rewrite scale_batch_pos by apply py_max_eps.
  eexists. split; [reflexivity |].
  split; [apply length_map |]. apply Forall_map, Forall_forall. intros v _. apply to_bps_range.
Qed.

(** Order preservation: the normalizer never swaps two raw values. *)
Theorem normalize_gen_monotone raw_vals bps i j v w bv bw :
  normalize_gen raw_vals = Some bps ->
  raw_vals !! i = Some v -> raw_vals !! j = Some w -> v <= w ->
  bps !! i = Some bv -> bps !! j = Some bw -> (bv <= bw)%Z.
Proof.
  unfold normalize_gen. intros H Hv Hw Hvw Hbv Hbw.
  destruct (percentiles raw_vals P5) as [p5 |]; [| discriminate H]; simpl in H.
  destruct (percentiles raw_vals P95) as [p95 |]; [| discriminate H]; simpl in H.
  rewrite scale_batch_pos in H by apply py_max_eps.
  injection H as <-. rewrite list_lookup_fmap, Hv in Hbv. rewrite list_lookup_fmap, Hw in Hbw.
  injection Hbv as <-. injection Hbw as <-. apply to_bps_mono; [apply py_max_eps | exact Hvw].
Qed.

(** Anchors: when the batch's percentile spread exceeds [1e-12], every
    value at or below its 5th percentile maps to 0 and every value at or
    above its 95th percentile maps to 10000. *)
Theorem normalize_gen_anchors raw_vals bps p5 p95 i v :
  normalize_gen raw_vals = Some bps ->
  percentiles raw_vals P5 = Some p5 -> percentiles raw_vals P95 = Some p95 ->
  SPAN_EPS < p95 - p5 -> raw_vals !! i = Some v ->
  (v <= p5 -> bps !! i = Some 0%Z) /\ (p95 <= v -> bps !! i = Some 10000%Z).
Proof.
  unfold normalize_gen. intros H E5 E95 Hs Hv. rewrite E5, E95 in H. simpl in H.
  rewrite scale_batch_pos in H by apply py_max_eps. injection H as <-. rewrite list_lookup_fmap, Hv. simpl.
  assert (Sp : py_max (p95 - p5) SPAN_EPS == p95 - p5).
  { destruct (py_max_spec (p95 - p5) SPAN_EPS) as [[_ ->] | [L ->]]; lra. }
  assert (Pos : 0 < SPAN_EPS) by (unfold SPAN_EPS, Qlt; simpl; lia).
  rewrite Sp. split; intros Hb; f_equal.
  - apply to_bps_low; lra.
  - apply to_bps_high; lra.
Qed.

Lemma span_eq d : py_max d SPAN_EPS == (if Qlt_bool SPAN_EPS d then d else SPAN_EPS).
Proof.
  destruct (Qlt_bool SPAN_EPS d) eqn:E; bool_facts;
    destruct (py_max_spec d SPAN_EPS) as [[? ->] | [? ->]]; lra.
Qed.

(** C14. Equivalence: the validator normalizes a batch exactly as the encoder
    does (spec 4.2 requires the two to apply the same normalizer). *)
Theorem normalize_gen_val_eq (raw_vals : list Q) :
  normalize_gen raw_vals = normalize_val raw_vals.
Proof.
  unfold normalize_gen, normalize_val.
  rewrite !percentiles_eq by (apply P5_range || apply P95_range).
  destruct (percentile (py_sorted raw_vals) P5) as [p5 |]; [simpl | reflexivity].
  destruct (percentile (py_sorted raw_vals) P95) as [p95 |]; [simpl | reflexivity].
  apply scale_batch_proper, span_eq.
Qed.

Lemma Forall_py_sorted (P : Q -> Prop) (l : list Q) : Forall P l -> Forall P (py_sorted l).
Proof.
  rewrite !List.Forall_forall. intros H x Hx. apply H.
  apply (Permutation_in x (Permutation_sym (py_sorted_perm l))), Hx.
Qed.

(** C37. A flat batch (all raw values equal) normalizes to all zeros: the
    [1e-12] floor of the span keeps the division from raising
    [ZeroDivisionError] when [p95 - p5 = 0], and the 95th percentile
    does not map near 10000. *)
Theorem normalize_gen_flat (c : Q) (n : nat) :
  normalize_gen (repeat c (S n)) = Some (repeat 0%Z (S n)).
Proof.
  assert (Hs : forall p, 0 <= p <= 1 -> exists q, percentiles (repeat c (S n)) p = Some q /\ c <= q <= c).
  { intros p Hp. rewrite percentiles_eq by lra. apply percentile_bounds; [| exact Hp |].
    - apply py_sorted_nonempty. discriminate.
    - apply Forall_py_sorted, List.Forall_forall. intros x Hx. apply repeat_spec in Hx. subst. lra. }
  destruct (Hs P5 P5_range) as (p5 & E5 & B5). destruct (Hs P95 P95_range) as (p95 & E95 & _).
  unfold normalize_gen. rewrite E5, E95. cbn [mbind option_bind]. rewrite scale_batch_pos by apply py_max_eps.
  rewrite map_repeat.
  rewrite (to_bps_low p5 (py_max (p95 - p5) SPAN_EPS) c); [reflexivity | apply py_max_eps | lra].
Qed.

(** ** Examples: the batch [[1; 2; 3]] has [p5 = 1.1], [p95 = 2.9] and
    normalizes to [[0; 5000; 10000]]. *)

Lemma normalize_gen_monotone_witness : (0 <= 5000)%Z.
Proof.
  apply (normalize_gen_monotone [1; 2; 3] [0; 5000; 10000]%Z 0 1 1 2);
    [vm_compute; reflexivity | reflexivity | reflexivity | vm_compute; discriminate
    | reflexivity | reflexivity].
Defined.

Lemma normalize_gen_anchors_witness :
  (3 <= 11000 # 10000 -> [0; 5000; 10000]%Z !! 2%nat = Some 0%Z) /\
  (29000 # 10000 <= 3 -> [0; 5000; 10000]%Z !! 2%nat = Some 10000%Z).
Proof.
  apply (normalize_gen_anchors [1; 2; 3]);
    [vm_compute; reflexivity | vm_compute; reflexivity | vm_compute; reflexivity
    | vm_compute; reflexivity | reflexivity].
Defined.

End Normalizer.
