(* ===== verification/Signal.v ===== *)
(** * The tidal proxy signal and the position-provider contract

    [MU_SUN/(rs**3) + MU_MOON/(rm**3)], computed in [compute_series]
    (generate.py) and [compute_authoritative] (compute_metrics.py) from
    the Earth-Sun and Earth-Moon distances that Skyfield returns for a
    batch of timestamps.  The ephemeris is an external collaborator: it is
    the class [PositionProvider], whose laws are the contract of spec
    section 6 (one positive pair of distances per timestamp, in order).
    Distances are taken as given: the Euclidean norm of Skyfield's position
    vectors (a square root) is part of the provider. *)

From Stdlib Require Import QArith Lqa ZArith Lia List.
From stdpp Require Import base list.
From S2P Require Import Prelude.
Import ListNotations.

Local Open Scope Q_scope.

Module Signal.

(** [MU_SUN = 1.32712440018e11], [MU_MOON = 4.9048695e3] (km^3/s^2). *)
Definition MU_SUN : Q := inject_Z 132712440018.
Definition MU_MOON : Q := 49048695 # 10000.

Definition signal (rs rm : Q) : Q := MU_SUN / (rs ^ 3) + MU_MOON / (rm ^ 3).

(** The external ephemeris: one [(sun_km, moon_km)] pair per requested
    timestamp, in order, with positive distances. *)
Class PositionProvider := {
  distances : list Q -> list (Q * Q);
  distances_length : forall ts, length (distances ts) = length ts;
  distances_pos : forall ts d, In d (distances ts) -> 0 < d.1 /\ 0 < d.2
}.

(** [compute_authoritative(times, ...)]: one batched query, then the
    proxy per sample. *)
Definition compute_authoritative `{PositionProvider} (times : list Q) : list Q :=
  map (fun d => signal d.1 d.2) (distances times).

(** A provider for concrete runs: [1 + t^2] km to the Sun and
    [2 + t^2] km to the Moon, positive at every instant.  It is no model
    of the ephemeris; it gives the theorems of the other files inputs on
    which their hypotheses can be evaluated. *)
Definition example_distances (ts : list Q) : list (Q * Q) :=
  map (fun t => (1 + t * t, 2 + t * t)) ts.

Definition example_provider : PositionProvider := {|
  distances := example_distances;
  distances_length := fun ts => length_map _ ts;
  distances_pos := ltac:(intros ts d Hd; unfold example_distances in Hd;
                         apply in_map_iff in Hd as (t & <- & _); simpl;
                         assert (0 <= t * t) by nra; split; lra)
|}.

(** ** Lemmas *)

Lemma cube_eq (x : Q) : x ^ 3 = x * (x * x).
Proof. reflexivity. Qed.

Lemma cube_pos (x : Q) : 0 < x -> 0 < x ^ 3.
Proof.
  intros H. rewrite cube_eq. apply Qmult_lt_0_compat; [exact H |].
  apply Qmult_lt_0_compat; exact H.
Qed.

Lemma cube_le (x y : Q) : 0 < x <= y -> x ^ 3 <= y ^ 3.
Proof.
  intros [H1 H2]. rewrite !cube_eq.
  assert (x * x <= y * y) by nra. nra.
Qed.

Lemma div_antitone (m a b : Q) : 0 < m -> 0 < a <= b -> m / b <= m / a.
Proof.
  intros Hm [Ha Hab]. unfold Qdiv.
  assert (Hb : 0 < b) by lra.
  assert (/ b <= / a).
  { apply Qle_shift_inv_l; [exact Ha |].
    assert (E : / b * b == 1) by (rewrite Qmult_comm; apply Qmult_inv_r; lra).
    assert (0 < / b) by (apply Qinv_lt_0_compat, Hb). nra. }
  nra.
Qed.

Lemma MU_pos : 0 < MU_SUN /\ 0 < MU_MOON.
Proof. split; reflexivity. Qed.

(** The proxy is positive for positive distances. *)
Theorem signal_pos rs rm : 0 < rs -> 0 < rm -> 0 < signal rs rm.
Proof.
  intros Hs Hm. unfold signal, Qdiv. destruct MU_pos as [P1 P2].
  pose proof (Qinv_lt_0_compat _ (cube_pos rs Hs)).
  pose proof (Qinv_lt_0_compat _ (cube_pos rm Hm)). nra.
Qed.

(** The proxy decreases as either body moves away. *)
Theorem signal_antitone rs rm rs' rm' :
  0 < rs <= rs' -> 0 < rm <= rm' -> signal rs' rm' <= signal rs rm.
Proof.
  intros Hs Hm. unfold signal. destruct MU_pos as [P1 P2].
  pose proof (div_antitone MU_SUN _ _ P1 (conj (cube_pos rs (proj1 Hs)) (cube_le _ _ Hs))).
  pose proof (div_antitone MU_MOON _ _ P2 (conj (cube_pos rm (proj1 Hm)) (cube_le _ _ Hm))).
  lra.
Qed.

Lemma compute_authoritative_length `{PositionProvider} times :
  length (compute_authoritative times) = length times.
Proof. unfold compute_authoritative. now rewrite length_map, distances_length. Qed.

Lemma compute_authoritative_pos `{PositionProvider} times :
  Forall (fun v => 0 < v) (compute_authoritative times).
Proof.
  unfold compute_authoritative. apply Forall_map, List.Forall_forall. intros d Hd.
  destruct (distances_pos times d Hd). apply signal_pos; assumption.
Qed.

Lemma signal_antitone_witness : signal 2 2 <= signal 1 1.
Proof. apply signal_antitone; split; vm_compute; first [reflexivity | discriminate]. Defined.

End Signal.
