(* ===== verification/Stats.v ===== *)
(** * Error statistics, peak detection and peak alignment of the validator

    Models the pure parts of [main] in
    src/scripts/ephem/validation/compute_metrics.py that follow the
    normalization: the per-sample error loop, [stats_summary] (and its
    copy [stats_summary2]), the local-extremum detector [detect_peaks],
    the nearest-peak matching that yields timing and value drifts, and the
    four-way pass rule against [Thresholds].  Indices into [times],
    [auth_bps] and [gtab_vals] are those of loops over [range(...)] and
    over detected peaks, all within bounds; they are read with [nth]. *)

From Stdlib Require Import QArith Qabs Lqa ZArith Lia List Sorted.
From stdpp Require Import base list.
From S2P Require Import Prelude Normalizer.
Import ListNotations.

Local Open Scope Q_scope.

Module Stats.
Import Normalizer.

(** [class Thresholds] with its defaults. *)
Record Thresholds : Type := mk_thresholds {
  rel_error_median : Q;
  rel_error_p99 : Q;
  peak_timing_drift_seconds_p99 : Q;
  peak_value_rel_drift_p99 : Q
}.

Definition default_thresholds : Thresholds :=
  mk_thresholds (1 # 1000) (5 # 1000) 120 (2 # 1000).

(** The dictionary [stats_summary] returns. *)
Record Summary : Type := mk_summary {
  s_mean : Q; s_median : Q; s_p95 : Q; s_p99 : Q; s_max : Q
}.

Definition zero_summary : Summary := mk_summary 0 0 0 0 0.

Definition stats_summary (vals : list Q) : option Summary :=
  match vals with
  | [] => Some zero_summary
  | _ =>
      let s := py_sorted vals in
      let mean := fold_left Qplus s 0 / inject_Z (Z.of_nat (length s)) in
      median ← percentile s (1 # 2);
      p95 ← percentile s P95;
      p99 ← percentile s (99 # 100);
      mx ← py_index s (-1);
      Some (mk_summary mean median p95 p99 mx)
  end.

(** [stats_summary2], the copy used for the drift lists. *)
Definition stats_summary2 (vals : list Q) : option Summary :=
  match vals with
  | [] => Some zero_summary
  | _ =>
      let s := py_sorted vals in
      let mean := fold_left Qplus s 0 / inject_Z (Z.of_nat (length s)) in
      median ← percentile s (1 # 2);
      p95 ← percentile s P95;
      p99 ← percentile s (99 # 100);
      mx ← py_index s (-1);
      Some (mk_summary mean median p95 p99 mx)
  end.

(** [abs(g - a) / max(1, a)] *)
Definition rel_drift (g a : Z) : Q := inject_Z (Z.abs (g - a)) / inject_Z (Z.max 1 a).

(** The error loop over [range(1, len(times) - 1)]: edge samples are
    excluded.  Returns [(rel_errors, abs_errors)]. *)
Definition error_samples (auth_bps gtab_vals : list Z) (n : nat) : list Q * list Q :=
  let idx := seq 1 (n - 2) in
  (map (fun i => rel_drift (nth i gtab_vals 0%Z) (nth i auth_bps 0%Z)) idx,
   map (fun i => inject_Z (Z.abs (nth i gtab_vals 0%Z - nth i auth_bps 0%Z))) idx).

(** The condition of [detect_peaks] at index [i]: a strict local maximum
    or a strict local minimum. *)
Definition is_peak (vals : list Z) (i : nat) : bool :=
  let v := nth i vals 0%Z in
  let a := nth (i - 1) vals 0%Z in
  let b := nth (i + 1) vals 0%Z in
  ((a <? v)%Z && (b <? v)%Z) || ((v <? a)%Z && (v <? b)%Z).

Definition detect_peaks (vals : list Z) : list nat :=
  List.filter (is_peak vals) (seq 1 (length vals - 2)).

(** The inner loop over [peaks_gtab]: the first decoded peak at the least
    absolute time distance from [ta]. *)
Definition nearest_peak (times : list Q) (ta : Q) (peaks_gtab : list nat) : option (nat * Q) :=
  fold_left (fun acc pg =>
      let dt_seconds := Qabs (nth pg times 0 - ta) in
      match acc with
      | None => Some (pg, dt_seconds)
      | Some (_, nearest_dt) => if Qlt_bool dt_seconds nearest_dt then Some (pg, dt_seconds) else acc
      end) peaks_gtab None.

(** The outer loop over [peaks_auth]: a matched peak (within
    [2 * cadence] seconds) contributes its timing drift and its value
    drift; an unmatched one contributes nothing. *)
Fixpoint align_peaks (times : list Q) (cadence : Z) (auth_bps gtab_vals : list Z)
    (peaks_gtab : list nat) (peaks_auth : list nat) : list Q * list Q :=
  match peaks_auth with
  | [] => ([], [])
  | pa :: rest =>
      let '(tds, vds) := align_peaks times cadence auth_bps gtab_vals peaks_gtab rest in
      match nearest_peak times (nth pa times 0) peaks_gtab with
      | Some (nearest_idx, nearest_dt) =>
          if Qle_bool nearest_dt (inject_Z (2 * cadence))
          then (nearest_dt :: tds,
                rel_drift (nth nearest_idx gtab_vals 0%Z) (nth pa auth_bps 0%Z) :: vds)
          else (tds, vds)
      | None => (tds, vds)
      end
  end.

(** The distance in seconds of peak [j] from [ta], as the inner loop
    computes it. *)
Definition peak_dist (times : list Q) (ta : Q) (j : nat) : Q := Qabs (nth j times 0 - ta).

(** The pass rule: all four conjuncts. *)
Definition passes (th : Thresholds) (rel_stats timing_stats peak_val_stats : Summary) : bool :=
  Qle_bool (s_median rel_stats) (rel_error_median th) &&
  Qle_bool (s_p99 rel_stats) (rel_error_p99 th) &&
  Qle_bool (s_p99 timing_stats) (peak_timing_drift_seconds_p99 th) &&
  Qle_bool (s_p99 peak_val_stats) (peak_value_rel_drift_p99 th).

(** ** Peak detection *)

Lemma nth_lookup_Z (l : list Z) (i : nat) (x : Z) : l !! i = Some x -> nth i l 0%Z = x.
Proof. intros H. apply nth_lookup_Some, H. Qed.

(** [detect_peaks] returns exactly the interior indices at which the
    series has a strict local maximum or a strict local minimum. *)
Theorem detect_peaks_spec (vals : list Z) (i : nat) :
  In i (detect_peaks vals) <->
  (1 <= i)%nat /\ exists a v b,
    vals !! (i - 1)%nat = Some a /\ vals !! i = Some v /\ vals !! (i + 1)%nat = Some b /\
    (((a < v)%Z /\ (b < v)%Z) \/ ((v < a)%Z /\ (v < b)%Z)).
Proof.
  unfold detect_peaks. rewrite filter_In, in_seq. split.
  - intros [[H1 H2] Hp]. split; [exact H1 |].
    destruct (lookup_lt_is_Some_2 vals (i - 1)) as [a Ha]; [lia |].
    destruct (lookup_lt_is_Some_2 vals i) as [v Hv]; [lia |].
    destruct (lookup_lt_is_Some_2 vals (i + 1)) as [b Hb]; [lia |].
    exists a, v, b. split; [exact Ha |]. split; [exact Hv |]. split; [exact Hb |].
    unfold is_peak in Hp. rewrite (nth_lookup_Z _ _ _ Ha), (nth_lookup_Z _ _ _ Hv),
      (nth_lookup_Z _ _ _ Hb) in Hp.
    apply orb_true_iff in Hp as [Hp | Hp]; apply andb_true_iff in Hp as [P1 P2];
      apply Z.ltb_lt in P1, P2; [left | right]; auto.
  - intros [H1 (a & v & b & Ha & Hv & Hb & Hp)].
    pose proof (lookup_lt_Some _ _ _ Hb) as L. split; [lia |].
    unfold is_peak. rewrite (nth_lookup_Z _ _ _ Ha), (nth_lookup_Z _ _ _ Hv),
      (nth_lookup_Z _ _ _ Hb).
    destruct Hp as [[P1 P2] | [P1 P2]]; apply orb_true_iff; [left | right];
      apply andb_true_iff; split; apply Z.ltb_lt; assumption.
Qed.

(** ** Summary statistics *)

Lemma sorted_lookup_le (s : list Q) :
  StronglySorted Qle s ->
  forall i j x y, s !! i = Some x -> s !! j = Some y -> (j <= i)%nat -> y <= x.
Proof.
  induction 1 as [| a l Hl IH Ha]; intros i j x y Hx Hy Hji; [discriminate Hx |].
  destruct j as [| j]; destruct i as [| i]; simpl in Hx, Hy; try lia.
  - injection Hx as <-. injection Hy as <-. lra.
  - injection Hy as <-. rewrite List.Forall_forall in Ha. apply Ha.
    apply list_elem_of_In. eapply list_elem_of_lookup_2. exact Hx.
  - apply (IH i j); auto. lia.
Qed.

Lemma Forall_Qle_sorted_last (s : list Q) (x : Q) :
  Sorted Qle s -> s !! (length s - 1)%nat = Some x -> Forall (fun y => y <= x) s.
Proof.
  intros Hs Hx. apply Sorted_StronglySorted in Hs; [| intros a b c; apply Qle_trans].
  apply List.Forall_forall. intros y Hy. apply list_elem_of_In, list_elem_of_lookup_1 in Hy as [j Hj].
  apply (sorted_lookup_le s Hs _ _ _ _ Hx Hj). apply lookup_lt_Some in Hj. lia.
Qed.

Lemma stats_summary_nonempty (vals : list Q) : vals <> [] ->
  stats_summary vals =
    let s := py_sorted vals in
    let mean := fold_left Qplus s 0 / inject_Z (Z.of_nat (length s)) in
    median ← percentile s (1 # 2);
    p95 ← percentile s P95;
    p99 ← percentile s (99 # 100);
    mx ← py_index s (-1);
    Some (mk_summary mean median p95 p99 mx).
Proof. destruct vals; [congruence | reflexivity]. Qed.

Lemma stats_summary_within (vals : list Q) (lo hi : Q) :
  vals <> [] -> Forall (fun x => lo <= x <= hi) vals ->
  exists sm, stats_summary vals = Some sm /\
    lo <= s_mean sm <= hi /\ lo <= s_median sm <= hi /\ lo <= s_p95 sm <= hi /\
    lo <= s_p99 sm <= hi /\ py_index (py_sorted vals) (-1) = Some (s_max sm).
Proof.
  intros Hne Hb. rewrite stats_summary_nonempty by exact Hne. cbv zeta.
  set (s := py_sorted vals).
  assert (Hs : s <> []) by (apply py_sorted_nonempty, Hne).
  assert (Hbs : Forall (fun x => lo <= x <= hi) s) by (apply Forall_py_sorted, Hb).
  destruct (percentile_bounds s (1 # 2) lo hi Hs ltac:(split; unfold Qle; simpl; lia) Hbs) as (m & Em & Bm).
  destruct (percentile_bounds s P95 lo hi Hs P95_range Hbs) as (q95 & E95 & B95).
  destruct (percentile_bounds s (99 # 100) lo hi Hs ltac:(split; unfold Qle; simpl; lia) Hbs)
    as (q99 & E99 & B99).
  destruct (py_index_last s Hs) as (mx & Emx & _).
  assert (Lpos : (0 < length s)%nat) by (destruct s; [congruence | simpl; lia]).
  pose proof (fold_left_Qplus_bounds s lo hi Hbs) as [S1 S2].
  assert (Pn : 0 < inject_Z (Z.of_nat (length s))) by (apply inject_Z_pos; lia).
  eexists. split.
  { rewrite Em, E95, E99, Emx. reflexivity. }
  simpl. repeat split; try lra; [| | exact Emx].
  - apply Qle_shift_div_l; [exact Pn | lra].
  - apply Qle_shift_div_r; [exact Pn | lra].
Qed.

(** [stats_summary] of a non-empty batch never raises, every statistic
    lies within any bounds of the batch, and [max] is its maximum. *)
Theorem stats_summary_bounds (vals : list Q) (lo hi : Q) :
  vals <> [] -> Forall (fun x => lo <= x <= hi) vals ->
  exists sm, stats_summary vals = Some sm /\
    lo <= s_mean sm <= hi /\ lo <= s_median sm <= hi /\ lo <= s_p95 sm <= hi /\
    lo <= s_p99 sm <= hi /\ Forall (fun x => x <= s_max sm) vals /\ In (s_max sm) vals.
Proof.
  intros Hne Hb. destruct (stats_summary_within vals lo hi Hne Hb) as (sm & Hs & B1 & B2 & B3 & B4 & Emx).
  destruct (py_index_last (py_sorted vals)) as (mx & Emx' & Lmx); [apply py_sorted_nonempty, Hne |].
  rewrite Emx in Emx'. injection Emx' as <-.
  exists sm. do 5 (split; [assumption |]). split.
  - apply (Forall_Qle_sorted_last _ _ (py_sorted_sorted vals)) in Lmx.
    rewrite List.Forall_forall in Lmx |- *. intros x Hx. apply Lmx.
    apply (Permutation_in x (py_sorted_perm vals)), Hx.
  - apply (Permutation_in _ (Permutation_sym (py_sorted_perm vals))).
    apply list_elem_of_In. eapply list_elem_of_lookup_2. exact Lmx.
Qed.

Lemma detect_peaks_lt (vals : list Z) (i : nat) :
  In i (detect_peaks vals) -> (i < length vals)%nat.
Proof. unfold detect_peaks. rewrite filter_In, in_seq. lia. Qed.

(** ** Peak alignment *)

Lemma nearest_fold_spec times ta (pg : list nat) : forall acc i d,
  fold_left (fun acc pg =>
      let dt_seconds := Qabs (nth pg times 0 - ta) in
      match acc with
      | None => Some (pg, dt_seconds)
      | Some (_, nearest_dt) => if Qlt_bool dt_seconds nearest_dt then Some (pg, dt_seconds) else acc
      end) pg acc = Some (i, d) ->
  (acc = Some (i, d) \/ (In i pg /\ d = peak_dist times ta i)) /\
  (forall j, In j pg -> d <= peak_dist times ta j) /\
  (forall i0 d0, acc = Some (i0, d0) -> d <= d0).
Proof.
  unfold peak_dist. induction pg as [| p rest IH]; intros acc i d H; cbn [fold_left] in H.
  - subst acc. split; [left; reflexivity |]. split; [intros j [] |].
    intros i0 d0 E. injection E as _ ->. lra.
  - destruct (IH _ _ _ H) as (H1 & H2 & H3). clear IH H.
    destruct acc as [[i0 d0] |]; cbv beta iota zeta in H1, H3.
    + destruct (Qlt_bool (Qabs (nth p times 0 - ta)) d0) eqn:Elt; bool_facts.
      * specialize (H3 _ _ eq_refl).
        split; [destruct H1 as [E | [Hi Hd]]; [injection E as E1 E2; subst; right; split; [left |]; auto
               | right; split; [right |]; auto] |].
        split; [intros j [<- | Hj]; auto |]. intros i1 d1 E. injection E as E1 E2. subst. lra.
      * split; [destruct H1 as [E | [Hi Hd]]; [left; exact E | right; split; [right |]; auto] |].
        split; [intros j [<- | Hj]; [specialize (H3 _ _ eq_refl); lra | auto] |]. exact H3.
    + specialize (H3 _ _ eq_refl).
      split; [destruct H1 as [E | [Hi Hd]]; [injection E as E1 E2; subst; right; split; [left |]; auto
             | right; split; [right |]; auto] |].
      split; [intros j [<- | Hj]; auto |]. intros i1 d1 E. discriminate E.
Qed.

(** [nearest_peak] returns a decoded peak at the least distance from
    [ta] among all decoded peaks, and nothing only when there is none. *)
Theorem nearest_peak_spec times ta pg i d :
  nearest_peak times ta pg = Some (i, d) ->
  In i pg /\ d = peak_dist times ta i /\ (forall j, In j pg -> d <= peak_dist times ta j).
Proof.
  intros H. destruct (nearest_fold_spec times ta pg None i d H) as ([E | [Hi Hd]] & H2 & _);
    [discriminate E | auto].
Qed.

(** Every recorded timing drift is a distance of at most [2 * cadence]
    seconds, there is one value drift per timing drift, and at most one
    pair per authoritative peak: unmatched peaks contribute nothing. *)
Theorem align_peaks_bounds times cadence auth_bps gtab_vals peaks_gtab peaks_auth :
  let r := align_peaks times cadence auth_bps gtab_vals peaks_gtab peaks_auth in
  length r.1 = length r.2 /\ (length r.1 <= length peaks_auth)%nat /\
  Forall (fun d => 0 <= d <= inject_Z (2 * cadence)) r.1.
Proof.
  induction peaks_auth as [| pa rest IH]; simpl; [repeat constructor |].
  destruct (align_peaks _ _ _ _ _ rest) as [tds vds]. simpl in IH. destruct IH as (L & Le & F).
  destruct (nearest_peak times (nth pa times 0) peaks_gtab) as [[ni nd] |] eqn:En;
    [| simpl; repeat split; auto; lia].
  destruct (Qle_bool nd (inject_Z (2 * cadence))) eqn:Ele; simpl; [| repeat split; auto; lia].
  apply Qle_bool_iff in Ele. apply nearest_peak_spec in En as (_ & -> & _).
  repeat split; auto; [lia |]. constructor; [| exact F]. split; [apply Qabs_nonneg | exact Ele].
Qed.

Lemma nearest_peak_exists times ta pg : pg <> [] -> exists i d, nearest_peak times ta pg = Some (i, d).
Proof.
  unfold nearest_peak. intros Hne.
  assert (K : forall rest o', o' <> None -> exists i d, fold_left (fun acc pg =>
      let dt_seconds := Qabs (nth pg times 0 - ta) in
      match acc with
      | None => Some (pg, dt_seconds)
      | Some (_, nearest_dt) => if Qlt_bool dt_seconds nearest_dt then Some (pg, dt_seconds) else acc
      end) rest o' = Some (i, d)).
  { induction rest as [| q rest IH]; intros o' Ho; cbn [fold_left].
    - destruct o' as [[i d] |]; [eauto | congruence].
    - apply IH. destruct o' as [[? ?] |]; [| congruence]. cbv beta iota zeta.
      destruct (Qlt_bool _ _); congruence. }
  destruct pg as [| p rest]; [congruence |]. cbn [fold_left]. apply K. congruence.
Qed.

Lemma align_peaks_self times (cadence : Z) (vals : list Z) pg pas :
  (0 <= cadence)%Z ->
  (forall i j, In i pg -> In j pg -> nth i times 0 == nth j times 0 -> i = j) ->
  incl pas pg ->
  let r := align_peaks times cadence vals vals pg pas in
  length r.1 = length pas /\ Forall (fun d => d == 0) r.1 /\ Forall (fun d => d == 0) r.2.
Proof.
  intros Hc Hinj. induction pas as [| pa rest IH]; intros Hincl; simpl; [repeat constructor |].
  destruct (IH (proj2 (incl_cons_inv Hincl))) as (L & F1 & F2).
  destruct (align_peaks _ _ _ _ _ rest) as [tds vds]. simpl in L, F1, F2.
  assert (Hpa : In pa pg) by (apply Hincl; left; reflexivity).
  destruct (nearest_peak_exists times (nth pa times 0) pg) as (ni & nd & En); [intros ->; destruct Hpa |].
  rewrite En. pose proof (nearest_peak_spec _ _ _ _ _ En) as (Hni & Hnd & Hmin).
  specialize (Hmin pa Hpa). unfold peak_dist in Hnd, Hmin.
  assert (Z0 : Qabs (nth pa times 0 - nth pa times 0) == 0) by (rewrite Qabs_pos; ring_simplify; lra).
  pose proof (Qabs_nonneg (nth ni times 0 - nth pa times 0)).
  assert (D : nd == 0) by (subst nd; lra).
  assert (ni = pa) as ->.
  { apply Hinj; auto. subst nd. apply Qabs_zero in D. lra. }
  assert (Le : Qle_bool nd (inject_Z (2 * cadence)) = true).
  { apply Qle_bool_iff. rewrite D. apply inject_Z_nonneg. lia. }
  rewrite Le. simpl. repeat split; [lia | constructor; [exact D | exact F1] |].
  constructor; [| exact F2]. unfold rel_drift. rewrite Z.sub_diag. reflexivity.
Qed.

(** When the decoded series equals the authoritative one, every
    authoritative peak is matched to itself: all timing and value drifts
    are zero (spec section 8, scenario B), provided distinct peaks have
    distinct timestamps. *)
Theorem align_peaks_identical times (cadence : Z) (vals : list Z) pk :
  (0 <= cadence)%Z ->
  (forall i j, In i pk -> In j pk -> nth i times 0 == nth j times 0 -> i = j) ->
  let r := align_peaks times cadence vals vals pk pk in
  length r.1 = length pk /\ Forall (fun d => d == 0) r.1 /\ Forall (fun d => d == 0) r.2.
Proof. intros Hc Hinj. apply align_peaks_self; [exact Hc | exact Hinj | apply incl_refl]. Qed.

(** The matching threshold (spec section 8, scenario D): an
    authoritative peak contributes a drift sample exactly when some
    decoded peak lies within [2 * cadence] seconds of it; a peak shifted
    by exactly [2 * cadence] is matched, one shifted further is not. *)
Theorem align_peaks_match_iff times cadence auth_bps gtab_vals peaks_gtab pa :
  (exists d, (align_peaks times cadence auth_bps gtab_vals peaks_gtab [pa]).1 = [d]) <->
  exists pg, In pg peaks_gtab /\ peak_dist times (nth pa times 0) pg <= inject_Z (2 * cadence).
Proof.
  simpl. destruct (nearest_peak times (nth pa times 0) peaks_gtab) as [[ni nd] |] eqn:En.
  - destruct (nearest_peak_spec _ _ _ _ _ En) as (Hin & Hd & Hmin).
    destruct (Qle_bool nd (inject_Z (2 * cadence))) eqn:Ele; simpl.
    + apply Qle_bool_iff in Ele. split; [intros _; exists ni; subst nd; auto | eauto].
    + apply Qle_bool_false in Ele. split; [intros (d & E); discriminate E |].
      intros (pg & Hpg & Hle). specialize (Hmin pg Hpg). lra.
  - simpl. split; [intros (d & E); discriminate E |].
    intros (pg & Hpg & _). destruct (nearest_peak_exists times (nth pa times 0) peaks_gtab)
      as (i & d & E); [intros ->; destruct Hpg | congruence].
Qed.

Lemma stats_summary_total (vals : list Q) : exists sm, stats_summary vals = Some sm.
Proof.
  destruct vals as [| v t] eqn:E; [eexists; reflexivity |]. rewrite <- E.
  destruct (list_bounded vals) as (lo & hi & B).
  destruct (stats_summary_within vals lo hi ltac:(congruence) B) as (sm & Hs & _). eauto.
Qed.

Lemma stats_summary2_eq (vals : list Q) : stats_summary2 vals = stats_summary vals.
Proof. reflexivity. Qed.

Lemma error_samples_identical (vals : list Z) (n : nat) :
  Forall (fun e => e == 0) (error_samples vals vals n).1 /\
  Forall (fun e => e == 0) (error_samples vals vals n).2.
Proof.
  unfold error_samples, rel_drift. simpl. split; apply Forall_map, List.Forall_forall;
    intros i _; rewrite Z.sub_diag; reflexivity.
Qed.

(** A batch of zeros summarizes to zeros (the empty batch included). *)
Lemma stats_summary_zeros (vals : list Q) :
  Forall (fun e => e == 0) vals ->
  exists sm, stats_summary vals = Some sm /\
    s_median sm == 0 /\ s_p95 sm == 0 /\ s_p99 sm == 0 /\ s_mean sm == 0.
Proof.
  intros Hz. destruct vals as [| v t] eqn:E.
  - eexists. split; [reflexivity |]. repeat split; reflexivity.
  - rewrite <- E. destruct (stats_summary_within vals 0 0) as (sm & Hs & B1 & B2 & B3 & B4 & _);
      [congruence | |].
    + rewrite E. eapply Forall_impl; [exact Hz |]. simpl. intros x Hx. lra.
    + exists sm. split; [exact Hs |]. repeat split; lra.
Qed.

(** ** Examples *)

Lemma stats_summary_bounds_witness :
  exists sm, stats_summary [1; 2; 3] = Some sm /\
    0 <= s_mean sm <= 3 /\ 0 <= s_median sm <= 3 /\ 0 <= s_p95 sm <= 3 /\
    0 <= s_p99 sm <= 3 /\ Forall (fun x => x <= s_max sm) [1; 2; 3] /\ In (s_max sm) [1; 2; 3].
Proof.
  apply stats_summary_bounds; [discriminate |].
  repeat constructor; vm_compute; discriminate.
Defined.

Lemma align_peaks_identical_witness :
  let r := align_peaks [0; 1; 2] 1 [1; 3; 2]%Z [1; 3; 2]%Z [1%nat] [1%nat] in
  length r.1 = length [1%nat] /\ Forall (fun d => d == 0) r.1 /\ Forall (fun d => d == 0) r.2.
Proof.
  apply align_peaks_identical; [lia |].
  intros i j [<- | []] [<- | []] _. reflexivity.
Defined.

End Stats.
