(* ===== verification/Sampling.v ===== *)
(** * The sampling loop shared by both scripts

    [t = start; while t <= end: times.append(t); t += timedelta(seconds=cadence)]
    appears in [compute_series] (generate.py) and in [main]
    (compute_metrics.py).  It is modelled as a [Fixpoint] with an
    iteration budget; [sample_times] runs it with the exact number of
    iterations, [floor((end - start) / cadence) + 1], and
    [sample_times_spec] shows that the loop stops there (more budget does
    not change the result) and produces [start + k * cadence]. *)

From Stdlib Require Import QArith Qround Qabs Lqa ZArith Lia List.
From stdpp Require Import base list.
From S2P Require Import Prelude.
Import ListNotations.

Local Open Scope Q_scope.

Module Sampling.

(** [while t <= end: times.append(t); t += timedelta(seconds=cadence)],
    run with [fuel] iterations at most. *)
Fixpoint time_grid (fuel : nat) (t end_ : Q) (cadence : Z) : list Q :=
  match fuel with
  | O => []
  | S fuel' => if Qle_bool t end_ then t :: time_grid fuel' (t + inject_Z cadence) end_ cadence else []
  end.

(** The number of iterations of that loop for [start <= end]:
    [floor((end - start) / cadence) + 1]. *)
Definition grid_fuel (start end_ : Q) (cadence : Z) : nat :=
  S (Z.to_nat (Qfloor ((end_ - start) / inject_Z cadence))).

Definition sample_times (start end_ : Q) (cadence : Z) : list Q :=
  time_grid (grid_fuel start end_ cadence) start end_ cadence.

(** ** The sampling loop *)

Definition steps_left (t end_ : Q) (cadence : Z) : Z := Qfloor ((end_ - t) / inject_Z cadence).

Lemma steps_left_next t end_ cadence :
  (0 < cadence)%Z -> steps_left (t + inject_Z cadence) end_ cadence = (steps_left t end_ cadence - 1)%Z.
Proof.
  intros Hc. unfold steps_left. rewrite <- Qfloor_minus_one. apply Qfloor_comp.
  pose proof (inject_Z_nonzero cadence ltac:(lia)). field. exact H.
Qed.

Lemma steps_left_nonneg t end_ cadence :
  (0 < cadence)%Z -> (0 <= steps_left t end_ cadence)%Z <-> t <= end_.
Proof.
  intros Hc. unfold steps_left. rewrite Qfloor_nonneg_iff, Qdiv_nonneg_iff by (apply inject_Z_pos, Hc).
  lra.
Qed.

Lemma time_grid_stop fuel t end_ cadence : ~ t <= end_ -> time_grid fuel t end_ cadence = [].
Proof.
  intros H. destruct fuel; simpl; [reflexivity |].
  destruct (Qle_bool t end_) eqn:E; [apply Qle_bool_iff in E; contradiction | reflexivity].
Qed.

Lemma time_grid_spec fuel t end_ cadence :
  (0 < cadence)%Z -> t <= end_ -> (Z.to_nat (steps_left t end_ cadence) < fuel)%nat ->
  length (time_grid fuel t end_ cadence) = S (Z.to_nat (steps_left t end_ cadence)) /\
  forall k x, time_grid fuel t end_ cadence !! k = Some x ->
    x == t + inject_Z (Z.of_nat k) * inject_Z cadence.
Proof.
  intros Hc. revert t. induction fuel as [| f IH]; intros t Ht Hf; [lia |].
  simpl. rewrite (proj2 (Qle_bool_iff _ _) Ht).
  pose proof (proj2 (steps_left_nonneg t end_ cadence Hc) Ht) as HN.
  pose proof (steps_left_next t end_ cadence Hc) as Hnext.
  destruct (Z.eq_dec (steps_left t end_ cadence) 0%Z) as [E0 | E0].
  - rewrite time_grid_stop.
    2: { rewrite <- (steps_left_nonneg _ _ _ Hc). lia. }
    rewrite E0. split; [reflexivity |]. intros [| k] x Hx; simpl in Hx; [| discriminate Hx].
    injection Hx as <-. change (inject_Z (Z.of_nat 0)) with 0. ring.
  - assert (Ht' : t + inject_Z cadence <= end_) by (apply (steps_left_nonneg _ _ _ Hc); lia).
    destruct (IH (t + inject_Z cadence) Ht' ltac:(lia)) as [L Hel].
    rewrite Hnext in L. split; [simpl; rewrite L; lia |].
    intros [| k] x Hx; simpl in Hx.
    + injection Hx as <-. change (inject_Z (Z.of_nat 0)) with 0. ring.
    + apply Hel in Hx. rewrite Hx, Nat2Z.inj_succ, <- Z.add_1_r, inject_Z_plus.
      change (inject_Z 1) with 1. ring.
Qed.

Lemma time_grid_fuel_irrel fuel fuel' t end_ cadence :
  (0 < cadence)%Z -> (Z.to_nat (steps_left t end_ cadence) < fuel)%nat ->
  (Z.to_nat (steps_left t end_ cadence) < fuel')%nat ->
  time_grid fuel t end_ cadence = time_grid fuel' t end_ cadence.
Proof.
  intros Hc. revert fuel' t. induction fuel as [| f IH]; intros fuel' t Hf Hf'; [lia |].
  destruct fuel' as [| f']; [lia |]. simpl.
  destruct (Qle_bool t end_) eqn:E; [| reflexivity]. apply Qle_bool_iff in E.
  f_equal. pose proof (steps_left_next t end_ cadence Hc) as Hnext.
  destruct (Qlt_le_dec end_ (t + inject_Z cadence)) as [L | L].
  - rewrite !time_grid_stop; [reflexivity | lra | lra].
  - pose proof (proj2 (steps_left_nonneg _ _ _ Hc) L). apply IH; lia.
Qed.

(** C16. The sampling loop terminates: it runs [floor((end - start)/cadence) + 1]
    times, producing [start + k * cadence] for each [k], and any larger
    iteration budget gives the same list. *)
Theorem sample_times_spec start end_ cadence :
  (0 < cadence)%Z -> start <= end_ ->
  length (sample_times start end_ cadence) = grid_fuel start end_ cadence /\
  (forall k x, sample_times start end_ cadence !! k = Some x ->
     x == start + inject_Z (Z.of_nat k) * inject_Z cadence) /\
  (forall fuel, (grid_fuel start end_ cadence <= fuel)%nat ->
     time_grid fuel start end_ cadence = sample_times start end_ cadence).
Proof.
  intros Hc Hse. unfold sample_times, grid_fuel. fold (steps_left start end_ cadence).
  destruct (time_grid_spec (S (Z.to_nat (steps_left start end_ cadence))) start end_ cadence Hc Hse
    ltac:(lia)) as [L Hel].
  split; [exact L |]. split; [exact Hel |].
  intros fuel Hf. apply time_grid_fuel_irrel; [exact Hc | lia | lia].
Qed.

Lemma sample_times_length start end_ cadence :
  (0 < cadence)%Z -> start <= end_ ->
  length (sample_times start end_ cadence) = grid_fuel start end_ cadence.
Proof.
  intros Hc Hse. unfold sample_times, grid_fuel. fold (steps_left start end_ cadence).
  apply (time_grid_spec _ start end_ cadence Hc Hse). lia.
Qed.

Lemma sample_times_within start end_ cadence t :
  (0 < cadence)%Z -> In t (sample_times start end_ cadence) -> start <= t <= end_.
Proof.
  intros Hc Ht. destruct (Qlt_le_dec end_ start) as [L | L].
  - unfold sample_times in Ht. rewrite time_grid_stop in Ht by lra. destruct Ht.
  - pose proof (sample_times_length start end_ cadence Hc L) as Len.
    assert (Hel := proj2 (time_grid_spec (grid_fuel start end_ cadence) start end_ cadence Hc L
      ltac:(unfold grid_fuel, steps_left; lia))).
    apply list_elem_of_In, list_elem_of_lookup_1 in Ht as [k Hk].
    pose proof (lookup_lt_Some _ _ _ Hk) as Lk. rewrite Len in Lk. unfold grid_fuel in Lk.
    apply Hel in Hk. rewrite Hk.
    pose proof (inject_Z_pos _ Hc) as Pc.
    pose proof (proj2 (steps_left_nonneg start end_ cadence Hc) L) as HN.
    assert (Hk' : (Z.of_nat k <= steps_left start end_ cadence)%Z) by (unfold steps_left in *; lia).
    destruct (Qfloor_bounds ((end_ - start) / inject_Z cadence)) as [F1 _].
    assert (K : inject_Z (Z.of_nat k) <= (end_ - start) / inject_Z cadence).
    { apply (Qle_trans _ (inject_Z (steps_left start end_ cadence))); [zq; exact Hk' | exact F1]. }
    assert (K0 : 0 <= inject_Z (Z.of_nat k)) by (apply inject_Z_nonneg; lia).
    assert (E : (end_ - start) / inject_Z cadence * inject_Z cadence == end_ - start).
    { field. intros Z0. apply (inject_Z_nonzero cadence); [lia | exact Z0]. }
    split; nra.
Qed.

Lemma sample_times_spec_witness :
  length (sample_times 0 10 1) = grid_fuel 0 10 1 /\
  (forall k x, sample_times 0 10 1 !! k = Some x -> x == 0 + inject_Z (Z.of_nat k) * inject_Z 1) /\
  (forall fuel, (grid_fuel 0 10 1 <= fuel)%nat -> time_grid fuel 0 10 1 = sample_times 0 10 1).
Proof. apply sample_times_spec; [lia | vm_compute; discriminate]. Defined.

End Sampling.
