(* ===== verification/Validator.v ===== *)
(** * The accuracy validator: [main] of compute_metrics.py

    A run of [src/scripts/ephem/validation/compute_metrics.py] as a total
    function from its inputs (arguments as text, the machine's UTC
    offset, current time, table file, the ephemeris) to its outcome: a
    [SystemExit], a metrics document, or an exception raised outside the
    script's one [try] ([Crash], with the cause).  The window bounds are
    read with [iso_parse] of Datetime.v; every datetime the run makes is
    checked against [datetime]'s range (years 1 to 9999), as Python does:
    [astimezone], [now - 7 days], [fromtimestamp] of the header's epoch,
    the table's end and the loop's last [t += cadence] raise outside it.
    Reading the thresholds file is modelled after JSON parsing (a failure
    to read or parse it raises; its entries are numbers), loading the
    kernel as its coverage span.  Early exits produce the [bad_header],
    [coverage_gap] and [insufficient_samples] reports; otherwise the run
    samples the clipped window with the [while t <= end] loop, recomputes
    the authoritative proxy, decodes the table (a failed lookup counts as
    0), normalizes, and evaluates the statistics of [Stats].  Times are
    exact rationals (seconds); the rounding of [timedelta] to
    microseconds is not modelled. *)

From Stdlib Require Import QArith Qround Qabs Lqa ZArith Lia List String.
From stdpp Require Import base list.
From S2P Require Import Prelude Datetime Bytes Format Decoder Normalizer Signal Stats Sampling.
Import ListNotations.

Local Open Scope Q_scope.

Module Validator.
Import Struct GtabFormat GtabDecoder Normalizer Signal Stats Sampling.
Local Open Scope Q_scope.

(** [raise SystemExit(...)]: the run's fatal setup errors. *)
Inductive exit_reason : Type :=
| EndNotAfterStart
| SkyfieldMissing
| KernelNotFound.

(** The [reason] of an early report; [BadHeader None] is an error
    opening the table file. *)
Inductive reason : Type :=
| BadHeader (e : option header_error)
| CoverageGap
| InsufficientSamples.

Record Metrics : Type := mk_metrics {
  records_compared : nat;
  rel_error : Summary;
  abs_error : Summary;
  peak_count : nat;
  peak_timing_drift : Summary;
  peak_value_rel_drift : Summary;
  metrics_passes : bool;
  metrics_thresholds : Thresholds
}.

(** The metrics document: an early-exit report (always [passes: False])
    or the full one. *)
Inductive report : Type :=
| EarlyReport (r : reason) (compared : nat) (th : Thresholds)
| FullReport (m : Metrics).

Definition report_passes (r : report) : bool :=
  match r with
  | EarlyReport _ _ _ => false
  | FullReport m => metrics_passes m
  end.

(** The exceptions a run raises outside any [try]. *)
Inductive crash : Type :=
| IsoFormatError
| DatetimeOverflow
| ThresholdsError
| KernelLoadError
| EphemerisRangeError
| MetricsError.

Inductive outcome : Type :=
| Exit (e : exit_reason)
| Wrote (r : report)
| Crash (c : crash).

(** The arguments: [--start] and [--end] as given (their ISO text),
    [--cadence], the thresholds file ([None] without [--thresholds];
    [Some None] when reading it, [json.loads] or [.get] raises; else its
    numeric entries), whether the kernel file exists, and what
    [load(str(ker_path))] yields: [None] when loading it or looking up
    [earth], [sun] or [moon] raises, else the span of time it covers. *)
Record Args : Type := mk_args {
  arg_start : option string;
  arg_end : option string;
  arg_cadence : Z;
  arg_thresholds : option (option (string -> option Q));
  kernel_present : bool;
  kernel_coverage : option (Q * Q)
}.

Definition SEVEN_DAYS : Q := inject_Z (7 * 86400).

(** [datetime.min] and the first instant after [datetime.max], in seconds
    since the epoch: an aware datetime exists exactly in between. *)
Definition DT_MIN : Q := inject_Z (Datetime.days_from_civil 1 1 1 * 86400).
Definition DT_END : Q := inject_Z (Datetime.days_from_civil 10000 1 1 * 86400).

Definition dt_in_range (t : Q) : bool := Qle_bool DT_MIN t && Qlt_bool t DT_END.

(** Making the datetime of an instant: [OverflowError] or [ValueError]
    outside the range. *)
Definition dt_check (t : Q) : result Q crash :=
  if dt_in_range t then Ok t else Err DatetimeOverflow.

(** [iso_parse(s)] as an instant in seconds: [ValueError] when
    [fromisoformat] rejects the text, [OverflowError] when [astimezone]
    leaves the range. *)
Definition iso_instant (sys_offset : Z) (s : string) : result Q crash :=
  match Datetime.iso_parse sys_offset s with
  | None => Err IsoFormatError
  | Some d => dt_check (inject_Z (Datetime.dt_local d) / inject_Z Datetime.US_PER_SEC)
  end.

(** [iso_parse(arg) if arg else default]. *)
Definition window_bound (sys_offset : Z) (arg : option string) (dflt : result Q crash) : result Q crash :=
  match arg with
  | Some s => if String.eqb s "" then dflt else iso_instant sys_offset s
  | None => dflt
  end.

(** [start = iso_parse(args.start) if args.start else now - timedelta(days=7)],
    then [end = iso_parse(args.end) if args.end else now]. *)
Definition requested_window (sys_offset : Z) (args : Args) (now : Q) : result (Q * Q) crash :=
  start <-? window_bound sys_offset (arg_start args) (dt_check (now - SEVEN_DAYS)) ;;
  end_ <-? window_bound sys_offset (arg_end args) (Ok now) ;;
  Ok (start, end_).

(** [load_thresholds]: each key falls back to its default. *)
Definition load_thresholds (path : option (option (string -> option Q))) : result Thresholds crash :=
  match path with
  | None => Ok default_thresholds
  | Some None => Err ThresholdsError
  | Some (Some d) =>
      Ok (mk_thresholds
            (default (1 # 1000) (d "rel_error_median"%string))
            (default (5 # 1000) (d "rel_error_p99"%string))
            (default (120 # 1) (d "peak_timing_drift_seconds_p99"%string))
            (default (2 # 1000) (d "peak_value_rel_drift_p99"%string)))
  end.

(** [gtab_vals]: a lookup that raises counts as 0. *)
Definition table_values (file : list Z) (h : header) (times : list Q) : list Z :=
  map (fun t =>
         match gtab_lookup_tide_bps file (hdr_epoch h) (hdr_dt_ns h) (hdr_count h) t with
         | Ok v => v
         | Err _ => 0%Z
         end) times.

(** Normalization, errors, statistics, peaks, drifts and the pass flag;
    [None] where Python would raise. *)
Definition metrics_of (times : list Q) (cadence : Z) (auth_list : list Q) (gtab_vals : list Z)
    (th : Thresholds) : option Metrics :=
  auth_bps ← normalize_val auth_list;
  let errs := error_samples auth_bps gtab_vals (length times) in
  rel_stats ← stats_summary errs.1;
  abs_stats ← stats_summary errs.2;
  let peaks_auth := detect_peaks auth_bps in
  let peaks_gtab := detect_peaks gtab_vals in
  let drifts := align_peaks times cadence auth_bps gtab_vals peaks_gtab peaks_auth in
  timing_stats ← stats_summary2 drifts.1;
  peak_val_stats ← stats_summary2 drifts.2;
  Some (mk_metrics (length times) rel_stats abs_stats (length peaks_auth)
          timing_stats peak_val_stats (passes th rel_stats timing_stats peak_val_stats) th).

(** [read_gtab_header(tbl_path)] under the [try]: [None] for the file is
    an [OSError]. *)
Definition open_header (table : option (list Z)) : result (list Z * header) (option header_error) :=
  match table with
  | None => Err None
  | Some f => match read_gtab_header f with
              | Ok h => Ok (f, h)
              | Err e => Err (Some e)
              end
  end.

(** The table's covered span [[tbl_start, tbl_end]]. *)
Definition table_span (h : header) : Q * Q :=
  (inject_Z (hdr_epoch h), sample_time (hdr_epoch h) (hdr_dt_ns h) (hdr_count h - 1)).

(** [tbl_start = datetime.fromtimestamp(epoch_sec, tz=timezone.utc)] and
    [tbl_end = tbl_start + timedelta(...)], after the [try]: each raises
    outside the datetime range. *)
Definition table_window (h : header) : result (Q * Q) crash :=
  let '(tbl_start, tbl_end) := table_span h in
  tbl_start <-? dt_check tbl_start ;;
  tbl_end <-? dt_check tbl_end ;;
  Ok (tbl_start, tbl_end).

(** Clipping the requested window to the table's span. *)
Definition clip_window (start end_ : Q) (h : header) : Q * Q :=
  let '(tbl_start, tbl_end) := table_span h in
  (if Qlt_bool start tbl_start then tbl_start else start,
   if Qlt_bool tbl_end end_ then tbl_end else end_).

(** The [while t <= end] loop ends with [t += timedelta(seconds=cadence)]
    past the last sample, which raises when it leaves the range. *)
Definition loop_overflow (times : list Q) (cadence : Z) : bool :=
  match last times with
  | Some t => negb (dt_in_range (t + inject_Z cadence))
  | None => false
  end.

(** [compute_authoritative] raises ([EphemerisRangeError]) when a sampled
    time lies outside the kernel's coverage. *)
Definition covered (lo hi : Q) (times : list Q) : bool :=
  forallb (fun t => Qle_bool lo t && Qle_bool t hi) times.

Definition main `{PositionProvider} (sys_offset : Z) (args : Args) (now : Q) (table : option (list Z))
    (skyfield : bool) : outcome :=
  match requested_window sys_offset args now with
  | Err c => Crash c
  | Ok (start, end_) =>
  if Qle_bool end_ start then Exit EndNotAfterStart else
  let cadence := Z.max 1 (arg_cadence args) in
  match load_thresholds (arg_thresholds args) with
  | Err c => Crash c
  | Ok th =>
  match open_header table with
  | Err e => Wrote (EarlyReport (BadHeader e) 0 th)
  | Ok (f, h) =>
  match table_window h with
  | Err c => Crash c
  | Ok _ =>
      let '(start, end_) := clip_window start end_ h in
      if Qle_bool end_ start then Wrote (EarlyReport CoverageGap 0 th) else
      let times := sample_times start end_ cadence in
      if loop_overflow times cadence then Crash DatetimeOverflow else
      if (length times <? 10)%nat then Wrote (EarlyReport InsufficientSamples (length times) th) else
      if negb skyfield then Exit SkyfieldMissing else
      if negb (kernel_present args) then Exit KernelNotFound else
      match kernel_coverage args with
      | None => Crash KernelLoadError
      | Some (lo, hi) =>
      if negb (covered lo hi times) then Crash EphemerisRangeError else
      let authoritative := compute_authoritative times in
      let gtab_vals := table_values f h times in
      match metrics_of times cadence authoritative gtab_vals th with
      | Some m => Wrote (FullReport m)
      | None => Crash MetricsError
      end
      end
  end
  end
  end
  end.

(** Thresholds that a run with zero errors and drifts meets. *)
Definition thresholds_nonneg (th : Thresholds) : Prop :=
  0 <= rel_error_median th /\ 0 <= rel_error_p99 th /\
  0 <= peak_timing_drift_seconds_p99 th /\ 0 <= peak_value_rel_drift_p99 th.

(** ** Outcomes of a run *)

Lemma normalize_val_total (auth_list : list Q) :
  exists bps, normalize_val auth_list = Some bps /\ length bps = length auth_list /\
    Forall (fun b => (0 <= b <= 10000)%Z) bps.
Proof.
  destruct (normalize_gen_spec auth_list) as (bps & E & L & B). exists bps.
  unfold normalize_gen in E. unfold normalize_val.
  rewrite !percentiles_eq in E by (apply P5_range || apply P95_range).
  destruct (percentile (py_sorted auth_list) P5) as [p5 |]; [simpl in E |- * | discriminate E].
  destruct (percentile (py_sorted auth_list) P95) as [p95 |]; [simpl in E |- * | discriminate E].
  rewrite <- (scale_batch_proper p5 _ _ auth_list (span_eq (p95 - p5))). rewrite E. auto.
Qed.

Lemma metrics_of_total times cadence auth_list gtab_vals th :
  exists m, metrics_of times cadence auth_list gtab_vals th = Some m.
Proof.
  unfold metrics_of. destruct (normalize_val_total auth_list) as (bps & -> & _). simpl.
  repeat match goal with
  | |- context [stats_summary2 ?l] => rewrite (stats_summary2_eq l)
  | |- context [stats_summary ?l] =>
    let E := fresh "E" in destruct (stats_summary_total l) as [? E]; rewrite E; simpl
  end.
  eauto.
Qed.

Lemma metrics_of_records times cadence auth_list gtab_vals th m :
  metrics_of times cadence auth_list gtab_vals th = Some m -> records_compared m = length times.
Proof. unfold metrics_of. intros H. inv_option H. subst. reflexivity. Qed.

Lemma table_window_ok h :
  dt_in_range (table_span h).1 = true -> dt_in_range (table_span h).2 = true ->
  table_window h = Ok (table_span h).
Proof.
  unfold table_window, dt_check. destruct (table_span h) as [ts te]. simpl. intros -> ->. reflexivity.
Qed.

(** A run whose window and thresholds are read, on a table whose header
    is accepted, reaches the table's span. *)
Lemma main_after_header `{PositionProvider} sys args now f h skyfield start end_ th :
  requested_window sys args now = Ok (start, end_) -> start < end_ ->
  load_thresholds (arg_thresholds args) = Ok th -> read_gtab_header f = Ok h ->
  main sys args now (Some f) skyfield =
  match table_window h with
  | Err c => Crash c
  | Ok _ =>
      let '(start, end_) := clip_window start end_ h in
      if Qle_bool end_ start then Wrote (EarlyReport CoverageGap 0 th) else
      let times := sample_times start end_ (Z.max 1 (arg_cadence args)) in
      if loop_overflow times (Z.max 1 (arg_cadence args)) then Crash DatetimeOverflow else
      if (length times <? 10)%nat then Wrote (EarlyReport InsufficientSamples (length times) th) else
      if negb skyfield then Exit SkyfieldMissing else
      if negb (kernel_present args) then Exit KernelNotFound else
      match kernel_coverage args with
      | None => Crash KernelLoadError
      | Some (lo, hi) =>
      if negb (covered lo hi times) then Crash EphemerisRangeError else
      match metrics_of times (Z.max 1 (arg_cadence args)) (compute_authoritative times)
              (table_values f h times) th with
      | Some m => Wrote (FullReport m)
      | None => Crash MetricsError
      end
      end
  end.
Proof.
  intros Hw Hlt Ht Hh. unfold main. rewrite Hw.
  rewrite (proj2 (Qle_bool_false _ _)) by lra. rewrite Ht. unfold open_header. rewrite Hh.
  reflexivity.
Qed.

(** C9. The validator throws past its own boundary (spec 4.5) on a table
    whose header it accepts: when the table's first instant or its last
    sample's instant lies outside [datetime]'s range (an epoch of [2^40]
    s, or [count - 1] steps of [dt_ns] beyond year 9999),
    [datetime.fromtimestamp] or the [timedelta] addition raises after the
    [try], instead of a structured report. *)
Theorem main_span_overflow_crashes `{PositionProvider} sys args now f h skyfield start end_ th :
  requested_window sys args now = Ok (start, end_) -> start < end_ ->
  load_thresholds (arg_thresholds args) = Ok th -> read_gtab_header f = Ok h ->
  dt_in_range (table_span h).1 = false \/ dt_in_range (table_span h).2 = false ->
  main sys args now (Some f) skyfield = Crash DatetimeOverflow.
Proof.
  intros Hw Hlt Ht Hh Hr. rewrite (main_after_header sys args now f h skyfield start end_ th Hw Hlt Ht Hh).
  unfold table_window, dt_check. destruct (table_span h) as [ts te]. simpl in Hr.
  destruct Hr as [-> | Hr]; [reflexivity |]. destruct (dt_in_range ts); [| reflexivity].
  simpl. rewrite Hr. reflexivity.
Qed.

(** C25. A table that cannot be opened or whose header is rejected yields the
    [bad_header] report with nothing compared (spec 4.5 step 1). *)
Theorem main_bad_header `{PositionProvider} sys args now table skyfield start end_ th e :
  requested_window sys args now = Ok (start, end_) -> start < end_ ->
  load_thresholds (arg_thresholds args) = Ok th ->
  open_header table = Err e ->
  main sys args now table skyfield = Wrote (EarlyReport (BadHeader e) 0 th).
Proof.
  intros Hw Hlt Ht He. unfold main. rewrite Hw.
  rewrite (proj2 (Qle_bool_false _ _)) by lra. rewrite Ht, He. reflexivity.
Qed.

Lemma clip_window_bounds start end_ h start' end' :
  clip_window start end_ h = (start', end') ->
  inject_Z (hdr_epoch h) <= start' /\ start <= start' /\
  end' <= sample_time (hdr_epoch h) (hdr_dt_ns h) (hdr_count h - 1) /\ end' <= end_.
Proof.
  unfold clip_window, table_span. intros E. injection E as <- <-.
  destruct (Qlt_bool start _) eqn:E1, (Qlt_bool _ end_) eqn:E2; bool_facts; repeat split; lra.
Qed.

(** C26. A table whose span lies within [datetime]'s range and entirely
    before or entirely after the requested window yields the
    [coverage_gap] report with nothing compared (spec section 8,
    scenario C). *)
Theorem main_coverage_gap `{PositionProvider} sys args now f h skyfield start end_ th :
  requested_window sys args now = Ok (start, end_) -> start < end_ ->
  load_thresholds (arg_thresholds args) = Ok th -> read_gtab_header f = Ok h ->
  dt_in_range (table_span h).1 = true -> dt_in_range (table_span h).2 = true ->
  (sample_time (hdr_epoch h) (hdr_dt_ns h) (hdr_count h - 1) < start \/ end_ < inject_Z (hdr_epoch h)) ->
  main sys args now (Some f) skyfield = Wrote (EarlyReport CoverageGap 0 th).
Proof.
  intros Hw Hlt Ht Hh R1 R2 Hout. rewrite (main_after_header sys args now f h skyfield start end_ th Hw Hlt Ht Hh).
  rewrite (table_window_ok h R1 R2).
  destruct (clip_window start end_ h) as [s' e'] eqn:Ec.
  pose proof (clip_window_bounds _ _ _ _ _ Ec) as (B1 & B2 & B3 & B4).
  unfold clip_window, table_span in Ec. injection Ec as Es Ee.
  rewrite (proj2 (Qle_bool_iff e' s')); [reflexivity |].
  destruct Hout as [Hout | Hout].
  - rewrite <- Es. destruct (Qlt_bool start _) eqn:E1; bool_facts; [lra | lra].
  - rewrite <- Ee. destruct (Qlt_bool _ end_) eqn:E2; bool_facts; lra.
Qed.

(** An early report compares fewer than 10 samples when it gives up for
    insufficient samples, and a full report compares at least 10. *)
Theorem main_records_compared `{PositionProvider} sys args now table skyfield :
  (forall k th, main sys args now table skyfield = Wrote (EarlyReport InsufficientSamples k th) -> (k < 10)%nat) /\
  (forall m, main sys args now table skyfield = Wrote (FullReport m) -> (10 <= records_compared m)%nat).
Proof.
  unfold main.
  destruct (requested_window sys args now) as [[s e] | c]; [| split; intros; discriminate].
  destruct (Qle_bool e s); [split; intros; discriminate |].
  destruct (load_thresholds _) as [th | c]; [| split; intros; discriminate].
  destruct (open_header table) as [[f h] | e']; [| split; intros; discriminate].
  destruct (table_window h) as [w | c]; [| split; intros; discriminate].
  cbv zeta. destruct (clip_window s e h) as [s' e'].
  destruct (Qle_bool _ _); [split; intros; discriminate |].
  destruct (loop_overflow _ _); [split; intros; discriminate |].
  destruct (length (sample_times s' e' (Z.max 1 (arg_cadence args))) <? 10)%nat eqn:E10.
  - split; [intros k th' Hk; injection Hk as <- _; apply Nat.ltb_lt, E10 | intros; discriminate].
  - apply Nat.ltb_ge in E10.
    destruct skyfield; [| split; intros; discriminate].
    destruct (kernel_present args); [| split; intros; discriminate].
    destruct (kernel_coverage args) as [[lo hi] |]; [| split; intros; discriminate].
    destruct (negb (covered lo hi _)); [split; intros; discriminate |].
    simpl. destruct (metrics_of _ _ _ _ _) as [m0 |] eqn:Em; [| split; intros; discriminate].
    split; [intros; discriminate |].
    intros m Hm. injection Hm as <-. rewrite (metrics_of_records _ _ _ _ _ _ Em). exact E10.
Qed.


(** C32. In exact arithmetic, every timestamp the validator samples lies in
    the table's span, so no decoded value is replaced by 0 because of an
    out-of-range lookup. *)
Theorem sampled_lookups_in_range file h start end_ start' end' cadence t :
  read_gtab_header file = Ok h -> (0 < cadence)%Z ->
  clip_window start end_ h = (start', end') ->
  In t (sample_times start' end' cadence) ->
  gtab_lookup_tide_bps file (hdr_epoch h) (hdr_dt_ns h) (hdr_count h) t <> Err OutOfRange.
Proof.
  intros Hh Hc Hw Ht.
  pose proof (clip_window_bounds _ _ _ _ _ Hw) as (B1 & _ & B3 & _).
  pose proof (sample_times_within _ _ _ _ Hc Ht).
  apply lookup_in_span; [exact (read_gtab_header_dt_pos _ _ Hh) | lra].
Qed.

(** C13. Scenario B (spec section 8): when the decoded series is exactly the
    validator's own normalization of the authoritative series, the
    relative error and peak-timing drift statistics are zero and the run
    passes, for any non-negative thresholds. *)
Theorem metrics_of_identical times cadence auth_list bps th :
  (0 <= cadence)%Z -> normalize_val auth_list = Some bps -> length auth_list = length times ->
  (forall i j, (i < length times)%nat -> (j < length times)%nat ->
     nth i times 0 == nth j times 0 -> i = j) ->
  thresholds_nonneg th ->
  exists m, metrics_of times cadence auth_list bps th = Some m /\
    metrics_passes m = true /\ s_p99 (rel_error m) == 0 /\ s_p99 (peak_timing_drift m) == 0.
Proof.
  intros Hc Hn Hlen Hinj (T1 & T2 & T3 & T4).
  assert (Lb : length bps = length times).
  { destruct (normalize_val_total auth_list) as (b & Eb & Lb & _). rewrite Hn in Eb.
    injection Eb as <-. lia. }
  destruct (error_samples_identical bps (length times)) as [Z1 Z2].
  destruct (stats_summary_zeros _ Z1) as (r & Er & R1 & _ & R3 & _).
  destruct (stats_summary_zeros _ Z2) as (a & Ea & _).
  assert (Hpk : forall i j, In i (detect_peaks bps) -> In j (detect_peaks bps) ->
                nth i times 0 == nth j times 0 -> i = j).
  { intros i j Hi Hj. apply detect_peaks_lt in Hi, Hj. apply Hinj; lia. }
  destruct (align_peaks_self times cadence bps (detect_peaks bps) (detect_peaks bps) Hc Hpk
    (incl_refl _)) as (_ & D1 & D2).
  destruct (stats_summary_zeros _ D1) as (t & Et & _ & _ & Tz & _).
  destruct (stats_summary_zeros _ D2) as (v & Ev & _ & _ & Vz & _).
  unfold metrics_of. rewrite Hn, bind_Some. cbv beta zeta.
  rewrite Er, bind_Some. cbv beta zeta. rewrite Ea, bind_Some. cbv beta zeta.
  change stats_summary2 with stats_summary.
  rewrite Et, bind_Some. cbv beta zeta. rewrite Ev, bind_Some.
  eexists. split; [reflexivity |]. simpl. split; [| split; assumption].
  unfold passes. repeat (apply andb_true_iff; split); apply Qle_bool_iff; lra.
Qed.

(** ** Examples

    The table of two samples one second apart from epoch 0 (covering
    [[0, 1]]), runs with the example provider of [Signal]. *)

Lemma metrics_of_identical_witness :
  exists m, metrics_of [0; 1; 2] 1 [1; 3; 2] [0; 10000; 5000]%Z default_thresholds = Some m /\
    metrics_passes m = true /\ s_p99 (rel_error m) == 0 /\ s_p99 (peak_timing_drift m) == 0.
Proof.
  apply metrics_of_identical; [lia | vm_compute; reflexivity | reflexivity | |].
  - intros [| [| [| i]]] [| [| [| j]]] Hi Hj E; simpl in Hi, Hj; try lia; try reflexivity;
      vm_compute in E; discriminate E.
  - repeat split; vm_compute; discriminate.
Defined.

(** [--start 1970-01-01T00:01:40Z --end 1970-01-01T00:03:20Z]: the
    window [[100 s, 200 s]]. *)
Definition example_args : Args :=
  mk_args (Some "1970-01-01T00:01:40Z"%string) (Some "1970-01-01T00:03:20Z"%string) 60 None true None.

Definition example_table (epoch : Z) : list Z :=
  (MAGIC ++ [1; 0] ++ le_split 8 epoch ++ le_split 8 (10 ^ 9) ++ le_split 4 2 ++
   le_split 4 1 ++ repeat 0 16 ++ [0; 0; 16; 39])%Z.

Lemma main_coverage_gap_witness :
  main (H := example_provider) 0 example_args 0 (Some (example_table 0)) true =
    Wrote (EarlyReport CoverageGap 0 default_thresholds).
Proof.
  apply (main_coverage_gap (H := example_provider) 0 example_args 0 (example_table 0)
           (mk_header 0 (10 ^ 9) 2 1) true (100000000 # 1000000) (200000000 # 1000000));
    vm_compute; try reflexivity; auto.
Defined.

(** The same window against a table whose epoch is [2^40] s (year
    36812): the header is accepted, then [fromtimestamp] raises. *)
Lemma main_span_overflow_crashes_witness :
  read_gtab_header (example_table (2 ^ 40)) = Ok (mk_header (2 ^ 40) (10 ^ 9) 2 1) /\
  main (H := example_provider) 0 example_args 0 (Some (example_table (2 ^ 40))) true = Crash DatetimeOverflow.
Proof.
  split; [vm_compute; reflexivity |].
  apply (main_span_overflow_crashes (H := example_provider) 0 example_args 0 (example_table (2 ^ 40))
           (mk_header (2 ^ 40) (10 ^ 9) 2 1) true (100000000 # 1000000) (200000000 # 1000000)
           default_thresholds);
    [vm_compute; reflexivity | vm_compute; reflexivity | reflexivity | vm_compute; reflexivity |
     left; vm_compute; reflexivity].
Defined.

Lemma sampled_lookups_in_range_witness :
  gtab_lookup_tide_bps (MAGIC ++ [1; 0] ++ le_split 8 0 ++ le_split 8 (10 ^ 9) ++ le_split 4 2 ++
                        le_split 4 1 ++ repeat 0 16 ++ [0; 0; 16; 39])%Z 0 (10 ^ 9) 2 1 <> Err OutOfRange.
Proof.
  apply (sampled_lookups_in_range _ (mk_header 0 (10 ^ 9) 2 1) 0 5 0 (sample_time 0 (10 ^ 9) 1) 1);
    [vm_compute; reflexivity | lia | vm_compute; reflexivity | vm_compute; auto].
Defined.

Lemma main_bad_header_witness :
  main (H := example_provider) 0 example_args 0 None true =
    Wrote (EarlyReport (BadHeader None) 0 default_thresholds).
Proof.
  apply (main_bad_header (H := example_provider) 0 example_args 0 None true
           (100000000 # 1000000) (200000000 # 1000000));
    [vm_compute; reflexivity | vm_compute; reflexivity | reflexivity | reflexivity].
Defined.

End Validator.
