(* ===== verification/Encoder.v ===== *)
(** * The GTAB encoder: [compute_series], [generate] and [main] of generate.py

    [compute_series] samples [[start, end]] at a cadence with the loop of
    [Sampling], queries the ephemeris once for the batch, applies the
    proxy and normalizes the batch.  [generate] exits when Skyfield is
    missing, builds the 1 s and 60 s series, unlinks the two table files,
    writes them with [write_gtab], then writes the metadata sidecar;
    [gen_main] runs it with the default field mask.  The output directory
    is a finite map from file names to contents; a [struct.error] raised
    by a write is returned with the directory as it stands at that point
    (the files already unlinked or written stay so).  The sidecar's
    dataset id is computed by a parameter, [make_dataset_id] of Hash.v
    on the same [Config]; its creation timestamp is not modelled.  The
    window bounds are aware datetimes (their instants and UTC offsets);
    the table's epoch is the start's wall-clock time read as UTC
    ([start_epoch], generate.py:122), the sample times are instants.  The
    theorems cover a complete run, the end-to-end round trip through the
    decoder, the misread of default-mask tables, the empty window, the
    failure path and the files a run may touch. *)

From Stdlib Require Import QArith Qround Lqa ZArith Lia List Ascii String.
From stdpp Require Import base list gmap strings.
From S2P Require Import Prelude Bytes Format Decoder Normalizer Signal Sampling.
Import ListNotations.

Local Open Scope Q_scope.

Module Encoder.
Import Struct GtabFormat GtabDecoder Normalizer Signal Sampling.

(** [Config]: the window bounds are aware datetimes, each the instant it
    names (seconds since the epoch) and its UTC offset (seconds). *)
Record Config : Type := mk_config {
  cfg_kernel : string;
  cfg_start : Q;
  cfg_end : Q;
  cfg_fields_mask : Z;
  cfg_start_utcoffset : Q;
  cfg_end_utcoffset : Q
}.

(** [int(cfg.start.replace(tzinfo=timezone.utc).timestamp())]: the
    start's wall-clock time read as UTC, that is its instant plus its
    UTC offset, truncated. *)
Definition start_epoch (cfg : Config) : Z := py_int (cfg_start cfg + cfg_start_utcoffset cfg).

(** [fields_mask: int = FIELD_TIDE_BPS | FIELD_TIDE_RAW] *)
Definition default_fields_mask : Z := Z.lor FIELD_TIDE_BPS FIELD_TIDE_RAW.

(** The sidecar [gtab.meta.json]; [start] and [end] are kept as instants
    (their ISO rendering is not modelled). *)
Record Meta : Type := mk_meta {
  meta_dataset_id : string;
  meta_kernel : string;
  meta_start : Q;
  meta_end : Q;
  meta_fields_mask : Z;
  meta_version : Z
}.

Inductive file : Type :=
| BinFile (bytes : list Z)
| MetaFile (m : Meta).

Definition GTAB_1S : string := "gtab_1s.bin".
Definition GTAB_60S : string := "gtab_60s.bin".
Definition GTAB_META : string := "gtab.meta.json".

(** The [meta] dict of [generate], without [created_at];
    [make_dataset_id] is the parameter [dataset_id] (Hash.v defines it
    on this [Config]). *)
Definition gen_meta (dataset_id : Config -> string) (cfg : Config) : Meta :=
  mk_meta (dataset_id cfg) (path_name (cfg_kernel cfg)) (cfg_start cfg) (cfg_end cfg) (cfg_fields_mask cfg) VERSION.

(** [raw = MU_SUN/(rs**3) + MU_MOON/(rm**3)] over the batch. *)
Definition raw_series `{PositionProvider} (times : list Q) : list Q :=
  map (fun d => signal d.1 d.2) (distances times).

(** [compute_series(dt_seconds)]: [(samples, epoch, dt_ns)]; an empty
    window gives [([], 0, 0)]. *)
Definition compute_series `{PositionProvider} (cfg : Config) (dt_seconds : Z)
  : option (list sample * Z * Z) :=
  let times := sample_times (cfg_start cfg) (cfg_end cfg) dt_seconds in
  match times with
  | [] => Some ([], 0%Z, 0%Z)
  | _ =>
      let raw_vals := raw_series times in
      bps ← normalize_gen raw_vals;
      let epoch := start_epoch cfg in
      Some (combine bps raw_vals, epoch, (dt_seconds * 1000000000)%Z)
  end.

(** How a run of [generate] stops early: [SystemExit] when Skyfield is
    missing, an exception of [compute_series], or a [struct.error] of
    [write_gtab]. *)
Inductive gen_error : Type :=
| MissingSkyfield
| SeriesError
| PackError.

(** [generate(cfg)] on the output directory [out]. *)
Definition generate `{PositionProvider} (dataset_id : Config -> string) (pack_f : Q -> option (list Z)) (skyfield : bool)
    (cfg : Config) (out : gmap string file) : gmap string file * option gen_error :=
  if negb skyfield then (out, Some MissingSkyfield) else
  match compute_series cfg 1, compute_series cfg 60 with
  | Some (s1, epoch, dt1), Some (s60, _, dt60) =>
      let out := delete GTAB_60S (delete GTAB_1S out) in
      match write_gtab pack_f epoch dt1 s1 (cfg_fields_mask cfg) with
      | None => (out, Some PackError)
      | Some b1 =>
          let out := <[GTAB_1S := BinFile b1]> out in
          match write_gtab pack_f epoch dt60 s60 (cfg_fields_mask cfg) with
          | None => (out, Some PackError)
          | Some b60 =>
              let out := <[GTAB_60S := BinFile b60]> out in
              (<[GTAB_META := MetaFile (gen_meta dataset_id cfg)]> out, None)
          end
      end
  | _, _ => (out, Some SeriesError)
  end.

(** The arguments of [parse_args] after ISO parsing; [--out-dir] is the
    directory [generate] works on. *)
Record GenArgs : Type := mk_gen_args {
  ga_kernel : string;
  ga_start : Q;
  ga_end : Q;
  ga_start_utcoffset : Q;
  ga_end_utcoffset : Q
}.

(** [main()]: the configuration with the default field mask, then
    [generate]. *)
Definition gen_main `{PositionProvider} (dataset_id : Config -> string) (pack_f : Q -> option (list Z)) (skyfield : bool)
    (args : GenArgs) (out : gmap string file) : gmap string file * option gen_error :=
  generate dataset_id pack_f skyfield
    (mk_config (ga_kernel args) (ga_start args) (ga_end args) default_fields_mask
       (ga_start_utcoffset args) (ga_end_utcoffset args)) out.

(** The directory after a complete run: both tables replaced, then the
    sidecar. *)
Definition generated (dataset_id : Config -> string) (out : gmap string file) (b1 b60 : list Z) (cfg : Config) : gmap string file :=
  <[GTAB_META := MetaFile (gen_meta dataset_id cfg)]>
    (<[GTAB_60S := BinFile b60]> (<[GTAB_1S := BinFile b1]> (delete GTAB_60S (delete GTAB_1S out)))).

(** The ranges in which every [struct.pack] of a run succeeds: the epoch
    fits [<q], the 1 s table's count fits [<I], the mask fits [<I], and
    every raw value packs as [<f]. *)
Definition packable_run (pack_f : Q -> option (list Z)) (cfg : Config) : Prop :=
  (- 2 ^ 63 <= start_epoch cfg < 2 ^ 63)%Z /\
  (Z.of_nat (grid_fuel (cfg_start cfg) (cfg_end cfg) 1) < 2 ^ 32)%Z /\
  (0 <= cfg_fields_mask cfg < 2 ^ 32)%Z /\
  (forall q, pack_f q <> None).

(** ** The two series *)

Lemma raw_series_length `{PositionProvider} ts : length (raw_series ts) = length ts.
Proof. unfold raw_series. now rewrite length_map, distances_length. Qed.

Lemma sample_times_empty start end_ cadence :
  end_ < start -> sample_times start end_ cadence = [].
Proof. intros H. apply time_grid_stop. lra. Qed.


(** A non-empty window: the samples pair the normalized values with the
    raw values of the batch, under the epoch [start_epoch]. *)
Lemma compute_series_window `{PositionProvider} cfg dt :
  (0 < dt)%Z -> cfg_start cfg <= cfg_end cfg ->
  exists bps, normalize_gen (raw_series (sample_times (cfg_start cfg) (cfg_end cfg) dt)) = Some bps /\
    length bps = grid_fuel (cfg_start cfg) (cfg_end cfg) dt /\
    Forall (fun b => (0 <= b <= 10000)%Z) bps /\
    compute_series cfg dt = Some (combine bps (raw_series (sample_times (cfg_start cfg) (cfg_end cfg) dt)),
                                  start_epoch cfg, (dt * 1000000000)%Z).
Proof.
  intros Hdt Hse. pose proof (sample_times_length _ _ _ Hdt Hse) as L.
  unfold compute_series. cbv zeta.
  destruct (sample_times (cfg_start cfg) (cfg_end cfg) dt) as [| t ts];
    [unfold grid_fuel in L; discriminate L |].
  destruct (normalize_gen_spec (raw_series (t :: ts))) as (bps & Hn & Hl & Hb).
  exists bps. rewrite Hn, Hl, raw_series_length, L. auto.
Qed.

Lemma compute_series_empty `{PositionProvider} cfg dt :
  cfg_end cfg < cfg_start cfg -> compute_series cfg dt = Some ([], 0%Z, 0%Z).
Proof. intros Hlt. unfold compute_series. now rewrite sample_times_empty. Qed.

Lemma combine_packable pack_f mask bps (raw : list Q) :
  (forall q, pack_f q <> None) -> Forall (fun b => (0 <= b <= 10000)%Z) bps ->
  Forall (record_packable pack_f mask) (combine bps raw).
Proof.
  intros Hf Hb. revert raw; induction Hb as [| b bps Hb _ IH]; intros [| r raw]; simpl;
    constructor; auto. split; [lia | intros _; apply Hf].
Qed.

(** The 60 s series never has more samples than the 1 s series. *)
Lemma grid_fuel_60 start end_ :
  start <= end_ -> (grid_fuel start end_ 60 <= grid_fuel start end_ 1)%nat.
Proof.
  intros Hse. unfold grid_fuel. apply le_n_S, Z2Nat.inj_le.
  - apply Qfloor_nonneg, Qdiv_nonneg_iff; [reflexivity | lra].
  - apply Qfloor_nonneg, Qdiv_nonneg_iff; [reflexivity | lra].
  - apply Qfloor_resp_le. unfold Qdiv.
    change (/ inject_Z 60) with (1 # 60). change (/ inject_Z 1) with 1. lra.
Qed.

Lemma lookup_combine_some {A B} (l : list A) (l' : list B) i a b :
  l !! i = Some a -> l' !! i = Some b -> combine l l' !! i = Some (a, b).
Proof.
  revert l' i; induction l as [| x l IH]; intros [| y l'] [| i] Ha Hb; simpl in *;
    try discriminate; [congruence | auto].
Qed.

Lemma combine_length_grid `{PositionProvider} (bps : list Z) cfg dt :
  length bps = length (raw_series (sample_times (cfg_start cfg) (cfg_end cfg) dt)) ->
  length (combine bps (raw_series (sample_times (cfg_start cfg) (cfg_end cfg) dt))) =
  length (raw_series (sample_times (cfg_start cfg) (cfg_end cfg) dt)).
Proof. intros Hl. rewrite length_combine, Hl. lia. Qed.

(** ** [generate] on the output directory *)

Section Generate.
Context `{PositionProvider} (dataset_id : Config -> string) (pack_f : Q -> option (list Z)).
Hypothesis pack_f_len : forall q bs, pack_f q = Some bs -> length bs = 4%nat.

Lemma write_series_some cfg dt (bps : list Z) :
  packable_run pack_f cfg -> (0 < dt <= 60)%Z -> cfg_start cfg <= cfg_end cfg ->
  length bps = grid_fuel (cfg_start cfg) (cfg_end cfg) dt ->
  Forall (fun b => (0 <= b <= 10000)%Z) bps ->
  (grid_fuel (cfg_start cfg) (cfg_end cfg) dt <= grid_fuel (cfg_start cfg) (cfg_end cfg) 1)%nat ->
  exists f, write_gtab pack_f (start_epoch cfg) (dt * 1000000000)
    (combine bps (raw_series (sample_times (cfg_start cfg) (cfg_end cfg) dt)))
    (cfg_fields_mask cfg) = Some f /\
  read_gtab_header f = Ok (mk_header (start_epoch cfg) (dt * 1000000000)
    (Z.of_nat (grid_fuel (cfg_start cfg) (cfg_end cfg) dt)) (cfg_fields_mask cfg)).
Proof.
  intros (He & Hn & Hm & Hf) Hdt Hse Hl Hb Hle.
  assert (Lc : length (combine bps (raw_series (sample_times (cfg_start cfg) (cfg_end cfg) dt)))
               = grid_fuel (cfg_start cfg) (cfg_end cfg) dt).
  { rewrite length_combine, raw_series_length, sample_times_length, Hl by (assumption || lia). lia. }
  destruct (write_gtab_some pack_f (start_epoch cfg) (dt * 1000000000)
    (combine bps (raw_series (sample_times (cfg_start cfg) (cfg_end cfg) dt)))
    (cfg_fields_mask cfg)) as [f Ef];
    [exact He | lia | unfold sample; rewrite Lc; lia | exact Hm | apply combine_packable; assumption |].
  exists f. split; [exact Ef |]. unfold sample in Ef |- *; rewrite <- Lc.
  rewrite (read_gtab_header_written pack_f _ _ _ _ _ Ef). unfold sample in *. rewrite Lc.
  rewrite (proj2 (Z.leb_gt _ _)) by lia.
  rewrite (proj2 (Z.eqb_neq _ _)) by (unfold grid_fuel; lia). reflexivity.
Qed.

(** A run over a non-empty window, step by step: the two normalized
    series, the two files [write_gtab] produces, and the directory. *)
Lemma generate_run cfg out :
  packable_run pack_f cfg -> cfg_start cfg <= cfg_end cfg ->
  let raw dt := raw_series (sample_times (cfg_start cfg) (cfg_end cfg) dt) in
  exists bps1 bps60 b1 b60,
    normalize_gen (raw 1%Z) = Some bps1 /\ normalize_gen (raw 60%Z) = Some bps60 /\
    write_gtab pack_f (start_epoch cfg) 1000000000 (combine bps1 (raw 1%Z))
      (cfg_fields_mask cfg) = Some b1 /\
    write_gtab pack_f (start_epoch cfg) 60000000000 (combine bps60 (raw 60%Z))
      (cfg_fields_mask cfg) = Some b60 /\
    read_gtab_header b1 = Ok (mk_header (start_epoch cfg) 1000000000
      (Z.of_nat (grid_fuel (cfg_start cfg) (cfg_end cfg) 1)) (cfg_fields_mask cfg)) /\
    read_gtab_header b60 = Ok (mk_header (start_epoch cfg) 60000000000
      (Z.of_nat (grid_fuel (cfg_start cfg) (cfg_end cfg) 60)) (cfg_fields_mask cfg)) /\
    generate dataset_id pack_f true cfg out = (generated dataset_id out b1 b60 cfg, None).
Proof.
  intros Hp Hse raw.
  destruct (compute_series_window cfg 1 ltac:(lia) Hse) as (bps1 & N1 & L1 & B1 & E1).
  destruct (compute_series_window cfg 60 ltac:(lia) Hse) as (bps60 & N60 & L60 & B60 & E60).
  destruct (write_series_some cfg 1 bps1 Hp ltac:(lia) Hse L1 B1 (le_n _)) as (b1 & W1 & R1).
  destruct (write_series_some cfg 60 bps60 Hp ltac:(lia) Hse L60 B60 (grid_fuel_60 _ _ Hse))
    as (b60 & W60 & R60).
  exists bps1, bps60, b1, b60. unfold generate. rewrite E1, E60, W1, W60. auto 7.
Qed.

(** C8. A run over a non-empty window whose values all pack replaces both
    tables and the sidecar, and each table's header reads back as the
    run's epoch, cadence in ns, sample count and field mask; the epoch is
    the start's wall-clock time read as UTC ([start_epoch]), which is the
    start's instant only when its UTC offset is zero. *)
Theorem generate_writes_tables cfg out :
  packable_run pack_f cfg -> cfg_start cfg <= cfg_end cfg ->
  exists b1 b60, generate dataset_id pack_f true cfg out = (generated dataset_id out b1 b60 cfg, None) /\
    read_gtab_header b1 = Ok (mk_header (start_epoch cfg) 1000000000
      (Z.of_nat (grid_fuel (cfg_start cfg) (cfg_end cfg) 1)) (cfg_fields_mask cfg)) /\
    read_gtab_header b60 = Ok (mk_header (start_epoch cfg) 60000000000
      (Z.of_nat (grid_fuel (cfg_start cfg) (cfg_end cfg) 60)) (cfg_fields_mask cfg)).
Proof.
  intros Hp Hse.
  destruct (generate_run cfg out Hp Hse) as (_ & _ & b1 & b60 & _ & _ & _ & _ & R1 & R60 & G).
  eauto.
Qed.

(** C3. End to end, for a [tide_bps]-only mask: the 1 s table [generate]
    leaves in the directory answers the lookup at the [i]-th sample's
    timestamp with the [i]-th normalized value of the batch. *)
Theorem generate_lookup_roundtrip cfg out i b bps :
  packable_run pack_f cfg -> cfg_start cfg <= cfg_end cfg -> cfg_fields_mask cfg = FIELD_TIDE_BPS ->
  normalize_gen (raw_series (sample_times (cfg_start cfg) (cfg_end cfg) 1)) = Some bps ->
  bps !! i = Some b ->
  exists b1, (generate dataset_id pack_f true cfg out).1 !! GTAB_1S = Some (BinFile b1) /\
    gtab_lookup_tide_bps b1 (py_int (cfg_start cfg)) 1000000000
      (Z.of_nat (grid_fuel (cfg_start cfg) (cfg_end cfg) 1))
      (sample_time (py_int (cfg_start cfg)) 1000000000 (Z.of_nat i)) = Ok b.
Proof.
  intros Hp Hse Hm Hn Hi.
  destruct (generate_run cfg out Hp Hse) as (bps1 & bps60 & b1 & b60 & N1 & _ & W1 & _ & _ & _ & G).
  rewrite Hn in N1. injection N1 as E; subst bps1. exists b1. rewrite G. split.
  { unfold generated. simpl. rewrite lookup_insert_ne by discriminate.
    rewrite lookup_insert_ne by discriminate. apply lookup_insert_eq. }
  assert (Hl : length bps = length (raw_series (sample_times (cfg_start cfg) (cfg_end cfg) 1))).
  { destruct (normalize_gen_spec (raw_series (sample_times (cfg_start cfg) (cfg_end cfg) 1)))
      as (bps' & Hn' & Hl' & _). rewrite Hn in Hn'. now injection Hn' as <-. }
  destruct (lookup_lt_is_Some_2 (raw_series (sample_times (cfg_start cfg) (cfg_end cfg) 1)) i)
    as [r Hr]; [rewrite <- Hl; exact (lookup_lt_Some _ _ _ Hi) |].
  assert (Lg : @length sample (combine bps (raw_series (sample_times (cfg_start cfg) (cfg_end cfg) 1)))
               = grid_fuel (cfg_start cfg) (cfg_end cfg) 1).
  { unfold sample. rewrite (combine_length_grid bps _ 1 Hl), raw_series_length. apply sample_times_length; [lia | exact Hse]. }
  rewrite <- Lg.
  eapply (lookup_write_roundtrip pack_f _ _ _ (cfg_fields_mask cfg) _ _ b r _ pack_f_len);
    [rewrite Hm; reflexivity | rewrite Hm; reflexivity | exact W1 | lia |].
  apply lookup_combine_some; assumption.
Qed.

(** C35. [generate] touches no file of the directory but its three outputs,
    whatever happens during the run. *)
Theorem generate_frame cfg out p :
  p <> GTAB_1S -> p <> GTAB_60S -> p <> GTAB_META ->
  (generate dataset_id pack_f true cfg out).1 !! p = out !! p.
Proof.
  intros H1 H60 Hm. unfold generate. simpl negb. cbn iota.
  destruct (compute_series cfg 1) as [[[s1 epoch] dt1] |]; [| reflexivity].
  destruct (compute_series cfg 60) as [[[s60 e60] dt60] |]; [| reflexivity].
  destruct (write_gtab pack_f epoch dt1 s1 (cfg_fields_mask cfg)) as [b1 |];
    [destruct (write_gtab pack_f epoch dt60 s60 (cfg_fields_mask cfg)) as [b60 |] |]; simpl;
    rewrite ?lookup_insert_ne, ?lookup_delete_ne by congruence; reflexivity.
Qed.

(** C24. A window with [end < start] samples nothing; both tables are still
    written, with [count = 0] and [interval_ns = 0], and the reader
    rejects both. *)
Theorem generate_empty_window cfg out :
  cfg_end cfg < cfg_start cfg -> (0 <= cfg_fields_mask cfg < 2 ^ 32)%Z ->
  exists b1 b60, generate dataset_id pack_f true cfg out = (generated dataset_id out b1 b60 cfg, None) /\
    read_gtab_header b1 = Err InvalidTiming /\ read_gtab_header b60 = Err InvalidTiming.
Proof.
  intros Hlt Hm.
  destruct (write_gtab_some pack_f 0 0 [] (cfg_fields_mask cfg)) as [b Eb];
    [simpl; lia | simpl; lia | simpl; lia | exact Hm | constructor |].
  exists b, b. unfold generate. rewrite !compute_series_empty by exact Hlt. rewrite Eb.
  rewrite (read_gtab_header_written _ _ _ _ _ _ Eb). auto.
Qed.

(** C36. When writing the 1 s table raises, both old tables are already gone
    and the sidecar of the previous run is left in place. *)
Theorem generate_failure_keeps_meta cfg out s1 epoch dt1 r60 :
  compute_series cfg 1 = Some (s1, epoch, dt1) -> compute_series cfg 60 = Some r60 ->
  write_gtab pack_f epoch dt1 s1 (cfg_fields_mask cfg) = None ->
  generate dataset_id pack_f true cfg out = (delete GTAB_60S (delete GTAB_1S out), Some PackError) /\
  (generate dataset_id pack_f true cfg out).1 !! GTAB_META = out !! GTAB_META.
Proof.
  intros E1 E60 W. unfold generate. rewrite E1, E60. destruct r60 as [[s60 e60] dt60].
  rewrite W. split; [reflexivity |]. simpl.
  rewrite !lookup_delete_ne by discriminate. reflexivity.
Qed.

Lemma grid_fuel_two start end_ :
  start + 1 <= end_ -> (2 <= grid_fuel start end_ 1)%nat.
Proof.
  intros H1. unfold grid_fuel. apply le_n_S.
  assert (F : (1 <= Qfloor ((end_ - start) / inject_Z 1))%Z).
  { apply Qfloor_ge_Z. unfold Qdiv. change (/ inject_Z 1) with 1. change (inject_Z 1) with 1. lra. }
  lia.
Qed.

(** C4. The script as shipped: [main()] always uses the default mask
    [FIELD_TIDE_BPS | FIELD_TIDE_RAW], so in every 1 s table it writes
    over a window of at least two samples, the lookup at the second
    sample's timestamp returns the first two bytes of the first
    sample's packed [tide_raw] float instead of a basis-point value. *)
Theorem gen_main_misreads_bps args out r0 rb :
  packable_run pack_f (mk_config (ga_kernel args) (ga_start args) (ga_end args) default_fields_mask
                         (ga_start_utcoffset args) (ga_end_utcoffset args)) ->
  ga_start args + 1 <= ga_end args ->
  raw_series (sample_times (ga_start args) (ga_end args) 1) !! 0%nat = Some r0 ->
  pack_f r0 = Some rb ->
  exists b1, (gen_main dataset_id pack_f true args out).1 !! GTAB_1S = Some (BinFile b1) /\
    gtab_lookup_tide_bps b1 (py_int (ga_start args)) 1000000000
      (Z.of_nat (grid_fuel (ga_start args) (ga_end args) 1))
      (sample_time (py_int (ga_start args)) 1000000000 1) = Ok (le_combine (take 2 rb)).
Proof.
  intros Hp H1 Hr0 Hrb.
  set (cfg := mk_config (ga_kernel args) (ga_start args) (ga_end args) default_fields_mask
                (ga_start_utcoffset args) (ga_end_utcoffset args)).
  destruct (generate_run cfg out Hp ltac:(simpl; lra))
    as (bps1 & bps60 & b1 & b60 & N1 & _ & W1 & _ & _ & _ & G).
  exists b1. unfold gen_main. fold cfg. rewrite G. split.
  { unfold generated. simpl. rewrite lookup_insert_ne by discriminate.
    rewrite lookup_insert_ne by discriminate. apply lookup_insert_eq. }
  simpl cfg_start in *. simpl cfg_end in *. simpl cfg_fields_mask in *.
  destruct (normalize_gen_spec (raw_series (sample_times (ga_start args) (ga_end args) 1)))
    as (bps' & Hn' & Hl & _). rewrite N1 in Hn'. injection Hn' as <-.
  assert (Lg : @length sample (combine bps1 (raw_series (sample_times (ga_start args) (ga_end args) 1)))
               = grid_fuel (ga_start args) (ga_end args) 1).
  { unfold sample. rewrite length_combine, Hl, Nat.min_id, raw_series_length.
    apply sample_times_length; [lia | lra]. }
  pose proof (grid_fuel_two _ _ H1) as G2.
  destruct (lookup_lt_is_Some_2 bps1 0) as [b0 Hb0]; [rewrite Hl, raw_series_length, sample_times_length; lia || lra |].
  pose proof (lookup_combine_some _ _ _ _ _ Hb0 Hr0) as Hc0.
  rewrite <- Lg. unfold sample in *.
  destruct (combine bps1 (raw_series (sample_times (ga_start args) (ga_end args) 1)))
    as [| [b0' r0'] [| s1 rest]] eqn:Ec; simpl in Lg; [lia | lia |].
  injection Hc0 as -> ->.
  eapply (lookup_misreads_raw_field pack_f _ _ _ _ default_fields_mask);
    [exact pack_f_len | reflexivity | reflexivity | exact W1 | lia | exact Hrb].
Qed.

End Generate.

(** ** Examples

    Runs over [[0 s, 10 s]] with the example provider of [Signal] and a
    float packer that always yields four bytes; the 1 s batch
    normalizes to [[10000; 2222; 142; 17; 3; 0; ...]].  The dataset id is
    fixed. *)

Definition example_dataset_id (cfg : Config) : string := "a43b4da1618f".

Lemma generate_lookup_roundtrip_witness :
  exists b1, (generate (H := example_provider) example_dataset_id (fun _ => Some [0; 0; 128; 63]%Z)
                true (mk_config "de440s.bsp" 0 10 FIELD_TIDE_BPS 0 0) ∅).1 !! GTAB_1S = Some (BinFile b1) /\
    gtab_lookup_tide_bps b1 (py_int 0) 1000000000 (Z.of_nat (grid_fuel 0 10 1))
      (sample_time (py_int 0) 1000000000 (Z.of_nat 1)) = Ok 2222%Z.
Proof.
  apply (generate_lookup_roundtrip (H := example_provider) example_dataset_id (fun _ => Some [0; 0; 128; 63]%Z)
           ltac:(intros q bs E; injection E as <-; reflexivity)
           (mk_config "de440s.bsp" 0 10 FIELD_TIDE_BPS 0 0) ∅ 1 2222
           [10000; 2222; 142; 17; 3; 0; 0; 0; 0; 0; 0]%Z);
    [| vm_compute; discriminate | reflexivity | vm_compute; reflexivity | reflexivity].
  split; [vm_compute; split; [discriminate | reflexivity] |].
  split; [vm_compute; reflexivity |]. split; [vm_compute; split; [discriminate | reflexivity] |].
  intros q. discriminate.
Defined.

(** [--start 2025-01-01T00:00:00+02:00 --end 2025-01-01T00:00:10+02:00]:
    the window is [[1735682400 s, 1735682410 s]] (22:00 UTC the day
    before), and both headers carry the epoch 1735689600 (00:00 UTC). *)
Definition example_cfg_plus2 : Config := mk_config "de440s.bsp" 1735682400 1735682410 3 7200 7200.

Lemma generate_writes_tables_witness :
  start_epoch example_cfg_plus2 = 1735689600%Z /\
  exists b1 b60,
    generate (H := example_provider) example_dataset_id (fun _ => Some [0; 0; 128; 63]%Z) true example_cfg_plus2 ∅ =
      (generated example_dataset_id ∅ b1 b60 example_cfg_plus2, None) /\
    read_gtab_header b1 = Ok (mk_header (start_epoch example_cfg_plus2) 1000000000
      (Z.of_nat (grid_fuel (cfg_start example_cfg_plus2) (cfg_end example_cfg_plus2) 1)) 3) /\
    read_gtab_header b60 = Ok (mk_header (start_epoch example_cfg_plus2) 60000000000
      (Z.of_nat (grid_fuel (cfg_start example_cfg_plus2) (cfg_end example_cfg_plus2) 60)) 3).
Proof.
  split; [vm_compute; reflexivity |].
  apply (generate_writes_tables (H := example_provider) example_dataset_id (fun _ => Some [0; 0; 128; 63]%Z)
           example_cfg_plus2 ∅); [| vm_compute; discriminate].
  split; [vm_compute; split; [discriminate | reflexivity] |].
  split; [vm_compute; reflexivity |]. split; [vm_compute; split; [discriminate | reflexivity] |].
  intros q. discriminate.
Defined.

Lemma generate_empty_window_witness :
  exists b1 b60,
    generate (H := example_provider) example_dataset_id (fun _ => Some [0; 0; 128; 63]%Z) true (mk_config "de440s.bsp" 10 0 3 0 0) ∅ =
      (generated example_dataset_id ∅ b1 b60 (mk_config "de440s.bsp" 10 0 3 0 0), None) /\
    read_gtab_header b1 = Err InvalidTiming /\ read_gtab_header b60 = Err InvalidTiming.
Proof.
  apply (generate_empty_window (H := example_provider) example_dataset_id (fun _ => Some [0; 0; 128; 63]%Z)
           (mk_config "de440s.bsp" 10 0 3 0 0) ∅); [vm_compute; reflexivity | simpl; lia].
Defined.

Lemma generate_frame_witness :
  (generate (H := example_provider) example_dataset_id (fun _ => Some [0; 0; 128; 63]%Z) true (mk_config "de440s.bsp" 0 10 3 0 0)
     (<["README.md" := BinFile []]> ∅)).1 !! "README.md" =
  (<["README.md" := BinFile []]> (∅ : gmap string file)) !! "README.md".
Proof.
  apply generate_frame; discriminate.
Defined.

Lemma generate_failure_keeps_meta_witness :
  generate (H := example_provider) example_dataset_id (fun _ => None) true (mk_config "de440s.bsp" 0 10 3 0 0)
      (<[GTAB_META := BinFile []]> ∅) =
    (delete GTAB_60S (delete GTAB_1S (<[GTAB_META := BinFile []]> ∅)), Some PackError) /\
  (generate (H := example_provider) example_dataset_id (fun _ => None) true (mk_config "de440s.bsp" 0 10 3 0 0)
      (<[GTAB_META := BinFile []]> ∅)).1 !! GTAB_META = (<[GTAB_META := BinFile []]> (∅ : gmap string file)) !! GTAB_META.
Proof.
  apply (generate_failure_keeps_meta (H := example_provider) example_dataset_id (fun _ => None) (mk_config "de440s.bsp" 0 10 3 0 0) _
           (combine [10000; 2222; 142; 17; 3; 0; 0; 0; 0; 0; 0]%Z
              (raw_series (H := example_provider) (sample_times 0 10 1)))
           0 1000000000 (combine [0]%Z (raw_series (H := example_provider) (sample_times 0 10 60)), 0, 60000000000)%Z);
    vm_compute; reflexivity.
Defined.

Lemma gen_main_misreads_bps_witness :
  exists b1, (gen_main (H := example_provider) example_dataset_id (fun _ => Some [0; 0; 128; 63]%Z) true
                (mk_gen_args "de440s.bsp" 0 10 0 0) ∅).1 !! GTAB_1S = Some (BinFile b1) /\
    gtab_lookup_tide_bps b1 (py_int 0) 1000000000 (Z.of_nat (grid_fuel 0 10 1))
      (sample_time (py_int 0) 1000000000 1) = Ok (le_combine (take 2 [0; 0; 128; 63]%Z)).
Proof.
  apply (gen_main_misreads_bps (H := example_provider) example_dataset_id (fun _ => Some [0; 0; 128; 63]%Z)
           ltac:(intros q bs E; injection E as <-; reflexivity)
           (mk_gen_args "de440s.bsp" 0 10 0 0) ∅ (signal (1 + 0 * 0) (2 + 0 * 0)));
    [| vm_compute; discriminate | vm_compute; reflexivity | reflexivity].
  split; [vm_compute; split; [discriminate | reflexivity] |].
  split; [vm_compute; reflexivity |]. split; [vm_compute; split; [discriminate | reflexivity] |].
  intros q. discriminate.
Defined.

End Encoder.
