(* ===== verification/KernelVerify.v ===== *)
(** * Kernel integrity check: [main] of verify_kernel.py

    [src/scripts/ephem/validation/verify_kernel.py] hashes a kernel file
    and compares the digest with the entry of the same file name in
    kernel_hashes.json.  A placeholder digest is accepted, and with
    [--update] it is replaced in the document, which is written back.
    The digest function is a parameter (Hash.v models [sha256_file] and
    Sha256.v gives the digest itself);
    the JSON document is modelled after parsing, as its list of entries
    with their optional [name] and [sha256] keys.  The run yields the
    exit code and the line it prints, or an uncaught exception, together
    with the document it writes, if any. *)

From Stdlib Require Import ZArith List String Bool Lia.
From stdpp Require Import base list.
From S2P Require Import Prelude.
Import ListNotations.

Local Open Scope string_scope.

Module KernelVerify.

(** An entry of the [kernels] list: its [name], [sha256] and [source]
    keys ([None] when absent); its other keys are not modelled. *)
Record entry : Type := mk_entry {
  e_name : option string;
  e_sha256 : option string;
  e_source : option string
}.

(** The document; [kernels = None] when the key is absent. *)
Record hashes_doc : Type := mk_doc {
  kernels : option (list entry)
}.

Definition PLACEHOLDER : string := "REPLACE_WITH_ACTUAL_SHA256".

(** The line [main] prints before returning. *)
Inductive verdict : Type :=
| KernelMissing
| KernelUnlisted (name computed : string)
| PlaceholderUpdated (computed : string)
| PlaceholderLogged (computed : string)
| KernelOk (computed : string)
| HashMismatch (expected computed : string).

Inductive vk_outcome : Type :=
| Exited (code : Z) (v : verdict)
| Crashed.

(** [data.get('kernels', [])] *)
Definition kernel_list (d : hashes_doc) : list entry := default [] (kernels d).

(** [k.get('name') == kernel_path.name] *)
Definition name_matches (name : string) (k : entry) : bool :=
  match e_name k with
  | Some n => String.eqb n name
  | None => false
  end.

(** [next((k for k in ... if k.get('name') == name), None)] *)
Fixpoint find_entry (name : string) (ks : list entry) : option entry :=
  match ks with
  | [] => None
  | k :: rest => if name_matches name k then Some k else find_entry name rest
  end.

(** [expected_entry['sha256'] = computed]: the entry [next] returned is
    the first matching one, and it is the object inside [data], so the
    document written back carries the change there. *)
Fixpoint set_first_sha (name computed : string) (ks : list entry) : list entry :=
  match ks with
  | [] => []
  | k :: rest =>
      if name_matches name k then mk_entry (e_name k) (Some computed) (e_source k) :: rest
      else k :: set_first_sha name computed rest
  end.

(** [main()] on the kernel argument, the kernel's bytes ([None] when the
    path does not exist), the parsed hashes document and [--update]. *)
Definition verify_main (sha256 : list Z -> string) (kernel_arg : string)
    (kernel_file : option (list Z)) (data : hashes_doc) (update : bool)
    : vk_outcome * option hashes_doc :=
  let name := path_name kernel_arg in
  match kernel_file with
  | None => (Exited 1 KernelMissing, None)
  | Some bytes =>
      let computed := sha256 bytes in
      match find_entry name (kernel_list data) with
      | None => (Exited 1 (KernelUnlisted name computed), None)
      | Some k =>
          match e_sha256 k with
          | Some expected =>
              if String.eqb expected PLACEHOLDER then
                if update
                then (Exited 0 (PlaceholderUpdated computed),
                      Some (mk_doc (option_map (set_first_sha name computed) (kernels data))))
                else (Exited 0 (PlaceholderLogged computed), None)
              else if String.eqb (str_lower expected) (str_lower computed)
              then (Exited 0 (KernelOk computed), None)
              else (Exited 1 (HashMismatch expected computed), None)
          (* [None == PLACEHOLDER] is false and [None.lower()] raises
             [AttributeError]. *)
          | None => (Crashed, None)
          end
      end
  end.

(** ** Lemmas *)

Lemma find_entry_matches name ks k :
  find_entry name ks = Some k -> name_matches name k = true.
Proof.
  induction ks as [| k0 rest IH]; simpl; [discriminate |].
  destruct (name_matches name k0) eqn:E; [intros H; injection H as <-; exact E | exact IH].
Qed.

Lemma find_entry_set_first name computed ks k :
  find_entry name ks = Some k ->
  find_entry name (set_first_sha name computed ks) = Some (mk_entry (e_name k) (Some computed) (e_source k)).
Proof.
  induction ks as [| k0 rest IH]; simpl; [discriminate |].
  destruct (name_matches name k0) eqn:E; [intros H; injection H as <-; simpl |].
  - unfold name_matches in *. simpl. now rewrite E.
  - intros H. simpl. rewrite E. exact (IH H).
Qed.

Lemma str_lower_refl s : String.eqb (str_lower s) (str_lower s) = true.
Proof. apply String.eqb_refl. Qed.

(** ** Theorems *)

(** C38. The run succeeds (exit code 0) exactly when the kernel exists, an
    entry with its file name is listed with a digest, and that digest is
    the placeholder or equals the computed one up to letter case. *)
Theorem verify_main_ok sha256 kernel_arg kernel_file data update :
  (exists v, (verify_main sha256 kernel_arg kernel_file data update).1 = Exited 0 v) <->
  exists bytes k expected,
    kernel_file = Some bytes /\
    find_entry (path_name kernel_arg) (kernel_list data) = Some k /\ e_sha256 k = Some expected /\
    (expected = PLACEHOLDER \/ str_lower expected = str_lower (sha256 bytes)).
Proof.
  unfold verify_main. split.
  - intros [v Hv]. destruct kernel_file as [bytes |]; [| discriminate Hv].
    destruct (find_entry _ _) as [k |] eqn:Ef; [| discriminate Hv].
    destruct (e_sha256 k) as [expected |] eqn:Es; [| discriminate Hv].
    exists bytes, k, expected. do 3 (split; [reflexivity || assumption |]).
    destruct (String.eqb_spec expected PLACEHOLDER) as [-> | Ne]; [left; reflexivity |].
    destruct (String.eqb_spec (str_lower expected) (str_lower (sha256 bytes))) as [Eq | Ne'];
      [right; exact Eq | discriminate Hv].
  - intros (bytes & k & expected & -> & Ef & Es & Hx). rewrite Ef, Es.
    destruct (String.eqb_spec expected PLACEHOLDER) as [-> | Ne].
    + destruct update; eexists; reflexivity.
    + destruct Hx as [Hx | Hx]; [contradiction |]. rewrite Hx, String.eqb_refl. eexists; reflexivity.
Qed.

(** [--update] on a placeholder entry writes a document in which the
    same kernel now verifies: a second run without [--update] reports
    [KERNEL_OK] with the same digest (unless the digest were the
    placeholder text itself). *)
Theorem verify_update_then_ok sha256 kernel_arg bytes data data' v :
  sha256 bytes <> PLACEHOLDER ->
  verify_main sha256 kernel_arg (Some bytes) data true = (Exited 0 v, Some data') ->
  verify_main sha256 kernel_arg (Some bytes) data' false = (Exited 0 (KernelOk (sha256 bytes)), None).
Proof.
  intros Hp. unfold verify_main.
  destruct (find_entry _ (kernel_list data)) as [k |] eqn:Ef; [| discriminate].
  destruct (e_sha256 k) as [expected |]; [| discriminate].
  destruct (String.eqb expected PLACEHOLDER); [| destruct (String.eqb _ _); discriminate].
  intros H; injection H as _ <-.
  assert (Ef' : find_entry (path_name kernel_arg) (kernel_list
                  (mk_doc (option_map (set_first_sha (path_name kernel_arg) (sha256 bytes)) (kernels data))))
                = Some (mk_entry (e_name k) (Some (sha256 bytes)) (e_source k))).
  { unfold kernel_list in *. destruct (kernels data) as [ks |]; simpl in *; [| discriminate Ef].
    apply find_entry_set_first, Ef. }
  rewrite Ef'. simpl. rewrite (proj2 (String.eqb_neq _ _) Hp), str_lower_refl. reflexivity.
Qed.

(** The hashes file is written only by an [--update] run on a
    placeholder entry. *)
Theorem verify_writes_only_placeholder sha256 kernel_arg kernel_file data update data' :
  (verify_main sha256 kernel_arg kernel_file data update).2 = Some data' ->
  update = true /\ exists k, find_entry (path_name kernel_arg) (kernel_list data) = Some k /\
    e_sha256 k = Some PLACEHOLDER.
Proof.
  unfold verify_main. destruct kernel_file as [bytes |]; [| discriminate].
  destruct (find_entry _ _) as [k |] eqn:Ef; [| discriminate].
  destruct (e_sha256 k) as [expected |] eqn:Es; [| discriminate].
  destruct (String.eqb_spec expected PLACEHOLDER) as [-> | Ne];
    [| destruct (String.eqb _ _); discriminate].
  destruct update; [| discriminate]. intros _. eauto.
Qed.

(** An entry listed under the kernel's name but without a [sha256] key
    makes the script crash with [AttributeError] instead of reporting a
    mismatch. *)
Theorem verify_missing_digest_crashes sha256 kernel_arg bytes data update k :
  find_entry (path_name kernel_arg) (kernel_list data) = Some k -> e_sha256 k = None ->
  verify_main sha256 kernel_arg (Some bytes) data update = (Crashed, None).
Proof. intros Ef Es. unfold verify_main. rewrite Ef, Es. reflexivity. Qed.

(** ** Examples: a hashes file listing [de440s.bsp] *)

Lemma verify_update_then_ok_witness :
  verify_main (fun _ => "ab12") "cache/de440s.bsp" (Some [])
    (mk_doc (Some [mk_entry (Some "de440s.bsp") (Some "ab12") None])) false =
  (Exited 0 (KernelOk "ab12"), None).
Proof.
  apply (verify_update_then_ok (fun _ => "ab12") "cache/de440s.bsp" []
           (mk_doc (Some [mk_entry (Some "de440s.bsp") (Some PLACEHOLDER) None]))
           (mk_doc (Some [mk_entry (Some "de440s.bsp") (Some "ab12") None]))
           (PlaceholderUpdated "ab12")); [discriminate | vm_compute; reflexivity].
Defined.

Lemma verify_writes_only_placeholder_witness :
  true = true /\ exists k, find_entry (path_name "cache/de440s.bsp")
    (kernel_list (mk_doc (Some [mk_entry (Some "de440s.bsp") (Some PLACEHOLDER) None]))) = Some k /\
    e_sha256 k = Some PLACEHOLDER.
Proof.
  apply (verify_writes_only_placeholder (fun _ => "ab12") "cache/de440s.bsp" (Some [])
           (mk_doc (Some [mk_entry (Some "de440s.bsp") (Some PLACEHOLDER) None])) true
           (mk_doc (Some [mk_entry (Some "de440s.bsp") (Some "ab12") None]))).
  vm_compute. reflexivity.
Defined.

Lemma verify_missing_digest_crashes_witness :
  verify_main (fun _ => "ab12") "cache/de440s.bsp" (Some [])
    (mk_doc (Some [mk_entry (Some "de440s.bsp") None None])) false = (Crashed, None).
Proof.
  apply (verify_missing_digest_crashes _ _ _ _ _ (mk_entry (Some "de440s.bsp") None None));
    [vm_compute; reflexivity | reflexivity].
Defined.

End KernelVerify.
