(* ===== verification/FetchKernel.v ===== *)
(** * Kernel cache and placeholder gate: fetch_kernel.py and check_placeholders.py

    [src/scripts/ephem/validation/fetch_kernel.py] keeps a cached copy of
    an ephemeris kernel: it looks the kernel's name up in the hashes
    document of KernelVerify.v, checks a cached file against the listed
    digest, and otherwise downloads the kernel from the entry's [source]
    into the cache before checking it.  The cache is the state (the bytes
    of the target file, [None] when it does not exist); the download and
    the digest are parameters ([None] from the download is an exception
    of [urlopen], caught by [main]).
    [src/scripts/ci/check_placeholders.py] fails when a target file still
    holds one of the placeholder tokens; the targets are given as their
    paths and texts ([None]: the file does not exist), the environment
    variable [ALLOW_PLACEHOLDERS] as an optional string. *)

From Stdlib Require Import ZArith List String Ascii Bool Lia.
From stdpp Require Import base list.
From S2P Require Import Prelude KernelVerify.
Import ListNotations KernelVerify.

Module FetchKernel.

Local Open Scope string_scope.

(** ** fetch_kernel.py *)

(** The arguments [--name] and [--force]; the paths are not modelled. *)
Record fetch_args : Type := mk_fetch_args {
  fa_name : string;
  fa_force : bool
}.

(** The line [main] prints before returning. *)
Inductive fetch_verdict : Type :=
| HashesMissing
| NotListed
| CachedPlaceholder (actual : string)
| CachedOk (actual : string)
| CachedMismatch (actual expected : string)
| DownloadFailed
| DownloadedPlaceholder (actual : string)
| DownloadedOk (actual : string)
| MismatchAfterDownload (expected actual : string).

(** The test both branches of [main] apply to the digest: the
    placeholder first, then equality up to letter case. *)
Inductive digest_check : Type := IsPlaceholder | DigestOk | DigestMismatch.

Definition check_digest (expected actual : string) : digest_check :=
  if String.eqb expected PLACEHOLDER then IsPlaceholder
  else if String.eqb (str_lower actual) (str_lower expected) then DigestOk
  else DigestMismatch.

(** The cached path of [main()] (lines 62-70), which leaves the target
    as it is. *)
Definition fetch_cached (sha256 : list Z -> string) (expected : string) (bytes : list Z)
    : Z * fetch_verdict :=
  let actual := sha256 bytes in
  match check_digest expected actual with
  | IsPlaceholder => (0%Z, CachedPlaceholder actual)
  | DigestOk => (0%Z, CachedOk actual)
  | DigestMismatch => (1%Z, CachedMismatch actual expected)
  end.

(** The download path of [main()] (lines 71-86): [download url] is
    [urlopen(url).read()], written to the target before it is hashed, so
    the target keeps the downloaded bytes whatever the verdict;
    [urlopen(None)] raises too, so an entry without [source] is a failed
    download, which leaves the target as it was. *)
Definition fetch_download (sha256 : list Z -> string) (download : string -> option (list Z))
    (k : entry) (expected : string) (cache : option (list Z)) : Z * fetch_verdict * option (list Z) :=
  match (url ← e_source k; download url) with
  | None => (1%Z, DownloadFailed, cache)
  | Some bytes =>
      let actual := sha256 bytes in
      match check_digest expected actual with
      | IsPlaceholder => (0%Z, DownloadedPlaceholder actual, Some bytes)
      | DigestOk => (0%Z, DownloadedOk actual, Some bytes)
      | DigestMismatch => (1%Z, MismatchAfterDownload expected actual, Some bytes)
      end
  end.

(** [main()] on the parsed hashes file ([None]: it does not exist) and
    the cached target: the exit code, the verdict, and the target after
    the run.  [entry.get('sha256', '')] reads an absent digest as the
    empty string. *)
Definition fetch_main (sha256 : list Z -> string) (download : string -> option (list Z))
    (args : fetch_args) (hashes : option hashes_doc) (cache : option (list Z))
    : Z * fetch_verdict * option (list Z) :=
  match hashes with
  | None => (1%Z, HashesMissing, cache)
  | Some data =>
      match find_entry (fa_name args) (kernel_list data) with
      | None => (1%Z, NotListed, cache)
      | Some k =>
          let expected := default "" (e_sha256 k) in
          (* [if target.exists() and not args.force] *)
          match (if fa_force args then None else cache) with
          | Some bytes => let '(code, v) := fetch_cached sha256 expected bytes in (code, v, cache)
          | None => fetch_download sha256 download k expected cache
          end
      end
  end.

(** The verdict a later run reading the same file from the cache
    prints. *)
Definition cached_verdict (v : fetch_verdict) : fetch_verdict :=
  match v with
  | DownloadedPlaceholder a => CachedPlaceholder a
  | DownloadedOk a => CachedOk a
  | MismatchAfterDownload e a => CachedMismatch a e
  | _ => v
  end.

Definition downloaded (v : fetch_verdict) : bool :=
  match v with
  | DownloadedPlaceholder _ | DownloadedOk _ | MismatchAfterDownload _ _ => true
  | _ => false
  end.

(** ** check_placeholders.py *)

(** [TOKENS] *)
Definition TOKENS : list string := ["PLACEHOLDER"; "REPLACE_WITH_ACTUAL"; "REPLACE_WITH_ACTUAL_SHA256"].

(** [os.getenv('ALLOW_PLACEHOLDERS', '').lower() in ('1','true','yes')] *)
Definition allow_of (env : option string) : bool :=
  existsb (String.eqb (str_lower (default "" env))) ["1"; "true"; "yes"].

(** [tok in text] *)
Definition has_token (text tok : string) : bool :=
  contains (list_ascii_of_string tok) (list_ascii_of_string text).

(** The failures of one target, in the order of [TOKENS]; a target that
    does not exist is skipped. *)
Definition scan_target (path : string) (text : option string) : list (string * string) :=
  match text with
  | None => []
  | Some t => map (fun tok => (path, tok)) (List.filter (has_token t) TOKENS)
  end.

Inductive scan_outcome : Type :=
| ScanSkipped
| PlaceholdersFound (failures : list (string * string))
| NoPlaceholders.

(** [main()] on the environment variable and the targets with their
    texts, in the order of [TARGETS]. *)
Definition placeholders_main (env : option string) (targets : list (string * option string))
    : Z * scan_outcome :=
  if allow_of env then (0%Z, ScanSkipped) else
  let failures := flat_map (fun pt => scan_target pt.1 pt.2) targets in
  match failures with
  | [] => (0%Z, NoPlaceholders)
  | _ :: _ => (1%Z, PlaceholdersFound failures)
  end.

(** ** Lemmas *)

(** The cached path and verify_kernel.py decide alike on a listed
    digest: the same exit code, and no document written. *)
Lemma fetch_cached_verify sha256 kernel_arg data bytes k expected :
  find_entry (path_name kernel_arg) (kernel_list data) = Some k -> e_sha256 k = Some expected ->
  exists v, verify_main sha256 kernel_arg (Some bytes) data false =
            (Exited (fetch_cached sha256 expected bytes).1 v, None).
Proof.
  intros Ef Es. unfold verify_main, fetch_cached, check_digest. rewrite Ef, Es.
  destruct (String.eqb expected PLACEHOLDER); [eauto |].
  rewrite String.eqb_sym. destruct (String.eqb _ _); eauto.
Qed.

(** A download that produced a verdict leaves its bytes in the target,
    and reading them back from the cache gives the cached verdict. *)
Lemma fetch_download_cached sha256 download k expected cache code v cache' :
  fetch_download sha256 download k expected cache = (code, v, cache') -> downloaded v = true ->
  exists bytes, cache' = Some bytes /\ fetch_cached sha256 expected bytes = (code, cached_verdict v).
Proof.
  unfold fetch_download, fetch_cached. cbv zeta.
  destruct (url ← e_source k; download url) as [bytes |]; [| intros H; injection H as <- <- <-; discriminate].
  destruct (check_digest expected (sha256 bytes)) eqn:Ec; intros H; injection H as <- <- <-;
    intros _; exists bytes; rewrite Ec; split; reflexivity.
Qed.

(** The three ways a run of [main] on an existing hashes file goes: the
    kernel is not listed, the cached file is checked and kept, or the
    download path runs. *)
Lemma fetch_main_cases sha256 download args data cache code v cache' :
  fetch_main sha256 download args (Some data) cache = (code, v, cache') ->
  (find_entry (fa_name args) (kernel_list data) = None /\ code = 1%Z /\ v = NotListed /\ cache' = cache) \/
  exists k, find_entry (fa_name args) (kernel_list data) = Some k /\
    ((exists bytes, (if fa_force args then None else cache) = Some bytes /\ cache' = cache /\
        fetch_cached sha256 (default "" (e_sha256 k)) bytes = (code, v)) \/
     ((if fa_force args then None else cache) = None /\
        fetch_download sha256 download k (default "" (e_sha256 k)) cache = (code, v, cache'))).
Proof.
  unfold fetch_main. destruct (find_entry _ _) as [k |] eqn:Ef; [| intros H; injection H as <- <- <-; auto].
  right. exists k. split; [reflexivity |].
  destruct (if fa_force args then None else cache) as [bytes |] eqn:Ec; [| auto].
  destruct (fetch_cached _ _ _) as [c w] eqn:Eq. injection H as <- <- <-. left. exists bytes. auto.
Qed.

Lemma fetch_cached_not_downloaded sha256 expected bytes code v :
  fetch_cached sha256 expected bytes = (code, v) -> downloaded v = false.
Proof. unfold fetch_cached. destruct (check_digest _ _); intros H; injection H as <- <-; reflexivity. Qed.

(** The download path fails with exit code 1 and leaves the target, or
    produces a verdict from the bytes it downloaded. *)
Lemma fetch_download_cases sha256 download k expected cache code v cache' :
  fetch_download sha256 download k expected cache = (code, v, cache') ->
  (code = 1%Z /\ v = DownloadFailed /\ cache' = cache) \/ downloaded v = true.
Proof.
  unfold fetch_download. destruct (url ← e_source k; download url) as [bytes |]; [| intros H; injection H as <- <- <-; auto].
  cbv zeta. destruct (check_digest _ _); intros H; injection H as <- <- <-; auto.
Qed.


(** [has_token] is the substring relation. *)
Lemma has_token_spec text tok :
  has_token text tok = true <->
  exists a b, list_ascii_of_string text = app a (app (list_ascii_of_string tok) b).
Proof. apply contains_spec. Qed.

Lemma scan_target_In path t tok :
  In (path, tok) (scan_target path (Some t)) <-> In tok TOKENS /\ has_token t tok = true.
Proof.
  unfold scan_target. rewrite in_map_iff. split.
  - intros (tok' & H & Hin). injection H as <-. by apply filter_In in Hin.
  - intros Hin. exists tok. split; [reflexivity |]. by apply filter_In.
Qed.

Lemma flat_map_scan_nil targets :
  flat_map (fun pt => scan_target pt.1 pt.2) targets = [] <->
  forall path t tok, In (path, Some t) targets -> In tok TOKENS -> has_token t tok = false.
Proof.
  induction targets as [| [path ot] rest IH]; cbn [flat_map fst snd].
  - split; [intros _ p t tok [] | reflexivity].
  - split.
    + intros [H1 H2]%app_eq_nil p t tok [E | Hin] Htok; [| exact (proj1 IH H2 p t tok Hin Htok)].
      injection E as -> ->. destruct (has_token t tok) eqn:Eh; [| reflexivity].
      assert (Hx : In (p, tok) (scan_target p (Some t))) by (apply scan_target_In; auto).
      rewrite H1 in Hx. contradiction.
    + intros H. rewrite (proj2 IH (fun p t tok Hin => H p t tok (or_intror Hin))), app_nil_r.
      destruct ot as [t |]; [| reflexivity].
      destruct (scan_target path (Some t)) as [| [p tok] l] eqn:Es; [reflexivity | exfalso].
      assert (Hx : In (p, tok) (scan_target path (Some t))) by (rewrite Es; left; reflexivity).
      unfold scan_target in Hx. apply in_map_iff in Hx as (tok' & E & Hin). injection E as <- <-.
      apply filter_In in Hin as [Hin Ht]. by rewrite (H path t tok' (or_introl eq_refl) Hin) in Ht.
Qed.

(** The digest placeholder contains the token [REPLACE_WITH_ACTUAL]. *)
Lemma placeholder_has_token text :
  has_token text PLACEHOLDER = true -> has_token text "REPLACE_WITH_ACTUAL" = true.
Proof.
  rewrite !has_token_spec. intros (a & b & E).
  exists a, (app (list_ascii_of_string "_SHA256") b). rewrite E. reflexivity.
Qed.

(** The failures of a scan include every token of every target that
    holds it. *)
Lemma flat_map_scan_In targets path t tok :
  In (path, Some t) targets -> In tok TOKENS -> has_token t tok = true ->
  In (path, tok) (flat_map (fun pt => scan_target pt.1 pt.2) targets).
Proof.
  intros Hin Htok Ht. apply in_flat_map. exists (path, Some t). split; [exact Hin |].
  by apply scan_target_In.
Qed.

(** ** Theorems *)

(** C10. On a cached kernel whose entry carries a digest, fetch_kernel.py
    and verify_kernel.py (without [--update]) agree: the same exit code,
    the cache left as it is, and no document written. *)
Theorem fetch_agrees_verify sha256 download kernel_arg bytes data :
  (forall k, find_entry (path_name kernel_arg) (kernel_list data) = Some k -> e_sha256 k <> None) ->
  exists code v v',
    fetch_main sha256 download (mk_fetch_args (path_name kernel_arg) false) (Some data) (Some bytes) =
      (code, v, Some bytes) /\
    verify_main sha256 kernel_arg (Some bytes) data false = (Exited code v', None).
Proof.
  intros Hs. unfold fetch_main. cbn [fa_name fa_force].
  destruct (find_entry _ _) as [k |] eqn:Ef.
  - destruct (e_sha256 k) as [expected |] eqn:Es; [| by destruct (Hs k eq_refl)].
    destruct (fetch_cached_verify sha256 kernel_arg data bytes k expected Ef Es) as [v' Hv].
    change (default "" (Some expected)) with expected.
    destruct (fetch_cached sha256 expected bytes) as [code v]. eauto.
  - exists 1%Z, NotListed, (KernelUnlisted (path_name kernel_arg) (sha256 bytes)).
    unfold verify_main. rewrite Ef. auto.
Qed.

(** C7. A run that downloaded the kernel leaves it in the cache, and a
    later run without [--force] reads it back with the same exit code and
    the cached form of the same verdict, whatever the network would now
    deliver: a download that failed verification stays cached, and every
    later run fails with [KERNEL_HASH_MISMATCH] until [--force]. *)
Theorem fetch_download_sticky sha256 download download' args data cache code v cache' :
  fetch_main sha256 download args (Some data) cache = (code, v, cache') -> downloaded v = true ->
  fetch_main sha256 download' (mk_fetch_args (fa_name args) false) (Some data) cache' =
    (code, cached_verdict v, cache').
Proof.
  intros H Hd. destruct (fetch_main_cases _ _ _ _ _ _ _ _ H) as [(_ & _ & -> & _) | (k & Ef & [(b & _ & _ & Hc) | (_ & Hdl)])];
    [discriminate | by rewrite (fetch_cached_not_downloaded _ _ _ _ _ Hc) in Hd |].
  destruct (fetch_download_cached _ _ _ _ _ _ _ _ Hdl Hd) as (b & -> & Hc).
  unfold fetch_main. cbn [fa_name fa_force]. rewrite Ef, Hc. reflexivity.
Qed.

(** When fetch_kernel.py succeeds on an entry that carries a digest,
    the cache holds a kernel that verify_kernel.py accepts. *)
Theorem fetch_ok_verifies sha256 download kernel_arg force data cache v cache' :
  (forall k, find_entry (path_name kernel_arg) (kernel_list data) = Some k -> e_sha256 k <> None) ->
  fetch_main sha256 download (mk_fetch_args (path_name kernel_arg) force) (Some data) cache = (0%Z, v, cache') ->
  exists bytes v', cache' = Some bytes /\ verify_main sha256 kernel_arg (Some bytes) data false = (Exited 0 v', None).
Proof.
  intros Hs H. destruct (fetch_main_cases _ _ _ _ _ _ _ _ H) as [(_ & E & _) | (k & Ef & Hk)]; [discriminate |].
  cbn [fa_name fa_force] in Ef, Hk.
  destruct (e_sha256 k) as [expected |] eqn:Es; [| by destruct (Hs k Ef)].
  change (default "" (Some expected)) with expected in Hk.
  destruct Hk as [(b & Hb & -> & Hc) | (_ & Hdl)].
  - assert (cache = Some b) as -> by (destruct force; [discriminate | exact Hb]).
    destruct (fetch_cached_verify sha256 kernel_arg data b k expected Ef Es) as [v' Hv].
    rewrite Hc in Hv. eauto.
  - destruct (fetch_download_cases _ _ _ _ _ _ _ _ Hdl) as [(E & _) | Hd]; [discriminate |].
    destruct (fetch_download_cached _ _ _ _ _ _ _ _ Hdl Hd) as (b & -> & Hc).
    destruct (fetch_cached_verify sha256 kernel_arg data b k expected Ef Es) as [v' Hv].
    rewrite Hc in Hv. eauto.
Qed.

(** check_placeholders.py exits with 0 exactly when
    [ALLOW_PLACEHOLDERS] allows it or no existing target holds a token. *)
Theorem placeholders_exit_zero env targets :
  (placeholders_main env targets).1 = 0%Z <->
  allow_of env = true \/
  forall path t tok, In (path, Some t) targets -> In tok TOKENS -> has_token t tok = false.
Proof.
  unfold placeholders_main. destruct (allow_of env); [simpl; tauto |].
  rewrite <- flat_map_scan_nil.
  destruct (flat_map _ targets); simpl; split; auto; [discriminate | intros [H | H]; discriminate].
Qed.

(** C23. A target still holding the digest placeholder that
    verify_kernel.py and fetch_kernel.py accept fails the gate, and is
    reported twice, under [REPLACE_WITH_ACTUAL] and under
    [REPLACE_WITH_ACTUAL_SHA256]: the third token never adds a target the
    second misses. *)
Theorem placeholder_digest_fails_gate env targets path t :
  allow_of env = false -> In (path, Some t) targets -> has_token t PLACEHOLDER = true ->
  exists failures, placeholders_main env targets = (1%Z, PlaceholdersFound failures) /\
    In (path, "REPLACE_WITH_ACTUAL") failures /\ In (path, PLACEHOLDER) failures.
Proof.
  intros Ha Hin Ht. unfold placeholders_main. rewrite Ha.
  pose proof (flat_map_scan_In targets path t _ Hin ltac:(right; left; reflexivity) (placeholder_has_token t Ht)) as H1.
  pose proof (flat_map_scan_In targets path t _ Hin ltac:(right; right; left; reflexivity) Ht) as H2.
  destruct (flat_map _ targets) as [| f fs]; [contradiction |]. eauto.
Qed.

(** ** Witnesses: the hashes file listing [de440s.bsp] *)

Definition example_hashes : hashes_doc :=
  mk_doc (Some [mk_entry (Some "de440s.bsp") (Some "ab12") (Some "https://naif.jpl.nasa.gov/de440s.bsp")]).

Lemma fetch_agrees_verify_witness :
  exists code v v',
    fetch_main (fun _ => "AB12") (fun _ => None) (mk_fetch_args (path_name "cache/de440s.bsp") false)
      (Some example_hashes) (Some [1%Z]) = (code, v, Some [1%Z]) /\
    verify_main (fun _ => "AB12") "cache/de440s.bsp" (Some [1%Z]) example_hashes false = (Exited code v', None).
Proof.
  apply (fetch_agrees_verify (fun _ => "AB12") (fun _ => None) "cache/de440s.bsp" [1%Z] example_hashes).
  intros k Hk. vm_compute in Hk. injection Hk as <-. discriminate.
Defined.

Lemma fetch_download_sticky_witness :
  fetch_main (fun b => if decide (b = [1%Z]) then "ab12" else "ff00") (fun _ => Some [1%Z])
    (mk_fetch_args "de440s.bsp" false) (Some example_hashes) (Some [2%Z]) =
  (1%Z, CachedMismatch "ff00" "ab12", Some [2%Z]).
Proof.
  apply (fetch_download_sticky (fun b => if decide (b = [1%Z]) then "ab12" else "ff00") (fun _ => Some [2%Z])
           (fun _ => Some [1%Z]) (mk_fetch_args "de440s.bsp" true) example_hashes None 1%Z
           (MismatchAfterDownload "ab12" "ff00") (Some [2%Z])); vm_compute; reflexivity.
Defined.

Lemma fetch_ok_verifies_witness :
  exists bytes v', Some [1%Z] = Some bytes /\
    verify_main (fun _ => "ab12") "cache/de440s.bsp" (Some bytes) example_hashes false = (Exited 0 v', None).
Proof.
  apply (fetch_ok_verifies (fun _ => "ab12") (fun _ => Some [1%Z]) "cache/de440s.bsp" false example_hashes None
           (DownloadedOk "ab12") (Some [1%Z])).
  - intros k Hk. vm_compute in Hk. injection Hk as <-. discriminate.
  - vm_compute. reflexivity.
Defined.

Lemma placeholder_digest_fails_gate_witness :
  exists failures,
    placeholders_main None [("kernel_hashes.json", Some "kernels: de440s.bsp sha256 REPLACE_WITH_ACTUAL_SHA256")] =
      (1%Z, PlaceholdersFound failures) /\
    In ("kernel_hashes.json", "REPLACE_WITH_ACTUAL") failures /\ In ("kernel_hashes.json", PLACEHOLDER) failures.
Proof.
  apply (placeholder_digest_fails_gate None _ "kernel_hashes.json" "kernels: de440s.bsp sha256 REPLACE_WITH_ACTUAL_SHA256");
    [vm_compute; reflexivity | left; reflexivity | vm_compute; reflexivity].
Defined.

End FetchKernel.
