(* ===== verification/Hash.v ===== *)
(** * Streaming SHA-256: [sha256_file] and [make_dataset_id]

    hashlib's [sha256()] object is an interface here: the class [Hasher]
    has a state, its initial value, [update] and [hexdigest], and the
    two laws of a streaming hash: [update(b'')] changes nothing, and two
    [update]s digest the concatenation of their inputs.  [Sha256.v]
    gives the FIPS 180-4 instance.

    [sha256_file] of src/scripts/ephem/validation/verify_kernel.py (and
    its copy in fetch_kernel.py) reads the file in 65536-byte chunks until
    [f.read] returns [b''] ([read_loop], with fuel); [make_dataset_id] of
    src/scripts/ephem/generate.py hashes the kernel's file name, the
    window bounds rendered by [str] (Datetime.v), the field mask and a
    version tag and keeps
    twelve hexadecimal digits.  The theorems: the read loop terminates
    within [length / 65536 + 2] reads and digests the whole file, and the
    dataset id is the digest of the concatenated fields, so it depends on
    the kernel's file name only. *)

From Stdlib Require Import QArith Qround ZArith Lia List Ascii String.
From stdpp Require Import base list strings pretty.
From S2P Require Import Prelude Datetime Encoder.
Import ListNotations.

Local Open Scope Z_scope.

Module Hash.
Import Encoder.

(** The streaming interface of a [hashlib] hash object. *)
Class Hasher : Type := {
  hstate : Type;
  hinit : hstate;
  hupdate : hstate -> list Z -> hstate;
  hexdigest : hstate -> string;
  hupdate_nil : forall s, hupdate s [] = s;
  hupdate_app : forall s a b, hupdate (hupdate s a) b = hupdate s (a ++ b)
}.

(** [f.read(65536)] *)
Definition CHUNK : nat := 65536.

(** [str.encode()]: the model's strings are the UTF-8 byte strings. *)
Definition encode (s : string) : list Z :=
  map (fun c => Z.of_nat (Ascii.nat_of_ascii c)) (String.list_ascii_of_string s).

(** The aware datetime of a window bound: its wall-clock time and its
    offset, in microseconds (a [datetime] has microsecond resolution). *)
Definition bound_datetime (t off : Q) : Datetime.pydatetime :=
  Datetime.mk_dt (Qfloor ((t + off) * inject_Z Datetime.US_PER_SEC))
    (Some (Qfloor (off * inject_Z Datetime.US_PER_SEC))).

Section Streaming.
Context `{Hasher}.

(** [for chunk in iter(lambda: f.read(65536), b''): h.update(chunk)] on
    the unread part [rest] of the file; [None] when the fuel runs out. *)
Fixpoint read_loop (fuel : nat) (h : hstate) (rest : list Z) : option hstate :=
  match fuel with
  | O => None
  | S fuel' =>
      match take CHUNK rest with
      | [] => Some h
      | chunk => read_loop fuel' (hupdate h chunk) (drop CHUNK rest)
      end
  end.

(** Reads the loop performs: one per full or partial chunk, and the
    final read of [b'']. *)
Definition read_fuel (content : list Z) : nat := (length content / CHUNK + 2)%nat.

(** [sha256_file(path)] on the file's bytes. *)
Definition sha256_file (content : list Z) : option string :=
  hexdigest <$> read_loop (read_fuel content) hinit content.

(** [sha256_file] of fetch_kernel.py, a copy of the same loop. *)
Definition fetch_sha256_file (content : list Z) : option string :=
  hexdigest <$> read_loop (read_fuel content) hinit content.

(** [make_dataset_id(cfg)], with [str(cfg.start)] and [str(cfg.end)]
    the [str] of Datetime.v on the bounds' datetimes. *)
Definition make_dataset_id (cfg : Config) : string :=
  let h := hinit in
  let h := hupdate h (encode (path_name (cfg_kernel cfg))) in
  let h := hupdate h (encode (Datetime.str_datetime (bound_datetime (cfg_start cfg) (cfg_start_utcoffset cfg)))) in
  let h := hupdate h (encode (Datetime.str_datetime (bound_datetime (cfg_end cfg) (cfg_end_utcoffset cfg)))) in
  let h := hupdate h (encode (pretty (cfg_fields_mask cfg))) in
  let h := hupdate h (encode "gtab_v1") in
  String.substring 0 12 (hexdigest h).

End Streaming.

(** The string [make_dataset_id] hashes: the fields in [update] order,
    with no separator between them. *)
Definition dataset_key (cfg : Config) : string :=
  path_name (cfg_kernel cfg)
    +:+ Datetime.str_datetime (bound_datetime (cfg_start cfg) (cfg_start_utcoffset cfg))
    +:+ Datetime.str_datetime (bound_datetime (cfg_end cfg) (cfg_end_utcoffset cfg))
    +:+ pretty (cfg_fields_mask cfg) +:+ "gtab_v1".

Lemma encode_app s1 s2 : encode (s1 +:+ s2) = encode s1 ++ encode s2.
Proof. induction s1 as [| c s1 IH]; [reflexivity |]. unfold encode in *. simpl. f_equal. exact IH. Qed.

Lemma CHUNK_pos : (0 < CHUNK)%nat.
Proof. apply Nat.ltb_lt. reflexivity. Qed.

Lemma take_chunk_cons (a : Z) l : exists c, take CHUNK (a :: l) = a :: c.
Proof. exists (take (CHUNK - 1) l). reflexivity. Qed.

Section StreamingProofs.
Context `{Hasher}.

Lemma read_loop_S fuel h rest :
  read_loop (S fuel) h rest =
  match take CHUNK rest with
  | [] => Some h
  | chunk => read_loop fuel (hupdate h chunk) (drop CHUNK rest)
  end.
Proof. reflexivity. Qed.

(** With [fuel] reads beyond the first, a file of at most
    [CHUNK * fuel] unread bytes is read to its end, and the state is the
    one a single [update] with the rest gives. *)
Lemma read_loop_spec fuel h rest :
  (length rest <= CHUNK * fuel)%nat -> read_loop (S fuel) h rest = Some (hupdate h rest).
Proof.
  revert h rest; induction fuel as [| fuel IH]; intros h rest Hlen;
    (destruct rest as [| a l]; [rewrite read_loop_S, take_nil, hupdate_nil; reflexivity |]).
  - rewrite Nat.mul_0_r in Hlen. simpl in Hlen. lia.
  - rewrite read_loop_S. destruct (take_chunk_cons a l) as [c Ec]. rewrite Ec, <- Ec.
    rewrite IH, hupdate_app, take_drop; [reflexivity |].
    rewrite length_drop. rewrite Nat.mul_succ_r in Hlen. lia.
Qed.

Lemma read_fuel_enough (content : list Z) :
  (length content <= CHUNK * (length content / CHUNK + 1))%nat.
Proof.
  pose proof (Nat.div_mod (length content) CHUNK ltac:(pose proof CHUNK_pos; lia)) as Hd.
  pose proof (Nat.mod_upper_bound (length content) CHUNK ltac:(pose proof CHUNK_pos; lia)).
  rewrite Nat.mul_add_distr_l. lia.
Qed.

(** C11. Equivalence and termination: [sha256_file] reads every file to
    its end within [read_fuel] reads, and the digest of the chunked reads
    is the digest of one [update] with the whole content. *)
Theorem sha256_file_whole (content : list Z) :
  sha256_file content = Some (hexdigest (hupdate hinit content)).
Proof.
  unfold sha256_file, read_fuel.
  replace (length content / CHUNK + 2)%nat with (S (length content / CHUNK + 1)) by lia.
  rewrite read_loop_spec by apply read_fuel_enough. reflexivity.
Qed.

(** [make_dataset_id] is the first twelve hexadecimal digits of the
    digest of [dataset_key]: the kernel's file name, the two rendered
    bounds, the decimal field mask and [gtab_v1], concatenated. *)
Lemma make_dataset_id_key cfg :
  make_dataset_id cfg = String.substring 0 12 (hexdigest (hupdate hinit (encode (dataset_key cfg)))).
Proof.
  unfold make_dataset_id, dataset_key. rewrite !hupdate_app, !encode_app, !app_assoc.
  reflexivity.
Qed.

(** Two configurations whose kernels have the same file name get the
    same dataset id, whatever directories (and kernel files) they name. *)
Lemma make_dataset_id_name_only k1 k2 s e m so eo :
  path_name k1 = path_name k2 ->
  make_dataset_id (mk_config k1 s e m so eo) = make_dataset_id (mk_config k2 s e m so eo).
Proof. intros Hk. unfold make_dataset_id. simpl. rewrite Hk. reflexivity. Qed.

End StreamingProofs.

End Hash.
