(* ===== verification/Sha256.v ===== *)
(** * SHA-256 (FIPS 180-4) as an instance of [Hasher]

    hashlib's [sha256] is a library the scripts call; this file gives the
    algorithm on 32-bit words kept as [Z] with their wrap-around written
    out ([mod 2^32]), so that [sha256_file] and [make_dataset_id] can be
    evaluated on concrete inputs.  The instance's state is the message
    read so far and [hexdigest] pads and compresses it: observably the
    same object as hashlib's, whose state is the compressed prefix.  The
    examples check the FIPS test vectors and a dataset id that Python
    prints. *)

From Stdlib Require Import QArith ZArith Lia List Ascii String.
From stdpp Require Import base list strings pretty.
From S2P Require Import Prelude Encoder KernelVerify Hash.
Import ListNotations.

Local Open Scope Z_scope.

Module Sha256.
Import Encoder KernelVerify Hash.

Definition W32 : Z := 2 ^ 32.

Definition add32 (x y : Z) : Z := (x + y) mod W32.

Definition rotr (x : Z) (n : Z) : Z :=
  Z.lor (Z.shiftr x n) (Z.shiftl x (32 - n) mod W32).

Definition ch (x y z : Z) : Z := Z.lxor (Z.land x y) (Z.land (Z.lxor x (W32 - 1)) z).
Definition maj (x y z : Z) : Z := Z.lxor (Z.lxor (Z.land x y) (Z.land x z)) (Z.land y z).
Definition bsig0 (x : Z) : Z := Z.lxor (Z.lxor (rotr x 2) (rotr x 13)) (rotr x 22).
Definition bsig1 (x : Z) : Z := Z.lxor (Z.lxor (rotr x 6) (rotr x 11)) (rotr x 25).
Definition ssig0 (x : Z) : Z := Z.lxor (Z.lxor (rotr x 7) (rotr x 18)) (Z.shiftr x 3).
Definition ssig1 (x : Z) : Z := Z.lxor (Z.lxor (rotr x 17) (rotr x 19)) (Z.shiftr x 10).

(** The first [n] primes, by trial division. *)
Definition is_prime (p : Z) : bool :=
  (2 <=? p) && forallb (fun d => negb (p mod d =? 0)) (map Z.of_nat (seq 2 (Z.to_nat p - 2))).

Fixpoint primes_from (fuel : nat) (n : nat) (p : Z) : list Z :=
  match fuel, n with
  | O, _ | _, O => []
  | S fuel', S n' => if is_prime p then p :: primes_from fuel' n' (p + 1) else primes_from fuel' n (p + 1)
  end.

(** The integer cube root, by bisection on [[lo, hi)]. *)
Fixpoint cbrt_go (fuel : nat) (n lo hi : Z) : Z :=
  match fuel with
  | O => lo
  | S fuel' =>
      if hi - lo <=? 1 then lo
      else let mid := (lo + hi) / 2 in
           if mid ^ 3 <=? n then cbrt_go fuel' n mid hi else cbrt_go fuel' n lo mid
  end.

(** [floor(cbrt n)] for [n < 2^120]. *)
Definition icbrt (n : Z) : Z := cbrt_go 64 n 0 (2 ^ 40).

Definition PRIMES64 : list Z := primes_from 400 64 2.

(** FIPS 180-4, 4.2.2: the first 32 bits of the fractional parts of the
    cube roots of the first 64 primes. *)
Definition K : list Z := map (fun p => icbrt (p * 2 ^ 96) mod W32) PRIMES64.

(** 5.3.3: the first 32 bits of the fractional parts of the square roots
    of the first 8 primes. *)
Definition H0 : list Z := map (fun p => Z.sqrt (p * 2 ^ 64) mod W32) (firstn 8 PRIMES64).

(** Big-endian words of a block and bytes of a word. *)
Fixpoint be_words (n : nat) (bs : list Z) : list Z :=
  match n with
  | O => []
  | S n' => fold_left (fun acc b => acc * 256 + b) (take 4 bs) 0 :: be_words n' (drop 4 bs)
  end.

Definition be_bytes (w : nat) (x : Z) : list Z :=
  map (fun i => Z.land (Z.shiftr x (8 * Z.of_nat (w - 1 - i))) 255) (seq 0 w).

(** The message padded to a multiple of 64 bytes: [0x80], zeros, and the
    length in bits as 8 big-endian bytes. *)
Definition pad (msg : list Z) : list Z :=
  let L := Z.of_nat (length msg) in
  msg ++ [128] ++ repeat 0 (Z.to_nat ((55 - L) mod 64)) ++ be_bytes 8 (8 * L).

(** The message schedule, most recent word first. *)
Definition schedule (block : list Z) : list Z :=
  let w16 := rev (be_words 16 block) in
  let step (w : list Z) (_ : nat) :=
    add32 (add32 (ssig1 (nth 1 w 0)) (nth 6 w 0)) (add32 (ssig0 (nth 14 w 0)) (nth 15 w 0)) :: w in
  rev (fold_left step (seq 0 48) w16).

Definition round (st : list Z) (kw : Z * Z) : list Z :=
  match st with
  | [a; b; c; d; e; f; g; h] =>
      let t1 := add32 (add32 (add32 h (bsig1 e)) (add32 (ch e f g) kw.1)) kw.2 in
      let t2 := add32 (bsig0 a) (maj a b c) in
      [add32 t1 t2; a; b; c; add32 d t1; e; f; g]
  | _ => st
  end.

Definition compress (hs : list Z) (block : list Z) : list Z :=
  zip_with add32 hs (fold_left round (combine K (schedule block)) hs).

Fixpoint blocks (n : nat) (bs : list Z) : list (list Z) :=
  match n with
  | O => []
  | S n' => take 64 bs :: blocks n' (drop 64 bs)
  end.

Definition sha256_words (msg : list Z) : list Z :=
  let p := pad msg in
  fold_left compress (blocks (length p / 64) p) H0.

Definition hex_digit (d : Z) : ascii :=
  Ascii.ascii_of_nat (Z.to_nat (if d <? 10 then 48 + d else 87 + d)).

Definition hex_of_bytes (bs : list Z) : string :=
  String.string_of_list_ascii
    (concat (map (fun b => [hex_digit (Z.shiftr b 4); hex_digit (Z.land b 15)]) bs)).

Definition sha256_hex (msg : list Z) : string :=
  hex_of_bytes (concat (map (be_bytes 4) (sha256_words msg))).

(** A character of [hexdigest()]'s alphabet, [0-9a-f]. *)
Definition is_lower_hex (c : ascii) : bool :=
  let n := Ascii.nat_of_ascii c in ((48 <=? n)%nat && (n <=? 57)%nat) || ((97 <=? n)%nat && (n <=? 102)%nat).

(** hashlib's object, with the bytes read so far as its state. *)
#[export] Program Instance sha256_hasher : Hasher := {
  hstate := list Z;
  hinit := [];
  hupdate s b := s ++ b;
  hexdigest := sha256_hex
}.
Next Obligation. intros s. apply app_nil_r. Qed.
Next Obligation. intros s a b. symmetry. apply app_assoc. Qed.

(** ** The shape of a digest *)

Lemma round_length st kw : length (round st kw) = length st.
Proof. destruct st as [| a [| b [| c [| d [| e [| f [| g [| h [| i st]]]]]]]]]; reflexivity. Qed.

Lemma compress_length hs block : length (compress hs block) = length hs.
Proof.
  unfold compress. rewrite length_zip_with.
  rewrite (fold_left_invariant (fun st => length st = length hs)); [lia | reflexivity |].
  intros st kw E. rewrite round_length. exact E.
Qed.

Lemma sha256_words_length msg : length (sha256_words msg) = 8%nat.
Proof.
  unfold sha256_words. apply fold_left_invariant; [vm_compute; reflexivity |].
  intros hs b E. rewrite compress_length. exact E.
Qed.

Lemma be_bytes_length w x : length (be_bytes w x) = w.
Proof. unfold be_bytes. rewrite length_map, length_seq. reflexivity. Qed.

Lemma be_bytes_range w x : Forall (fun b => 0 <= b < 256) (be_bytes w x).
Proof.
  unfold be_bytes. apply List.Forall_forall. intros b Hb. apply in_map_iff in Hb.
  destruct Hb as (i & <- & _). change 255 with (Z.ones 8). rewrite Z.land_ones by lia.
  apply Z.mod_pos_bound. lia.
Qed.

Lemma hex_digit_lower d : 0 <= d < 16 -> is_lower_hex (hex_digit d) = true.
Proof.
  intros Hd. assert (Hall : forallb (fun k => is_lower_hex (hex_digit (Z.of_nat k))) (seq 0 16) = true)
    by (vm_compute; reflexivity).
  rewrite forallb_forall in Hall. rewrite <- (Z2Nat.id d) by lia. apply Hall.
  apply in_seq. lia.
Qed.

Lemma hex_of_bytes_shape bs :
  Forall (fun b => 0 <= b < 256) bs ->
  length (list_ascii_of_string (hex_of_bytes bs)) = (2 * length bs)%nat /\
  Forall (fun c => is_lower_hex c = true) (list_ascii_of_string (hex_of_bytes bs)).
Proof.
  unfold hex_of_bytes. rewrite list_ascii_of_string_of_list_ascii.
  induction 1 as [| b bs Hb _ [IHl IHf]]; [split; [reflexivity | constructor] |].
  cbn [map concat]. split.
  - cbn [app length]. rewrite IHl. lia.
  - repeat constructor; [| | exact IHf]; apply hex_digit_lower.
    + rewrite Z.shiftr_div_pow2 by lia. split; [apply Z.div_pos | apply Z.div_lt_upper_bound]; lia.
    + change 15 with (Z.ones 4). rewrite Z.land_ones by lia. apply Z.mod_pos_bound. lia.
Qed.

(** [hexdigest()] is 64 lower-case hexadecimal digits. *)
Lemma sha256_hex_shape msg :
  length (list_ascii_of_string (sha256_hex msg)) = 64%nat /\
  Forall (fun c => is_lower_hex c = true) (list_ascii_of_string (sha256_hex msg)).
Proof.
  unfold sha256_hex. destruct (hex_of_bytes_shape (concat (map (be_bytes 4) (sha256_words msg)))) as [Hl Hf].
  - apply Forall_concat, List.Forall_forall. intros l Hl. apply in_map_iff in Hl.
    destruct Hl as (w & <- & _). apply be_bytes_range.
  - split; [| exact Hf]. rewrite Hl. pose proof (sha256_words_length msg) as E.
    destruct (sha256_words msg) as [| a [| b [| c [| d [| e [| f [| g [| h [| i ws]]]]]]]]];
      try discriminate E. reflexivity.
Qed.

(** No digest is the placeholder text, which has upper-case letters. *)
Lemma sha256_hex_not_placeholder msg : sha256_hex msg <> PLACEHOLDER.
Proof.
  intros E. destruct (sha256_hex_shape msg) as [_ Hf]. rewrite E in Hf.
  inversion Hf as [| c l Hc]. discriminate Hc.
Qed.

(** [sha256_file] of the SHA-256 instance is [sha256_hex] of the file. *)
Lemma sha256_file_hex content : default "" (sha256_file content) = sha256_hex content.
Proof.
  unfold sha256_file, read_fuel.
  replace (length content / CHUNK + 2)%nat with (S (length content / CHUNK + 1)) by lia.
  rewrite read_loop_spec by apply read_fuel_enough. reflexivity.
Qed.

(** C27. verify_kernel.py with hashlib's SHA-256 and the chunked
    [sha256_file]: after an [--update] run that replaced the placeholder,
    a second run on the written document reports [KERNEL_OK] with the
    digest of the kernel's bytes.  The digest can never be the
    placeholder text, so the round trip holds for every kernel file. *)
Theorem verify_update_then_ok_sha256 kernel_arg bytes data data' v :
  verify_main (fun b => default "" (sha256_file b)) kernel_arg (Some bytes) data true = (Exited 0 v, Some data') ->
  verify_main (fun b => default "" (sha256_file b)) kernel_arg (Some bytes) data' false =
    (Exited 0 (KernelOk (sha256_hex bytes)), None).
Proof.
  intros H. rewrite <- sha256_file_hex.
  apply (verify_update_then_ok (fun b => default "" (sha256_file b)) kernel_arg bytes data data' v);
    [rewrite sha256_file_hex; apply sha256_hex_not_placeholder | exact H].
Qed.

(** ** Examples *)

(** The constants are those of the standard's tables: the first and
    last round constants and initial words, and the bisection finds the
    cube roots it is asked for. *)
Example sha256_constants :
  length K = 64%nat /\ nth 0 K 0 = 1116352408 /\ nth 63 K 0 = 3329325298 /\
  H0 = [1779033703; 3144134277; 1013904242; 2773480762; 1359893119; 2600822924; 528734635; 1541459225] /\
  forallb (fun p => (icbrt (p * 2 ^ 96) ^ 3 <=? p * 2 ^ 96) && (p * 2 ^ 96 <? (icbrt (p * 2 ^ 96) + 1) ^ 3))
    PRIMES64 = true.
Proof. repeat split; vm_compute; reflexivity. Qed.

(** FIPS 180-4's one-block example, ["abc"], read by [sha256_file]. *)
Example sha256_file_abc :
  sha256_file (encode "abc") = Some "ba7816bf8f01cfea414140de5dae2223b00361a396177a9cb410ff61f20015ad".
Proof. vm_compute. reflexivity. Qed.

(** The empty file: one read, of [b'']. *)
Example sha256_file_empty :
  sha256_file [] = Some "e3b0c44298fc1c149afbf4c8996fb92427ae41e4649b934ca495991b7852b855".
Proof. vm_compute. reflexivity. Qed.

(** A four-block message: 200 bytes [a]. *)
Example sha256_file_200a :
  sha256_file (repeat 97 200) = Some "c2a908d98f5df987ade41b5fce213067efbcc21ef2240212a41e54b5e7c28ae5".
Proof. vm_compute. reflexivity. Qed.

(** [make_dataset_id] for [de440s.bsp] over 2025-01-01 to 2025-01-02
    UTC with both fields, as Python prints it ([str] of the aware bounds
    renders [2025-01-01 00:00:00+00:00]). *)
Example make_dataset_id_de440s :
  make_dataset_id (mk_config "/cache/de440s.bsp" 1735689600 1735776000 3 0 0) = "a43b4da1618f".
Proof. vm_compute. reflexivity. Qed.

(** [verify_kernel.py --kernel cache/k.bsp] on a kernel whose listed
    digest is upper-case: [expected.lower() == computed.lower()]. *)
Example verify_main_sha256_ok :
  verify_main (fun b => default "" (sha256_file b)) "scripts/ephem/cache/k.bsp" (Some (encode "abc"))
    (mk_doc (Some [mk_entry (Some "k.bsp")
       (Some "BA7816BF8F01CFEA414140DE5DAE2223B00361A396177A9CB410FF61F20015AD") None]))
    false
  = (Exited 0 (KernelOk "ba7816bf8f01cfea414140de5dae2223b00361a396177a9cb410ff61f20015ad"), None).
Proof. vm_compute. reflexivity. Qed.

(** The placeholder entry of kernel_hashes.json, updated and then
    checked. *)
Definition placeholder_doc : hashes_doc :=
  mk_doc (Some [mk_entry (Some "k.bsp") (Some PLACEHOLDER) None]).

Lemma verify_update_then_ok_sha256_witness :
  verify_main (fun b => default "" (sha256_file b)) "scripts/ephem/cache/k.bsp" (Some (encode "abc"))
    placeholder_doc true =
    (Exited 0 (PlaceholderUpdated "ba7816bf8f01cfea414140de5dae2223b00361a396177a9cb410ff61f20015ad"),
     Some (mk_doc (Some [mk_entry (Some "k.bsp")
       (Some "ba7816bf8f01cfea414140de5dae2223b00361a396177a9cb410ff61f20015ad") None]))) /\
  verify_main (fun b => default "" (sha256_file b)) "scripts/ephem/cache/k.bsp" (Some (encode "abc"))
    (mk_doc (Some [mk_entry (Some "k.bsp")
       (Some "ba7816bf8f01cfea414140de5dae2223b00361a396177a9cb410ff61f20015ad") None])) false =
    (Exited 0 (KernelOk (sha256_hex (encode "abc"))), None).
Proof.
  assert (H1 : verify_main (fun b => default "" (sha256_file b)) "scripts/ephem/cache/k.bsp" (Some (encode "abc"))
    placeholder_doc true =
    (Exited 0 (PlaceholderUpdated "ba7816bf8f01cfea414140de5dae2223b00361a396177a9cb410ff61f20015ad"),
     Some (mk_doc (Some [mk_entry (Some "k.bsp")
       (Some "ba7816bf8f01cfea414140de5dae2223b00361a396177a9cb410ff61f20015ad") None]))))
    by (vm_compute; reflexivity).
  split; [exact H1 |].
  exact (verify_update_then_ok_sha256 _ _ _ _ _ H1).
Defined.

End Sha256.
