(* ===== verification/TaskGraph.v ===== *)
(** * Task graph: [load_tasks] and [validate] of update_progress.py

    [src/scripts/progress/update_progress.py] reads the task graph of
    [docs/progress/task_graph.yaml] ([load_tasks]) and rejects it
    ([validate], exit code 2) on duplicate ids, unknown statuses,
    dependencies on unknown ids, or a dependency cycle, found by a
    depth-first search that keeps the [visited] and [stack] sets.  The
    YAML document is taken already parsed; Python sets are stdpp's
    [gset]; the recursion of [dfs] is bounded by a fuel that
    [validate_total] shows is never exhausted.  The iteration order of
    [set(t.depends_on)] is unspecified in Python (string hashing is
    randomised): the model takes [remove_dups], and the theorems of the
    search hold for every order of the successor lists. *)

From Stdlib Require Import ZArith List String Bool Lia Relations.
From stdpp Require Import base list strings gmap sets.
From S2P Require Import Prelude.
Import ListNotations.

Module TaskGraph.

(** [@dataclass class Task] ([raw] is kept by the script but never read). *)
Record Task : Type := mk_task {
  id : string;
  title : string;
  phase : Z;
  priority : Z;
  depends_on : list string;
  status : string
}.

(** [Task.is_ready] *)
Definition is_ready (t : Task) (completed : list string) : bool :=
  String.eqb (status t) "PENDING" && forallb (fun d => bool_decide (d ∈ completed)) (depends_on t).

(** [VALID_STATUSES] *)
Definition VALID_STATUSES : list string :=
  ["PENDING"; "IN_PROGRESS"; "BLOCKED"; "IN_REVIEW"; "COMPLETE"; "DEFERRED"].

(** The [depends_on] entry of a mapping: absent, null, or a list of ids. *)
Inductive deps : Type :=
| DAbsent
| DNull
| DList (l : list string).

(** [t.get("depends_on", []) or []]: an absent and a null entry both give
    the empty list. *)
Definition deps_or_nil (d : deps) : list string :=
  match d with
  | DList l => l
  | _ => []
  end.

(** A mapping of the YAML [tasks] list, with the keys the scripts read;
    [None] is an absent key. *)
Record raw_task : Type := mk_raw {
  r_id : option string;
  r_title : option string;
  r_phase : option Z;
  r_priority : option Z;
  r_depends_on : deps;
  r_status : option string
}.

(** An element of the YAML [tasks] list: a mapping, or any other value
    (a stray string). *)
Inductive yaml_entry : Type :=
| YDict (r : raw_task)
| YOther.

(** The body of the loop of [load_tasks]: non-mappings are skipped, a
    mapping without [id] raises [KeyError] ([None]). *)
Definition load_task (tasks : list Task) (e : yaml_entry) : option (list Task) :=
  match e with
  | YOther => Some tasks
  | YDict r =>
      i ← r_id r;
      Some (tasks ++ [mk_task i (default "" (r_title r)) (default 0%Z (r_phase r))
                        (default 1000%Z (r_priority r)) (deps_or_nil (r_depends_on r))
                        (default "PENDING" (r_status r))])
  end.

(** [load_tasks()] on [data.get("tasks", [])]. *)
Definition load_tasks (tasks_raw : option (list yaml_entry)) : option (list Task) :=
  fold_opt load_task [] (default [] tasks_raw).

(** The messages of [validate], one constructor per f-string. *)
Inductive error : Type :=
| DuplicateId (tid : string)
| InvalidStatus (tid st : string)
| MissingDependency (tid dep : string)
| CycleDetected (node : string).

(** [seen[t.id] = seen.get(t.id, 0) + 1] over the tasks. *)
Definition count_ids (tasks : list Task) : list (string * nat) :=
  fold_left (fun seen t => dict_set (id t) (default 0 (dict_get (id t) seen) + 1)%nat seen) tasks [].

(** [for tid, count in seen.items(): if count > 1: ...] *)
Definition duplicate_errors (seen : list (string * nat)) : list error :=
  map (fun p => DuplicateId p.1) (List.filter (fun p => 1 <? p.2)%nat seen).

(** The body of [for t in tasks] with [ids = set(seen.keys())]. *)
Definition task_errors (ids : list string) (t : Task) : list error :=
  (if bool_decide (status t ∈ VALID_STATUSES) then [] else [InvalidStatus (id t) (status t)]) ++
  map (MissingDependency (id t)) (List.filter (fun dep => negb (bool_decide (dep ∈ ids))) (depends_on t)).

(** [graph = {t.id: set(t.depends_on) for t in tasks}]: a later task
    with the same id replaces the successors in place. *)
Definition graph_of (tasks : list Task) : list (string * list string) :=
  fold_left (fun g t => dict_set (id t) (remove_dups (depends_on t)) g) tasks [].

(** [graph.get(node, set())] *)
Definition succ (g : list (string * list string)) (node : string) : list string :=
  default [] (dict_get node g).

(** The state the nested [dfs] shares with [validate]: the [visited]
    and [stack] sets and the [errors] list. *)
Record dfs_state : Type := mk_dfs {
  visited : gset string;
  stack : gset string;
  errors : list error
}.

(** [dfs(node)], with [fuel] bounding the depth of the recursion. *)
Fixpoint dfs (g : list (string * list string)) (fuel : nat) (node : string) (st : dfs_state)
  : option dfs_state :=
  match fuel with
  | O => None
  | S f =>
      if bool_decide (node ∈ stack st) then
        Some (mk_dfs (visited st) (stack st) (errors st ++ [CycleDetected node]))
      else if bool_decide (node ∈ visited st) then Some st
      else
        st2 ← fold_opt (fun s nxt => dfs g f nxt s)
                (mk_dfs ({[node]} ∪ visited st) ({[node]} ∪ stack st) (errors st)) (succ g node);
        Some (mk_dfs (visited st2) (stack st2 ∖ {[node]}) (errors st2))
  end.

(** The nodes the search can reach: the keys and every successor. *)
Definition universe (g : list (string * list string)) : gset string :=
  list_to_set (map fst g ++ concat (map snd g)).

(** The fuel of the search: one more than the number of nodes. *)
Definition dfs_fuel (g : list (string * list string)) : nat := S (size (universe g)).

(** [validate(tasks)]: the duplicate, status and dependency errors in
    the script's order, then the cycles found by [for node in graph:
    dfs(node)]. *)
Definition validate (tasks : list Task) : option (list error) :=
  let seen := count_ids tasks in
  let ids := map fst seen in
  let errs := duplicate_errors seen ++ concat (map (task_errors ids) tasks) in
  let g := graph_of tasks in
  st ← fold_opt (fun s node => dfs g (dfs_fuel g) node s) (mk_dfs ∅ ∅ errs) (map fst g);
  Some (errors st).

(** ** The search, specified

    [edge g x y]: [y] is a successor of [x] in the dict [graph];
    [cyclic g]: some node reaches itself. *)

Definition edge (g : list (string * list string)) (x y : string) : Prop := y ∈ succ g x.

Definition cyclic (g : list (string * list string)) : Prop :=
  exists y, clos_trans string (edge g) y y.

(** Every node that the search has finished (visited and no longer on
    the stack) lies on no cycle. *)
Definition fin_acyclic (g : list (string * list string)) (st : dfs_state) : Prop :=
  forall v, v ∈ visited st -> v ∉ stack st -> ~ clos_trans string (edge g) v v.

(** What a loop of [dfs] calls over [l] guarantees, from [s0] to [s]:
    the stack is restored, [visited] and [errors] only grow, a new
    error means a cycle, and without a new error every node of [l] is
    finished and no finished node lies on a cycle. *)
Definition dfs_post (g : list (string * list string)) (l : list string) (s0 s : dfs_state) : Prop :=
  stack s = stack s0 /\ visited s0 ⊆ visited s /\
  (exists new, errors s = errors s0 ++ new) /\
  (errors s = errors s0 \/ cyclic g) /\
  (errors s = errors s0 ->
     (forall a, In a l -> a ∈ visited s /\ a ∉ stack s) /\ (fin_acyclic g s0 -> fin_acyclic g s)).

(** A task graph in the shape of the repository's: an infrastructure
    task, the GTAB format task that depends on it, and a blocked task
    that depends on both. *)
Definition example_tasks : list Task :=
  [mk_task "P1-INFRA" "Infrastructure" 1 1 [] "COMPLETE";
   mk_task "P1-GTAB" "GTAB format" 1 2 ["P1-INFRA"] "PENDING";
   mk_task "P2-ENC" "Encoder" 2 1 ["P1-GTAB"; "P1-INFRA"] "BLOCKED"].

(** ** The contract of [validate]

    The task graph is well formed when the ids are distinct, every
    status is valid, every dependency names a task, and the dependency
    relation has no cycle. *)

Definition dep_edge (tasks : list Task) (x y : string) : Prop :=
  exists t, In t tasks /\ id t = x /\ y ∈ depends_on t.

Definition task_graph_wf (tasks : list Task) : Prop :=
  NoDup (map id tasks) /\
  Forall (fun t => status t ∈ VALID_STATUSES) tasks /\
  (forall t dep, In t tasks -> dep ∈ depends_on t -> dep ∈ map id tasks) /\
  (forall x, ~ clos_trans string (dep_edge tasks) x x).

(** ** The depth-first search *)

Lemma app_grow_nil {A} (l new new' : list A) : (l ++ new) ++ new' = l -> new = [] /\ new' = [].
Proof.
  intros E. apply (f_equal length) in E. rewrite !length_app in E.
  destruct new, new'; simpl in *; split; auto; lia.
Qed.

Section Search.
Variable g : list (string * list string).

Lemma edge_key x y : edge g x y -> In x (map fst g).
Proof.
  unfold edge, succ. destruct (dict_get x g) as [l |] eqn:E; simpl; [| intros Hy; inversion Hy].
  intros _. destruct (decide (x ∈ map fst g)) as [H | H]; [by apply list_elem_of_In |].
  apply dict_get_None in H. congruence.
Qed.

(** A node all of whose successors are finished, none on a cycle, is on
    no cycle itself. *)
Lemma finished_acyclic x s :
  (forall a, a ∈ succ g x -> a ∈ visited s /\ a ∉ stack s) ->
  x ∈ stack s -> fin_acyclic g s -> ~ clos_trans string (edge g) x x.
Proof.
  intros Hsucc Hx Hfin Hc. apply clos_trans_t1n in Hc. remember x as x' eqn:Ex in Hc at 2.
  destruct Hc as [w Hxw | w z Hxw Hw]; subst.
  - apply (Hsucc x Hxw). exact Hx.
  - destruct (Hsucc w Hxw) as [Hv Hs]. apply (Hfin w Hv Hs).
    eapply t_trans; [apply clos_t1n_trans, Hw | apply t_step, Hxw].
Qed.

Lemma dfs_post_nil s : dfs_post g [] s s.
Proof.
  split; [reflexivity |]. split; [reflexivity |]. split; [exists []; by rewrite app_nil_r |].
  split; [left; reflexivity |]. intros _. split; [intros ? [] | auto].
Qed.

Lemma dfs_post_app l1 l2 s0 s1 s2 :
  dfs_post g l1 s0 s1 -> dfs_post g l2 s1 s2 -> dfs_post g (l1 ++ l2) s0 s2.
Proof.
  intros (Hs1 & Hv1 & [n1 En1] & Hc1 & Hf1) (Hs2 & Hv2 & [n2 En2] & Hc2 & Hf2).
  split; [congruence |]. split; [set_solver |].
  split; [exists (n1 ++ n2); rewrite En2, En1, app_assoc; reflexivity |].
  split; [destruct Hc2 as [E2 | C]; [rewrite E2; exact Hc1 | right; exact C] |].
  intros E. rewrite En2, En1 in E. destruct (app_grow_nil _ _ _ E) as [-> ->].
  rewrite app_nil_r in En1, En2.
  destruct (Hf1 En1) as [Ha1 Hfin1], (Hf2 En2) as [Ha2 Hfin2].
  split; [| auto]. intros a Ha. apply in_app_or in Ha as [Ha | Ha]; [| auto].
  destruct (Ha1 a Ha). split; [set_solver | congruence].
Qed.

(** A loop of [dfs] calls that keep the stack, each with its guarantee,
    has the guarantee of the whole list. *)
Lemma dfs_fold_post f l s0 s :
  (forall a st st', In a l -> stack st = stack s0 -> dfs g f a st = Some st' -> dfs_post g [a] st st') ->
  fold_opt (fun s a => dfs g f a s) s0 l = Some s -> dfs_post g l s0 s.
Proof.
  revert s0. induction l as [| a l IH]; intros s0 Hcall E; simpl in E.
  - injection E as <-. apply dfs_post_nil.
  - destruct (dfs g f a s0) as [s1 |] eqn:E1; [simpl in E | discriminate E].
    pose proof (Hcall a s0 s1 (or_introl eq_refl) eq_refl E1) as P1.
    apply (dfs_post_app [a] l s0 s1 s P1), IH; [| exact E].
    intros b st st' Hb Hst. apply Hcall; [right; exact Hb |]. rewrite Hst. apply (proj1 P1).
Qed.

(** The guarantee of one call [dfs(x)], when every node of the stack
    reaches [x]. *)
Lemma dfs_spec f x st st' :
  dfs g f x st = Some st' ->
  (forall y, y ∈ stack st -> clos_trans string (edge g) y x) -> dfs_post g [x] st st'.
Proof.
  revert x st st'. induction f as [| f IH]; intros x st st' E Hstk; [discriminate E |].
  cbn [dfs] in E. case_bool_decide as Hs.
  - injection E as <-. split; [reflexivity |]. split; [reflexivity |].
    split; [eexists; reflexivity |]. split; [right; exists x; apply Hstk, Hs |].
    simpl. intros E. apply (f_equal length) in E. rewrite length_app in E. simpl in E. lia.
  - case_bool_decide as Hv.
    + injection E as <-. split; [reflexivity |]. split; [reflexivity |].
      split; [exists []; by rewrite app_nil_r |]. split; [left; reflexivity |].
      intros _. split; [intros a [<- | []]; auto | auto].
    + destruct (fold_opt _ _ _) as [st2 |] eqn:E2; [simpl in E | discriminate E]. injection E as <-.
      apply dfs_fold_post in E2 as (Hs2 & Hv2 & [n En] & Hc & Hf).
      2:{ intros a s s' Ha Hst Ea. apply (IH a s s' Ea). intros y Hy.
          rewrite Hst in Hy. simpl in Hy. apply list_elem_of_In in Ha.
          apply elem_of_union in Hy as [->%elem_of_singleton | Hy];
            [apply t_step, Ha | eapply t_trans; [apply Hstk, Hy | apply t_step, Ha]]. }
      simpl in *. split; [simpl; rewrite Hs2; set_solver |]. split; [simpl; set_solver |].
      split; [exists n; exact En |]. split; [exact Hc |].
      simpl. intros E. destruct (Hf E) as [Hsucc Hf2]. split.
      * intros a [<- | []]. split; [set_solver | set_solver].
      * intros Hfin v Hv' Hns.
        assert (Hfin2 : fin_acyclic g st2) by (apply Hf2; intros w Hw Hw'; simpl in *; apply Hfin; set_solver).
        destruct (decide (v = x)) as [-> |].
        -- apply (finished_acyclic x st2); [| rewrite Hs2; set_solver | exact Hfin2].
           intros a Ha. apply Hsucc, list_elem_of_In, Ha.
        -- apply Hfin2; [exact Hv' | set_solver].
Qed.

(** Every node the search meets is in the universe, and each call that
    visits a new node shrinks the unvisited part of it. *)
Lemma universe_key x : In x (map fst g) -> x ∈ universe g.
Proof. intros H. unfold universe. apply elem_of_list_to_set, elem_of_app. left. by apply list_elem_of_In. Qed.

Lemma universe_succ x y : y ∈ succ g x -> y ∈ universe g.
Proof.
  unfold succ. destruct (dict_get x g) as [l |] eqn:E; simpl; [| intros H; inversion H].
  intros Hy. apply dict_get_in in E. unfold universe. apply elem_of_list_to_set, elem_of_app. right.
  apply list_elem_of_In, in_concat. exists l. split; [apply in_map_iff; exists (x, l); auto |].
  by apply list_elem_of_In.
Qed.

Lemma size_diff_step (U V W : gset string) x :
  x ∈ U -> x ∉ V -> {[x]} ∪ V ⊆ W -> size (U ∖ W) < size (U ∖ V).
Proof.
  intros HU HV HW. apply Nat.le_lt_trans with (size (U ∖ ({[x]} ∪ V))).
  - apply subseteq_size. set_solver.
  - apply subset_size. set_solver.
Qed.

(** [dfs] returns when its fuel exceeds the number of unvisited nodes. *)
Lemma dfs_total f x st :
  x ∈ universe g -> size (universe g ∖ visited st) < f ->
  exists st', dfs g f x st = Some st' /\ visited st ⊆ visited st'.
Proof.
  revert x st. induction f as [| f IH]; intros x st Hx Hf; [lia |].
  cbn [dfs]. case_bool_decide; [eexists; split; [reflexivity | simpl; set_solver] |].
  case_bool_decide as Hv; [eexists; split; [reflexivity | set_solver] |].
  destruct (fold_opt_total (fun s nxt => dfs g f nxt s) (fun s => {[x]} ∪ visited st ⊆ visited s)
              (succ g x) (mk_dfs ({[x]} ∪ visited st) ({[x]} ∪ stack st) (errors st)))
    as (st2 & -> & H2).
  - intros a s Ha Hs. destruct (IH a s) as (s' & -> & Hs'); [| | eauto; eexists; split; [reflexivity | set_solver]].
    + apply (universe_succ x), list_elem_of_In, Ha.
    + pose proof (size_diff_step (universe g) (visited st) (visited s) x Hx Hv Hs). lia.
  - simpl. set_solver.
  - simpl. eexists; split; [reflexivity | simpl; set_solver].
Qed.

End Search.

(** ** [validate] *)

(** The search of [validate] returns, whatever the graph. *)
Lemma validate_search_total g errs :
  exists s, fold_opt (fun s node => dfs g (dfs_fuel g) node s) (mk_dfs ∅ ∅ errs) (map fst g) = Some s.
Proof.
  destruct (fold_opt_total (fun s node => dfs g (dfs_fuel g) node s) (fun _ => True) (map fst g)
              (mk_dfs ∅ ∅ errs)) as (s & E & _); [| exact I | eauto].
  intros a s Ha _. destruct (dfs_total g (dfs_fuel g) a s) as (s' & E & _); [| | eauto].
  - apply universe_key, Ha.
  - unfold dfs_fuel. pose proof (subseteq_size (universe g ∖ visited s) (universe g) ltac:(set_solver)). lia.
Qed.

(** The search of [validate] adds no error exactly when the graph has
    no cycle. *)
Lemma validate_search_iff g errs s :
  fold_opt (fun s node => dfs g (dfs_fuel g) node s) (mk_dfs ∅ ∅ errs) (map fst g) = Some s ->
  (exists new, errors s = errs ++ new) /\ (errors s = errs <-> ~ cyclic g).
Proof.
  intros E. apply dfs_fold_post in E as (Hs & _ & Hn & Hc & Hf).
  2:{ intros a st st' _ Hst Ea. apply (dfs_spec g _ _ _ _ Ea). rewrite Hst. simpl. set_solver. }
  simpl in *. split; [exact Hn |]. split.
  - intros Ee [y Hy]. destruct (Hf Ee) as [Hkeys Hfin].
    assert (Hy' := Hy). apply clos_trans_t1n in Hy'. destruct Hy' as [w Hw | w z Hw _];
      destruct (Hkeys y (edge_key g y w Hw)) as [Hv Hns];
      apply (Hfin ltac:(intros v Hv'; set_solver) y Hv Hns Hy).
  - intros Hnc. destruct Hc as [Ee | C]; [exact Ee | contradiction].
Qed.

(** [seen] counts the occurrences of every id. *)
Lemma count_ids_fold ts seen k :
  dict_get k (fold_left (fun seen t => dict_set (id t) (default 0 (dict_get (id t) seen) + 1)%nat seen)
                ts seen) =
  if (count_occ String.string_dec (map id ts) k =? 0)%nat then dict_get k seen
  else Some (default 0 (dict_get k seen) + count_occ String.string_dec (map id ts) k)%nat.
Proof.
  revert seen. induction ts as [| t ts IH]; intros seen; [reflexivity |]. cbn [fold_left map].
  rewrite IH. destruct (String.string_dec (id t) k) as [<- | Hne].
  - rewrite (count_occ_cons_eq _ _ eq_refl), dict_get_set_same. simpl.
    destruct (count_occ String.string_dec (map id ts) (id t)); simpl; f_equal; lia.
  - rewrite (count_occ_cons_neq _ _ Hne), dict_get_set_other by congruence. reflexivity.
Qed.

Lemma count_ids_get ts k :
  dict_get k (count_ids ts) =
  let c := count_occ String.string_dec (map id ts) k in if (c =? 0)%nat then None else Some c.
Proof. unfold count_ids. rewrite count_ids_fold. reflexivity. Qed.

Lemma count_ids_NoDup ts : NoDup (map fst (count_ids ts)).
Proof.
  unfold count_ids. assert (H : NoDup (map fst (@nil (string * nat)))) by constructor.
  revert H. generalize (@nil (string * nat)).
  induction ts as [| t ts IH]; intros seen H; simpl; [exact H |]. apply IH, dict_set_NoDup, H.
Qed.

Lemma count_ids_keys ts k : k ∈ map fst (count_ids ts) <-> In k (map id ts).
Proof.
  assert (E : dict_get k (count_ids ts) = None <-> ~ In k (map id ts)).
  { rewrite count_ids_get, (count_occ_not_In String.string_dec). simpl.
    destruct (count_occ _ _ k =? 0)%nat eqn:Ec; [apply Nat.eqb_eq in Ec; tauto |].
    apply Nat.eqb_neq in Ec. split; [discriminate | contradiction]. }
  rewrite dict_get_None in E.
  destruct (in_dec String.string_dec k (map id ts)); [| tauto].
  destruct (decide (k ∈ map fst (count_ids ts))); tauto.
Qed.

Lemma duplicate_errors_nil ts : duplicate_errors (count_ids ts) = [] <-> NoDup (map id ts).
Proof.
  unfold duplicate_errors. rewrite NoDup_ListNoDup, (NoDup_count_occ String.string_dec).
  split.
  - intros H%map_eq_nil k. pose proof (count_ids_get ts k) as Hk. simpl in Hk.
    destruct (count_occ _ _ k =? 0)%nat eqn:Ec; [apply Nat.eqb_eq in Ec; lia |].
    apply dict_get_in in Hk. rewrite list_filter_nil in H. apply H in Hk. simpl in Hk.
    apply Nat.ltb_ge in Hk. exact Hk.
  - intros H. rewrite (proj2 (list_filter_nil _ _)); [reflexivity |]. intros [k n] Hin. simpl.
    apply dict_get_In_NoDup in Hin; [| apply count_ids_NoDup]. rewrite count_ids_get in Hin. simpl in Hin.
    destruct (count_occ _ _ k =? 0)%nat; [discriminate | injection Hin as <-]. apply Nat.ltb_ge, H.
Qed.

Lemma task_errors_nil ids t :
  task_errors ids t = [] <-> status t ∈ VALID_STATUSES /\ forall dep, dep ∈ depends_on t -> dep ∈ ids.
Proof.
  unfold task_errors. split.
  - intros [Hs Hd]%app_eq_nil. case_bool_decide as Hv; [| discriminate Hs]. split; [exact Hv |].
    apply map_eq_nil in Hd. rewrite list_filter_nil in Hd. intros dep Hdep.
    apply list_elem_of_In, Hd in Hdep. apply negb_false_iff, bool_decide_eq_true in Hdep. exact Hdep.
  - intros [Hv Hd]. rewrite bool_decide_eq_true_2 by exact Hv. simpl.
    rewrite (proj2 (list_filter_nil _ _)); [reflexivity |].
    intros dep Hdep. apply negb_false_iff, bool_decide_eq_true, Hd, list_elem_of_In, Hdep.
Qed.

(** [graph]: the successors of an id are those of its last task. *)
Lemma graph_fold_notin ts g0 x :
  ~ In x (map id ts) ->
  dict_get x (fold_left (fun g t => dict_set (id t) (remove_dups (depends_on t)) g) ts g0) = dict_get x g0.
Proof.
  revert g0. induction ts as [| t ts IH]; intros g0 Hx; [reflexivity |]. simpl in *.
  rewrite IH by tauto. apply dict_get_set_other. intros ->. auto.
Qed.

Lemma graph_fold_get ts g0 x l :
  dict_get x (fold_left (fun g t => dict_set (id t) (remove_dups (depends_on t)) g) ts g0) = Some l ->
  dict_get x g0 = Some l \/ exists t, In t ts /\ id t = x /\ l = remove_dups (depends_on t).
Proof.
  revert g0. induction ts as [| t ts IH]; intros g0 H; [left; exact H |]. simpl in H.
  apply IH in H as [H | (t' & Ht' & Hid & ->)]; [| right; exists t'; simpl; auto].
  destruct (decide (x = id t)) as [-> | Hne].
  - rewrite dict_get_set_same in H. injection H as <-. right. exists t. simpl. auto.
  - rewrite dict_get_set_other in H by exact Hne. left. exact H.
Qed.

Lemma graph_fold_in ts g0 t :
  NoDup (map id ts) -> In t ts ->
  dict_get (id t) (fold_left (fun g t => dict_set (id t) (remove_dups (depends_on t)) g) ts g0) =
  Some (remove_dups (depends_on t)).
Proof.
  revert g0. induction ts as [| t' ts IH]; intros g0 Hnd Ht; [destruct Ht |]. simpl in *.
  apply NoDup_cons in Hnd as [Hn Hnd]. destruct Ht as [-> | Ht]; [| apply IH; assumption].
  rewrite graph_fold_notin; [apply dict_get_set_same |]. rewrite <- list_elem_of_In. exact Hn.
Qed.

(** With distinct ids, the edges of [graph] are the dependencies. *)
Lemma graph_edge_iff ts x y : NoDup (map id ts) -> edge (graph_of ts) x y <-> dep_edge ts x y.
Proof.
  intros Hnd. unfold edge, succ, dep_edge, graph_of. split.
  - destruct (dict_get x _) as [l |] eqn:E; simpl; [| intros H; inversion H].
    apply graph_fold_get in E as [E | (t & Ht & Hid & ->)]; [discriminate E |].
    intros Hy. exists t. rewrite elem_of_remove_dups in Hy. auto.
  - intros (t & Ht & <- & Hy). rewrite graph_fold_in by assumption. simpl.
    by apply elem_of_remove_dups.
Qed.

(** The errors before the search are empty exactly when the ids are
    distinct, the statuses valid and the dependencies known. *)
Lemma validate_static_nil ts :
  duplicate_errors (count_ids ts) ++ concat (map (task_errors (map fst (count_ids ts))) ts) = [] <->
  NoDup (map id ts) /\ Forall (fun t => status t ∈ VALID_STATUSES) ts /\
  (forall t dep, In t ts -> dep ∈ depends_on t -> dep ∈ map id ts).
Proof.
  split.
  - intros [Hd Ht]%app_eq_nil. rewrite concat_map_nil in Ht. apply duplicate_errors_nil in Hd.
    split; [exact Hd |]. split.
    + apply Forall_forall. intros t Hin%list_elem_of_In.
      apply (proj1 (proj1 (task_errors_nil _ _) (Ht t Hin))).
    + intros t dep Hin Hdep. apply (proj2 (proj1 (task_errors_nil _ _) (Ht t Hin))) in Hdep.
      apply count_ids_keys, list_elem_of_In in Hdep. exact Hdep.
  - intros (Hd & Hs & Hdep). rewrite (proj2 (duplicate_errors_nil ts) Hd). simpl.
    apply concat_map_nil. intros t Hin. apply task_errors_nil. split.
    + rewrite Forall_forall in Hs. apply Hs, list_elem_of_In, Hin.
    + intros dep Hd'. apply count_ids_keys, list_elem_of_In, (Hdep t dep Hin Hd').
Qed.

(** ** Theorems *)

(** [validate] always returns: the depth-first search, whose
    recursion the model bounds by one more than the number of nodes,
    never runs out of that bound, whatever the tasks (duplicates,
    unknown dependencies and cycles included). *)
Theorem validate_total ts : exists errs, validate ts = Some errs.
Proof.
  unfold validate. cbv zeta.
  destruct (validate_search_total (graph_of ts)
    (duplicate_errors (count_ids ts) ++ concat (map (task_errors (map fst (count_ids ts))) ts)))
    as [s ->].
  eauto.
Qed.

(** C2. [validate] reports no error exactly when the task graph is well
    formed: distinct ids, valid statuses, dependencies on existing ids,
    and no dependency cycle.  The cycle check is the depth-first search
    with the [visited] and [stack] sets of the script. *)
Theorem validate_refines ts errs :
  validate ts = Some errs -> (errs = [] <-> task_graph_wf ts).
Proof.
  unfold validate. cbv zeta. destruct (fold_opt _ _ _) as [s |] eqn:E; [simpl | discriminate].
  intros Es. injection Es as <-. destruct (validate_search_iff _ _ _ E) as [[new En] Hiff].
  rewrite En in Hiff |- *. unfold task_graph_wf. split.
  - intros [H0 Hnew]%app_eq_nil. destruct (proj1 (validate_static_nil ts) H0) as (Hd & Hs & Hdep).
    subst new. rewrite app_nil_r in Hiff. split; [exact Hd |]. split; [exact Hs |]. split; [exact Hdep |].
    intros x Hx. apply (proj1 Hiff eq_refl). exists x.
    rewrite (clos_trans_iff _ _ (fun a b => graph_edge_iff ts a b Hd)). exact Hx.
  - intros (Hd & Hs & Hdep & Hacyc). rewrite (proj2 Hiff).
    + apply validate_static_nil. auto.
    + intros [y Hy]. apply (Hacyc y). rewrite <- (clos_trans_iff _ _ (fun a b => graph_edge_iff ts a b Hd)).
      exact Hy.
Qed.

(** [load_tasks] raises [KeyError] exactly when a mapping of the
    task list has no [id]; entries that are not mappings are skipped. *)
Theorem load_tasks_error raw :
  load_tasks (Some raw) = None <-> exists r, In (YDict r) raw /\ r_id r = None.
Proof.
  unfold load_tasks. simpl. generalize (@nil Task).
  induction raw as [| e raw IH]; intros acc; simpl; [split; [discriminate | intros (r & [] & _)] |].
  destruct e as [r |]; simpl; [destruct (r_id r) as [i |] eqn:Ei; simpl |].
  - rewrite IH. split; intros (r' & Hr' & E'); [exists r'; auto |].
    destruct Hr' as [Hr' | Hr']; [injection Hr' as ->; congruence | eauto].
  - split; [intros _; exists r; auto | reflexivity].
  - rewrite IH. split; intros (r' & Hr' & E'); [exists r'; auto |].
    destruct Hr' as [Hr' | Hr']; [discriminate Hr' | eauto].
Qed.

(** ** Examples *)

Lemma validate_refines_witness : task_graph_wf example_tasks.
Proof. apply (proj1 (validate_refines example_tasks [] ltac:(vm_compute; reflexivity))). reflexivity. Defined.

End TaskGraph.
