(* ===== verification/PyHeap.v ===== *)
(** * Python objects with identity: JSON documents loaded into a heap of dicts

    The progress scripts load [metrics.json] with [json.loads], copy
    the resulting dict with [dict.copy()] and mutate it with
    [setdefault], [update] and item assignment.  Dicts are mutable and
    shared by reference, so the model keeps them in a heap: a Python
    value is a scalar, a list, or a reference [PDict l] to the dict at
    location [l] of the [store].  [dict.copy()] is shallow: it allocates
    a new dict holding the same references.  A dict is an association
    list in insertion order, as in the Prelude.  Python lists are not
    mutated by the scripts and are kept as values. *)

From Stdlib Require Import ZArith QArith List String.
From stdpp Require Import base list strings gmap pretty.
From S2P Require Import Prelude.
Import ListNotations.

Module PyHeap.

(** A JSON document as [json.loads] reads it. *)
Inductive json : Type :=
| JNull
| JBool (b : bool)
| JInt (z : Z)
| JFloat (q : Q)
| JStr (s : string)
| JArr (l : list json)
| JObj (fields : list (string * json)).

(** A Python value. *)
Inductive pyval : Type :=
| PNone
| PBool (b : bool)
| PInt (z : Z)
| PFloat (q : Q)
| PStr (s : string)
| PList (l : list pyval)
| PDict (loc : positive).

Definition dict : Type := list (string * pyval).

(** The heap of dicts. *)
Definition store : Type := gmap positive dict.

(** Evaluating a dict display [{...}]: a new dict, at a location that no
    live dict has. *)
Definition alloc (d : dict) (s : store) : positive * store :=
  let l := fresh (dom s) in (l, <[l := d]> s).

Definition deref (s : store) (l : positive) : option dict := s !! l.

Definition store_set (l : positive) (d : dict) (s : store) : store := <[l := d]> s.

(** [d[k] = v] on the dict at [l]. *)
Definition setitem (l : positive) (k : string) (v : pyval) (s : store) : option store :=
  d ← deref s l; Some (store_set l (dict_set k v d) s).

(** [d.get(k)] on the dict at [l]. *)
Definition getitem (l : positive) (k : string) (s : store) : option (option pyval) :=
  d ← deref s l; Some (dict_get k d).

(** [v.get(k)] where [v] must be a dict: any other value has no [get]
    and raises [AttributeError] ([None]). *)
Definition get_of (v : pyval) (k : string) (s : store) : option (option pyval) :=
  match v with
  | PDict l => getitem l k s
  | _ => None
  end.

(** [d.copy()]: a new dict with the same (shared) values. *)
Definition copy (l : positive) (s : store) : option (positive * store) :=
  d ← deref s l; Some (alloc d s).

(** [d.setdefault(k, default)]: the value of [k], set to [default] when
    absent. *)
Definition setdefault (l : positive) (k : string) (default : pyval) (s : store)
  : option (pyval * store) :=
  d ← deref s l;
  match dict_get k d with
  | Some v => Some (v, s)
  | None => Some (default, store_set l (dict_set k default d) s)
  end.

(** [d.update(pairs)]: the pairs assigned in order. *)
Definition update (l : positive) (pairs : dict) (s : store) : option store :=
  d ← deref s l; Some (store_set l (fold_left (fun d kv => dict_set kv.1 kv.2 d) pairs d) s).

(** The loops of [json.loads] over the items of an array and over the
    members of an object, given the loader of one value: the members
    are assigned in document order, so a repeated key keeps its first
    position and its last value. *)
Fixpoint load_items (load : json -> store -> pyval * store) (l : list json) (s : store)
  : list pyval * store :=
  match l with
  | [] => ([], s)
  | j :: l => let '(v, s1) := load j s in let '(vs, s2) := load_items load l s1 in (v :: vs, s2)
  end.

Fixpoint load_fields (load : json -> store -> pyval * store) (fs : list (string * json)) (d : dict)
    (s : store) : dict * store :=
  match fs with
  | [] => (d, s)
  | (k, j) :: fs => let '(v, s1) := load j s in load_fields load fs (dict_set k v d) s1
  end.

(** [json.loads]: every object becomes a new dict. *)
Fixpoint load_json (j : json) (s : store) : pyval * store :=
  match j with
  | JNull => (PNone, s)
  | JBool b => (PBool b, s)
  | JInt z => (PInt z, s)
  | JFloat q => (PFloat q, s)
  | JStr t => (PStr t, s)
  | JArr l => let '(vs, s') := load_items load_json l s in (PList vs, s')
  | JObj fs => let '(d, s') := load_fields load_json fs [] s in let '(l, s'') := alloc d s' in (PDict l, s'')
  end.

(** The member [k] of a JSON object as [json.loads] keeps it: the last
    occurrence. *)
Definition json_get (k : string) (fs : list (string * json)) : option json := dict_get k (rev fs).

(** [str(v)] for the scalars the scripts format ([None], booleans,
    integers and strings); the [repr] of floats, lists and dicts is not
    modelled ([None]). *)
Definition py_str (v : pyval) : option string :=
  match v with
  | PNone => Some "None"
  | PBool true => Some "True"
  | PBool false => Some "False"
  | PInt z => Some (pretty z)
  | PStr t => Some t
  | _ => None
  end.

(** [str(x)] of the result of a [get], absent keys reading [None]. *)
Definition py_str_opt (v : option pyval) : option string := py_str (default PNone v).

(** Python's [==] on two results of [get]: scalars compare by value;
    two dicts compare by identity here (the scripts only compare
    counters, never dicts). *)
Definition py_eqb (a b : option pyval) : bool :=
  match default PNone a, default PNone b with
  | PNone, PNone => true
  | PBool x, PBool y => Bool.eqb x y
  | PInt x, PInt y => Z.eqb x y
  | PStr x, PStr y => String.eqb x y
  | PDict x, PDict y => Pos.eqb x y
  | _, _ => false
  end.

(** Python's truth value: [None], [False], zero, the empty string,
    list and dict are false. *)
Definition py_truthy (v : pyval) (s : store) : bool :=
  match v with
  | PNone => false
  | PBool b => b
  | PInt z => negb (Z.eqb z 0)
  | PFloat q => negb (Qeq_bool q 0)
  | PStr t => negb (String.eqb t "")
  | PList l => match l with [] => false | _ => true end
  | PDict l => match deref s l with Some (_ :: _) => true | _ => false end
  end.

(** The dict at [x] maps [k] to [v]. *)
Definition has_key (s : store) (x : positive) (k : string) (v : pyval) : Prop :=
  exists d, deref s x = Some d /\ dict_get k d = Some v.

(** ** Lemmas *)

Lemma alloc_fresh d s l : is_Some (s !! l) -> (alloc d s).1 <> l.
Proof.
  intros H E. simpl in E. apply (is_fresh (dom s)). rewrite E. by apply elem_of_dom.
Qed.

Lemma deref_alloc_same d s : deref (alloc d s).2 (alloc d s).1 = Some d.
Proof. unfold deref. simpl. apply lookup_insert_eq. Qed.

Lemma deref_alloc_other d s l : l <> (alloc d s).1 -> deref (alloc d s).2 l = deref s l.
Proof. intros H. unfold deref. simpl. by apply lookup_insert_ne. Qed.

Lemma deref_set_same l d s : deref (store_set l d s) l = Some d.
Proof. unfold deref, store_set. apply lookup_insert_eq. Qed.

Lemma deref_set_other l l' d s : l <> l' -> deref (store_set l d s) l' = deref s l'.
Proof. intros H. unfold deref, store_set. by apply lookup_insert_ne. Qed.

Lemma has_key_alloc s x k v d : has_key s x k v -> has_key (alloc d s).2 x k v.
Proof.
  intros (dx & Hx & Hk). exists dx. split; [| exact Hk].
  rewrite deref_alloc_other; [exact Hx |]. intros E. apply (alloc_fresh d s x); [| auto]. by exists dx.
Qed.

Lemma has_key_set s x l k v d :
  has_key s x k v -> (l = x -> exists dl, deref s l = Some dl /\ dict_get k d = dict_get k dl) ->
  has_key (store_set l d s) x k v.
Proof.
  intros (dx & Hx & Hk) Hl. destruct (decide (l = x)) as [-> | Hne].
  - destruct (Hl eq_refl) as (dl & Hdl & E). rewrite Hx in Hdl. injection Hdl as <-.
    exists d. rewrite deref_set_same. split; [reflexivity | congruence].
  - exists dx. rewrite deref_set_other by exact Hne. auto.
Qed.

(** [setitem] and [update] keep the other keys of every dict. *)
Lemma has_key_setitem s s' x l k k' v v' :
  has_key s x k v -> k <> k' -> setitem l k' v' s = Some s' -> has_key s' x k v.
Proof.
  unfold setitem. intros H Hk E. destruct (deref s l) as [dl |] eqn:El; [simpl in E | discriminate E].
  injection E as <-. apply has_key_set; [exact H |]. intros _. exists dl. split; [exact El |].
  apply dict_get_set_other. exact Hk.
Qed.

Lemma has_key_update s s' x l k v pairs :
  has_key s x k v -> dict_get k (rev pairs) = None -> update l pairs s = Some s' -> has_key s' x k v.
Proof.
  unfold update. intros H Hk E. destruct (deref s l) as [dl |] eqn:El; [simpl in E | discriminate E].
  injection E as <-. apply has_key_set; [exact H |]. intros _. exists dl. split; [exact El |].
  rewrite dict_get_fold_set, Hk. reflexivity.
Qed.

Lemma setitem_has_key s s' l k v : setitem l k v s = Some s' -> has_key s' l k v.
Proof.
  unfold setitem. intros E. destruct (deref s l) as [dl |]; [simpl in E | discriminate E].
  injection E as <-. eexists. rewrite deref_set_same. split; [reflexivity | apply dict_get_set_same].
Qed.

Lemma update_has_key s s' l k v pairs :
  update l pairs s = Some s' -> dict_get k (rev pairs) = Some v -> has_key s' l k v.
Proof.
  unfold update. intros E Hk. destruct (deref s l) as [dl |]; [simpl in E | discriminate E].
  injection E as <-. eexists. rewrite deref_set_same. split; [reflexivity |].
  rewrite dict_get_fold_set, Hk. reflexivity.
Qed.

Lemma has_key_getitem s x k v : getitem x k s = Some (Some v) -> has_key s x k v.
Proof.
  unfold getitem. destruct (deref s x) as [d |] eqn:E; simpl; [| discriminate].
  intros H. injection H as H. exists d. auto.
Qed.

(** [setdefault] keeps the value of a key that is present. *)
Lemma has_key_setdefault s s' x l k v w r :
  has_key s x k w -> setdefault l k v s = Some (r, s') -> has_key s' x k w.
Proof.
  unfold setdefault. intros H E. destruct (deref s l) as [dl |] eqn:El; [simpl in E | discriminate E].
  destruct (dict_get k dl) as [u |] eqn:Ek; injection E as <- <-; [exact H |].
  apply has_key_set; [exact H |]. intros ->. destruct H as (dx & Hx & Hkx). congruence.
Qed.

Lemma setdefault_has_key s s' l k v r : setdefault l k v s = Some (r, s') -> has_key s' l k r.
Proof.
  unfold setdefault. intros E. destruct (deref s l) as [dl |] eqn:El; [simpl in E | discriminate E].
  destruct (dict_get k dl) as [u |] eqn:Ek; injection E as <- <-.
  - exists dl. auto.
  - eexists. rewrite deref_set_same. split; [reflexivity | apply dict_get_set_same].
Qed.

(** [d.copy()] shares every value of [d]. *)
Lemma copy_has_key s s1 p n k v :
  copy p s = Some (n, s1) -> has_key s p k v -> has_key s1 p k v /\ has_key s1 n k v.
Proof.
  unfold copy. intros E H. destruct H as (dp & Hp & Hk). rewrite Hp in E. simpl in E.
  injection E as <- <-. split.
  - apply has_key_alloc. exists dp. auto.
  - exists dp. split; [apply (deref_alloc_same dp s) | exact Hk].
Qed.

Lemma getitem_has_key s x k v : has_key s x k v -> getitem x k s = Some (Some v).
Proof. intros (d & Hx & Hk). unfold getitem. rewrite Hx. simpl. rewrite Hk. reflexivity. Qed.

(** The loop over the members of an object: a key absent from the
    members keeps its value, and a member whose last value is an object
    becomes a dict. *)
Lemma load_fields_notin load fs d s k :
  ~ In k (map fst fs) -> dict_get k (load_fields load fs d s).1 = dict_get k d.
Proof.
  revert d s. induction fs as [| [k' j] fs IH]; intros d s Hk; simpl in *; [reflexivity |].
  destruct (load j s) as [v s1]. rewrite IH by tauto. apply dict_get_set_other. intros ->. auto.
Qed.

Lemma load_fields_get load fs d s k j (Q : pyval -> Prop) :
  (forall s, Q (load j s).1) ->
  json_get k fs = Some j -> exists v, dict_get k (load_fields load fs d s).1 = Some v /\ Q v.
Proof.
  intros Hload. unfold json_get. revert d s. induction fs as [| [k' j'] fs IH]; intros d s Hk; simpl in *;
    [discriminate Hk |].
  rewrite dict_get_app in Hk. destruct (dict_get k (rev fs)) as [v |] eqn:Ev.
  - destruct (load j' s) as [v' s1]. apply IH. exact Hk.
  - simpl in Hk. destruct (decide (k = k')) as [<- | Hne]; [| discriminate Hk].
    injection Hk as ->. specialize (Hload s). destruct (load j s) as [v s1]. exists v.
    split; [| exact Hload].
    rewrite load_fields_notin; [apply dict_get_set_same |].
    intros Hin. assert (Hr : k ∈ map fst (rev fs)) by (rewrite map_rev; apply list_elem_of_In; rewrite <- in_rev; exact Hin).
    apply dict_get_None in Hr; [exact Hr | exact Ev].
Qed.

Lemma load_json_obj_dict t s : exists l, (load_json (JObj t) s).1 = PDict l.
Proof. simpl. destruct (load_fields load_json t [] s). eauto. Qed.

Lemma load_json_obj fs s v s' :
  load_json (JObj fs) s = (v, s') ->
  exists l, v = PDict l /\ deref s' l = Some (load_fields load_json fs [] s).1.
Proof.
  simpl. destruct (load_fields load_json fs [] s) as [d s1]. simpl. intros E. injection E as <- <-.
  eexists. split; [reflexivity | apply (deref_alloc_same d s1)].
Qed.

#[export] Hint Rewrite deref_alloc_same deref_set_same : gtab_rw.

End PyHeap.
