(* ===== verification/Progress.v ===== *)
(** * Progress metrics: [recompute_metrics], [summarize], [append_status_log] and [main] of update_progress.py

    After [validate] (file TaskGraph.v) accepts the task graph, [main]
    loads [metrics.json], recomputes the task counters on
    [previous_metrics.copy()], builds the summary (the ready queue in
    priority order), and compares the [tasks.complete] counter of the
    previous and the new metrics to decide whether the status log
    records a change.  Metrics live in the heap of PyHeap.v, so that the
    shallow copy shares the nested [tasks] dict with the previous
    metrics, as it does in Python.  The current time
    ([datetime.now(...).isoformat()]) is a parameter; printing and the
    writing of files are outputs of the run ([progress_run]), not effects. *)

From Stdlib Require Import ZArith List String Bool Lia Sorted Mergesort Orders Permutation.
From stdpp Require Import base list strings gmap.
From S2P Require Import Prelude TaskGraph PyHeap.
Import ListNotations TaskGraph PyHeap.

Module Progress.

Local Open Scope string_scope.

(** ** Counting *)

(** [status_counts = {s: 0 for s in VALID_STATUSES}] and the loop
    counting the tasks of each valid status. *)
Definition status_counts (tasks : list Task) : list (string * Z) :=
  fold_left (fun c t => match dict_get (status t) c with
                        | Some n => dict_set (status t) (n + 1)%Z c
                        | None => c
                        end) tasks (map (fun s => (s, 0%Z)) VALID_STATUSES).

(** [status_counts[s]] for a valid status. *)
Definition count_of (c : list (string * Z)) (s : string) : Z := default 0%Z (dict_get s c).

(** [recompute_metrics(tasks, metrics)] on the dict at [m]; [None] is
    the [AttributeError] of [metrics["tasks"].update] when the value
    under [tasks] is not a dict. *)
Definition recompute_metrics (tasks : list Task) (now : string) (m : positive) (s : store)
  : option store :=
  let c := status_counts tasks in
  let '(l0, s0) := alloc [] s in
  r ← setdefault m "tasks" (PDict l0) s0;
  let s1 := r.2 in
  tv ← getitem m "tasks" s1;
  match tv with
  | Some (PDict lt) =>
      s2 ← update lt [("total", PInt (Z.of_nat (length tasks)));
                      ("complete", PInt (count_of c "COMPLETE"));
                      ("in_progress", PInt (count_of c "IN_PROGRESS"));
                      ("blocked", PInt (count_of c "BLOCKED"))] s1;
      setitem m "last_updated" (PStr now) s2
  | _ => None
  end.

(** [load_metrics()]: the parsed file, or [{"version": 1}] when it does
    not exist. *)
Definition load_metrics (doc : option json) (s : store) : pyval * store :=
  match doc with
  | None => let '(l, s') := alloc [("version", PInt 1)] s in (PDict l, s')
  | Some j => load_json j s
  end.

(** [m.get("tasks", {}).get("complete")]; [None] is the
    [AttributeError] when the value under [tasks] is not a dict. *)
Definition tasks_complete (m : positive) (s : store) : option (option pyval) :=
  tv ← getitem m "tasks" s;
  match tv with
  | None => Some None
  | Some v => get_of v "complete" s
  end.

(** ** The summary *)

(** The sort key [(x.priority, x.phase, x.id)], compared as Python
    compares tuples. *)
Definition key_compare (a b : Task) : comparison :=
  match Z.compare (priority a) (priority b) with
  | Eq => match Z.compare (phase a) (phase b) with
          | Eq => String.compare (id a) (id b)
          | c => c
          end
  | c => c
  end.

(** [key_compare a b <> Gt], the order [sorted] sorts by. *)
Definition key_leb (a b : Task) : bool := match key_compare a b with Gt => false | _ => true end.

Lemma key_leb_total : forall a b, key_leb a b = true \/ key_leb b a = true.
Proof.
  intros a b. unfold key_leb, key_compare.
  rewrite (Z.compare_antisym (priority a) (priority b)), (Z.compare_antisym (phase a) (phase b)),
    (String.compare_antisym (id b) (id a)).
  destruct (Z.compare (priority a) (priority b)), (Z.compare (phase a) (phase b)),
    (String.compare (id a) (id b)); simpl; tauto.
Qed.

Module TaskKey <: TotalLeBool.
Definition t := Task.
Definition leb := key_leb.
Definition leb_total := key_leb_total.
End TaskKey.
Module TaskSort := Sort TaskKey.

Record ProgressSummary : Type := mk_summary {
  ready : list string;
  blocked : list string;
  total_pending : nat;
  total_complete : nat
}.

Definition has_status (st : string) (t : Task) : bool := String.eqb (status t) st.

(** [summarize(tasks)] *)
Definition summarize (tasks : list Task) : ProgressSummary :=
  let completed := map id (List.filter (has_status "COMPLETE") tasks) in
  let ready := TaskSort.sort (List.filter (fun t => is_ready t completed) tasks) in
  mk_summary (map id ready) (map id (List.filter (has_status "BLOCKED") tasks))
    (length (List.filter (has_status "PENDING") tasks))
    (length (List.filter (has_status "COMPLETE") tasks)).

(** ** The status log *)

Definition nl : string := String.String (Ascii.ascii_of_nat 10) EmptyString.

(** The lines [- d] of [diff_lines], or the line [none] when it is empty. *)
Definition bullets (diff_lines : list string) (none : string) : list string :=
  match diff_lines with
  | [] => [none]
  | _ => map (fun d => "- " +:+ d) diff_lines
  end.

(** The text [append_status_log] appends to [status_log.md]; [None]
    when a value it formats is a float, list or dict, whose [repr] is not
    modelled, or when the new metrics have no dict under [tasks]
    ([AttributeError]).  The [get] on the previous metrics is guarded by
    [try ... except Exception], which reads [None]. *)
Definition append_status_log (prev new : positive) (summary : ProgressSummary) (s : store) : option string :=
  let prev_complete := match tasks_complete prev s with Some v => v | None => None end in
  new_complete ← tasks_complete new s;
  let diff := negb (py_eqb prev_complete new_complete) in
  diff_lines ←
    (if diff then
       p ← py_str_opt prev_complete; n ← py_str_opt new_complete;
       Some ["tasks.complete: " +:+ p +:+ " -> " +:+ n]
     else Some [] : option (list string));
  tv ← getitem new "last_updated" s;
  ts ← py_str_opt tv;
  let rq := ready summary in
  let entry :=
    app ["## " +:+ ts; "Tasks Updated:"]
    (app (bullets diff_lines "- (no task count changes)")
    (app [nl +:+ "ProgressSummary:";
          "- Ready queue: " +:+ match rq with [] => "EMPTY" | _ => String.concat ", " rq end;
          nl +:+ "Metrics Diff (partial):"]
    (app (bullets diff_lines "- none")
         [nl +:+ "Notes:" +:+ nl +:+ "- Auto-generated by update_progress.py"]))) in
  Some (String.concat nl entry +:+ nl +:+ nl +:+ "---" +:+ nl).

(** ** [main] *)

(** [--write], [--summary], [--json], [--append-log] *)
Record ProgressArgs : Type := mk_args {
  a_write : bool;
  a_summary : bool;
  a_json : bool;
  a_append_log : bool
}.

(** A run that passed validation: the heap after it, the previous and
    the new metrics, the summary, the [metrics_changed] flag, whether
    [metrics.json] is written, and the text appended to the status log. *)
Record progress_run : Type := mk_run {
  r_store : store;
  r_prev : positive;
  r_new : positive;
  r_summary : ProgressSummary;
  r_changed : bool;
  r_written : bool;
  r_log : option string
}.

Inductive progress_outcome : Type :=
| ValidationFailed (errs : list error)   (** exit code 2 *)
| Crashed                                 (** an uncaught exception *)
| Unmodelled                              (** formats a value whose [repr] is not modelled *)
| Finished (r : progress_run).

(** [main()] on the parsed task graph and the parsed [metrics.json]
    ([None] when the file does not exist). *)
Definition progress_main (args : ProgressArgs) (tasks_raw : option (list yaml_entry)) (metrics_doc : option json)
    (now : string) (s : store) : progress_outcome :=
  match load_tasks tasks_raw with
  | None => Crashed
  | Some tasks =>
      match validate tasks with
      | None => Crashed
      | Some (e :: errs) => ValidationFailed (e :: errs)
      | Some [] =>
          let '(pv, s0) := load_metrics metrics_doc s in
          match pv with
          | PDict p =>
              match copy p s0 with
              | None => Crashed
              | Some (n, s1) =>
                  match recompute_metrics tasks now n s1 with
                  | None => Crashed
                  | Some s2 =>
                      let summary := summarize tasks in
                      match tasks_complete p s2, tasks_complete n s2 with
                      | Some a, Some b =>
                          let changed := negb (py_eqb a b) in
                          if a_write args && a_append_log args then
                            match append_status_log p n summary s2 with
                            | Some txt => Finished (mk_run s2 p n summary changed true (Some txt))
                            | None => Unmodelled
                            end
                          else Finished (mk_run s2 p n summary changed (a_write args) None)
                      | _, _ => Crashed
                      end
                  end
              end
          | _ => Crashed
          end
      end
  end.

(** ** Examples

    The task list of TaskGraph.v in its YAML form, with a stray string
    entry, and a [metrics.json] recorded when no task was complete. *)

Definition example_raw : option (list yaml_entry) :=
  Some [YDict (mk_raw (Some "P1-INFRA") (Some "Infrastructure") (Some 1%Z) (Some 1%Z) DAbsent (Some "COMPLETE"));
        YOther;
        YDict (mk_raw (Some "P1-GTAB") (Some "GTAB format") (Some 1%Z) (Some 2%Z) (DList ["P1-INFRA"]) None)].

Definition example_fields : list (string * json) :=
  [("version", JInt 1); ("tasks", JObj [("total", JInt 2); ("complete", JInt 0)])].

Definition example_args : ProgressArgs := mk_args true false false true.

Definition example_now : string := "2026-11-09T00:00:00+00:00".

Definition example_run : progress_run :=
  match progress_main example_args example_raw (Some (JObj example_fields)) example_now ∅ with
  | Finished r => r
  | _ => mk_run ∅ 1 1 (mk_summary [] [] 0 0) true false None
  end.

(** ** Lemmas *)

Lemma status_counts_fold ts c st n :
  dict_get st c = Some n ->
  dict_get st (fold_left (fun c t => match dict_get (status t) c with
                                     | Some n => dict_set (status t) (n + 1)%Z c
                                     | None => c
                                     end) ts c) =
  Some (n + Z.of_nat (length (List.filter (has_status st) ts)))%Z.
Proof.
  revert c n. induction ts as [| t ts IH]; intros c n Hc; simpl; [rewrite Hc; f_equal; lia |].
  unfold has_status at 1. destruct (String.eqb_spec (status t) st) as [<- | Hne].
  - rewrite Hc, IH with (n := (n + 1)%Z) by apply dict_get_set_same. simpl. f_equal. lia.
  - rewrite IH with (n := n); [reflexivity |].
    destruct (dict_get (status t) c); [| exact Hc]. rewrite dict_get_set_other; [exact Hc | congruence].
Qed.

(** [status_counts[s]] counts the tasks of status [s]. *)
Lemma status_counts_spec ts st :
  In st VALID_STATUSES -> count_of (status_counts ts) st = Z.of_nat (length (List.filter (has_status st) ts)).
Proof.
  intros Hs. unfold count_of, status_counts. rewrite (status_counts_fold _ _ _ 0%Z); [reflexivity |].
  simpl in Hs. intuition subst; reflexivity.
Qed.

(** What [recompute_metrics] leaves in the heap: an existing [tasks]
    entry of any dict is kept, and the dict under [tasks] of the metrics
    holds the four counters, with [last_updated] set. *)
Lemma recompute_metrics_spec tasks now m s s' :
  recompute_metrics tasks now m s = Some s' ->
  (forall x v, has_key s x "tasks" v -> has_key s' x "tasks" v) /\
  exists lt, has_key s' m "tasks" (PDict lt) /\
    has_key s' lt "total" (PInt (Z.of_nat (length tasks))) /\
    has_key s' lt "complete" (PInt (count_of (status_counts tasks) "COMPLETE")) /\
    has_key s' lt "in_progress" (PInt (count_of (status_counts tasks) "IN_PROGRESS")) /\
    has_key s' lt "blocked" (PInt (count_of (status_counts tasks) "BLOCKED")) /\
    has_key s' m "last_updated" (PStr now).
Proof.
  unfold recompute_metrics. destruct (alloc [] s) as [l0 s0] eqn:Ea.
  destruct (setdefault m "tasks" (PDict l0) s0) as [[r s1] |] eqn:Es; [simpl | discriminate].
  destruct (getitem m "tasks" s1) as [[[| | | | | | lt] |] |] eqn:Eg; simpl; try discriminate.
  destruct (update lt _ s1) as [s2 |] eqn:Eu; simpl; [intros Eset | discriminate].
  apply has_key_getitem in Eg.
  assert (Keep : forall x k v, has_key s1 x k v -> k <> "last_updated" ->
                   dict_get k (rev [("total", PInt (Z.of_nat (length tasks)));
                      ("complete", PInt (count_of (status_counts tasks) "COMPLETE"));
                      ("in_progress", PInt (count_of (status_counts tasks) "IN_PROGRESS"));
                      ("blocked", PInt (count_of (status_counts tasks) "BLOCKED"))]) = None ->
                   has_key s' x k v)
    by (intros x k v H Hk Hr; eapply has_key_setitem; [eapply has_key_update; eauto | exact Hk | exact Eset]).
  split.
  - intros x v H. apply Keep; [| discriminate | reflexivity].
    eapply has_key_setdefault; [| exact Es]. pose proof (has_key_alloc s x "tasks" v [] H) as H'.
    rewrite Ea in H'. exact H'.
  - exists lt. split; [apply Keep; [exact Eg | discriminate | reflexivity] |].
    assert (Keep2 : forall k v, has_key s2 lt k v -> k <> "last_updated" -> has_key s' lt k v)
      by (intros k v H Hk; eapply has_key_setitem; eauto).
    repeat split; try (apply Keep2; [eapply update_has_key; [exact Eu | reflexivity] | discriminate]).
    eapply setitem_has_key, Eset.
Qed.

(** Two dicts that share their [tasks] dict read the same
    [tasks.complete] after [recompute_metrics] on one of them: the
    recomputed counter. *)
Lemma recompute_shared tasks now s s' p n lt :
  has_key s p "tasks" (PDict lt) -> has_key s n "tasks" (PDict lt) ->
  recompute_metrics tasks now n s = Some s' ->
  tasks_complete p s' = Some (Some (PInt (count_of (status_counts tasks) "COMPLETE"))) /\
  tasks_complete n s' = Some (Some (PInt (count_of (status_counts tasks) "COMPLETE"))).
Proof.
  intros Hp Hn E. destruct (recompute_metrics_spec _ _ _ _ _ E) as [Keep (lt' & Hlt & _ & Hc & _)].
  apply Keep in Hp, Hn. apply getitem_has_key in Hp, Hn, Hlt. rewrite Hn in Hlt. injection Hlt as <-.
  unfold tasks_complete. rewrite Hp, Hn. simpl. rewrite (getitem_has_key _ _ _ _ Hc). auto.
Qed.

(** The ready queue: with distinct ids, consecutive tasks strictly
    increase in [(priority, phase, id)]. *)
Lemma key_compare_Eq a b : key_compare a b = Eq -> id a = id b.
Proof.
  unfold key_compare. destruct (Z.compare (priority a) (priority b)), (Z.compare (phase a) (phase b));
    try discriminate. apply String.compare_eq_iff.
Qed.

Lemma sorted_strict l :
  Sorted (fun a b => key_leb a b = true) l -> List.NoDup (map id l) ->
  Sorted (fun a b => key_compare a b = Lt) l.
Proof.
  induction 1 as [| a l Hs IH Hd]; intros Hnd; constructor.
  - apply IH. simpl in Hnd. apply NoDup_cons_iff in Hnd. tauto.
  - destruct Hd as [| b l Hab]; constructor. simpl in Hnd. apply NoDup_cons_iff in Hnd as [Hn _].
    unfold key_leb in Hab. destruct (key_compare a b) eqn:E; try discriminate; [| reflexivity].
    apply key_compare_Eq in E. exfalso. apply Hn. rewrite E. left. reflexivity.
Qed.

Lemma NoDup_map_filter (f : Task -> bool) l : List.NoDup (map id l) -> List.NoDup (map id (List.filter f l)).
Proof.
  induction l as [| a l IH]; simpl; [auto |]. intros Hnd. apply NoDup_cons_iff in Hnd as [Hn Hnd].
  destruct (f a); simpl; [| auto]. constructor; [| auto].
  intros Hin. apply Hn. apply in_map_iff in Hin as (b & Hb & Hin). apply filter_In in Hin.
  apply in_map_iff. exists b. tauto.
Qed.

(** [recompute_metrics] returns when the metrics are a dict whose
    [tasks] entry is absent or a dict. *)
Lemma recompute_metrics_some tasks now m s d :
  deref s m = Some d ->
  (dict_get "tasks" d = None \/ exists lt, dict_get "tasks" d = Some (PDict lt) /\ is_Some (deref s lt)) ->
  exists s', recompute_metrics tasks now m s = Some s'.
Proof.
  intros Hm Ht. unfold recompute_metrics.
  assert (Hm0 : deref (alloc [] s).2 m = Some d)
    by (rewrite deref_alloc_other; [exact Hm | apply not_eq_sym, alloc_fresh; by exists d]).
  pose proof (alloc_fresh [] s m ltac:(by exists d)) as Hfresh.
  destruct (alloc [] s) as [l0 s0] eqn:Ea. simpl in Hm0, Hfresh.
  unfold setdefault at 1. rewrite Hm0. simpl.
  destruct Ht as [Ht | (lt & Ht & [dl Hl])]; rewrite Ht; simpl.
  - unfold getitem. rewrite deref_set_same. simpl. rewrite dict_get_set_same. simpl.
    unfold update. rewrite deref_set_other by congruence.
    replace (deref s0 l0) with (Some (@nil (string * pyval)))
      by (pose proof (deref_alloc_same [] s) as F; rewrite Ea in F; simpl in F; symmetry; exact F).
    simpl. unfold setitem. rewrite deref_set_other by congruence. rewrite deref_set_same. simpl. eauto.
  - unfold getitem. rewrite Hm0. simpl. rewrite Ht. simpl. unfold update.
    replace (deref s0 lt) with (Some dl).
    2:{ pose proof (deref_alloc_other [] s lt) as F. rewrite Ea in F. simpl in F. rewrite F; [symmetry; exact Hl |].
        apply not_eq_sym. pose proof (alloc_fresh [] s lt ltac:(by exists dl)) as F'. rewrite Ea in F'.
        exact F'. }
    simpl. unfold setitem. destruct (decide (lt = m)) as [-> | Hne].
    + rewrite deref_set_same. simpl. eauto.
    + rewrite deref_set_other by exact Hne. rewrite Hm0. simpl. eauto.
Qed.

(** ** Theorems *)

(** C5. The shallow copy of [main]: when the previous [metrics.json] has
    a [tasks] object, [previous_metrics.copy()] shares it with the new
    metrics, [recompute_metrics] overwrites its counters in place, and
    [metrics_changed] is [False] whatever the tasks: both sides read the
    recomputed [tasks.complete]. *)
Theorem main_shallow_copy_unchanged args raw fs t now s r :
  json_get "tasks" fs = Some (JObj t) ->
  progress_main args raw (Some (JObj fs)) now s = Finished r ->
  r_changed r = false /\ tasks_complete (r_prev r) (r_store r) = tasks_complete (r_new r) (r_store r).
Proof.
  intros Hj. unfold progress_main. destruct (load_tasks raw) as [tasks |]; [| discriminate].
  destruct (validate tasks) as [[| e errs] |]; try discriminate. cbn [load_metrics].
  destruct (load_json (JObj fs) s) as [pv s0] eqn:El.
  destruct (load_json_obj _ _ _ _ El) as (p & -> & Hp).
  destruct (load_fields_get load_json fs [] s "tasks" (JObj t) (fun v => exists l, v = PDict l)
              (load_json_obj_dict t) Hj)
    as (v & Hlt & [lt ->]).
  assert (Hk : has_key s0 p "tasks" (PDict lt)) by (exists (load_fields load_json fs [] s).1; auto).
  destruct (copy p s0) as [[n s1] |] eqn:Ec; [| discriminate].
  destruct (copy_has_key _ _ _ _ _ _ Ec Hk) as [Hp1 Hn1].
  destruct (recompute_metrics tasks now n s1) as [s2 |] eqn:Er; [| discriminate].
  destruct (recompute_shared _ _ _ _ _ _ _ Hp1 Hn1 Er) as [Ep En]. rewrite Ep, En.
  assert (Eq : py_eqb (Some (PInt (count_of (status_counts tasks) "COMPLETE")))
                      (Some (PInt (count_of (status_counts tasks) "COMPLETE"))) = true)
    by (simpl; apply Z.eqb_refl).
  rewrite Eq. simpl.
  destruct (a_write args && a_append_log args); [destruct (append_status_log p n _ s2) |];
    intros E; try discriminate; injection E as <-; simpl; rewrite Ep, En; auto.
Qed.

(** [recompute_metrics] on a metrics dict whose [tasks] entry is
    absent or a dict returns, and leaves under [tasks] the number of tasks
    and the numbers of COMPLETE, IN_PROGRESS and BLOCKED tasks, with
    [last_updated] set to the current time. *)
Theorem recompute_metrics_counts tasks now m s d :
  deref s m = Some d ->
  (dict_get "tasks" d = None \/ exists lt, dict_get "tasks" d = Some (PDict lt) /\ is_Some (deref s lt)) ->
  exists s' lt, recompute_metrics tasks now m s = Some s' /\ has_key s' m "tasks" (PDict lt) /\
    has_key s' lt "total" (PInt (Z.of_nat (length tasks))) /\
    has_key s' lt "complete" (PInt (Z.of_nat (length (List.filter (has_status "COMPLETE") tasks)))) /\
    has_key s' lt "in_progress" (PInt (Z.of_nat (length (List.filter (has_status "IN_PROGRESS") tasks)))) /\
    has_key s' lt "blocked" (PInt (Z.of_nat (length (List.filter (has_status "BLOCKED") tasks)))) /\
    has_key s' m "last_updated" (PStr now).
Proof.
  intros Hm Ht. destruct (recompute_metrics_some tasks now m s d Hm Ht) as [s' E].
  destruct (recompute_metrics_spec _ _ _ _ _ E) as [_ (lt & H)]. exists s', lt.
  rewrite <- !status_counts_spec by (simpl; tauto). auto.
Qed.

(** With distinct ids (which [validate] guarantees), the ready queue
    of [summarize] holds the ids of exactly the PENDING tasks whose
    dependencies are all COMPLETE, each once, in strictly increasing
    [(priority, phase, id)]. *)
Theorem summarize_ready_sorted ts :
  NoDup (map id ts) ->
  exists rs, ready (summarize ts) = map id rs /\
    Permutation rs (List.filter (fun t => is_ready t (map id (List.filter (has_status "COMPLETE") ts))) ts) /\
    Sorted (fun a b => key_compare a b = Lt) rs.
Proof.
  intros Hnd. eexists. split; [reflexivity |]. split; [symmetry; apply TaskSort.Permuted_sort |].
  apply sorted_strict; [apply Sorted_LocallySorted_iff, TaskSort.LocallySorted_sort |].
  eapply Permutation_NoDup; [apply Permutation_map, TaskSort.Permuted_sort |].
  apply NoDup_map_filter, NoDup_ListNoDup, Hnd.
Qed.

(** ** Witnesses *)

Lemma main_shallow_copy_unchanged_witness :
  progress_main example_args example_raw (Some (JObj example_fields)) example_now ∅ = Finished example_run /\
  r_changed example_run = false /\
  tasks_complete (r_prev example_run) (r_store example_run) = Some (Some (PInt 1)).
Proof.
  split; [vm_compute; reflexivity |]. split; [| vm_compute; reflexivity].
  apply (proj1 (main_shallow_copy_unchanged example_args example_raw example_fields
                  [("total", JInt 2); ("complete", JInt 0)] example_now ∅ example_run
                  ltac:(vm_compute; reflexivity) ltac:(vm_compute; reflexivity))).
Defined.

Lemma recompute_metrics_counts_witness :
  exists s' lt, recompute_metrics example_tasks example_now 1 {[1%positive := [("version", PInt 1)]]} = Some s' /\
    has_key s' 1 "tasks" (PDict lt) /\ has_key s' lt "total" (PInt 3) /\ has_key s' lt "complete" (PInt 1) /\
    has_key s' lt "in_progress" (PInt 0) /\ has_key s' lt "blocked" (PInt 1) /\
    has_key s' 1 "last_updated" (PStr example_now).
Proof.
  apply (recompute_metrics_counts example_tasks example_now 1 {[1%positive := [("version", PInt 1)]]}
           [("version", PInt 1)]); [vm_compute; reflexivity | left; reflexivity].
Defined.

Lemma summarize_ready_sorted_witness :
  exists rs, ready (summarize example_tasks) = map id rs /\
    Permutation rs (List.filter (fun t => is_ready t (map id (List.filter (has_status "COMPLETE") example_tasks)))
                      example_tasks) /\
    Sorted (fun a b => key_compare a b = Lt) rs.
Proof. apply summarize_ready_sorted. vm_compute. apply NoDup_ListNoDup. repeat constructor; simpl; intuition discriminate. Defined.

End Progress.
