(* ===== verification/Monitoring.v ===== *)
(** * Metrics monitors: stagnation_check.py and parse_coverage.py

    [src/scripts/progress/stagnation_check.py] fails (exit code 1) when
    the [last_updated] stamp of [metrics.json] is at least three days
    old; [src/scripts/progress/parse_coverage.py] records coverage
    figures into [metrics.json].  Both read the document with
    [json.loads] into the heap of PyHeap.v.  Times are microseconds
    since the epoch, as in Datetime.v; the ISO-8601 parser
    [datetime.fromisoformat] is a parameter of the main theorem (it
    yields the instant and whether the stamp carries a UTC offset), and
    Datetime.v's parser instantiates it for the composition with the
    stamps update_progress.py writes. *)

From Stdlib Require Import ZArith List String Bool Lia.
From stdpp Require Import base list strings gmap.
From S2P Require Import Prelude Datetime PyHeap Progress.
Import ListNotations Datetime PyHeap Progress.

Module Monitoring.

Local Open Scope string_scope.

(** ** stagnation_check.py *)

(** [THRESHOLD_DAYS] *)
Definition THRESHOLD_DAYS : Z := 3.

(** [(now - last).days]: [timedelta.days] rounds towards minus
    infinity. *)
Definition delta_days (now last : Z) : Z := Z.div (now - last) US_PER_DAY.

Inductive stag_outcome : Type :=
| StagExit (code : Z)
| StagCrash.

(** [main()] of stagnation_check.py; [parse_iso] is
    [datetime.fromisoformat] ([None]: [ValueError]; the flag tells an
    aware stamp from a naive one, which cannot be subtracted from the
    aware [datetime.now(timezone.utc)]: [TypeError]). *)
Definition stagnation_main (parse_iso : string -> option (Z * bool)) (metrics : option json) (now : Z)
  : stag_outcome :=
  match metrics with
  | None => StagExit 0
  | Some j =>
      let '(data, s) := load_json j ∅ in
      match get_of data "last_updated" s with
      | None => StagCrash
      | Some ts =>
          let tsv := default PNone ts in
          if negb (py_truthy tsv s) then StagExit 0 else
          match tsv with
          | PStr t =>
              match parse_iso (replace_Z t) with
              | None => StagCrash
              | Some (last, aware) =>
                  if negb aware then StagCrash
                  else if (THRESHOLD_DAYS <=? delta_days now last)%Z then StagExit 1 else StagExit 0
              end
          | _ => StagCrash
          end
      end
  end.

(** ** parse_coverage.py *)

(** [update_go(metrics)]: when [coverage.out] exists, the placeholder
    [metrics.setdefault('go_service', {}).setdefault('coverage_pct', 0)];
    [None] is the [AttributeError] of a [go_service] that is not a dict. *)
Definition update_go (cov_exists : bool) (m : positive) (s : store) : option store :=
  if negb cov_exists then Some s else
  let '(l0, s0) := alloc [] s in
  r ← setdefault m "go_service" (PDict l0) s0;
  match r.1 with
  | PDict g => r2 ← setdefault g "coverage_pct" (PInt 0) r.2; Some r2.2
  | _ => None
  end.

(** [data.get(k, {})] where the default is a new empty dict. *)
Definition get_or_empty (v : pyval) (k : string) (s : store) : option (pyval * store) :=
  let '(e, s1) := alloc [] s in
  r ← get_of v k s1;
  Some (default (PDict e) r, s1).

(** [update_frontend(metrics)] on the parsed
    [coverage/coverage-summary.json] ([None] when it does not exist): the
    [total.lines.pct] figure, when present, is stored under
    [frontend.coverage_pct]. *)
Definition update_frontend (summary : option json) (m : positive) (s : store) : option store :=
  match summary with
  | None => Some s
  | Some j =>
      let '(data, s1) := load_json j s in
      r1 ← get_or_empty data "total" s1;
      r2 ← get_or_empty r1.1 "lines" r1.2;
      pct ← get_of r2.1 "pct" r2.2;
      match pct with
      | None | Some PNone => Some r2.2
      | Some p =>
          let '(l0, s4) := alloc [] r2.2 in
          r ← setdefault m "frontend" (PDict l0) s4;
          match r.1 with
          | PDict f => setitem f "coverage_pct" p r.2
          | _ => None
          end
      end
  end.

(** [main()] of parse_coverage.py: the metrics dict and the heap that
    [json.dumps] writes back, or [None] when a step raises. *)
Definition coverage_main (metrics_doc : option json) (go_exists : bool) (summary : option json)
    (now : string) : option (positive * store) :=
  let '(mv, s0) := load_metrics metrics_doc ∅ in
  match mv with
  | PDict m =>
      s1 ← update_go go_exists m s0;
      s2 ← update_frontend summary m s1;
      s3 ← setitem m "last_updated" (PStr now) s2;
      Some (m, s3)
  | _ => None
  end.

(** ** Lemmas *)

(** [delta.days >= 3] is three days of microseconds, whatever the sign
    of the difference. *)
Lemma delta_days_threshold now last :
  (THRESHOLD_DAYS <=? delta_days now last)%Z = (3 * US_PER_DAY <=? now - last)%Z.
Proof.
  unfold THRESHOLD_DAYS, delta_days, US_PER_DAY, US_PER_HOUR, US_PER_MIN, US_PER_SEC.
  set (D := (24 * (60 * (60 * 1000000)))%Z). assert (Hd : (0 < D)%Z) by (unfold D; lia).
  destruct (Z.leb_spec 3 ((now - last) / D)) as [H | H],
    (Z.leb_spec (3 * D) (now - last)) as [H' | H']; try reflexivity; exfalso.
  - pose proof (Z.mul_div_le (now - last) D Hd). nia.
  - pose proof (Z.div_le_lower_bound (now - last) D 3 Hd ltac:(lia)). lia.
Qed.

(** The loaded object reads its member [k] as [v] when the document's
    member loads to [v] whatever the heap. *)
Lemma load_json_member fs k j v s data s' :
  json_get k fs = Some j -> (forall s, (load_json j s).1 = v) ->
  load_json (JObj fs) s = (data, s') -> get_of data k s' = Some (Some v).
Proof.
  intros Hk Hv E. destruct (load_json_obj _ _ _ _ E) as (l & -> & Hd).
  destruct (load_fields_get load_json fs [] s k j (fun w => w = v) Hv Hk) as (w & Hw & ->).
  simpl. unfold getitem. rewrite Hd. simpl. rewrite Hw. reflexivity.
Qed.

(** ** Theorems *)

Section Stagnation.
Variable parse_iso : string -> option (Z * bool).

(** The run on a non-empty stamp that parses as aware. *)
Lemma stagnation_on_stamp fs t last now :
  json_get "last_updated" fs = Some (JStr t) -> t <> "" -> parse_iso (replace_Z t) = Some (last, true) ->
  stagnation_main parse_iso (Some (JObj fs)) now =
  StagExit (if (3 * US_PER_DAY <=? now - last)%Z then 1 else 0).
Proof.
  intros Hk Ht Hp. unfold stagnation_main.
  destruct (load_json (JObj fs) ∅) as [data s] eqn:E.
  rewrite (load_json_member fs "last_updated" (JStr t) (PStr t) ∅ data s Hk (fun _ => eq_refl) E). simpl.
  destruct (String.eqb_spec t "") as [-> | _]; [contradiction |]. simpl.
  rewrite Hp. simpl. rewrite delta_days_threshold. by destruct (3 * US_PER_DAY <=? now - last)%Z.
Qed.

(** C34. stagnation_check.py on a metrics document whose [last_updated]
    is a non-empty stamp with a UTC offset exits with 1 exactly when at
    least three days (259200 seconds, in microseconds) have passed since
    it, and with 0 otherwise, a stamp in the future included. *)
Theorem stagnation_exit_code fs t last now :
  json_get "last_updated" fs = Some (JStr t) -> t <> "" -> parse_iso (replace_Z t) = Some (last, true) ->
  stagnation_main parse_iso (Some (JObj fs)) now =
  StagExit (if (3 * US_PER_DAY <=? now - last)%Z then 1 else 0).
Proof. exact (stagnation_on_stamp fs t last now). Qed.

End Stagnation.

(** C40. Composition of update_progress.py (or parse_coverage.py), which
    stamps [last_updated] with [datetime.now(timezone.utc).isoformat()],
    and stagnation_check.py, which reads it back with [fromisoformat]:
    on such a stamp the check never crashes, and exits 1 exactly when
    three days or more have passed since the instant it records. *)
Theorem stagnation_reads_now_stamp fs t0 now :
  json_get "last_updated" fs = Some (JStr (now_stamp t0)) -> (1 <= year_of t0 <= 9999)%Z ->
  stagnation_main fromisoformat_instant (Some (JObj fs)) now =
  StagExit (if (3 * US_PER_DAY <=? now - t0)%Z then 1 else 0).
Proof.
  intros Hk Hy. apply (stagnation_on_stamp fromisoformat_instant fs (now_stamp t0) t0 now Hk).
  - apply now_stamp_nonempty.
  - apply fromisoformat_instant_now_stamp. exact Hy.
Qed.

(** ** Witnesses *)

(** A stamp of 2026-11-05 as [fromisoformat] reads it, four days old. *)
Lemma stagnation_exit_code_witness :
  stagnation_main fromisoformat_instant (Some (JObj [("last_updated", JStr "2026-11-05T00:00:00Z")]))
    (1793836800000000 + 4 * US_PER_DAY) = StagExit 1.
Proof.
  rewrite (stagnation_exit_code fromisoformat_instant [("last_updated", JStr "2026-11-05T00:00:00Z")]
             "2026-11-05T00:00:00Z" 1793836800000000
             (1793836800000000 + 4 * US_PER_DAY) eq_refl ltac:(discriminate) ltac:(vm_compute; reflexivity)).
  reflexivity.
Defined.

(** A stamp written on 2025-11-09 at 04:28:37.648123, read two days
    later. *)
Lemma stagnation_reads_now_stamp_witness :
  stagnation_main fromisoformat_instant (Some (JObj [("last_updated", JStr (now_stamp 1762662517648123))]))
    (1762662517648123 + 2 * US_PER_DAY) = StagExit 0.
Proof.
  rewrite (stagnation_reads_now_stamp [("last_updated", JStr (now_stamp 1762662517648123))] 1762662517648123
             (1762662517648123 + 2 * US_PER_DAY) eq_refl ltac:(vm_compute; split; discriminate)).
  reflexivity.
Defined.

End Monitoring.
