(* ===== verification/PrComment.v ===== *)
(** * PR comment: progress/pr_comment.py

    [src/scripts/progress/pr_comment.py] prints a Markdown summary of the
    task graph for a pull request: the number of tasks and of distinct
    COMPLETE ids, the first ten tasks of the ready queue, and the task
    counters of metrics.json.  It reads the same documents as
    update_progress.py (TaskGraph.v, Progress.v) but works on the raw
    YAML mappings, with defaults of its own.  The comment is modelled by
    the values it prints; the run is [None] when a step raises. *)

From Stdlib Require Import ZArith List String Bool Lia Permutation Sorted Mergesort Orders.
From stdpp Require Import base list strings gmap sorting.
From S2P Require Import Prelude TaskGraph PyHeap Progress Monitoring.
Import ListNotations TaskGraph PyHeap Progress Monitoring.

Module PrComment.

Local Open Scope string_scope.

(** ** The ready queue *)

(** An entry of the task list as the mapping whose [get] the
    comprehensions call; a string entry has no [get] and raises
    [AttributeError]. *)
Definition entry_task (e : yaml_entry) : option raw_task :=
  match e with
  | YDict r => Some r
  | YOther => None
  end.

(** [{t['id'] for t in tasks if t.get('status') == 'COMPLETE'}], as the
    list of ids in the order met (membership and [len] of the set are
    those of the list without its duplicates). *)
Definition pr_complete (es : list yaml_entry) : option (list string) :=
  fold_opt (fun acc e =>
              r ← entry_task e;
              if bool_decide (r_status r = Some "COMPLETE") then i ← r_id r; Some (app acc [i])
              else Some acc) [] es.

(** [t.get('depends_on', [])]: the default for an absent entry, [None]
    for a null one, whose iteration by [all(...)] raises [TypeError]. *)
Definition pr_deps (d : deps) : option (list string) :=
  match d with
  | DAbsent => Some []
  | DNull => None
  | DList l => Some l
  end.

(** [[t for t in tasks if t.get('status') == 'PENDING' and
    all(d in complete for d in t.get('depends_on', []))]]: [and]
    evaluates the dependencies of PENDING tasks only. *)
Definition pr_ready (complete : list string) (es : list yaml_entry) : option (list raw_task) :=
  fold_opt (fun acc e =>
              r ← entry_task e;
              if bool_decide (r_status r = Some "PENDING") then
                ds ← pr_deps (r_depends_on r);
                if forallb (fun d => bool_decide (d ∈ complete)) ds then Some (app acc [r]) else Some acc
              else Some acc) [] es.

(** Python's [<] on the keys [(x.get('priority', 999), x.get('phase', 99),
    x.get('id'))]: the first elements that differ decide; [None] is the
    [TypeError] of comparing an absent id ([None]) with a string. *)
Definition pr_key_compare (a b : raw_task) : option comparison :=
  match Z.compare (default 999%Z (r_priority a)) (default 999%Z (r_priority b)) with
  | Eq =>
      match Z.compare (default 99%Z (r_phase a)) (default 99%Z (r_phase b)) with
      | Eq =>
          match r_id a, r_id b with
          | Some x, Some y => Some (String.compare x y)
          | None, None => Some Eq
          | _, _ => None
          end
      | c => Some c
      end
  | c => Some c
  end.

Definition pr_leb (a b : raw_task) : bool :=
  match pr_key_compare a b with Some Gt => false | _ => true end.

Lemma pr_leb_total : forall a b, pr_leb a b = true \/ pr_leb b a = true.
Proof.
  intros a b. unfold pr_leb, pr_key_compare.
  rewrite (Z.compare_antisym (default 999%Z (r_priority a))), (Z.compare_antisym (default 99%Z (r_phase a))).
  destruct (Z.compare _ _), (Z.compare _ _); simpl; auto.
  destruct (r_id a) as [x |], (r_id b) as [y |]; auto.
  rewrite (String.compare_antisym y x). destruct (String.compare x y); simpl; auto.
Qed.

Module PrKey <: TotalLeBool.
Definition t := raw_task.
Definition leb := pr_leb.
Definition leb_total := pr_leb_total.
End PrKey.
Module PrSort := Sort PrKey.

(** [sorted(ready, key=...)]: a stable sort, which raises exactly when
    two tasks with the same priority and phase have one an id and the
    other none.  (Such a pair lies in one block of equal (priority,
    phase), and any comparison sort compares each pair that ends up
    adjacent, so some comparison between an absent and a present id is
    made; without such a pair no comparison raises.) *)
Definition pr_sortable (rs : list raw_task) : bool :=
  forallb (fun a => forallb (fun b => bool_decide (is_Some (pr_key_compare a b))) rs) rs.

Definition pr_sorted (rs : list raw_task) : option (list raw_task) :=
  if pr_sortable rs then Some (PrSort.sort rs) else None.

(** The first statements of [main()]: [complete] and [ready_sorted]. *)
Definition pr_queue (es : list yaml_entry) : option (list string * list raw_task) :=
  complete ← pr_complete es;
  ready ← pr_ready complete es;
  rs ← pr_sorted ready;
  Some (complete, rs).

(** ** The comment *)

(** What the comment shows: [len(tasks)], [len(complete)], the
    [(id, title, phase, priority)] of each listed ready task, and the
    four counters of the metrics section when [metrics] is truthy. *)
Record pr_comment : Type := mk_comment {
  c_total : nat;
  c_complete : nat;
  c_ready : list (string * option string * option Z * option Z);
  c_metrics : option (list (option pyval))
}.

(** [- `{t['id']}` ...] for [t in ready_sorted[:10]]: [t['id']] raises
    [KeyError] on a task without id. *)
Definition ready_line (r : raw_task) : option (string * option string * option Z * option Z) :=
  i ← r_id r; Some (i, r_title r, r_phase r, r_priority r).

(** The metrics section: [metrics.get('tasks', {})] and its four
    [get]s, on a truthy [metrics]. *)
Definition metrics_section (mv : pyval) (s : store) : option (option (list (option pyval))) :=
  if negb (py_truthy mv s) then Some None else
  r ← get_or_empty mv "tasks" s;
  c ← get_of r.1 "complete" r.2;
  t ← get_of r.1 "total" r.2;
  ip ← get_of r.1 "in_progress" r.2;
  b ← get_of r.1 "blocked" r.2;
  Some (Some [c; t; ip; b]).

(** [main()] on [data.get("tasks", [])] of task_graph.yaml ([None]: the
    key is absent) and the parsed metrics.json ([None]: it does not
    exist, and [metrics] is [{}]). *)
Definition pr_main (tasks_doc : option (list yaml_entry)) (metrics_doc : option json) : option pr_comment :=
  let es := default [] tasks_doc in
  let '(mv, s) := match metrics_doc with
                  | Some j => load_json j ∅
                  | None => let '(l, s) := alloc [] ∅ in (PDict l, s)
                  end in
  q ← pr_queue es;
  let '(complete, rs) := q in
  lines ← mapM ready_line (take 10 rs);
  mets ← metrics_section mv s;
  Some (mk_comment (length es) (length (remove_dups complete)) lines mets).

(** ** The contract shared with update_progress.py *)

(** A mapping with every key the two scripts read with different
    defaults: [id], [status], [priority] and [phase], and a [depends_on]
    that is not null. *)
Definition full (r : raw_task) : bool :=
  bool_decide (is_Some (r_id r)) && bool_decide (is_Some (r_status r)) &&
  bool_decide (is_Some (r_priority r)) && bool_decide (is_Some (r_phase r)) &&
  bool_decide (pr_deps (r_depends_on r) = Some (deps_or_nil (r_depends_on r))).

(** The [Task] that [load_tasks] builds from a mapping with an id. *)
Definition task_of (r : raw_task) : Task :=
  mk_task (default "" (r_id r)) (default "" (r_title r)) (default 0%Z (r_phase r))
    (default 1000%Z (r_priority r)) (deps_or_nil (r_depends_on r)) (default "PENDING" (r_status r)).

(** ** Lemmas *)

Lemma full_spec r :
  full r = true ->
  exists i st p ph, r_id r = Some i /\ r_status r = Some st /\ r_priority r = Some p /\ r_phase r = Some ph /\
    pr_deps (r_depends_on r) = Some (deps_or_nil (r_depends_on r)).
Proof.
  unfold full. destruct (r_id r), (r_status r), (r_priority r), (r_phase r); simpl; try discriminate.
  intros Hd. apply bool_decide_eq_true_1 in Hd. eauto 9.
Qed.

Lemma bool_decide_Some_eqb (x y : string) : bool_decide (Some x = Some y) = String.eqb x y.
Proof.
  destruct (String.eqb_spec x y) as [-> | Hne]; [by apply bool_decide_eq_true_2 |].
  apply bool_decide_eq_false_2. congruence.
Qed.

Lemma load_tasks_dicts rs :
  Forall (fun r => is_Some (r_id r)) rs -> load_tasks (Some (map YDict rs)) = Some (map task_of rs).
Proof.
  intros H. unfold load_tasks. cbn [default]. change (map task_of rs) with (app [] (map task_of rs)).
  generalize (@nil Task) as acc.
  induction H as [| r rs [i Hi] _ IH]; intros acc; simpl; [by rewrite app_nil_r |].
  rewrite Hi. simpl. rewrite IH, <- app_assoc. unfold task_of. rewrite Hi. reflexivity.
Qed.

Lemma pr_complete_dicts rs :
  Forall (fun r => full r = true) rs ->
  pr_complete (map YDict rs) = Some (map id (List.filter (has_status "COMPLETE") (map task_of rs))).
Proof.
  intros H. unfold pr_complete. rewrite fold_opt_map.
  rewrite (fold_opt_ext _ (fun acc r => if has_status "COMPLETE" (task_of r) then Some (app acc [id (task_of r)])
                                        else Some acc)).
  - rewrite fold_opt_collect, list_filter_map_comm, map_map. reflexivity.
  - intros acc r Hin. rewrite List.Forall_forall in H.
    destruct (full_spec r (H r Hin)) as (i & st & p & ph & Hi & Hs & _ & _).
    cbn [entry_task mbind option_bind]. unfold has_status, task_of. rewrite Hs, Hi, bool_decide_Some_eqb.
    reflexivity.
Qed.

Lemma pr_ready_dicts complete rs :
  Forall (fun r => full r = true) rs ->
  pr_ready complete (map YDict rs) = Some (List.filter (fun r => is_ready (task_of r) complete) rs).
Proof.
  intros H. unfold pr_ready. rewrite fold_opt_map.
  rewrite (fold_opt_ext _ (fun acc r => if is_ready (task_of r) complete then Some (app acc [r]) else Some acc)).
  - rewrite (fold_opt_collect _ (fun r => r)), map_id. reflexivity.
  - intros acc r Hin. rewrite List.Forall_forall in H.
    destruct (full_spec r (H r Hin)) as (i & st & p & ph & Hi & Hs & _ & _ & Hd).
    cbn [entry_task mbind option_bind]. unfold is_ready, task_of. rewrite Hs, bool_decide_Some_eqb.
    cbn [status depends_on default from_option Datatypes.id]. destruct (String.eqb st "PENDING"); [| reflexivity].
    rewrite Hd. reflexivity.
Qed.

(** On full mappings the keys of pr_comment.py compare as those of
    update_progress.py. *)
Lemma pr_key_compare_full a b :
  full a = true -> full b = true -> pr_key_compare a b = Some (key_compare (task_of a) (task_of b)).
Proof.
  intros Ha Hb. destruct (full_spec a Ha) as (i & st & p & ph & Hi & _ & Hp & Hph & _).
  destruct (full_spec b Hb) as (i' & st' & p' & ph' & Hi' & _ & Hp' & Hph' & _).
  unfold pr_key_compare, key_compare, task_of. rewrite Hi, Hp, Hph, Hi', Hp', Hph'. simpl.
  destruct (Z.compare p p'), (Z.compare ph ph'); reflexivity.
Qed.

Lemma pr_sortable_full rs : Forall (fun r => full r = true) rs -> pr_sortable rs = true.
Proof.
  intros H. rewrite List.Forall_forall in H. unfold pr_sortable.
  apply forallb_forall. intros a Ha. apply forallb_forall. intros b Hb.
  apply bool_decide_eq_true_2. rewrite (pr_key_compare_full a b (H a Ha) (H b Hb)). eexists; reflexivity.
Qed.

Lemma key_compare_antisym a b : key_compare b a = CompOpp (key_compare a b).
Proof.
  unfold key_compare. rewrite (Z.compare_antisym (priority a) (priority b)),
    (Z.compare_antisym (phase a) (phase b)), (String.compare_antisym (id b) (id a)).
  destruct (Z.compare (priority a) (priority b)), (Z.compare (phase a) (phase b)); reflexivity.
Qed.

(** [key_leb] is the lexicographic order on [(priority, phase, id)]. *)
Lemma key_leb_iff a b :
  key_leb a b = true <->
  (priority a < priority b)%Z \/
  (priority a = priority b /\ ((phase a < phase b)%Z \/ (phase a = phase b /\ String.leb (id a) (id b) = true))).
Proof.
  unfold key_leb, key_compare, String.leb.
  destruct (Z.compare_spec (priority a) (priority b)) as [Hp | Hp | Hp];
    [destruct (Z.compare_spec (phase a) (phase b)) as [Hf | Hf | Hf];
     [destruct (String.compare (id a) (id b)) | |] | |]; simpl;
    split; intros H; try discriminate;
    try (destruct H as [? | (? & [? | (? & ?)])]; first [lia | discriminate | reflexivity]);
    auto 6.
Qed.

Lemma string_leb_trans x y z : String.leb x y = true -> String.leb y z = true -> String.leb x z = true.
Proof.
  intros H1 H2. apply Is_true_true. apply (transitivity (R := String.le) (y := y)); apply Is_true_true; assumption.
Qed.

Lemma key_leb_trans : Transitive (fun a b => key_leb a b = true).
Proof.
  intros a b c. rewrite !key_leb_iff.
  intros [H1 | (E1 & [H1 | (E1' & H1)])] [H2 | (E2 & [H2 | (E2' & H2)])]; try lia.
  right. split; [lia |]. right. split; [lia |]. eapply string_leb_trans; eassumption.
Qed.

Lemma NoDup_id_eq (l : list Task) x y : List.NoDup (map id l) -> In x l -> In y l -> id x = id y -> x = y.
Proof.
  induction l as [| z l IH]; intros Hnd Hx Hy E; [destruct Hx |].
  simpl in Hnd. apply NoDup_cons_iff in Hnd as [Hz Hnd].
  destruct Hx as [-> | Hx], Hy as [-> | Hy]; auto; exfalso; apply Hz.
  - rewrite E. apply in_map, Hy.
  - rewrite <- E. apply in_map, Hx.
Qed.

(** With distinct ids, sorting the mappings and sorting the tasks built
    from them agree. *)
Lemma sort_task_of R :
  Forall (fun r => full r = true) R -> List.NoDup (map id (map task_of R)) ->
  map task_of (PrSort.sort R) = TaskSort.sort (map task_of R).
Proof.
  intros HF Hnd.
  assert (HP : Permutation (map task_of (PrSort.sort R)) (map task_of R))
    by (apply Permutation_map; symmetry; apply PrSort.Permuted_sort).
  assert (HF' : Forall (fun r => full r = true) (PrSort.sort R)).
  { rewrite List.Forall_forall in HF |- *. intros x Hx. apply HF.
    eapply Permutation_in; [symmetry; apply PrSort.Permuted_sort | exact Hx]. }
  apply (@Sorted_unique_strong Task (fun a b => key_leb a b = true) key_leb_trans).
  - intros x1 x2 H1 H2 H12 H21.
    assert (Eq : key_compare x1 x2 = Eq).
    { unfold key_leb in H12, H21. rewrite key_compare_antisym in H21.
      destruct (key_compare x1 x2); simpl in *; congruence. }
    apply (NoDup_id_eq (map task_of R)); [exact Hnd | | | exact (key_compare_Eq _ _ Eq)].
    + apply list_elem_of_In in H1. eapply Permutation_in; [exact HP | exact H1].
    + apply list_elem_of_In in H2. eapply Permutation_in; [symmetry; apply TaskSort.Permuted_sort | exact H2].
  - apply Sorted_map. apply (Sorted_Forall_impl _ (fun a b => pr_leb a b = true) _ _ HF').
    + intros x y Hx Hy. unfold pr_leb, key_leb. rewrite (pr_key_compare_full x y Hx Hy). auto.
    + apply PrSort.Sorted_sort.
  - apply TaskSort.Sorted_sort.
  - rewrite HP. apply TaskSort.Permuted_sort.
Qed.

(** ** Theorems *)

(** C31. On a task list of mappings that all carry [id], [status],
    [priority] and [phase] and no null [depends_on], with distinct ids, pr_comment.py's ready
    queue is update_progress.py's: it computes without raising, and its
    ids are those of [summarize]'s ready queue, in the same order. *)
Theorem pr_queue_agrees rs :
  Forall (fun r => full r = true) rs -> NoDup (map r_id rs) ->
  exists complete sorted ts,
    pr_queue (map YDict rs) = Some (complete, sorted) /\
    load_tasks (Some (map YDict rs)) = Some ts /\
    map r_id sorted = map Some (ready (summarize ts)).
Proof.
  intros HF Hnd.
  set (completed := map id (List.filter (has_status "COMPLETE") (map task_of rs))).
  set (R := List.filter (fun r => is_ready (task_of r) completed) rs).
  assert (HFR : Forall (fun r => full r = true) R).
  { apply List.Forall_forall. intros r Hr. apply filter_In in Hr as [Hr _].
    rewrite List.Forall_forall in HF. exact (HF r Hr). }
  assert (Hids : map r_id rs = map Some (map id (map task_of rs))).
  { rewrite !map_map. apply map_ext_in. intros r Hr. rewrite List.Forall_forall in HF.
    destruct (full_spec r (HF r Hr)) as (i & _ & _ & _ & Hi & _). unfold task_of. by rewrite Hi. }
  assert (HndT : List.NoDup (map id (map task_of rs))).
  { apply (NoDup_map_inv Some). rewrite <- Hids. by apply NoDup_ListNoDup. }
  exists completed, (PrSort.sort R), (map task_of rs). split; [| split].
  - unfold pr_queue. rewrite pr_complete_dicts by exact HF. cbn [mbind option_bind].
    rewrite pr_ready_dicts by exact HF. cbn [mbind option_bind].
    unfold pr_sorted. rewrite pr_sortable_full by exact HFR. reflexivity.
  - apply load_tasks_dicts. eapply Forall_impl; [exact HF |].
    intros r Hr. destruct (full_spec r Hr) as (i & _ & _ & _ & -> & _). eexists; reflexivity.
  - unfold summarize. cbn [ready]. fold completed.
    rewrite list_filter_map_comm. fold R.
    rewrite <- sort_task_of; [| exact HFR |].
    + rewrite !map_map. apply map_ext_in. intros r Hr.
      assert (Hf : full r = true).
      { rewrite List.Forall_forall in HFR. apply HFR.
        eapply Permutation_in; [symmetry; apply PrSort.Permuted_sort | exact Hr]. }
      destruct (full_spec r Hf) as (i & _ & _ & _ & Hi & _). unfold task_of. by rewrite Hi.
    + assert (E : map task_of R = List.filter (fun t => is_ready t completed) (map task_of rs))
        by (symmetry; apply list_filter_map_comm).
      rewrite E. apply NoDup_map_filter, HndT.
Qed.

(** pr_comment.py raises on a task list holding a string entry,
    which load_tasks of update_progress.py skips: whatever the metrics,
    no comment is produced. *)
Theorem pr_main_stray_entry es metrics :
  In YOther es -> pr_main (Some es) metrics = None.
Proof.
  intros Hin. unfold pr_main. cbn [default].
  destruct (match metrics with Some j => _ | None => _ end) as [mv s].
  unfold pr_queue, pr_complete. rewrite (fold_opt_raises _ es YOther [] Hin (fun _ => eq_refl)). reflexivity.
Qed.

(** C19. pr_comment.py raises [TypeError] on a PENDING task whose
    [depends_on] is null, which update_progress.py reads as no
    dependencies ([or []]): whatever the rest of the documents, no
    comment is produced. *)
Theorem pr_main_null_depends_raises es metrics r :
  In (YDict r) es -> r_status r = Some "PENDING" -> r_depends_on r = DNull ->
  pr_main (Some es) metrics = None.
Proof.
  intros Hin Hs Hd. unfold pr_main. change (default [] (Some es)) with es.
  destruct (match metrics with Some j => _ | None => _ end) as [mv s].
  unfold pr_queue. destruct (pr_complete es) as [complete |]; [| reflexivity]. cbn [mbind option_bind].
  unfold pr_ready. rewrite (fold_opt_raises _ es (YDict r) [] Hin); [reflexivity |].
  intros acc. cbn [entry_task mbind option_bind]. rewrite Hs, Hd. reflexivity.
Qed.

(** ** Witnesses *)

Definition example_entries : list raw_task :=
  [mk_raw (Some "P1-INFRA") (Some "Infra") (Some 1%Z) (Some 1%Z) DAbsent (Some "COMPLETE");
   mk_raw (Some "P1-GTAB") (Some "GTAB") (Some 1%Z) (Some 2%Z) (DList ["P1-INFRA"]) (Some "PENDING");
   mk_raw (Some "P1-DOCS") (Some "Docs") (Some 1%Z) (Some 1%Z) DAbsent (Some "PENDING")].

Lemma pr_queue_agrees_witness :
  exists complete sorted ts,
    pr_queue (map YDict example_entries) = Some (complete, sorted) /\
    load_tasks (Some (map YDict example_entries)) = Some ts /\
    map r_id sorted = map Some (ready (summarize ts)).
Proof.
  apply pr_queue_agrees.
  - repeat constructor.
  - vm_compute. apply NoDup_ListNoDup. repeat constructor; simpl; intuition discriminate.
Defined.

Lemma pr_main_null_depends_raises_witness :
  pr_main (Some [YDict (mk_raw (Some "P1-INFRA") None None None DAbsent (Some "COMPLETE"));
                 YDict (mk_raw (Some "P1-GTAB") None None None DNull (Some "PENDING"))]) None = None.
Proof.
  apply (pr_main_null_depends_raises _ None (mk_raw (Some "P1-GTAB") None None None DNull (Some "PENDING")));
    [right; left; reflexivity | reflexivity | reflexivity].
Defined.

Lemma pr_main_stray_entry_witness :
  pr_main (Some [YDict (mk_raw (Some "P1-INFRA") None None None DAbsent (Some "COMPLETE")); YOther]) None = None.
Proof. apply pr_main_stray_entry. right. left. reflexivity. Defined.

End PrComment.
