(* ===== verification/Workflow.v ===== *)
(** * Working through the ready queue: liveness of the task graph

    update_progress.py lists, in [summarize], the ready queue: the
    PENDING tasks whose dependencies are all COMPLETE.  A maintainer works
    through it by marking one of the listed tasks COMPLETE in
    task_graph.yaml and running the script again.  This file models that
    workflow as a step relation on task lists, [work_step] (complete any
    task that [summarize] lists), and shows that on a graph [validate]
    accepts, whose unfinished tasks are all PENDING, the workflow cannot
    get stuck before every task is COMPLETE and cannot go on forever. *)

From Stdlib Require Import ZArith List String Bool Lia Permutation Relations.
From stdpp Require Import base list strings.
From S2P Require Import Prelude TaskGraph Progress.
Import ListNotations TaskGraph Progress.

Module Workflow.

Local Open Scope string_scope.

(** ** The workflow *)

(** The ids [summarize] counts as done. *)
Definition completed_ids (ts : list Task) : list string :=
  map id (List.filter (has_status "COMPLETE") ts).

(** The number of tasks not yet COMPLETE. *)
Definition unfinished (ts : list Task) : nat :=
  length (List.filter (fun t => negb (has_status "COMPLETE" t)) ts).

(** Setting [status: COMPLETE] on the task with id [i] in the YAML
    document. *)
Definition complete_task (i : string) (ts : list Task) : list Task :=
  map (fun t => if String.eqb (id t) i
                then mk_task (id t) (title t) (phase t) (priority t) (depends_on t) "COMPLETE"
                else t) ts.

(** One step of the workflow: complete a task of the ready queue. *)
Definition work_step (ts ts' : list Task) : Prop :=
  exists i, In i (ready (summarize ts)) /\ ts' = complete_task i ts.

(** Every task is COMPLETE or PENDING: nothing is BLOCKED, DEFERRED or
    under way outside the queue. *)
Definition pending_or_complete (ts : list Task) : Prop :=
  Forall (fun t => status t = "COMPLETE" \/ status t = "PENDING") ts.

(** ** Lemmas *)

(** The ready queue lists exactly the ids of the ready tasks. *)
Lemma ready_In ts i :
  In i (ready (summarize ts)) <-> exists t, In t ts /\ is_ready t (completed_ids ts) = true /\ id t = i.
Proof.
  unfold summarize. cbn [ready]. rewrite in_map_iff. split.
  - intros (t & <- & Ht). exists t.
    apply (Permutation_in _ (Permutation_sym (TaskSort.Permuted_sort _))), filter_In in Ht.
    unfold completed_ids. tauto.
  - intros (t & Ht & Hr & <-). exists t. split; [reflexivity |].
    apply (Permutation_in _ (TaskSort.Permuted_sort _)), filter_In. auto.
Qed.

Lemma is_ready_pending t c : is_ready t c = true -> status t = "PENDING".
Proof. unfold is_ready. intros H. apply andb_true_iff in H as [H _]. by apply String.eqb_eq. Qed.

Lemma complete_task_ids i ts : map id (complete_task i ts) = map id ts.
Proof. unfold complete_task. rewrite map_map. apply map_ext. intros t. by destruct (String.eqb (id t) i). Qed.

Lemma complete_task_In i ts t' :
  In t' (complete_task i ts) ->
  exists t, In t ts /\ id t' = id t /\ depends_on t' = depends_on t /\
    (status t' = status t \/ status t' = "COMPLETE").
Proof.
  unfold complete_task. rewrite in_map_iff. intros (t & <- & Ht). exists t.
  destruct (String.eqb (id t) i); simpl; auto.
Qed.

Lemma In_complete_task i ts t :
  In t ts -> exists t', In t' (complete_task i ts) /\ id t' = id t /\ depends_on t' = depends_on t.
Proof.
  intros Ht. unfold complete_task. eexists. split; [apply in_map, Ht |].
  destruct (String.eqb (id t) i); simpl; auto.
Qed.

Lemma dep_edge_complete i ts x y : dep_edge (complete_task i ts) x y <-> dep_edge ts x y.
Proof.
  unfold dep_edge. split.
  - intros (t' & Ht' & <- & Hy). destruct (complete_task_In _ _ _ Ht') as (t & Ht & -> & Hd & _).
    exists t. rewrite <- Hd. auto.
  - intros (t & Ht & <- & Hy). destruct (In_complete_task i _ _ Ht) as (t' & Ht' & Hi & Hd).
    exists t'. rewrite Hi, Hd. auto.
Qed.

Lemma wf_complete i ts : task_graph_wf ts -> task_graph_wf (complete_task i ts).
Proof.
  intros (Hnd & Hst & Hdep & Hacyc). split; [| split; [| split]].
  - by rewrite complete_task_ids.
  - apply Forall_forall. intros t' Ht'%list_elem_of_In.
    destruct (complete_task_In _ _ _ Ht') as (t & Ht & _ & _ & [-> | ->]).
    + rewrite Forall_forall in Hst. apply Hst, list_elem_of_In, Ht.
    + apply list_elem_of_In. unfold VALID_STATUSES. simpl. tauto.
  - intros t' dep Ht' Hd. rewrite complete_task_ids.
    destruct (complete_task_In _ _ _ Ht') as (t & Ht & _ & HD & _). rewrite HD in Hd. eauto.
  - intros x Hc. apply (Hacyc x).
    apply (clos_trans_iff (dep_edge (complete_task i ts)) (dep_edge ts) (dep_edge_complete i ts)), Hc.
Qed.

Lemma poc_complete i ts : pending_or_complete ts -> pending_or_complete (complete_task i ts).
Proof.
  unfold pending_or_complete. rewrite !List.Forall_forall. intros H t' Ht'.
  destruct (complete_task_In _ _ _ Ht') as (t & Ht & _ & _ & [-> | ->]); auto.
Qed.

Lemma unfinished_cons t ts :
  unfinished (t :: ts) = ((if has_status "COMPLETE" t then 0 else 1) + unfinished ts)%nat.
Proof. unfold unfinished. simpl. by destruct (has_status "COMPLETE" t). Qed.

(** Completing the task with the id of an unfinished task removes one
    unfinished task and adds none. *)
Lemma unfinished_complete ts t :
  In t ts -> has_status "COMPLETE" t = false -> (unfinished (complete_task (id t) ts) < unfinished ts)%nat.
Proof.
  assert (Hle : forall l, (unfinished (complete_task (id t) l) <= unfinished l)%nat).
  { induction l as [| x l IH]; [reflexivity |]. unfold complete_task in *. cbn [map].
    rewrite !unfinished_cons. destruct (String.eqb (id x) (id t)); simpl; destruct (has_status _ x); lia. }
  induction ts as [| x ts IH]; [intros [] |]. intros [-> | Hin] Hs; unfold complete_task in *; cbn [map];
    rewrite !unfinished_cons.
  - rewrite String.eqb_refl, Hs. simpl. specialize (Hle ts). lia.
  - specialize (IH Hin Hs). destruct (String.eqb (id x) (id t)); simpl; destruct (has_status _ x); lia.
Qed.

Lemma work_step_decreases ts ts' : work_step ts ts' -> (unfinished ts' < unfinished ts)%nat.
Proof.
  intros (i & Hi & ->). apply ready_In in Hi as (t & Ht & Hr & <-).
  apply unfinished_complete; [exact Ht |]. unfold has_status. rewrite (is_ready_pending _ _ Hr). reflexivity.
Qed.

(** Progress: on a well-formed graph with an unfinished task and nothing
    but PENDING and COMPLETE tasks, some task is ready.  Otherwise every
    unfinished task would depend on an unfinished task, and the finitely
    many unfinished tasks would contain a cycle. *)
Lemma ready_exists ts :
  task_graph_wf ts -> pending_or_complete ts -> (0 < unfinished ts)%nat ->
  exists t, In t ts /\ is_ready t (completed_ids ts) = true.
Proof.
  intros Hwf Hpc Hu. destruct (existsb (fun t => is_ready t (completed_ids ts)) ts) eqn:E.
  { apply existsb_exists in E. exact E. }
  exfalso. destruct Hwf as (Hnd & _ & Hdep & Hacyc).
  set (L := map id (List.filter (fun t => negb (has_status "COMPLETE" t)) ts)).
  assert (HL : forall x, In x L <-> exists t, In t ts /\ has_status "COMPLETE" t = false /\ id t = x).
  { intros x. unfold L. rewrite in_map_iff. split.
    - intros (t & <- & Ht). apply filter_In in Ht as [Ht Hs]. apply negb_true_iff in Hs. eauto.
    - intros (t & Ht & Hs & <-). exists t. split; [reflexivity |]. apply filter_In. rewrite Hs. auto. }
  destruct (finite_cycle (dep_edge ts) L) as [x Hx]; [| | exact (Hacyc x Hx)].
  - unfold unfinished in Hu. unfold L. intros E'. apply map_eq_nil in E'. rewrite E' in Hu. simpl in Hu. lia.
  - intros x Hx. apply HL in Hx as (t & Ht & Hs & <-).
    assert (Hp : status t = "PENDING").
    { unfold pending_or_complete in Hpc. rewrite List.Forall_forall in Hpc. destruct (Hpc t Ht) as [Hc | Hc]; [| exact Hc].
      unfold has_status in Hs. rewrite Hc in Hs. discriminate. }
    assert (Hr : is_ready t (completed_ids ts) = false).
    { destruct (is_ready t _) eqn:Er; [| reflexivity].
      rewrite <- E. symmetry. apply existsb_exists. eauto. }
    unfold is_ready in Hr. rewrite Hp, String.eqb_refl in Hr. simpl in Hr.
    destruct (forallb_false_exists _ _ Hr) as (d & Hd & Hdc).
    apply bool_decide_eq_false in Hdc.
    assert (Hdi : d ∈ map id ts) by (apply (Hdep t d Ht), list_elem_of_In, Hd).
    apply list_elem_of_In, in_map_iff in Hdi as (t' & <- & Ht').
    exists (id t'). split.
    + apply HL. exists t'. split; [exact Ht' |]. split; [| reflexivity].
      destruct (has_status "COMPLETE" t') eqn:Es; [| reflexivity]. exfalso. apply Hdc.
      apply list_elem_of_In. unfold completed_ids. apply in_map, filter_In. auto.
    + exists t. split; [exact Ht |]. split; [reflexivity |]. apply list_elem_of_In, Hd.
Qed.

Lemma work_step_acc ts : Acc (fun b a => work_step a b) ts.
Proof.
  remember (unfinished ts) as n eqn:En. revert ts En. induction n as [n IH] using lt_wf_ind.
  intros ts ->. constructor. intros ts' Hs. apply (IH (unfinished ts')); [apply work_step_decreases, Hs | reflexivity].
Qed.

Lemma unfinished_zero ts : unfinished ts = 0%nat -> Forall (fun t => status t = "COMPLETE") ts.
Proof.
  unfold unfinished. intros H. apply length_zero_iff_nil in H. apply List.Forall_forall. intros t Ht.
  destruct (has_status "COMPLETE" t) eqn:E; [by apply String.eqb_eq |].
  assert (Hin : In t (List.filter (fun t => negb (has_status "COMPLETE" t)) ts)) by (apply filter_In; rewrite E; auto).
  rewrite H in Hin. destruct Hin.
Qed.

(** A rank that every dependency lowers rules out cycles. *)
Lemma rank_acyclic ts (rank : string -> nat) :
  (forall x y, dep_edge ts x y -> (rank y < rank x)%nat) -> forall x, ~ clos_trans string (dep_edge ts) x x.
Proof.
  intros Hr x Hc. assert (H : forall a b, clos_trans string (dep_edge ts) a b -> (rank b < rank a)%nat).
  { induction 1 as [a b Hab | a b c _ IH1 _ IH2]; [apply Hr, Hab | lia]. }
  specialize (H x x Hc). lia.
Qed.

(** ** Theorems *)

(** C12. Liveness of the ready queue: on a task graph that [validate]
    accepts and whose tasks are all PENDING or COMPLETE, working through
    the queue [summarize] lists always ends, and it ends only when every
    task is COMPLETE: no run is infinite, and a run that can take no more
    step has completed every task. *)
Theorem ready_queue_liveness ts :
  task_graph_wf ts -> pending_or_complete ts ->
  Acc (fun b a => work_step a b) ts /\
  forall ts', clos_refl_trans_1n _ work_step ts ts' -> (forall ts'', ~ work_step ts' ts'') ->
    Forall (fun t => status t = "COMPLETE") ts'.
Proof.
  intros Hwf Hpc. split; [apply work_step_acc |]. intros ts' Hstar Hirr.
  assert (Hinv : task_graph_wf ts' /\ pending_or_complete ts').
  { revert Hwf Hpc. induction Hstar as [x | x y z (i & _ & ->) _ IH]; intros Hwf Hpc; [auto |].
    apply IH; auto using wf_complete, poc_complete. }
  destruct Hinv as [Hwf' Hpc']. destruct (unfinished ts') eqn:Eu; [by apply unfinished_zero |].
  destruct (ready_exists ts' Hwf' Hpc' ltac:(lia)) as (t & Ht & Hr). exfalso.
  apply (Hirr (complete_task (id t) ts')). exists (id t). split; [apply ready_In; eauto | reflexivity].
Qed.

(** ** Witness: the repository's first three tasks, one done *)

Definition example_workflow : list Task :=
  [mk_task "P1-INFRA" "Infrastructure" 1 1 [] "COMPLETE";
   mk_task "P1-GTAB" "GTAB format" 1 2 ["P1-INFRA"] "PENDING";
   mk_task "P2-ENC" "Encoder" 2 1 ["P1-GTAB"] "PENDING"].

Lemma ready_queue_liveness_witness :
  Acc (fun b a => work_step a b) example_workflow /\
  forall ts', clos_refl_trans_1n _ work_step example_workflow ts' -> (forall ts'', ~ work_step ts' ts'') ->
    Forall (fun t => status t = "COMPLETE") ts'.
Proof.
  apply ready_queue_liveness.
  - split; [| split; [| split]].
    + vm_compute. apply NoDup_ListNoDup. repeat constructor; simpl; intuition discriminate.
    + repeat constructor; apply list_elem_of_In; simpl; tauto.
    + intros t dep Ht Hd. apply list_elem_of_In.
      destruct Ht as [<- | [<- | [<- | []]]]; simpl in Hd;
        [apply elem_of_nil in Hd as [] | ..]; apply list_elem_of_singleton in Hd as ->; simpl; tauto.
    + apply (rank_acyclic _ (fun x => if String.eqb x "P2-ENC" then 2 else if String.eqb x "P1-GTAB" then 1 else 0)%nat).
      intros x y (t & Ht & <- & Hy). destruct Ht as [<- | [<- | [<- | []]]]; simpl in Hy;
        [apply elem_of_nil in Hy as [] | ..]; apply list_elem_of_singleton in Hy as ->; vm_compute; lia.
  - apply List.Forall_forall. intros t Ht. destruct Ht as [<- | [<- | [<- | []]]]; simpl;
      (left; reflexivity) || (right; reflexivity).
Defined.

End Workflow.
