(* ===== verification/GasCompare.v ===== *)
(** * Gas regression gates: ci/compare_gas.py and contracts/compare_gas.py

    Two scripts compare the gas snapshot [docs/perf/gas_snapshot.json]
    with the baselines [docs/perf/gas_baselines.json]:
    [src/scripts/ci/compare_gas.py] (called [ci] below) and
    [src/scripts/contracts/compare_gas.py] ([contracts]).  Both flag a
    function whose average gas grew by more than [threshold_percent]
    (default 5) over a non-zero baseline.  The documents are taken after
    [json.loads], with the keys the scripts read ([None] for an absent
    key, which raises [KeyError] where the script indexes it); numbers
    are exact rationals.  [gas_violations] states what both promise, and
    the theorems show that both implement it on well-formed documents and
    where they part: a function absent from the snapshot is only a
    warning for [ci] and a failure for [contracts]. *)

From Stdlib Require Import QArith Qabs Lqa ZArith List String Bool Lia.
From stdpp Require Import base list strings.
From S2P Require Import Prelude.
Import ListNotations.

Module GasCompare.

Local Open Scope Q_scope.

(** An element of the [functions] list: [f['name']], [f['avg_gas']]. *)
Record gas_fn : Type := mk_gas_fn {
  g_name : option string;
  g_avg : option Q
}.

(** A baseline or snapshot document: its [threshold_percent] and
    [functions], and whether it has any other key (an empty dict is
    false for [not base]). *)
Record gas_doc : Type := mk_gas_doc {
  d_threshold : option Q;
  d_functions : option (list gas_fn);
  d_other : bool
}.

(** [bool(doc)] for a dict: it is non-empty. *)
Definition doc_truthy (d : gas_doc) : bool :=
  match d_threshold d, d_functions d with
  | None, None => d_other d
  | _, _ => true
  end.

(** ** ci/compare_gas.py *)

(** [next((f for f in snap.get('functions', []) if f['name'] == name),
    None)]: the first entry with the name; [f['name']] raises on the
    entries it inspects before that one. *)
Fixpoint find_snap (name : string) (fs : list gas_fn) : option (option gas_fn) :=
  match fs with
  | [] => Some None
  | f :: rest =>
      n ← g_name f;
      if String.eqb n name then Some (Some f) else find_snap name rest
  end.

(** One iteration of [for item in base.get('functions', [])] on
    [(violations, warn_only)] (the names the messages mention). *)
Definition ci_item (snap : gas_doc) (thresh : Q) (acc : list string * list string) (item : gas_fn)
  : option (list string * list string) :=
  let '(violations, warn_only) := acc in
  name ← g_name item;
  base_gas ← g_avg item;
  se ← find_snap name (default [] (d_functions snap));
  match se with
  | None => Some (violations, warn_only ++ [name])
  | Some e =>
      cur ← g_avg e;
      if Qeq_bool base_gas 0 then Some acc
      else if Qlt_bool thresh ((cur - base_gas) / base_gas * 100) then Some (violations ++ [name], warn_only)
      else Some acc
  end.

Inductive ci_outcome : Type :=
| CiExit (code : Z) (violations warnings : list string)
| CiCrash.

(** [main()] of ci/compare_gas.py; a document is [None] when its file
    does not exist. *)
Definition ci_main (base snap : option gas_doc) : ci_outcome :=
  match base, snap with
  | Some b, Some s =>
      if negb (doc_truthy b) || negb (doc_truthy s) then CiExit 2%Z [] [] else
      let thresh := default 5 (d_threshold b) in
      match fold_opt (ci_item s thresh) ([], []) (default [] (d_functions b)) with
      | Some (violations, warnings) =>
          CiExit (match violations with [] => 0%Z | _ => 1%Z end) violations warnings
      | None => CiCrash
      end
  | _, _ => CiExit 2%Z [] []
  end.

(** ** contracts/compare_gas.py *)

(** [{f['name']: f['avg_gas'] for f in doc['functions']}]: a repeated
    name keeps its first position and its last value. *)
Definition build_map (fs : list gas_fn) : option (list (string * Q)) :=
  fold_opt (fun m f => n ← g_name f; a ← g_avg f; Some (dict_set n a m)) [] fs.

Inductive fail_reason : Type :=
| MissingSnapshot
| Regression.

(** One iteration of [for name, base_val in base_map.items()]. *)
Definition contracts_item (snap_map : list (string * Q)) (threshold : Q)
    (failed : list (string * fail_reason)) (nb : string * Q) : list (string * fail_reason) :=
  let '(name, base_val) := nb in
  match dict_get name snap_map with
  | None => failed ++ [(name, MissingSnapshot)]
  | Some cur =>
      if Qeq_bool base_val 0 then failed
      else if Qlt_bool base_val cur then
        if Qlt_bool threshold ((cur - base_val) * 100 / py_max 1 base_val)
        then failed ++ [(name, Regression)] else failed
      else failed
  end.

Inductive contracts_outcome : Type :=
| GcExit (code : Z) (failed : list (string * fail_reason))
| GcCrash.

(** [main()] of contracts/compare_gas.py; a document is [None] when
    [load] fails (exit code 2); [doc['functions']] raises [KeyError]
    when absent. *)
Definition contracts_main (baseline snapshot : option gas_doc) : contracts_outcome :=
  match baseline, snapshot with
  | Some b, Some s =>
      let threshold := default 5 (d_threshold b) in
      match bf ← d_functions b; base_map ← build_map bf;
            sf ← d_functions s; snap_map ← build_map sf; Some (base_map, snap_map) with
      | Some (base_map, snap_map) =>
          let failed := fold_left (contracts_item snap_map threshold) base_map [] in
          GcExit (match failed with [] => 0%Z | _ => 1%Z end) failed
      | None => GcCrash
      end
  | _, _ => GcExit 2%Z []
  end.

(** ** The contract of both gates *)

(** Documents whose [functions] are the pairs [fns], names distinct. *)
Definition entries (fns : list (string * Q)) : list gas_fn :=
  map (fun p => mk_gas_fn (Some p.1) (Some p.2)) fns.

(** The functions that regressed: present in the snapshot, with a
    non-zero baseline, and grown by more than [thresh] percent. *)
Definition regressed (thresh : Q) (snap : list (string * Q)) (nb : string * Q) : bool :=
  match dict_get nb.1 snap with
  | Some cur => negb (Qeq_bool nb.2 0) && Qlt_bool thresh ((cur - nb.2) / nb.2 * 100)
  | None => false
  end.

Definition gas_violations (thresh : Q) (base snap : list (string * Q)) : list string :=
  map fst (List.filter (regressed thresh snap) base).

(** ** Lemmas *)

Lemma find_snap_entries n sp :
  find_snap n (entries sp) =
  Some (match dict_get n sp with Some c => Some (mk_gas_fn (Some n) (Some c)) | None => None end).
Proof.
  induction sp as [| [k c] sp IH]; simpl; [reflexivity |].
  destruct (String.eqb_spec k n) as [-> | Hne].
  - by rewrite decide_True.
  - rewrite decide_False by congruence. exact IH.
Qed.

Lemma build_map_from acc sp :
  NoDup (map fst (acc ++ sp)) ->
  fold_opt (fun m f => n ← g_name f; a ← g_avg f; Some (dict_set n a m)) acc (entries sp) = Some (acc ++ sp).
Proof.
  revert acc. induction sp as [| [k c] sp IH]; intros acc Hnd; simpl; [by rewrite app_nil_r |].
  rewrite dict_set_new.
  - rewrite IH; [by rewrite <- app_assoc | by rewrite <- app_assoc].
  - apply dict_get_None. rewrite map_app in Hnd. simpl in Hnd.
    apply NoDup_app in Hnd as (_ & Hd & _). intros Hk. apply (Hd k Hk). left.
Qed.

Lemma build_map_entries sp : NoDup (map fst sp) -> build_map (entries sp) = Some sp.
Proof. intros H. apply (build_map_from []). exact H. Qed.

Lemma gas_violations_cons thr n a bp sp :
  gas_violations thr ((n, a) :: bp) sp = (if regressed thr sp (n, a) then [n] else []) ++ gas_violations thr bp sp.
Proof. unfold gas_violations. simpl. by destruct (regressed thr sp (n, a)). Qed.

Lemma ci_item_present s thr sp n a c v w :
  d_functions s = Some (entries sp) -> dict_get n sp = Some c ->
  ci_item s thr (v, w) (mk_gas_fn (Some n) (Some a)) = Some (v ++ (if regressed thr sp (n, a) then [n] else []), w).
Proof.
  intros Hs Hc. unfold ci_item, regressed. simpl. rewrite Hs. simpl. rewrite find_snap_entries, Hc. simpl.
  destruct (Qeq_bool a 0); simpl; [by rewrite app_nil_r |].
  destruct (Qlt_bool thr _); simpl; [reflexivity | by rewrite app_nil_r].
Qed.

Lemma ci_fold thr s sp bp v w :
  d_functions s = Some (entries sp) ->
  (forall n a, In (n, a) bp -> is_Some (dict_get n sp)) ->
  fold_opt (ci_item s thr) (v, w) (entries bp) = Some (v ++ gas_violations thr bp sp, w).
Proof.
  intros Hs Hp. revert v. induction bp as [| [n a] bp IH]; intros v; [simpl; by rewrite app_nil_r |].
  destruct (Hp n a (or_introl eq_refl)) as [c Hc]. cbn [fold_opt entries map fst snd].
  rewrite (ci_item_present s thr sp n a c v w Hs Hc). simpl.
  rewrite IH by (intros n' a' H; apply (Hp n' a'); right; exact H).
  rewrite gas_violations_cons, app_assoc. reflexivity.
Qed.

(** [contracts] divides by [max(1, base)] and asks [cur > base] first:
    on baselines of at least 1 and a non-negative threshold it flags the
    same functions. *)
Lemma contracts_regressed thr a c :
  1 <= a -> 0 <= thr ->
  (if Qeq_bool a 0 then false
   else if Qlt_bool a c then Qlt_bool thr ((c - a) * 100 / py_max 1 a) else false) =
  negb (Qeq_bool a 0) && Qlt_bool thr ((c - a) / a * 100).
Proof.
  intros Ha Ht. destruct (Qeq_bool a 0) eqn:E0; [reflexivity |]. simpl.
  assert (Hm : py_max 1 a == a) by (destruct (py_max_spec 1 a) as [[? ->] | [? ->]]; lra).
  assert (Eq : (c - a) * 100 / py_max 1 a == (c - a) / a * 100) by (rewrite Hm; field; lra).
  rewrite Eq. destruct (Qlt_bool a c) eqn:Ec; [reflexivity |].
  apply Qlt_bool_false in Ec. symmetry. apply Qlt_bool_false.
  assert (Hn : (c - a) / a * 100 <= 0); [| lra].
  apply Qle_trans with (0 / a * 100); [| unfold Qdiv; simpl; lra].
  apply Qmult_le_r; [lra |]. apply Qmult_le_r; [apply Qinv_lt_0_compat; lra | lra].
Qed.

Lemma contracts_fold thr sp bp failed :
  (forall n a, In (n, a) bp -> is_Some (dict_get n sp) /\ 1 <= a) -> 0 <= thr ->
  fold_left (contracts_item sp thr) bp failed =
  failed ++ map (fun n => (n, Regression)) (gas_violations thr bp sp).
Proof.
  intros Hp Ht. revert failed. induction bp as [| [n a] bp IH]; intros failed; simpl; [by rewrite app_nil_r |].
  destruct (Hp n a (or_introl eq_refl)) as [[c Hc] Ha].
  assert (IH' := IH (fun n' a' H => Hp n' a' (or_intror H))).
  rewrite gas_violations_cons. unfold regressed. simpl. rewrite Hc. rewrite <- (contracts_regressed thr a c Ha Ht).
  destruct (Qeq_bool a 0); [apply IH' |]. destruct (Qlt_bool a c); [| apply IH'].
  destruct (Qlt_bool thr _); simpl; rewrite IH'; [by rewrite <- app_assoc | reflexivity].
Qed.

(** ** Theorems *)

(** C6. On well-formed documents (distinct names, every baseline
    function present in the snapshot, baselines of at least 1 gas, a
    non-negative threshold) the two gates agree: both exit with 1 exactly
    when [gas_violations] is non-empty, and both name exactly its
    functions, [ci] with no warning. *)
Theorem gas_gates_agree b s bp sp :
  d_functions b = Some (entries bp) -> d_functions s = Some (entries sp) ->
  NoDup (map fst bp) -> NoDup (map fst sp) ->
  (forall n a, In (n, a) bp -> is_Some (dict_get n sp) /\ 1 <= a) ->
  0 <= default 5 (d_threshold b) ->
  let viol := gas_violations (default 5 (d_threshold b)) bp sp in
  let code := match viol with [] => 0%Z | _ => 1%Z end in
  ci_main (Some b) (Some s) = CiExit code viol [] /\
  contracts_main (Some b) (Some s) = GcExit code (map (fun n => (n, Regression)) viol).
Proof.
  intros Hb Hs Hbd Hsd Hp Ht viol code. split.
  - unfold ci_main, doc_truthy. rewrite Hb, Hs.
    destruct (d_threshold b), (d_threshold s); simpl;
      rewrite (ci_fold _ s sp bp [] [] Hs (fun n a H => proj1 (Hp n a H))); reflexivity.
  - unfold contracts_main. rewrite Hb, Hs. simpl. rewrite !build_map_entries by assumption. simpl.
    rewrite (contracts_fold _ sp bp [] Hp Ht). simpl. unfold code, viol.
    by destruct (gas_violations _ bp sp).
Qed.

(** C20. The gates part on a function absent from the snapshot: [ci]
    only warns and exits 0, [contracts] reports it missing and exits 1. *)
Theorem gas_missing_diverges n a thr other other' sp :
  NoDup (map fst sp) -> dict_get n sp = None ->
  ci_main (Some (mk_gas_doc thr (Some (entries [(n, a)])) other))
          (Some (mk_gas_doc None (Some (entries sp)) other')) = CiExit 0 [] [n] /\
  contracts_main (Some (mk_gas_doc thr (Some (entries [(n, a)])) other))
                 (Some (mk_gas_doc None (Some (entries sp)) other')) = GcExit 1 [(n, MissingSnapshot)].
Proof.
  intros Hnd Hn. split.
  - unfold ci_main, doc_truthy. simpl. unfold ci_item. simpl. rewrite find_snap_entries, Hn.
    by destruct thr.
  - unfold contracts_main. simpl. rewrite build_map_entries by exact Hnd. simpl. rewrite Hn. reflexivity.
Qed.

(** ** Witnesses *)

Local Open Scope string_scope.

Lemma gas_gates_agree_witness :
  ci_main (Some (mk_gas_doc None (Some (entries [("update_prediction", 100); ("execute_trade", 200)])) false))
          (Some (mk_gas_doc None (Some (entries [("execute_trade", 230); ("update_prediction", 101)])) false)) =
    CiExit 1 ["execute_trade"] [] /\
  contracts_main (Some (mk_gas_doc None (Some (entries [("update_prediction", 100); ("execute_trade", 200)])) false))
                 (Some (mk_gas_doc None (Some (entries [("execute_trade", 230); ("update_prediction", 101)])) false)) =
    GcExit 1 [("execute_trade", Regression)].
Proof.
  apply (gas_gates_agree
           (mk_gas_doc None (Some (entries [("update_prediction", 100); ("execute_trade", 200)])) false)
           (mk_gas_doc None (Some (entries [("execute_trade", 230); ("update_prediction", 101)])) false)
           [("update_prediction", 100); ("execute_trade", 200)] [("execute_trade", 230); ("update_prediction", 101)]);
    try reflexivity.
  - vm_compute. apply NoDup_ListNoDup. repeat constructor; simpl; intuition discriminate.
  - vm_compute. apply NoDup_ListNoDup. repeat constructor; simpl; intuition discriminate.
  - intros n a [E | [E | []]]; injection E as <- <-; (split; [eexists; reflexivity | vm_compute; discriminate]).
  - vm_compute. discriminate.
Defined.

Lemma gas_missing_diverges_witness :
  ci_main (Some (mk_gas_doc None (Some (entries [("update_prediction", 100)])) false))
          (Some (mk_gas_doc None (Some (entries [("execute_trade", 230)])) false)) =
    CiExit 0 [] ["update_prediction"] /\
  contracts_main (Some (mk_gas_doc None (Some (entries [("update_prediction", 100)])) false))
                 (Some (mk_gas_doc None (Some (entries [("execute_trade", 230)])) false)) =
    GcExit 1 [("update_prediction", MissingSnapshot)].
Proof.
  apply gas_missing_diverges; [vm_compute; apply NoDup_ListNoDup; repeat constructor; simpl; tauto | reflexivity].
Defined.

End GasCompare.
