(* ===== verification/GasExtract.v ===== *)
(** * Gas extraction: contracts/extract_gas.py and progress/gas_snapshot.py

    Both scripts read the text of a contract test run and average, per
    logical function, the gas figures of the lines their regular
    expression recognises:
    - [src/scripts/contracts/extract_gas.py] searches each line for
      [TEST_NAME_RE = test ([^ ]+) \.\.\. ok \(gas usage est\.: (\d+)\)]
      and files the figure under every logical function whose test-name
      needle the test name contains; the average is [int(mean)];
    - [src/scripts/progress/gas_snapshot.py] matches
      [GAS_LINE_RE = ^(?P<fn>set_prediction_inputs|execute_trade)\b.*?gas(?:=|:)?(?P<gas>\d+)]
      at the start of each line; the average is [sum // len].
    Each regular expression is modelled by a deterministic matcher on the
    line's characters that follows the backtracking of Python's [re] on
    it (the greedy groups admit one split only, the lazy [.*?] takes the
    first [gas] that a digit follows).  gas_snapshot.py's
    [run_contract_tests_capture] chooses the command from [GAS_TEST_CMD]
    and raises on a non-zero exit; the outcome of running the command is
    a parameter.  Text is taken as ASCII: [\d],
    [\b] and [str.splitlines] are written for ASCII characters. *)

From Stdlib Require Import QArith ZArith List String Ascii Bool Lia.
From stdpp Require Import base list strings pretty.
From S2P Require Import Prelude.
Import ListNotations.

Module GasExtract.

Local Open Scope string_scope.

(** ** Characters and lines *)

Definition code (c : ascii) : nat := nat_of_ascii c.

(** [\d] on ASCII. *)
Definition is_digit (c : ascii) : bool := (48 <=? code c)%nat && (code c <=? 57)%nat.

(** A word character of [\b]: [[A-Za-z0-9_]]. *)
Definition is_word (c : ascii) : bool :=
  is_digit c || ((65 <=? code c)%nat && (code c <=? 90)%nat) ||
  ((97 <=? code c)%nat && (code c <=? 122)%nat) || (code c =? 95)%nat.

Definition digit_value (c : ascii) : Z := Z.of_nat (code c - 48).

(** [int(digits)] *)
Definition digits_value (ds : list ascii) : Z := fold_left (fun acc c => acc * 10 + digit_value c)%Z ds 0%Z.

(** The longest prefix of digits, and the rest. *)
Fixpoint span_digits (l : list ascii) : list ascii * list ascii :=
  match l with
  | c :: rest => if is_digit c then let '(ds, r) := span_digits rest in (c :: ds, r) else ([], l)
  | [] => ([], [])
  end.

(** The longest prefix without a space, and the rest. *)
Fixpoint span_nonspace (l : list ascii) : list ascii * list ascii :=
  match l with
  | c :: rest => if (code c =? 32)%nat then ([], l) else let '(w, r) := span_nonspace rest in (c :: w, r)
  | [] => ([], [])
  end.

(** Splitting into lines: [\r\n] and every character [brk] accepts end
    a line; a last line without terminator counts, an empty text has
    no line. *)
Fixpoint split_acc (brk : ascii -> bool) (l cur : list ascii) : list (list ascii) :=
  match l with
  | [] => match cur with [] => [] | _ => [rev cur] end
  | c :: rest =>
      if (code c =? 13)%nat then
        match rest with
        | d :: rest' => if (code d =? 10)%nat then rev cur :: split_acc brk rest' [] else rev cur :: split_acc brk rest []
        | [] => [rev cur]
        end
      else if brk c then rev cur :: split_acc brk rest []
      else split_acc brk rest (c :: cur)
  end.

(** [for line in f] in text mode (universal newlines: [\n], [\r],
    [\r\n]); the terminator, which no match of [TEST_NAME_RE] can
    contain, is dropped. *)
Definition file_lines (text : string) : list (list ascii) :=
  split_acc (fun c => (code c =? 10)%nat) (list_ascii_of_string text) [].

(** [str.splitlines()] on ASCII: [\n], [\r], [\r\n], [\v], [\f],
    [\x1c], [\x1d], [\x1e]. *)
Definition splitlines_brk (c : ascii) : bool :=
  (code c =? 10)%nat || (code c =? 11)%nat || (code c =? 12)%nat || ((28 <=? code c)%nat && (code c <=? 30)%nat).

Definition splitlines (text : string) : list (list ascii) :=
  split_acc splitlines_brk (list_ascii_of_string text) [].

(** ** extract_gas.py *)

(** [FUNCTION_MAP]: test-name needle, logical function. *)
Definition FUNCTION_MAP : list (string * string) :=
  [("set_prediction_updates_composite", "update_prediction");
   ("execute_trade_threshold", "execute_trade")].

(** [TEST_NAME_RE] at one position: [test ], the test name (a non-empty
    run without space, necessarily the longest one), the literal
    [ ... ok (gas usage est.: ], the figure (the longest run of digits)
    and [)]. *)
Definition match_test_at (l : list ascii) : option (list ascii * list ascii) :=
  rest ← strip_prefix (list_ascii_of_string "test ") l;
  let '(name, rest) := span_nonspace rest in
  match name with
  | [] => None
  | _ =>
      rest ← strip_prefix (list_ascii_of_string " ... ok (gas usage est.: ") rest;
      let '(ds, rest) := span_digits rest in
      match ds with
      | [] => None
      | _ => _ ← strip_prefix (list_ascii_of_string ")") rest; Some (name, ds)
      end
  end.

(** [TEST_NAME_RE.search(line)]: the leftmost position that matches. *)
Fixpoint search_test (l : list ascii) : option (list ascii * list ascii) :=
  match match_test_at l with
  | Some m => Some m
  | None => match l with [] => None | _ :: l' => search_test l' end
  end.

(** The loop body of [parse] on [(buckets, missing_keys)]. *)
Definition parse_line (acc : list (string * list Z) * list string) (line : list ascii)
  : list (string * list Z) * list string :=
  match search_test line with
  | None => acc
  | Some (test_full, ds) =>
      let gas := digits_value ds in
      fold_left (fun acc nl =>
                   let '(buckets, missing) := acc in
                   if contains (list_ascii_of_string nl.1) test_full then
                     (dict_set nl.2 (app (default [] (dict_get nl.2 buckets)) [gas]) buckets,
                      List.filter (fun k => negb (String.eqb k nl.2)) missing)
                   else acc) FUNCTION_MAP acc
  end.

(** [parse(path)]; the buckets and [missing_keys] are built from
    [set(FUNCTION_MAP.values())], whose iteration order Python leaves to
    string hashing; the model takes the order of [FUNCTION_MAP]. *)
Definition parse (text : string) : list (string * list Z) * list string :=
  fold_left parse_line (file_lines text)
    (map (fun nl => (nl.2, [])) FUNCTION_MAP, map snd FUNCTION_MAP).

(** [summarize(buckets)]: [int(statistics.mean(values))], or 0. *)
Definition summarize_gas (buckets : list (string * list Z)) : list (string * Z) :=
  map (fun nv => (nv.1, match nv.2 with
                        | [] => 0%Z
                        | vs => py_int (inject_Z (fold_left Z.add vs 0%Z) / inject_Z (Z.of_nat (length vs)))
                        end)) buckets.

Inductive extract_outcome : Type :=
| ExtractFailed                                   (** exit code 1 *)
| ExtractWrote (functions : list (string * Z)).   (** the [functions] of the snapshot *)

(** [main()]: [input] is the text of [--input], [None] when the file
    does not exist. *)
Definition extract_main (input : option string) (fail_on_missing : bool) : extract_outcome :=
  match input with
  | None => ExtractFailed
  | Some text =>
      let '(buckets, missing) := parse text in
      if fail_on_missing && negb (match missing with [] => true | _ => false end) then ExtractFailed
      else ExtractWrote (summarize_gas buckets)
  end.

(** ** gas_snapshot.py *)

(** [FUNC_ALLOWLIST] and [FUNCTIONS] *)
Definition FUNC_ALLOWLIST : list (string * string) :=
  [("set_prediction_inputs", "update_prediction"); ("execute_trade", "execute_trade")].

Definition FUNCTIONS : list string := ["update_prediction"; "execute_trade"].

(** [.*?gas(?:=|:)?(?P<gas>\d+)] from the current position: the first
    [gas] followed by digits, or by [=] or [:] and digits. *)
Fixpoint lazy_gas (l : list ascii) : option (list ascii) :=
  let here :=
    rest ← strip_prefix (list_ascii_of_string "gas") l;
    let with_sep :=
      match rest with
      | c :: r => if (code c =? 61)%nat || (code c =? 58)%nat then
                    match span_digits r with ([], _) => None | (ds, _) => Some ds end
                  else None
      | [] => None
      end in
    match with_sep with
    | Some ds => Some ds
    | None => match span_digits rest with ([], _) => None | (ds, _) => Some ds end
    end in
  match here with
  | Some ds => Some ds
  | None => match l with [] => None | _ :: l' => lazy_gas l' end
  end.

(** [\b] after the function name: the end of the line or a non-word
    character. *)
Definition word_boundary (rest : list ascii) : bool :=
  match rest with [] => true | c :: _ => negb (is_word c) end.

(** [GAS_LINE_RE.search(line)]: [^] anchors it at the start; the
    alternatives are tried in order. *)
Definition match_gas_line (l : list ascii) : option (string * list ascii) :=
  let try_fn (fn : string) :=
    rest ← strip_prefix (list_ascii_of_string fn) l;
    if word_boundary rest then ds ← lazy_gas rest; Some (fn, ds) else None in
  match try_fn "set_prediction_inputs" with
  | Some m => Some m
  | None => try_fn "execute_trade"
  end.

(** [extract_gas(raw)]: per logical function, [sum(vals) // len(vals)]
    or 0. *)
Definition extract_gas (raw : string) : list (string * Z) :=
  let buckets :=
    fold_left (fun buckets line =>
                 match match_gas_line line with
                 | None => buckets
                 | Some (fn, ds) =>
                     match dict_get fn FUNC_ALLOWLIST with
                     | Some logical =>
                         dict_set logical (app (default [] (dict_get logical buckets)) [digits_value ds]) buckets
                     | None => buckets
                     end
                 end) (splitlines raw) (map (fun p => (p.2, [])) FUNC_ALLOWLIST) in
  map (fun lv => (lv.1, match lv.2 with
                        | [] => 0%Z
                        | vals => Z.div (fold_left Z.add vals 0%Z) (Z.of_nat (length vals))
                        end)) buckets.

(** [main()]: [captured] is the output of the test run, [None] when
    running it failed or raised; [allow] is [ALLOW_GAS_PLACEHOLDERS].
    The written [functions] and the exit code. *)
Definition snapshot_main (captured : option string) (allow : string) : list (string * Z) * Z :=
  let gas_map := match captured with
                 | Some raw => extract_gas raw
                 | None => map (fun f => (f, 0%Z)) FUNCTIONS
                 end in
  let functions := map (fun f => (f, default 0%Z (dict_get f gas_map))) FUNCTIONS in
  let allowed := existsb (String.eqb (str_lower allow)) ["1"; "true"; "yes"] in
  let missing := List.filter (fun fv => Z.eqb fv.2 0) gas_map in
  (functions, if negb allowed && negb (match missing with [] => true | _ => false end) then 1%Z else 0%Z).

(** ** The test run of gas_snapshot.py *)

(** The command [subprocess.run] is given: a shell line
    ([shell=True]) or an argument vector. *)
Inductive command : Type :=
| ShellCmd (cmd : string)
| ArgvCmd (argv : list string).

(** Of the [CompletedProcess] the script reads [returncode] and the
    captured [stdout] ([text=True]). *)
Record completed : Type := mk_completed {
  returncode : Z;
  stdout : string
}.

(** [override = os.getenv('GAS_TEST_CMD'); if override: ... else ...]:
    unset and empty both run [scarb test -q]. *)
Definition test_command (override : option string) : command :=
  match override with
  | Some o => if String.eqb o "" then ArgvCmd ["scarb"; "test"; "-q"] else ShellCmd o
  | None => ArgvCmd ["scarb"; "test"; "-q"]
  end.

(** [lst[-n:]] *)
Definition last_n {A} (n : nat) (l : list A) : list A := drop (length l - n) l.

(** [sep.join(parts)] *)
Definition join (sep : list ascii) (parts : list (list ascii)) : list ascii :=
  match parts with
  | [] => []
  | p :: rest => app p (concat (map (fun q => app sep q) rest))
  end.

Definition QUOTE : string := String (Ascii.ascii_of_nat 34) EmptyString.

(** The [RuntimeError] message:
    [f'test run failed code={proc.returncode} tail="{' | '.join(snippet)}"']
    with [snippet = proc.stdout.splitlines()[-5:]]. *)
Definition capture_error (p : completed) : string :=
  "test run failed code=" +:+ pretty (returncode p) +:+ " tail=" +:+ QUOTE
    +:+ string_of_list_ascii (join (list_ascii_of_string " | ") (last_n 5 (splitlines (stdout p))))
    +:+ QUOTE.

(** [run_contract_tests_capture()]: [run] is the outcome of executing a
    command (the subprocess itself is not modelled); [inr] is the raised
    [RuntimeError] with its message. *)
Definition run_contract_tests_capture (override : option string) (run : command -> completed)
  : string + string :=
  let proc := run (test_command override) in
  if negb (Z.eqb (returncode proc) 0) then inr (capture_error proc)
  else inl (stdout proc).

(** [main()] of gas_snapshot.py: the line the [except] clause prints,
    if any, the written [functions] and the exit code. *)
Definition gas_snapshot_main (override : option string) (run : command -> completed) (allow : string)
  : list string * (list (string * Z) * Z) :=
  match run_contract_tests_capture override run with
  | inl raw => ([], snapshot_main (Some raw) allow)
  | inr msg => (["EXTRACTION_ERROR " +:+ msg], snapshot_main None allow)
  end.

(** The line cairo-test prints for a passing test with its gas
    estimate, as the module docstring describes it. *)
Definition test_line (name ds : list ascii) : list ascii :=
  list_ascii_of_string "test " ++ name ++ list_ascii_of_string " ... ok (gas usage est.: " ++ ds ++
  list_ascii_of_string ")".

(** Whether some recognised line files its figure under [logical]:
    its test name contains a needle [FUNCTION_MAP] maps to [logical]. *)
Definition logical_hit (lines : list (list ascii)) (logical : string) : bool :=
  existsb (fun line =>
    match search_test line with
    | Some (name, _) =>
        existsb (fun nl => String.eqb logical nl.2 && contains (list_ascii_of_string nl.1) name) FUNCTION_MAP
    | None => false
    end) lines.

(** ** Lemmas *)

Lemma span_nonspace_app w l :
  Forall (fun c => code c <> 32%nat) w -> match l with [] => True | c :: _ => code c = 32%nat end ->
  span_nonspace (w ++ l) = (w, l).
Proof.
  intros Hw Hl. induction Hw as [| c w Hc Hw IH]; simpl.
  - destruct l as [| c l]; simpl; [reflexivity |]. by rewrite Hl, Nat.eqb_refl.
  - apply Nat.eqb_neq in Hc. rewrite Hc, IH. reflexivity.
Qed.

Lemma span_digits_app ds l :
  Forall (fun c => is_digit c = true) ds -> match l with [] => True | c :: _ => is_digit c = false end ->
  span_digits (ds ++ l) = (ds, l).
Proof.
  intros Hd Hl. induction Hd as [| c ds Hc Hd IH]; simpl.
  - destruct l as [| c l]; simpl; [reflexivity |]. by rewrite Hl.
  - rewrite Hc, IH. reflexivity.
Qed.

(** The loop of [parse] removes from [missing_keys] exactly the logical
    functions whose needle some matched test name contains. *)
Lemma parse_line_missing acc line :
  (parse_line acc line).2 =
  List.filter (fun k => negb (match search_test line with
                               | Some (name, _) =>
                                   existsb (fun nl => String.eqb k nl.2 && contains (list_ascii_of_string nl.1) name)
                                     FUNCTION_MAP
                               | None => false
                               end)) acc.2.
Proof.
  unfold parse_line. generalize FUNCTION_MAP as fm. intros fm.
  destruct (search_test line) as [[name ds] |].
  - destruct acc as [b m]. cbn [fst snd]. revert b m.
    induction fm as [| [nd lg] fm IH]; intros b m; cbn [fold_left existsb fst snd].
    + induction m as [| k m IHm]; cbn [List.filter]; [reflexivity | by rewrite <- IHm].
    + destruct (contains (list_ascii_of_string nd) name) eqn:Ec; rewrite IH; cbn [fst snd].
      * rewrite list_filter_filter. apply filter_ext. intros k. rewrite andb_true_r.
        destruct (String.eqb_spec k lg); simpl; [reflexivity |]. by destruct (existsb _ fm).
      * apply filter_ext. intros k. by rewrite andb_false_r.
  - symmetry. apply forallb_filter_id, forallb_forall. reflexivity.
Qed.

Lemma parse_missing lines acc :
  (fold_left parse_line lines acc).2 = List.filter (fun k => negb (logical_hit lines k)) acc.2.
Proof.
  revert acc. induction lines as [| line lines IH]; intros acc; simpl.
  - symmetry. apply forallb_filter_id, forallb_forall. reflexivity.
  - rewrite IH, parse_line_missing, list_filter_filter. apply filter_ext. intros k.
    rewrite negb_orb. reflexivity.
Qed.

Lemma search_test_here l m : match_test_at l = Some m -> search_test l = Some m.
Proof. intros E. destruct l; cbn [search_test]; rewrite E; reflexivity. Qed.

(** No line of cairo-test's test report starts with a function name of
    [GAS_LINE_RE]. *)
Lemma match_gas_line_test_line name ds : match_gas_line (test_line name ds) = None.
Proof. reflexivity. Qed.

Lemma extract_gas_no_match raw :
  (forall line, In line (splitlines raw) -> match_gas_line line = None) ->
  extract_gas raw = [("update_prediction", 0%Z); ("execute_trade", 0%Z)].
Proof.
  intros H. unfold extract_gas. rewrite fold_left_fix; [reflexivity |].
  intros line Hl. rewrite (H line Hl). reflexivity.
Qed.

(** ** Theorems *)

(** C15. Print/parse round trip of [TEST_NAME_RE]: on the line
    cairo-test prints for a passing test, whatever follows it, the
    search returns the test name and the gas figure, provided the name is
    a non-empty word without space and the figure a non-empty run of
    digits. *)
Theorem test_line_roundtrip name ds rest :
  name <> [] -> Forall (fun c => code c <> 32%nat) name ->
  ds <> [] -> Forall (fun c => is_digit c = true) ds ->
  search_test (test_line name ds ++ rest) = Some (name, ds).
Proof.
  intros Hn Hns Hd Hds. apply search_test_here. unfold test_line, match_test_at. rewrite <- !app_assoc.
  rewrite strip_prefix_app. simpl (_ ≫= _).
  rewrite span_nonspace_app by (exact Hns || reflexivity).
  destruct name as [| c name]; [contradiction |]. cbv beta iota.
  try rewrite strip_prefix_app. simpl (_ ≫= _).
  rewrite span_digits_app by (exact Hds || reflexivity).
  destruct ds as [| d ds]; [contradiction |]. reflexivity.
Qed.

(** [extract_gas.py --fail-on-missing] fails exactly when some
    logical function of [FUNCTION_MAP] gets no figure: no recognised
    test line has a test name containing one of its needles. *)
Theorem extract_fail_on_missing text :
  extract_main (Some text) true = ExtractFailed <->
  exists logical, In logical (map snd FUNCTION_MAP) /\ logical_hit (file_lines text) logical = false.
Proof.
  unfold extract_main. destruct (parse text) as [b m] eqn:E.
  assert (Hm : m = (parse text).2) by (rewrite E; reflexivity).
  unfold parse in Hm. rewrite parse_missing in Hm. cbn [snd] in Hm. subst m.
  assert (Hiff := list_filter_nonempty (fun k => negb (logical_hit (file_lines text) k)) (map snd FUNCTION_MAP)).
  destruct (List.filter _ _) as [| k ks]; simpl; split; try discriminate.
  - intros (k & Hk & Hh). exfalso. apply (proj1 Hiff); [| reflexivity]. exists k. rewrite Hh. auto.
  - intros _. destruct (proj2 Hiff ltac:(discriminate)) as (x & Hx & Hh). exists x.
    split; [exact Hx | by apply negb_true_iff].
  - reflexivity.
Qed.

(** C21. gas_snapshot.py on cairo-test output in the format
    extract_gas.py parses (every line a [test ... ok (gas usage est.: N)]
    report) records no figure: it writes 0 for both functions and, unless
    [ALLOW_GAS_PLACEHOLDERS] is set, exits with 1. *)
Theorem snapshot_ignores_test_lines raw allow :
  (forall line, In line (splitlines raw) -> exists name ds, line = test_line name ds) ->
  snapshot_main (Some raw) allow =
    ([("update_prediction", 0%Z); ("execute_trade", 0%Z)],
     if existsb (String.eqb (str_lower allow)) ["1"; "true"; "yes"] then 0%Z else 1%Z).
Proof.
  intros H. unfold snapshot_main. rewrite extract_gas_no_match.
  - by destruct (existsb (String.eqb (str_lower allow)) ["1"; "true"; "yes"]).
  - intros line Hl. destruct (H line Hl) as (name & ds & ->). apply match_gas_line_test_line.
Qed.

(** The figures a failed test run leaves in the snapshot. *)
Lemma gas_snapshot_failure_functions override run allow :
  returncode (run (test_command override)) <> 0%Z ->
  (gas_snapshot_main override run allow).2.1 = [("update_prediction", 0%Z); ("execute_trade", 0%Z)].
Proof.
  intros Hc. unfold gas_snapshot_main, run_contract_tests_capture.
  apply Z.eqb_neq in Hc. rewrite Hc. reflexivity.
Qed.

(** C22. Error path of gas_snapshot.py: when the test run exits with a
    non-zero code, [main] prints [EXTRACTION_ERROR] with the code and the
    last five lines of its output, writes 0 for both functions and exits
    with 1 unless [ALLOW_GAS_PLACEHOLDERS] is truthy, whatever the run
    printed. *)
Theorem gas_snapshot_run_failure override run allow :
  returncode (run (test_command override)) <> 0%Z ->
  gas_snapshot_main override run allow =
    (["EXTRACTION_ERROR " +:+ capture_error (run (test_command override))],
     ([("update_prediction", 0%Z); ("execute_trade", 0%Z)],
      if existsb (String.eqb (str_lower allow)) ["1"; "true"; "yes"] then 0%Z else 1%Z)).
Proof.
  intros Hc. unfold gas_snapshot_main, run_contract_tests_capture.
  apply Z.eqb_neq in Hc. rewrite Hc. cbn [negb].
  unfold snapshot_main. destruct (existsb (String.eqb (str_lower allow)) ["1"; "true"; "yes"]); reflexivity.
Qed.

(** ** Witness: the docstring's example line *)

Lemma test_line_roundtrip_witness :
  search_test (test_line (list_ascii_of_string "pkg::tests::execute_trade_threshold") (list_ascii_of_string "7770")
                 ++ []) =
  Some (list_ascii_of_string "pkg::tests::execute_trade_threshold", list_ascii_of_string "7770").
Proof.
  apply test_line_roundtrip; [discriminate | | discriminate |].
  - simpl. repeat constructor; cbv; discriminate.
  - simpl. repeat constructor.
Defined.

Lemma snapshot_ignores_test_lines_witness :
  snapshot_main (Some "test pkg::tests::execute_trade_threshold ... ok (gas usage est.: 7770)") "" =
    ([("update_prediction", 0%Z); ("execute_trade", 0%Z)], 1%Z).
Proof.
  apply (snapshot_ignores_test_lines "test pkg::tests::execute_trade_threshold ... ok (gas usage est.: 7770)" "").
  intros line Hl. vm_compute in Hl. destruct Hl as [<- | []].
  exists (list_ascii_of_string "pkg::tests::execute_trade_threshold"), (list_ascii_of_string "7770").
  reflexivity.
Defined.

(** A run of [GAS_TEST_CMD=false]-like command that exits with 2 after
    six lines of output. *)
Definition six_lines : string :=
  String.concat (String (Ascii.ascii_of_nat 10) EmptyString) ["l1"; "l2"; "l3"; "l4"; "l5"; "l6"].

Lemma gas_snapshot_run_failure_witness :
  returncode ((fun _ => mk_completed 2 six_lines) (test_command (Some "exit 2"))) <> 0%Z /\
  gas_snapshot_main (Some "exit 2") (fun _ => mk_completed 2 six_lines) "" =
    (["EXTRACTION_ERROR test run failed code=2 tail=" +:+ QUOTE +:+ "l2 | l3 | l4 | l5 | l6" +:+ QUOTE],
     ([("update_prediction", 0%Z); ("execute_trade", 0%Z)], 1%Z)).
Proof.
  split; [discriminate |].
  rewrite (gas_snapshot_run_failure (Some "exit 2") (fun _ => mk_completed 2 six_lines) "") by discriminate.
  vm_compute. reflexivity.
Defined.

End GasExtract.
