(* ===== verification/GasPipeline.v ===== *)
(** * The gas pipeline: gas_snapshot.py feeding the regression gates

    gas_snapshot.py writes [docs/perf/gas_snapshot.json] with a
    [generated_at] stamp and its [functions]; both regression gates
    (ci/compare_gas.py and contracts/compare_gas.py) read it back with
    [json.loads] and compare it with the baselines.  [snapshot_doc] is
    that document as the gates see it.  The theorem composes
    [GasExtract.gas_snapshot_main] with [GasCompare.ci_main] and
    [GasCompare.contracts_main]: a snapshot of zero figures, which is
    what a failed test run leaves, passes both gates on every
    well-formed baseline, since a fall to 0 gas is no regression. *)

From Stdlib Require Import QArith Lqa ZArith List String Bool Lia.
From stdpp Require Import base list strings.
From S2P Require Import Prelude GasCompare GasExtract.
Import ListNotations GasCompare GasExtract.

Module GasPipeline.

Local Open Scope Q_scope.

(** [{'name': f, 'avg_gas': v}] after [json.dumps] and [json.loads]: the
    integer figures become the gates' numbers. *)
Definition snapshot_pairs (functions : list (string * Z)) : list (string * Q) :=
  map (fun fv => (fv.1, inject_Z fv.2)) functions.

(** The written snapshot as the gates load it: no [threshold_percent],
    the [functions] list, and the [generated_at] key. *)
Definition snapshot_doc (functions : list (string * Z)) : gas_doc :=
  mk_gas_doc None (Some (entries (snapshot_pairs functions))) true.

(** ** Lemmas *)

Lemma snapshot_pairs_names functions : map fst (snapshot_pairs functions) = map fst functions.
Proof. unfold snapshot_pairs. rewrite map_map. reflexivity. Qed.

(** A figure of 0 is no regression over a baseline of at least 1 under
    a non-negative threshold: it is a fall of 100 percent. *)
Lemma zero_not_regressed thr sp n a :
  1 <= a -> 0 <= thr -> Forall (fun p => p.2 == 0) sp -> regressed thr sp (n, a) = false.
Proof.
  intros Ha Ht Hz. unfold regressed. simpl.
  destruct (dict_get n sp) as [c |] eqn:Ec; [| reflexivity].
  apply dict_get_in in Ec. rewrite List.Forall_forall in Hz. specialize (Hz _ Ec). simpl in Hz.
  destruct (Qeq_bool a 0); [reflexivity |]. simpl. apply Qlt_bool_false.
  rewrite Hz. assert (E : (0 - a) / a * 100 == -100) by (field; lra). rewrite E. lra.
Qed.

Lemma zero_no_violations thr bp sp :
  (forall n a, In (n, a) bp -> 1 <= a) -> 0 <= thr -> Forall (fun p => p.2 == 0) sp ->
  gas_violations thr bp sp = [].
Proof.
  intros Hb Ht Hz. unfold gas_violations.
  assert (E : List.filter (regressed thr sp) bp = [])
    by (apply list_filter_nil; intros [n a] Hin; apply zero_not_regressed; eauto).
  rewrite E. reflexivity.
Qed.

(** A snapshot whose every figure is 0 and that lists every baseline
    function passes both gates with exit 0, on any baseline of distinct
    functions of at least 1 gas and a non-negative threshold. *)
Lemma zero_snapshot_passes functions b bp :
  Forall (fun fv => fv.2 = 0%Z) functions -> NoDup (map fst functions) ->
  d_functions b = Some (entries bp) -> NoDup (map fst bp) ->
  (forall n a, In (n, a) bp -> In n (map fst functions) /\ 1 <= a) ->
  0 <= default 5 (d_threshold b) ->
  ci_main (Some b) (Some (snapshot_doc functions)) = CiExit 0 [] [] /\
  contracts_main (Some b) (Some (snapshot_doc functions)) = GcExit 0 [].
Proof.
  intros Hz Hnd Hb Hbd Hp Ht.
  set (sp := snapshot_pairs functions).
  assert (Hsd : NoDup (map fst sp)) by (unfold sp; rewrite snapshot_pairs_names; exact Hnd).
  assert (Hzq : Forall (fun p => p.2 == 0) sp).
  { unfold sp, snapshot_pairs. apply Forall_map. eapply Forall_impl; [exact Hz |].
    intros fv E. simpl. rewrite E. reflexivity. }
  assert (Hin : forall n a, In (n, a) bp -> is_Some (dict_get n sp) /\ 1 <= a).
  { intros n a H. destruct (Hp n a H) as [Hn Ha]. split; [| exact Ha].
    destruct (dict_get n sp) eqn:E; [eauto |]. apply dict_get_None in E.
    exfalso. apply E. unfold sp. rewrite snapshot_pairs_names. by apply list_elem_of_In. }
  assert (Hv : gas_violations (default 5 (d_threshold b)) bp sp = [])
    by (apply zero_no_violations; [intros n a H; exact (proj2 (Hin n a H)) | exact Ht | exact Hzq]).
  split.
  - unfold ci_main, doc_truthy. rewrite Hb. cbn [snapshot_doc d_functions d_threshold].
    destruct (d_threshold b); cbn [negb orb];
      rewrite (ci_fold _ (snapshot_doc functions) sp bp [] [] eq_refl (fun n a H => proj1 (Hin n a H)));
      fold sp in Hv; rewrite Hv; reflexivity.
  - unfold contracts_main. rewrite Hb. cbn [snapshot_doc d_functions]. simpl.
    rewrite !build_map_entries by assumption. simpl.
    fold sp. rewrite (contracts_fold _ sp bp [] Hin Ht), Hv. reflexivity.
Qed.

(** ** Theorem *)

(** C29. Composition of gas_snapshot.py with both gates: when the
    contract test run exits non-zero, the snapshot gas_snapshot.py writes
    (0 for both functions) passes ci/compare_gas.py and
    contracts/compare_gas.py with exit 0, on every baseline of distinct
    known functions of at least 1 gas and a non-negative threshold.  Only
    gas_snapshot's own placeholder exit, which [ALLOW_GAS_PLACEHOLDERS]
    turns off, reports the failed run. *)
Theorem failed_run_passes_gates override run allow b bp :
  returncode (run (test_command override)) <> 0%Z ->
  d_functions b = Some (entries bp) -> NoDup (map fst bp) ->
  (forall n a, In (n, a) bp -> In n FUNCTIONS /\ 1 <= a) ->
  0 <= default 5 (d_threshold b) ->
  ci_main (Some b) (Some (snapshot_doc (gas_snapshot_main override run allow).2.1)) = CiExit 0 [] [] /\
  contracts_main (Some b) (Some (snapshot_doc (gas_snapshot_main override run allow).2.1)) = GcExit 0 [].
Proof.
  intros Hc Hb Hbd Hp Ht. rewrite (gas_snapshot_failure_functions override run allow Hc).
  apply (zero_snapshot_passes _ b bp); try assumption.
  - repeat constructor.
  - apply NoDup_ListNoDup. repeat constructor; simpl; intuition discriminate.
Qed.

(** ** Witness: a run that exits with 2 under [ALLOW_GAS_PLACEHOLDERS=1] *)

Definition example_baseline : gas_doc :=
  mk_gas_doc None (Some (entries [("update_prediction", 1200); ("execute_trade", 3400)])) false.

Lemma failed_run_passes_gates_witness :
  (gas_snapshot_main (Some "exit 2") (fun _ => mk_completed 2 six_lines) "1").2.2 = 0%Z /\
  ci_main (Some example_baseline)
    (Some (snapshot_doc (gas_snapshot_main (Some "exit 2") (fun _ => mk_completed 2 six_lines) "1").2.1))
    = CiExit 0 [] [] /\
  contracts_main (Some example_baseline)
    (Some (snapshot_doc (gas_snapshot_main (Some "exit 2") (fun _ => mk_completed 2 six_lines) "1").2.1))
    = GcExit 0 [].
Proof.
  split; [vm_compute; reflexivity |].
  apply (failed_run_passes_gates (Some "exit 2") (fun _ => mk_completed 2 six_lines) "1" example_baseline
           [("update_prediction", 1200); ("execute_trade", 3400)]).
  - discriminate.
  - reflexivity.
  - apply NoDup_ListNoDup. repeat constructor; simpl; intuition discriminate.
  - intros n a [E | [E | []]]; injection E as <- <-;
      (split; [simpl; tauto | unfold Qle; simpl; lia]).
  - unfold Qle. simpl. lia.
Defined.

End GasPipeline.
