(* ===== verification/Bench.v ===== *)
(** * Benchmark regression check: [compare] and [main] of compare_bench.py

    [src/scripts/ci/compare_bench.py] compares parsed Go benchmark
    results with a baseline document.  Per baseline entry it computes the
    slowdown ratio, the ns/op delta and the allocation delta, and
    classifies the entry as [fail] (ratio above [--factor] or delta above
    [--abs]), [warn] (ratio above [1 + --warn], or any allocation growth)
    or [ok]; absent benchmarks are reported [missing].  Python dicts are
    association lists that keep insertion order, with assignment to an
    existing key updating it in place.  Numbers are exact rationals.
    [parse_bench] runs [LINE_RE] through a deterministic matcher on the
    stripped line (as in GasExtract.v, text is ASCII); the message
    strings are not modelled. *)

From Stdlib Require Import QArith ZArith List String Bool Lia Lqa.
From stdpp Require Import base list strings.
From S2P Require Import Prelude GasExtract.
Import ListNotations GasExtract.

Local Open Scope Z_scope.

Module Bench.

(** [{'ns_per_op': ..., 'bytes_per_op': ..., 'allocs_per_op': ...}] *)
Record bench : Type := mk_bench {
  ns_per_op : Z;
  bytes_per_op : Z;
  allocs_per_op : Z
}.

(** A baseline entry with the keys the script reads. *)
Record base_entry : Type := mk_base {
  b_name : option string;
  b_ns_per_op : option Z;
  b_allocs_per_op : option Z
}.

(** [load_baseline]: [{b['name']: b for b in data.get('benchmarks', [])}];
    an entry without [name] raises [KeyError]. *)
Fixpoint load_baseline_from (acc : list (string * base_entry)) (entries : list base_entry)
  : option (list (string * base_entry)) :=
  match entries with
  | [] => Some acc
  | b :: rest =>
      n ← b_name b;
      load_baseline_from (dict_set n b acc) rest
  end.

Definition load_baseline (benchmarks : option (list base_entry)) : option (list (string * base_entry)) :=
  load_baseline_from [] (default [] benchmarks).

(** [ns_cur / ns_base if ns_base else float('inf')] *)
Inductive ratio : Type :=
| Finite (q : Q)
| Infinite.

Definition ratio_gt (r : ratio) (x : Q) : bool :=
  match r with
  | Finite q => Qlt_bool x q
  | Infinite => true
  end.

Inductive bench_status : Type := StOk | StWarn | StFail.

(** One element of [report]. *)
Inductive row : Type :=
| MissingRow (name : string)
| CompareRow (name : string) (baseline_ns current_ns : Z) (r : ratio) (delta alloc_delta : Z)
    (st : bench_status).

(** One iteration of the loop of [compare] on [(report, violations,
    warnings)]; [None] is the [KeyError] of [base['ns_per_op']]. *)
Definition compare_entry (current : list (string * bench)) (factor abs warn : Q)
    (acc : list row * bool * bool) (nb : string * base_entry) : option (list row * bool * bool) :=
  let '(report, violations, warnings) := acc in
  let '(name, base) := nb in
  match dict_get name current with
  | None => Some (report ++ [MissingRow name], violations, true)
  | Some cur =>
      ns_base ← b_ns_per_op base;
      let ns_cur := ns_per_op cur in
      let r := if ns_base =? 0 then Infinite else Finite (inject_Z ns_cur / inject_Z ns_base) in
      let delta := ns_cur - ns_base in
      let alloc_delta := allocs_per_op cur - default 0 (b_allocs_per_op base) in
      let '(st, violations, warnings) :=
        if ratio_gt r factor || Qlt_bool abs (inject_Z delta) then (StFail, true, warnings)
        else if ratio_gt r (1 + warn) then (StWarn, violations, true)
        else (StOk, violations, warnings) in
      let '(st, warnings) :=
        if 0 <? alloc_delta then
          match st with StOk => (StWarn, true) | _ => (st, warnings) end
        else (st, warnings) in
      Some (report ++ [CompareRow name ns_base ns_cur r delta alloc_delta st], violations, warnings)
  end.

Fixpoint compare_from (current : list (string * bench)) (factor abs warn : Q)
    (acc : list row * bool * bool) (baseline : list (string * base_entry))
    : option (list row * bool * bool) :=
  match baseline with
  | [] => Some acc
  | nb :: rest =>
      acc' ← compare_entry current factor abs warn acc nb;
      compare_from current factor abs warn acc' rest
  end.

(** [compare(current, baseline, factor, abs, warn)] *)
Definition compare (current : list (string * bench)) (baseline : list (string * base_entry))
    (factor abs warn : Q) : option (list row * bool * bool) :=
  compare_from current factor abs warn ([], false, false) baseline.

(** Whether a baseline entry is a hard failure of the current run: it
    is present, and its ratio exceeds [factor] or its delta exceeds
    [abs]. *)
Definition entry_fails (current : list (string * bench)) (factor abs : Q) (nb : string * base_entry) : bool :=
  match dict_get nb.1 current, b_ns_per_op nb.2 with
  | Some cur, Some ns_base =>
      ratio_gt (if ns_base =? 0 then Infinite else Finite (inject_Z (ns_per_op cur) / inject_Z ns_base)) factor
      || Qlt_bool abs (inject_Z (ns_per_op cur - ns_base))
  | _, _ => false
  end.

(** ** parse_bench *)

(** [\s] and [str.isspace] on ASCII: [\t\n\v\f\r], [\x1c]-[\x1f] and
    the space. *)
Definition is_space (c : Ascii.ascii) : bool :=
  ((9 <=? code c)%nat && (code c <=? 13)%nat) || ((28 <=? code c)%nat && (code c <=? 32)%nat).

(** The longest prefix of [\S], and the rest. *)
Fixpoint span_nonws (l : list Ascii.ascii) : list Ascii.ascii * list Ascii.ascii :=
  match l with
  | c :: rest => if is_space c then ([], l) else let '(w, r) := span_nonws rest in (c :: w, r)
  | [] => ([], [])
  end.

Fixpoint drop_space (l : list Ascii.ascii) : list Ascii.ascii :=
  match l with
  | c :: rest => if is_space c then drop_space rest else l
  | [] => []
  end.

(** [\s+] where a non-space must follow: the whole run of whitespace
    (a shorter one would leave a space where the pattern needs a digit
    or a letter). *)
Definition space1 (l : list Ascii.ascii) : option (list Ascii.ascii) :=
  match l with
  | c :: _ => if is_space c then Some (drop_space l) else None
  | [] => None
  end.

(** [line.strip()] *)
Definition py_strip (l : list Ascii.ascii) : list Ascii.ascii := rev (drop_space (rev (drop_space l))).

(** [\d+] followed by a non-digit: the whole run of digits, non-empty. *)
Definition digits1 (l : list Ascii.ascii) : option (list Ascii.ascii * list Ascii.ascii) :=
  match span_digits l with
  | ([], _) => None
  | (ds, rest) => Some (ds, rest)
  end.

(** [LINE_RE.search(line.strip())] with
    [LINE_RE = ^(Benchmark\S+)\s+(\d+)\s+ns/op\s+(\d+)\s+B/op\s+(\d+)\s+allocs/op]:
    the name and the three figures.  Each greedy group admits one split
    only: [\S+] and [\d+] must be followed by whitespace, [\s+] by a
    digit or a letter. *)
Definition match_bench_line (l : list Ascii.ascii) : option (string * bench) :=
  rest ← strip_prefix (list_ascii_of_string "Benchmark"%string) l;
  let '(w, rest) := span_nonws rest in
  match w with
  | [] => None
  | _ =>
      rest ← space1 rest;
      nr ← digits1 rest;
      rest ← space1 nr.2;
      rest ← strip_prefix (list_ascii_of_string "ns/op"%string) rest;
      rest ← space1 rest;
      br ← digits1 rest;
      rest ← space1 br.2;
      rest ← strip_prefix (list_ascii_of_string "B/op"%string) rest;
      rest ← space1 rest;
      ar ← digits1 rest;
      rest ← space1 ar.2;
      _ ← strip_prefix (list_ascii_of_string "allocs/op"%string) rest;
      Some (string_of_list_ascii (list_ascii_of_string "Benchmark"%string ++ w),
            mk_bench (digits_value nr.1) (digits_value br.1) (digits_value ar.1))
  end.

(** [parse_bench(text)]: a later line with the same name overwrites the
    earlier entry in place. *)
Definition parse_bench (text : string) : list (string * bench) :=
  fold_left (fun results line =>
               match match_bench_line (py_strip line) with
               | Some (name, b) => dict_set name b results
               | None => results
               end) (splitlines text) [].

(** [--factor], [--abs], [--warn] with their defaults 2.0, 500, 0.2. *)
Record BenchArgs : Type := mk_bench_args {
  arg_factor : Q;
  arg_abs : Q;
  arg_warn : Q
}.

Definition default_bench_args : BenchArgs := mk_bench_args 2 500 (2 # 10).

Inductive bench_outcome : Type :=
| BenchExit (code : Z) (result : option (list row * bool * bool))
| BenchCrash.

(** [main()]: [bench_text] is the text of [--input] ([None] when
    reading it raised), [benchmarks] is the [benchmarks] list of the
    baseline document ([None] when absent); [baseline_ok] is [false]
    when reading or parsing that document raised. *)
Definition bench_main (args : BenchArgs) (bench_text : option string)
    (baseline_ok : bool) (benchmarks : option (list base_entry)) : bench_outcome :=
  match bench_text with
  | None => BenchExit 2 None
  | Some text =>
      let current := parse_bench text in
      match current with
      | [] => BenchExit 2 None
      | _ =>
          if negb baseline_ok then BenchExit 2 None else
          match load_baseline benchmarks with
          | None => BenchExit 2 None
          | Some baseline =>
              match compare current baseline (arg_factor args) (arg_abs args) (arg_warn args) with
              | None => BenchCrash
              | Some (report, violations, warnings) =>
                  BenchExit (if violations then 1 else 0) (Some (report, violations, warnings))
              end
          end
      end
  end.

(** ** The output [go test -bench] prints *)

(** A result line's fields as text: the name after [Benchmark] and the
    three figures. *)
Record bench_row : Type := mk_row {
  row_name : list Ascii.ascii;
  row_ns : list Ascii.ascii;
  row_b : list Ascii.ascii;
  row_allocs : list Ascii.ascii
}.

(** Whitespace that does not end a line: tab, [\x1f], space. *)
Definition is_blank (c : Ascii.ascii) : bool := (code c =? 9)%nat || (code c =? 31)%nat || (code c =? 32)%nat.

Definition sep_wf (sep : list Ascii.ascii) : Prop := sep <> [] /\ Forall (fun c => is_blank c = true) sep.
Definition digit_run (ds : list Ascii.ascii) : Prop := ds <> [] /\ Forall (fun c => is_digit c = true) ds.
Definition row_wf (r : bench_row) : Prop :=
  row_name r <> [] /\ Forall (fun c => is_space c = false) (row_name r) /\
  digit_run (row_ns r) /\ digit_run (row_b r) /\ digit_run (row_allocs r).

(** The six runs of whitespace between the fields of a result line,
    each of its own length. *)
Record gaps : Type := mk_gaps {
  gap1 : list Ascii.ascii;
  gap2 : list Ascii.ascii;
  gap3 : list Ascii.ascii;
  gap4 : list Ascii.ascii;
  gap5 : list Ascii.ascii;
  gap6 : list Ascii.ascii
}.

Definition gaps_wf (g : gaps) : Prop :=
  sep_wf (gap1 g) /\ sep_wf (gap2 g) /\ sep_wf (gap3 g) /\ sep_wf (gap4 g) /\ sep_wf (gap5 g) /\ sep_wf (gap6 g).

(** The fields of a result line with its gaps, as in the module
    docstring's [BenchmarkGTAB_Lookup-8      451 ns/op    0 B/op   0 allocs/op]. *)
Definition bench_line (r : bench_row) (g : gaps) : list Ascii.ascii :=
  list_ascii_of_string "Benchmark"%string ++ row_name r ++ gap1 g ++ row_ns r ++ gap2 g ++
  list_ascii_of_string "ns/op"%string ++ gap3 g ++ row_b r ++ gap4 g ++ list_ascii_of_string "B/op"%string ++
  gap5 g ++ row_allocs r ++ gap6 g ++ list_ascii_of_string "allocs/op"%string.

(** A printed line: indentation, the fields with their gaps, and
    whatever follows [allocs/op] on the line (further metrics, trailing
    blanks). *)
Record bench_print : Type := mk_print {
  p_lead : list Ascii.ascii;
  p_row : bench_row;
  p_gaps : gaps;
  p_tail : list Ascii.ascii
}.

(** A character that does not end a line for [str.splitlines]. *)
Definition no_break (c : Ascii.ascii) : bool := negb (splitlines_brk c) && negb (code c =? 13)%nat.

Definition print_wf (p : bench_print) : Prop :=
  Forall (fun c => is_blank c = true) (p_lead p) /\ row_wf (p_row p) /\ gaps_wf (p_gaps p) /\
  forallb no_break (p_tail p) = true.

Definition print_line (p : bench_print) : list Ascii.ascii :=
  p_lead p ++ bench_line (p_row p) (p_gaps p) ++ p_tail p.

Definition bench_text (ps : list bench_print) : string :=
  string_of_list_ascii (concat (map (fun p => print_line p ++ [Ascii.ascii_of_nat 10]) ps)).

Definition bench_name (w : list Ascii.ascii) : string :=
  string_of_list_ascii (list_ascii_of_string "Benchmark"%string ++ w).

Definition row_bench (r : bench_row) : bench :=
  mk_bench (digits_value (row_ns r)) (digits_value (row_b r)) (digits_value (row_allocs r)).

(** ** Lemmas *)

(** *** The line parser *)

Lemma span_nonws_app w l :
  Forall (fun c => is_space c = false) w -> match l with [] => True | c :: _ => is_space c = true end ->
  span_nonws (w ++ l) = (w, l).
Proof.
  intros Hw Hl. induction Hw as [| c w Hc Hw IH]; simpl.
  - destruct l as [| c l]; simpl; [reflexivity |]. by rewrite Hl.
  - rewrite Hc, IH. reflexivity.
Qed.

Lemma drop_space_app s l :
  Forall (fun c => is_space c = true) s -> match l with [] => True | c :: _ => is_space c = false end ->
  drop_space (s ++ l) = l.
Proof.
  intros Hs Hl. induction Hs as [| c s Hc Hs IH]; simpl.
  - destruct l as [| c l]; simpl; [reflexivity |]. by rewrite Hl.
  - by rewrite Hc.
Qed.

Lemma blank_space c : is_blank c = true -> is_space c = true.
Proof.
  unfold is_blank, is_space. intros H.
  repeat rewrite orb_true_iff in H. rewrite orb_true_iff, !andb_true_iff, !Nat.leb_le.
  destruct H as [[H | H] | H]; apply Nat.eqb_eq in H; lia.
Qed.

Lemma digit_not_space c : is_digit c = true -> is_space c = false.
Proof.
  unfold is_digit, is_space. rewrite andb_true_iff, !Nat.leb_le. intros H.
  apply orb_false_iff. rewrite !andb_false_iff, !Nat.leb_gt. lia.
Qed.

Lemma blank_not_digit c : is_blank c = true -> is_digit c = false.
Proof.
  unfold is_blank, is_digit. intros H. repeat rewrite orb_true_iff in H.
  apply andb_false_iff. rewrite !Nat.leb_gt. destruct H as [[H | H] | H]; apply Nat.eqb_eq in H; lia.
Qed.

Lemma space1_app sep l :
  sep_wf sep -> match l with [] => True | c :: _ => is_space c = false end -> space1 (sep ++ l) = Some l.
Proof.
  intros [Hne Hb] Hl. destruct sep as [| c s]; [contradiction |].
  inversion Hb as [| ? ? Hc Hs]; subst. unfold space1. cbn [app]. rewrite (blank_space c Hc).
  f_equal. apply (drop_space_app (c :: s)); [| exact Hl].
  eapply Forall_impl; [exact Hb | intros x Hx; apply blank_space, Hx].
Qed.

Lemma digits1_app ds l :
  digit_run ds -> match l with [] => True | c :: _ => is_digit c = false end -> digits1 (ds ++ l) = Some (ds, l).
Proof.
  intros [Hne Hd] Hl. unfold digits1. rewrite (span_digits_app ds l Hd Hl).
  destruct ds; [contradiction | reflexivity].
Qed.

Lemma head_sep_not_digit sep l : sep_wf sep -> match sep ++ l with [] => True | c :: _ => is_digit c = false end.
Proof. intros [Hne Hb]. destruct sep as [| c s]; [contradiction |]. inversion Hb; subst. by apply blank_not_digit. Qed.

Lemma head_sep_space sep l : sep_wf sep -> match sep ++ l with [] => True | c :: _ => is_space c = true end.
Proof. intros [Hne Hb]. destruct sep as [| c s]; [contradiction |]. inversion Hb; subst. by apply blank_space. Qed.

Lemma head_digits_not_space ds l : digit_run ds -> match ds ++ l with [] => True | c :: _ => is_space c = false end.
Proof. intros [Hne Hd]. destruct ds as [| c s]; [contradiction |]. inversion Hd; subst. by apply digit_not_space. Qed.

(** [LINE_RE] reads back a well-formed result line, whatever follows. *)
Lemma match_bench_line_row r g rest :
  row_wf r -> gaps_wf g ->
  match_bench_line (bench_line r g ++ rest) = Some (bench_name (row_name r), row_bench r).
Proof.
  intros (Hn & Hns & Hd1 & Hd2 & Hd3) (G1 & G2 & G3 & G4 & G5 & G6).
  unfold bench_line, match_bench_line. rewrite <- !app_assoc.
  rewrite strip_prefix_app. cbn [mbind option_bind].
  rewrite span_nonws_app; [| exact Hns | apply head_sep_space, G1].
  destruct (row_name r) as [| c w] eqn:En; [contradiction |]. rewrite <- En. cbv beta iota.
  rewrite space1_app; [| exact G1 | apply head_digits_not_space, Hd1]. cbn [mbind option_bind].
  rewrite digits1_app; [| exact Hd1 | apply head_sep_not_digit, G2]. cbn [mbind option_bind fst snd].
  rewrite space1_app; [| exact G2 | reflexivity]. cbn [mbind option_bind].
  rewrite strip_prefix_app. cbn [mbind option_bind].
  rewrite space1_app; [| exact G3 | apply head_digits_not_space, Hd2]. cbn [mbind option_bind].
  rewrite digits1_app; [| exact Hd2 | apply head_sep_not_digit, G4]. cbn [mbind option_bind fst snd].
  rewrite space1_app; [| exact G4 | reflexivity]. cbn [mbind option_bind].
  rewrite strip_prefix_app. cbn [mbind option_bind].
  rewrite space1_app; [| exact G5 | apply head_digits_not_space, Hd3]. cbn [mbind option_bind].
  rewrite digits1_app; [| exact Hd3 | apply head_sep_not_digit, G6]. cbn [mbind option_bind fst snd].
  rewrite space1_app; [| exact G6 | reflexivity]. cbn [mbind option_bind].
  rewrite strip_prefix_app. reflexivity.
Qed.

(** *** Lines of a text *)

Lemma split_acc_line brk line c rest cur :
  forallb (fun x => negb (brk x) && negb (code x =? 13)%nat) line = true ->
  brk c = true -> (code c =? 13)%nat = false ->
  split_acc brk (line ++ c :: rest) cur = (rev cur ++ line) :: split_acc brk rest [].
Proof.
  revert cur. induction line as [| x line IH]; intros cur Hl Hc Hc13; simpl.
  - rewrite Hc13, Hc. by rewrite app_nil_r.
  - apply andb_true_iff in Hl as [Hx Hl]. apply andb_true_iff in Hx as [Hb H13].
    apply negb_true_iff in Hb, H13. rewrite H13, Hb, IH by assumption. simpl. by rewrite <- app_assoc.
Qed.

(** Splitting lines terminated by [c] gives them back. *)
Lemma split_acc_lines brk c lines :
  Forall (fun l => forallb (fun x => negb (brk x) && negb (code x =? 13)%nat) l = true) lines ->
  brk c = true -> (code c =? 13)%nat = false ->
  split_acc brk (concat (map (fun l => l ++ [c]) lines)) [] = lines.
Proof.
  intros Hl Hc Hc13. induction Hl as [| l lines Hl Hls IH]; [reflexivity |].
  cbn [map concat]. rewrite <- app_assoc. simpl app at 2. rewrite split_acc_line by assumption.
  simpl. by rewrite IH.
Qed.

Lemma forallb_Forall_impl {A} (P : A -> Prop) (q : A -> bool) l :
  Forall P l -> (forall x, P x -> q x = true) -> forallb q l = true.
Proof. intros H Hq. apply forallb_forall. intros x Hx. rewrite List.Forall_forall in H. auto. Qed.

Lemma nonspace_no_break c : is_space c = false -> no_break c = true.
Proof.
  unfold is_space, no_break, splitlines_brk. intros H. apply orb_false_iff in H as [H1 H2].
  apply andb_false_iff in H1, H2. rewrite !Nat.leb_gt in H1, H2.
  apply andb_true_iff. rewrite !negb_true_iff, !orb_false_iff, !Nat.eqb_neq, andb_false_iff, !Nat.leb_gt. lia.
Qed.

Lemma blank_no_break c : is_blank c = true -> no_break c = true.
Proof.
  unfold is_blank, no_break, splitlines_brk. intros H. repeat rewrite orb_true_iff in H.
  apply andb_true_iff. rewrite !negb_true_iff, !orb_false_iff, !Nat.eqb_neq, andb_false_iff, !Nat.leb_gt.
  destruct H as [[H | H] | H]; apply Nat.eqb_eq in H; lia.
Qed.

Lemma bench_line_no_break r g :
  row_wf r -> gaps_wf g -> forallb no_break (bench_line r g) = true.
Proof.
  intros (_ & Hns & [_ Hd1] & [_ Hd2] & [_ Hd3]) ([_ S1] & [_ S2] & [_ S3] & [_ S4] & [_ S5] & [_ S6]).
  assert (Hdig : forall ds, Forall (fun c => is_digit c = true) ds -> forallb no_break ds = true)
    by (intros ds Hd; apply (forallb_Forall_impl _ _ _ Hd); intros x Hx; apply nonspace_no_break, digit_not_space, Hx).
  unfold bench_line. rewrite !forallb_app, (Hdig _ Hd1), (Hdig _ Hd2), (Hdig _ Hd3).
  rewrite (forallb_Forall_impl _ _ _ Hns nonspace_no_break).
  rewrite !(forallb_Forall_impl _ _ _ S1 blank_no_break), !(forallb_Forall_impl _ _ _ S2 blank_no_break),
    !(forallb_Forall_impl _ _ _ S3 blank_no_break), !(forallb_Forall_impl _ _ _ S4 blank_no_break),
    !(forallb_Forall_impl _ _ _ S5 blank_no_break), !(forallb_Forall_impl _ _ _ S6 blank_no_break).
  reflexivity.
Qed.

Lemma print_line_no_break p : print_wf p -> forallb no_break (print_line p) = true.
Proof.
  intros (Hl & Hr & Hg & Ht). unfold print_line. rewrite !forallb_app, Ht, bench_line_no_break by assumption.
  rewrite (forallb_Forall_impl _ _ _ Hl blank_no_break). reflexivity.
Qed.

(** Dropping leading whitespace before a non-space. *)
Lemma drop_space_app_r l x :
  match x with [] => True | c :: _ => is_space c = false end -> drop_space (l ++ x) = drop_space l ++ x.
Proof.
  intros Hx. induction l as [| c l IH]; simpl.
  - destruct x as [| c x]; [reflexivity |]. simpl. by rewrite Hx.
  - destruct (is_space c); [exact IH | reflexivity].
Qed.

(** [line.strip()] of a printed line: the fields, then the tail without
    its trailing whitespace. *)
Lemma py_strip_print_line p :
  print_wf p ->
  py_strip (print_line p) = bench_line (p_row p) (p_gaps p) ++ rev (drop_space (rev (p_tail p))).
Proof.
  intros (Hl & _ & _ & _). unfold py_strip, print_line.
  rewrite (drop_space_app (p_lead p)); [| eapply Forall_impl; [exact Hl | intros c Hc; apply blank_space, Hc] |
    reflexivity].
  assert (E2 : exists X, bench_line (p_row p) (p_gaps p) = X ++ list_ascii_of_string "allocs/op"%string).
  { eexists. unfold bench_line. rewrite !app_assoc. reflexivity. }
  destruct E2 as [X EX]. rewrite EX, !rev_app_distr, drop_space_app_r by reflexivity.
  rewrite !rev_app_distr, !rev_involutive. reflexivity.
Qed.

Lemma compare_entry_spec current factor abs warn rep v w nb rep' v' w' :
  compare_entry current factor abs warn (rep, v, w) nb = Some (rep', v', w') ->
  v' = v || entry_fails current factor abs nb /\ length rep' = S (length rep).
Proof.
  destruct nb as [name base]. unfold compare_entry, entry_fails. simpl.
  destruct (dict_get name current) as [cur |].
  - destruct (b_ns_per_op base) as [nsb |]; [simpl | discriminate].
    set (r := if nsb =? 0 then Infinite else Finite (inject_Z (ns_per_op cur) / inject_Z nsb)).
    destruct (ratio_gt r factor || Qlt_bool abs (inject_Z (ns_per_op cur - nsb))) eqn:Ef;
      [| destruct (ratio_gt r (1 + warn))];
      destruct (0 <? allocs_per_op cur - default 0 (b_allocs_per_op base));
      intros H; injection H as <- <- <-; rewrite length_app; simpl;
      (split; [| lia]); rewrite ?orb_true_r, ?orb_false_r; reflexivity.
  - intros H. injection H as <- <- <-. rewrite length_app, orb_false_r. simpl. split; [reflexivity | lia].
Qed.

Lemma compare_from_spec current factor abs warn baseline rep v w rep' v' w' :
  compare_from current factor abs warn (rep, v, w) baseline = Some (rep', v', w') ->
  v' = v || existsb (entry_fails current factor abs) baseline /\
  length rep' = (length rep + length baseline)%nat.
Proof.
  revert rep v w. induction baseline as [| nb rest IH]; intros rep v w H; cbn [compare_from] in H.
  - injection H as <- <- <-. simpl. rewrite orb_false_r. split; [reflexivity | lia].
  - destruct (compare_entry current factor abs warn (rep, v, w) nb) as [[[r1 v1] w1] |] eqn:E;
      [simpl in H | discriminate H].
    destruct (compare_entry_spec _ _ _ _ _ _ _ _ _ _ _ E) as [-> L1].
    destruct (IH _ _ _ H) as [-> L2]. simpl. rewrite orb_assoc. split; [reflexivity | lia].
Qed.

(** ** Theorems *)

(** The violation flag of [compare] is set exactly when some baseline
    entry present in the current run exceeds the factor or the absolute
    threshold, and the report has one row per baseline entry. *)
Theorem compare_spec current baseline factor abs warn rep v w :
  compare current baseline factor abs warn = Some (rep, v, w) ->
  v = existsb (entry_fails current factor abs) baseline /\ length rep = length baseline.
Proof.
  unfold compare. intros H. destruct (compare_from_spec _ _ _ _ _ _ _ _ _ _ _ H) as [-> L].
  split; [reflexivity | exact L].
Qed.

(** C39. Print/parse round trip of [parse_bench]: on the text of result
    lines in the format of the module docstring (distinct names; any
    blank indentation; between the fields, runs of tabs and spaces each
    of its own length; after [allocs/op], anything that does not end the
    line), [parse_bench] returns every benchmark with its ns/op, B/op and
    allocs/op, in the order of the lines. *)
Theorem parse_bench_roundtrip ps :
  Forall print_wf ps -> NoDup (map (fun p => bench_name (row_name (p_row p))) ps) ->
  parse_bench (bench_text ps) = map (fun p => (bench_name (row_name (p_row p)), row_bench (p_row p))) ps.
Proof.
  intros Hp Hnd. unfold parse_bench, splitlines, bench_text.
  rewrite list_ascii_of_string_of_list_ascii.
  rewrite <- (map_map print_line (fun l => l ++ [Ascii.ascii_of_nat 10])).
  rewrite split_acc_lines; [| | reflexivity | reflexivity].
  2:{ apply Forall_map. eapply Forall_impl; [exact Hp |]. intros p Hp'. by apply print_line_no_break. }
  change (map (fun p => (bench_name (row_name (p_row p)), row_bench (p_row p))) ps)
    with (app [] (map (fun p => (bench_name (row_name (p_row p)), row_bench (p_row p))) ps)).
  change (map (fun p => bench_name (row_name (p_row p))) ps) with (app (map fst (@nil (string * bench)))
    (map (fun p => bench_name (row_name (p_row p))) ps)) in Hnd.
  revert Hnd. generalize (@nil (string * bench)) as acc.
  induction Hp as [| p ps Hp1 Hps IH]; intros acc Hnd; cbn [map fold_left]; [by rewrite app_nil_r |].
  rewrite py_strip_print_line by exact Hp1.
  destruct Hp1 as (_ & Hr & Hg & _). rewrite (match_bench_line_row _ _ _ Hr Hg).
  rewrite dict_set_new.
  - rewrite IH; [by rewrite <- app_assoc |]. rewrite map_app, <- app_assoc. exact Hnd.
  - apply dict_get_None. intros Hin. cbn [map] in Hnd.
    apply NoDup_app in Hnd as (_ & Hd & _). exact (Hd _ Hin (list_elem_of_here _ _)).
Qed.

(** C33. [main] on readable inputs exits with 1 exactly when the baseline
    loads and [compare] finds a hard failure in it. *)
Theorem bench_main_exit_code args text benchmarks code res :
  let current := parse_bench text in
  bench_main args (Some text) true benchmarks = BenchExit code res ->
  (code = 1 <-> exists baseline, load_baseline benchmarks = Some baseline /\
     existsb (entry_fails current (arg_factor args) (arg_abs args)) baseline = true).
Proof.
  intros current H. unfold bench_main in H. fold current in H. cbn [negb] in H.
  destruct current as [| c cs].
  - injection H as <- _. split; [discriminate |].
    intros (bl & _ & E). rewrite existsb_exists in E. destruct E as ([n b] & _ & E).
    unfold entry_fails in E. discriminate E.
  - destruct (load_baseline benchmarks) as [baseline |].
    + destruct (compare (c :: cs) baseline _ _ _) as [[[rep v] w] |] eqn:Ec; [| discriminate H].
      injection H as <- _. destruct (compare_spec _ _ _ _ _ _ _ _ Ec) as [Hv _].
      split; [intros E; exists baseline; destruct v; [auto | discriminate E] |].
      intros (bl & E & Hb). injection E as <-. rewrite Hv, Hb. reflexivity.
    + injection H as <- _. split; [discriminate | intros (bl & E & _); discriminate E].
Qed.

(** A baseline of 0 ns/op makes its benchmark a hard failure whatever
    the current timing, 0 ns/op included: the ratio is [inf]. *)
Theorem compare_zero_baseline current name cur allocs factor abs warn :
  dict_get name current = Some cur ->
  exists rep w, compare current [(name, mk_base (Some name) (Some 0) allocs)] factor abs warn =
    Some (rep, true, w).
Proof.
  intros Hc. unfold compare. simpl. rewrite Hc. simpl.
  destruct (0 <? allocs_per_op cur - default 0 allocs); eauto.
Qed.

(** ** Examples: one benchmark, [BenchmarkGTAB_Lookup-8] *)

Local Open Scope string_scope.

Lemma compare_spec_witness :
  exists rep v w,
    compare [("BenchmarkGTAB_Lookup-8", mk_bench 451 0 0)]
      [("BenchmarkGTAB_Lookup-8", mk_base (Some "BenchmarkGTAB_Lookup-8") (Some 400) (Some 0))]
      2 500 (2 # 10) = Some (rep, v, w) /\
    v = existsb (entry_fails [("BenchmarkGTAB_Lookup-8", mk_bench 451 0 0)] 2 500)
          [("BenchmarkGTAB_Lookup-8", mk_base (Some "BenchmarkGTAB_Lookup-8") (Some 400) (Some 0))] /\
    length rep = length [("BenchmarkGTAB_Lookup-8", mk_base (Some "BenchmarkGTAB_Lookup-8") (Some 400) (Some 0))].
Proof.
  do 3 eexists. split; [vm_compute; reflexivity |].
  eapply (compare_spec [("BenchmarkGTAB_Lookup-8", mk_bench 451 0 0)]
           [("BenchmarkGTAB_Lookup-8", mk_base (Some "BenchmarkGTAB_Lookup-8") (Some 400) (Some 0))]
           2 500 (2 # 10)).
  vm_compute. reflexivity.
Defined.

Definition example_bench_text : string :=
  "BenchmarkGTAB_Lookup-8      1200 ns/op    0 B/op   0 allocs/op".

Lemma bench_main_exit_code_witness :
  exists res,
    bench_main default_bench_args (Some example_bench_text) true
      (Some [mk_base (Some "BenchmarkGTAB_Lookup-8") (Some 400) None]) = BenchExit 1 res /\
    (1 = 1 <-> exists baseline,
       load_baseline (Some [mk_base (Some "BenchmarkGTAB_Lookup-8") (Some 400) None]) = Some baseline /\
       existsb (entry_fails (parse_bench example_bench_text)
                 (arg_factor default_bench_args) (arg_abs default_bench_args)) baseline = true).
Proof.
  eexists. split; [vm_compute; reflexivity |].
  eapply bench_main_exit_code. vm_compute. reflexivity.
Defined.

(** The docstring's line, indented by a tab and followed by a further
    metric, then a second benchmark with single spaces. *)
Definition docstring_print : bench_print :=
  mk_print [Ascii.ascii_of_nat 9]
    (mk_row (list_ascii_of_string "GTAB_Lookup-8") (list_ascii_of_string "451")
       (list_ascii_of_string "0") (list_ascii_of_string "0"))
    (mk_gaps (list_ascii_of_string "      ") (list_ascii_of_string " ") (list_ascii_of_string "    ")
       (list_ascii_of_string " ") (list_ascii_of_string "   ") (list_ascii_of_string " "))
    (list_ascii_of_string "   12.5 MB/s  ").

Definition single_print : bench_print :=
  mk_print []
    (mk_row (list_ascii_of_string "Encode-8") (list_ascii_of_string "9000")
       (list_ascii_of_string "64") (list_ascii_of_string "2"))
    (mk_gaps (list_ascii_of_string " ") (list_ascii_of_string " ") (list_ascii_of_string " ")
       (list_ascii_of_string " ") (list_ascii_of_string " ") (list_ascii_of_string " ")) [].

Lemma parse_bench_roundtrip_witness :
  bench_text [docstring_print; single_print] =
    String (Ascii.ascii_of_nat 9) "BenchmarkGTAB_Lookup-8      451 ns/op    0 B/op   0 allocs/op   12.5 MB/s  "
    +:+ String (Ascii.ascii_of_nat 10) "BenchmarkEncode-8 9000 ns/op 64 B/op 2 allocs/op"
    +:+ String (Ascii.ascii_of_nat 10) "" /\
  parse_bench (bench_text [docstring_print; single_print]) =
    [("BenchmarkGTAB_Lookup-8", mk_bench 451 0 0); ("BenchmarkEncode-8", mk_bench 9000 64 2)].
Proof.
  split; [vm_compute; reflexivity |].
  apply (parse_bench_roundtrip [docstring_print; single_print]).
  - repeat constructor; vm_compute; try discriminate; try reflexivity; repeat constructor.
  - vm_compute. apply NoDup_ListNoDup. repeat constructor; simpl; intuition discriminate.
Defined.

Lemma compare_zero_baseline_witness :
  exists rep w, compare [("BenchmarkGTAB_Lookup-8", mk_bench 0 0 0)]
    [("BenchmarkGTAB_Lookup-8", mk_base (Some "BenchmarkGTAB_Lookup-8") (Some 0) None)] 2 500 (2 # 10) =
    Some (rep, true, w).
Proof. eapply compare_zero_baseline. reflexivity. Defined.

End Bench.
